(** * AutoDeploy backend: deployment orchestration, credentials and analysis

    A shallow embedding of the NestJS services of the AutoDeploy backend
    ([DeploymentsService], [DeploymentsController], [NetlifyService],
    [IntegrationsController], [AnalysisService], [RepositoriesService]) and
    of the [TokenVault] of the security notes, followed by the properties
    of the deployment specification that were checked against them.

    Conventions of the embedding:
    - JavaScript strings are byte strings ([string]); [toLowerCase] and the
      regular expressions are exact on ASCII.
    - Untyped data ([any], JSON bodies) is a [Js.value].
    - An [async] method is a computation in the monad [M]: it reads and
      writes the [World] (database tables, clock, pending timers, trace of
      outgoing calls) and either returns or throws.  One method call runs
      to completion before the next one starts; a [setTimeout] callback is
      queued in the world and runs when [fire_timer] is called.
    - Everything outside the process (HTTP responses, the Vercel adapter,
      the chat completion, elapsed time) is read from an [Env]. *)

From stdpp Require Import base strings list gmap pretty.
From Stdlib Require Import Ascii String QArith.

Set Warnings "-register-all".
Close Scope Q_scope.
Open Scope string_scope.
Open Scope list_scope.

(** ** JavaScript values, strings and JSON *)

Module Js.

Definition dquote : ascii := Ascii.ascii_of_nat 34.
Definition backslash : ascii := Ascii.ascii_of_nat 92.
Definition newline : ascii := Ascii.ascii_of_nat 10.

Definition code (c : ascii) : nat := Ascii.nat_of_ascii c.

Definition is_lower (c : ascii) : bool := (97 <=? code c)%nat && (code c <=? 122)%nat.
Definition is_upper (c : ascii) : bool := (65 <=? code c)%nat && (code c <=? 90)%nat.
Definition is_digit (c : ascii) : bool := (48 <=? code c)%nat && (code c <=? 57)%nat.

Definition lower_char (c : ascii) : ascii :=
  if is_upper c then Ascii.ascii_of_nat (code c + 32) else c.

Fixpoint map_string (f : ascii -> ascii) (s : string) : string :=
  match s with
  | EmptyString => EmptyString
  | String c r => String (f c) (map_string f r)
  end.

(** [s.toLowerCase()] *)
Definition toLowerCase (s : string) : string := map_string lower_char s.

(** [s.replace(/[^a-z0-9-]/g, '-')] *)
Definition dash_unless_slug (c : ascii) : ascii :=
  if is_lower c || is_digit c || Ascii.eqb c "-" then c else "-"%char.

Definition replace_non_slug (s : string) : string := map_string dash_unless_slug s.

(** [s.includes(t)] *)
Fixpoint includes (s t : string) : bool :=
  String.prefix t s ||
  match s with
  | EmptyString => false
  | String _ r => includes r t
  end.

(** [s.startsWith(t)] *)
Definition startsWith (s t : string) : bool := String.prefix t s.

(** [s.replace(t, u)] with a string pattern: the first occurrence only. *)
Fixpoint drop_string (n : nat) (s : string) : string :=
  match n, s with
  | O, _ => s
  | S n', String _ r => drop_string n' r
  | S _, EmptyString => EmptyString
  end.

Fixpoint replace_first (s t u : string) : string :=
  if String.prefix t s then u +:+ drop_string (String.length t) s
  else match s with
       | EmptyString => EmptyString
       | String c r => String c (replace_first r t u)
       end.

Fixpoint join (sep : string) (l : list string) : string :=
  match l with
  | [] => ""
  | [x] => x
  | x :: r => x +:+ sep +:+ join sep r
  end.

(** Untyped data.  A number is carried as its decimal literal: the code
    under study compares and prints numbers but computes with none that
    comes from outside. *)
Inductive value : Type :=
  | VUndefined
  | VNull
  | VBool (b : bool)
  | VNum (literal : string)
  | VStr (s : string)
  | VArr (items : list value)
  | VObj (members : list (string * value)).

Definition all_zero_digits (s : string) : bool :=
  forallb (fun c => negb (is_digit c) || Ascii.eqb c "0") (list_ascii_of_string s).

(** Truthiness, as [if (v)], [v || w], [v && w] and [!v] see it. *)
Definition truthy (v : value) : bool :=
  match v with
  | VUndefined | VNull => false
  | VBool b => b
  | VNum lit => negb (all_zero_digits lit)
  | VStr s => negb (String.eqb s "")
  | VArr _ | VObj _ => true
  end.

Definition js_or (v w : value) : value := if truthy v then v else w.
Definition js_and (v w : value) : value := if truthy v then w else v.

Fixpoint assoc (k : string) (ms : list (string * value)) : value :=
  match ms with
  | [] => VUndefined
  | (k', v) :: r => if String.eqb k k' then v else assoc k r
  end.

(** [o[k] = v]: an existing key keeps its place, a new one goes last. *)
Fixpoint obj_set (k : string) (v : value) (ms : list (string * value))
  : list (string * value) :=
  match ms with
  | [] => [(k, v)]
  | (k', v') :: r => if String.eqb k k' then (k, v) :: r else (k', v') :: obj_set k v r
  end.

(** [{...a, ...b}] on member lists. *)
Definition spread (a b : list (string * value)) : list (string * value) :=
  fold_left (fun acc kv => obj_set kv.1 kv.2 acc) b a.

(** The members an object spread copies out of [v]: own enumerable
    properties; none for [undefined], [null], booleans and numbers. *)
Fixpoint index_members (i : nat) (l : list value) : list (string * value) :=
  match l with
  | [] => []
  | x :: r => (pretty i, x) :: index_members (S i) r
  end.

Definition spread_source (v : value) : list (string * value) :=
  match v with
  | VObj ms => ms
  | VArr l => index_members 0 l
  | VStr s => index_members 0 (map (fun c => VStr (String c EmptyString)) (list_ascii_of_string s))
  | _ => []
  end.

(** [v?.k]: [undefined] on [undefined] and [null]; the properties the
    code reads are plain data names, which only objects carry. *)
Definition get_opt (v : value) (k : string) : value :=
  match v with
  | VObj ms => assoc k ms
  | _ => VUndefined
  end.

(** [v.k]: a [TypeError] on [undefined] and [null]. *)
Definition get (v : value) (k : string) : option value :=
  match v with
  | VUndefined | VNull => None
  | _ => Some (get_opt v k)
  end.

(** [String(v)], the conversion a template literal applies, on the
    values that have one (see [converts]). *)
Fixpoint to_str (v : value) : string :=
  match v with
  | VUndefined => "undefined"
  | VNull => "null"
  | VBool true => "true"
  | VBool false => "false"
  | VNum lit => lit
  | VStr s => s
  | VArr l =>
      join "," (map (fun x => match x with
                              | VUndefined | VNull => ""
                              | _ => to_str x
                              end) l)
  | VObj _ => "[object Object]"
  end.

(** Whether [v] can be converted to a string.  An object converts by
    the [toString] it inherits; a member [toString] of its own hides
    that one, and as data of a request body or of a JSON text is no
    function it cannot be called, nor does [valueOf] give a primitive:
    the conversion throws a [TypeError].  An array converts when its
    items do. *)
Fixpoint converts (v : value) : bool :=
  match v with
  | VObj ms => negb (existsb (fun kv => String.eqb kv.1 "toString") ms)
  | VArr l => forallb converts l
  | _ => true
  end.

(** *** [JSON.stringify] *)

Definition hex_digit (n : nat) : ascii :=
  if (n <? 10)%nat then Ascii.ascii_of_nat (48 + n) else Ascii.ascii_of_nat (87 + n).

Definition escape_char (c : ascii) : string :=
  if Ascii.eqb c dquote then String backslash (String dquote EmptyString)
  else if Ascii.eqb c backslash then String backslash (String backslash EmptyString)
  else if (code c =? 8)%nat then String backslash "b"
  else if (code c =? 9)%nat then String backslash "t"
  else if (code c =? 10)%nat then String backslash "n"
  else if (code c =? 12)%nat then String backslash "f"
  else if (code c =? 13)%nat then String backslash "r"
  else if (code c <? 32)%nat then
    String backslash ("u00" +:+ String (hex_digit (code c / 16))
                                   (String (hex_digit (code c mod 16)) EmptyString))
  else String c EmptyString.

Fixpoint escape (s : string) : string :=
  match s with
  | EmptyString => EmptyString
  | String c r => escape_char c +:+ escape r
  end.

Definition quote (s : string) : string :=
  String dquote (escape s) +:+ String dquote EmptyString.

(** [None] stands for the [undefined] that [JSON.stringify(undefined)]
    returns; inside an object such a member is left out, inside an array
    it is written [null]. *)
Fixpoint stringify (v : value) : option string :=
  match v with
  | VUndefined => None
  | VNull => Some "null"
  | VBool true => Some "true"
  | VBool false => Some "false"
  | VNum lit => Some lit
  | VStr s => Some (quote s)
  | VArr l =>
      Some ("[" +:+ join "," (map (fun x => default "null" (stringify x)) l) +:+ "]")
  | VObj ms =>
      Some ("{" +:+
            join "," (omap (fun kv => match stringify kv.2 with
                                      | Some t => Some (quote kv.1 +:+ ":" +:+ t)
                                      | None => None
                                      end) ms) +:+
            "}")
  end.

(** What [JSON.stringify] of an object literal evaluates to. *)
Definition JSON_stringify (v : value) : string := default "undefined" (stringify v).

(** *** [JSON.parse] *)

Definition is_ws (c : ascii) : bool :=
  (code c =? 32)%nat || (code c =? 9)%nat || (code c =? 10)%nat || (code c =? 13)%nat.

Fixpoint skip_ws (s : string) : string :=
  match s with
  | String c r => if is_ws c then skip_ws r else s
  | EmptyString => s
  end.

Fixpoint span (p : ascii -> bool) (s : string) : string * string :=
  match s with
  | String c r => if p c then let '(a, b) := span p r in (String c a, b) else ("", s)
  | EmptyString => ("", "")
  end.

Definition hex_value (c : ascii) : option nat :=
  if is_digit c then Some (code c - 48)%nat
  else if (97 <=? code c)%nat && (code c <=? 102)%nat then Some (code c - 87)%nat
  else if (65 <=? code c)%nat && (code c <=? 70)%nat then Some (code c - 55)%nat
  else None.

(** UTF-8 bytes of a code point of the basic plane. *)
Definition utf8 (n : nat) : string :=
  if (n <? 128)%nat then String (Ascii.ascii_of_nat n) EmptyString
  else if (n <? 2048)%nat then
    String (Ascii.ascii_of_nat (192 + n / 64))
      (String (Ascii.ascii_of_nat (128 + n mod 64)) EmptyString)
  else
    String (Ascii.ascii_of_nat (224 + n / 4096))
      (String (Ascii.ascii_of_nat (128 + (n / 64) mod 64))
         (String (Ascii.ascii_of_nat (128 + n mod 64)) EmptyString)).

Definition unescape (e : ascii) : option ascii :=
  if Ascii.eqb e dquote then Some dquote
  else if Ascii.eqb e backslash then Some backslash
  else if Ascii.eqb e "/" then Some "/"%char
  else if Ascii.eqb e "b" then Some (Ascii.ascii_of_nat 8)
  else if Ascii.eqb e "f" then Some (Ascii.ascii_of_nat 12)
  else if Ascii.eqb e "n" then Some (Ascii.ascii_of_nat 10)
  else if Ascii.eqb e "r" then Some (Ascii.ascii_of_nat 13)
  else if Ascii.eqb e "t" then Some (Ascii.ascii_of_nat 9)
  else None.

(** The characters of a string literal after its opening quote, and the
    text after its closing quote. *)
Fixpoint parse_chars (s : string) : option (string * string) :=
  match s with
  | EmptyString => None
  | String c r =>
      if Ascii.eqb c dquote then Some ("", r)
      else if Ascii.eqb c backslash then
        match r with
        | String e r1 =>
            if Ascii.eqb e "u" then
              match r1 with
              | String h1 (String h2 (String h3 (String h4 r2))) =>
                  match hex_value h1, hex_value h2, hex_value h3, hex_value h4,
                        parse_chars r2 with
                  | Some a, Some b, Some c', Some d, Some (t, rest) =>
                      Some (utf8 (((a * 16 + b) * 16 + c') * 16 + d) +:+ t, rest)
                  | _, _, _, _, _ => None
                  end
              | _ => None
              end
            else
              match unescape e, parse_chars r1 with
              | Some x, Some (t, rest) => Some (String x t, rest)
              | _, _ => None
              end
        | EmptyString => None
        end
      else if (code c <? 32)%nat then None
      else
        match parse_chars r with
        | Some (t, rest) => Some (String c t, rest)
        | None => None
        end
  end.

(** A number literal of the JSON grammar: optional minus sign, integer
    part without leading zero, optional fraction, optional exponent. *)
Definition parse_number (s : string) : option (string * string) :=
  let '(sign, s1) :=
    match s with
    | String c r => if Ascii.eqb c "-" then ("-", r) else ("", s)
    | EmptyString => ("", s)
    end in
  let '(int, s2) := span is_digit s1 in
  if String.eqb int "" then None
  else if String.prefix "0" int && negb (String.eqb int "0") then None
  else
    let frac :=
      match s2 with
      | String c r =>
          if Ascii.eqb c "." then
            let '(f, r') := span is_digit r in
            if String.eqb f "" then None else Some ("." +:+ f, r')
          else Some ("", s2)
      | EmptyString => Some ("", s2)
      end in
    match frac with
    | None => None
    | Some (f, s3) =>
        match s3 with
        | String c r =>
            if Ascii.eqb c "e" || Ascii.eqb c "E" then
              let '(sg, r1) :=
                match r with
                | String d r' =>
                    if Ascii.eqb d "+" || Ascii.eqb d "-"
                    then (String d EmptyString, r') else ("", r)
                | EmptyString => ("", r)
                end in
              let '(ex, r2) := span is_digit r1 in
              if String.eqb ex "" then None
              else Some (sign +:+ int +:+ f +:+ String c EmptyString +:+ sg +:+ ex, r2)
            else Some (sign +:+ int +:+ f, s3)
        | EmptyString => Some (sign +:+ int +:+ f, s3)
        end
    end.

Definition expect (w : string) (v : value) (s : string) : option (value * string) :=
  if String.prefix w s then Some (v, drop_string (String.length w) s) else None.

(** Recursive descent; [fuel] bounds the nesting and the number of
    members, and the length of the text is always enough. *)
Fixpoint parse_value (fuel : nat) (s : string) : option (value * string) :=
  match fuel with
  | O => None
  | S f =>
      match skip_ws s with
      | EmptyString => None
      | String c r =>
          if Ascii.eqb c "{" then
            match skip_ws r with
            | String c' r' =>
                if Ascii.eqb c' "}" then Some (VObj [], r') else parse_members f [] r
            | EmptyString => None
            end
          else if Ascii.eqb c "[" then
            match skip_ws r with
            | String c' r' =>
                if Ascii.eqb c' "]" then Some (VArr [], r') else parse_items f [] r
            | EmptyString => None
            end
          else if Ascii.eqb c dquote then
            match parse_chars r with
            | Some (t, rest) => Some (VStr t, rest)
            | None => None
            end
          else if Ascii.eqb c "t" then expect "true" (VBool true) (String c r)
          else if Ascii.eqb c "f" then expect "false" (VBool false) (String c r)
          else if Ascii.eqb c "n" then expect "null" VNull (String c r)
          else
            match parse_number (String c r) with
            | Some (lit, rest) => Some (VNum lit, rest)
            | None => None
            end
      end
  end
with parse_members (fuel : nat) (acc : list (string * value)) (s : string)
  : option (value * string) :=
  match fuel with
  | O => None
  | S f =>
      match skip_ws s with
      | String c r =>
          if Ascii.eqb c dquote then
            match parse_chars r with
            | Some (k, r1) =>
                match skip_ws r1 with
                | String c1 r2 =>
                    if Ascii.eqb c1 ":" then
                      match parse_value f r2 with
                      | Some (v, r3) =>
                          match skip_ws r3 with
                          | String c3 r4 =>
                              if Ascii.eqb c3 "," then parse_members f (obj_set k v acc) r4
                              else if Ascii.eqb c3 "}" then Some (VObj (obj_set k v acc), r4)
                              else None
                          | EmptyString => None
                          end
                      | None => None
                      end
                    else None
                | EmptyString => None
                end
            | None => None
            end
          else None
      | EmptyString => None
      end
  end
with parse_items (fuel : nat) (acc : list value) (s : string)
  : option (value * string) :=
  match fuel with
  | O => None
  | S f =>
      match parse_value f s with
      | Some (v, r1) =>
          match skip_ws r1 with
          | String c r2 =>
              if Ascii.eqb c "," then parse_items f (acc ++ [v]) r2
              else if Ascii.eqb c "]" then Some (VArr (acc ++ [v]), r2)
              else None
          | EmptyString => None
          end
      | None => None
      end
  end.

(** [JSON.parse(s)]; [None] is the [SyntaxError]. *)
Definition JSON_parse (s : string) : option value :=
  match parse_value (S (String.length s)) s with
  | Some (v, rest) => if String.eqb (skip_ws rest) "" then Some v else None
  | None => None
  end.

End Js.


Import Js.

(** ** The store and the outside world *)

Record LogEntry := {
  timestamp : nat;          (* [new Date()], in milliseconds *)
  message : string;
  level : string;
}.

(** A row of [provider_integrations]; [(userId, provider)] is unique. *)
Record ProviderIntegration := {
  pi_id : string;
  pi_userId : string;
  pi_provider : string;
  externalId : value;
  encryptedToken : string;
  scopes : value;
  pi_updatedAt : nat;
}.

Record OrganizationMember := {
  om_userId : string;
  om_role : string;
  om_joinedAt : nat;
}.

Record Organization := {
  org_id : string;
  org_name : string;
  org_slug : string;
  members : list OrganizationMember;
}.

Record Project := {
  proj_id : string;
  proj_name : string;
  proj_slug : string;
  description : string;
  organizationId : string;
}.

(** A row of [deployments].  [url], [configuration] and [metadata] are
    filled from untyped data and hold what the code passes; an unset
    column is [VNull]. *)
Record Deployment := {
  id : string;
  projectId : string;
  branch : string;
  commitSha : string;
  status : string;
  provider : string;
  environment : string;
  url : value;
  configuration : value;
  metadata : value;
  logs : list LogEntry;
  startedAt : nat;
  completedAt : option nat;
  createdBy : string;
}.

Record RepositoryAnalysisRow := {
  ra_repositoryId : string;
  ra_branch : string;
  ra_commitSha : string;
  frameworkName : value;
  frameworkVersion : value;
  confidenceScore : value;
  buildConfig : value;
  recommendations : value;
}.

Record Repository := {
  repo_id : string;
  fullName : string;
}.

Record Request := {
  req_method : string;
  req_url : string;
  req_headers : list (string * string);
  req_body : option string;
}.

Record Response := {
  ok : bool;
  resp_status : nat;
  statusText : string;
  resp_json : option value;    (* [None]: [response.json()] rejects *)
  resp_text : string;
}.

(** The arguments of [VercelService.createDeployment]. *)
Record VercelParams := {
  vp_token : value;
  vp_repositoryUrl : string;
  vp_projectName : string;
  vp_buildCommand : value;
  vp_outputDirectory : value;
  vp_installCommand : value;
}.

(** The arguments of [NetlifyService.createSiteFromRepo]. *)
Record NetlifyParams := {
  np_token : value;
  np_repositoryUrl : string;
  np_siteName : string;
  np_buildCommand : string;
  np_publishDirectory : string;
}.

(** Calls into the provider adapters, in the order they were made. *)
Inductive AdapterCall :=
  | CallVercelCreateDeployment (p : VercelParams)
  | CallNetlifyCreateSite (p : NetlifyParams)
  | CallValidateToken (provider : string) (token : value).

(** The callbacks handed to [setTimeout]. *)
Inductive Callback :=
  | VercelDemoComplete (deploymentId projectId : string)
  | NetlifyDemoComplete (deploymentId : string) (netlifyResult : value).

Record Timer := {
  due : nat;
  callback : Callback;
}.

Record World := {
  integrations : gmap (string * string) ProviderIntegration;
  organizations : list Organization;
  projects : list Project;
  deployments : list Deployment;
  repositories : list Repository;
  analyses : list RepositoryAnalysisRow;
  clock : nat;
  ticks : nat;                   (* clock reads so far *)
  next_id : nat;                 (* identifiers handed out so far *)
  timers : list Timer;
  fetches : list Request;        (* outgoing HTTP requests, oldest first *)
  calls : list AdapterCall;      (* adapter calls, oldest first *)
  completions : nat;             (* chat completions requested so far *)
  written : list Deployment;     (* every row version written to [deployments] *)
}.

Definition Err := string.

Inductive Outcome (A : Type) :=
  | Returned (a : A)
  | Threw (e : Err).
Arguments Returned {A} a.
Arguments Threw {A} e.

Definition M (A : Type) : Type := World -> Outcome A * World.

Definition ret {A} (a : A) : M A := fun w => (Returned a, w).
Definition throw {A} (e : Err) : M A := fun w => (Threw e, w).

Definition bind {A B} (m : M A) (k : A -> M B) : M B :=
  fun w => match m w with
           | (Returned a, w') => k a w'
           | (Threw e, w') => (Threw e, w')
           end.

(** [try { body } catch (e) { handler }] *)
Definition try_catch {A} (body : M A) (handler : Err -> M A) : M A :=
  fun w => match body w with
           | (Returned a, w') => (Returned a, w')
           | (Threw e, w') => handler e w'
           end.

Notation "'let!' x ':=' m 'in' k" := (bind m (fun x => k))
  (at level 10, x pattern, m at level 100, k at level 200).
Notation "m ';;' k" := (bind m (fun _ => k))
  (at level 100, k at level 200, right associativity).

(** A value or the [TypeError] of a property read on [undefined] or
    [null]. *)
Definition prop (v : value) (k : string) : M value :=
  match get v k with
  | Some x => ret x
  | None => throw ("Cannot read properties of " +:+ to_str v +:+ " (reading '" +:+ k +:+ "')")
  end.

(** [`${v}`]: the text of [v], or the [TypeError] of a value that
    cannot be converted. *)
Definition template (v : value) : M string :=
  if converts v then ret (to_str v)
  else throw "Cannot convert object to primitive value".

Definition get_world : M World := fun w => (Returned w, w).
Definition put_world (w' : World) : M unit := fun _ => (Returned tt, w').

Definition set_integrations (f : gmap (string * string) ProviderIntegration
                                 -> gmap (string * string) ProviderIntegration)
  (w : World) : World :=
  {| integrations := f (integrations w); organizations := organizations w;
     projects := projects w; deployments := deployments w;
     repositories := repositories w; analyses := analyses w;
     clock := clock w; ticks := ticks w; next_id := next_id w; timers := timers w;
     fetches := fetches w; calls := calls w; completions := completions w;
     written := written w |}.

Definition set_organizations (f : list Organization -> list Organization) (w : World) : World :=
  {| integrations := integrations w; organizations := f (organizations w);
     projects := projects w; deployments := deployments w;
     repositories := repositories w; analyses := analyses w;
     clock := clock w; ticks := ticks w; next_id := next_id w; timers := timers w;
     fetches := fetches w; calls := calls w; completions := completions w;
     written := written w |}.

Definition set_projects (f : list Project -> list Project) (w : World) : World :=
  {| integrations := integrations w; organizations := organizations w;
     projects := f (projects w); deployments := deployments w;
     repositories := repositories w; analyses := analyses w;
     clock := clock w; ticks := ticks w; next_id := next_id w; timers := timers w;
     fetches := fetches w; calls := calls w; completions := completions w;
     written := written w |}.

(** A write to [deployments] is also recorded in [written]. *)
Definition set_deployments (f : list Deployment -> list Deployment) (v : Deployment)
  (w : World) : World :=
  {| integrations := integrations w; organizations := organizations w;
     projects := projects w; deployments := f (deployments w);
     repositories := repositories w; analyses := analyses w;
     clock := clock w; ticks := ticks w; next_id := next_id w; timers := timers w;
     fetches := fetches w; calls := calls w; completions := completions w;
     written := written w ++ [v] |}.

Definition set_analyses (f : list RepositoryAnalysisRow -> list RepositoryAnalysisRow)
  (w : World) : World :=
  {| integrations := integrations w; organizations := organizations w;
     projects := projects w; deployments := deployments w;
     repositories := repositories w; analyses := f (analyses w);
     clock := clock w; ticks := ticks w; next_id := next_id w; timers := timers w;
     fetches := fetches w; calls := calls w; completions := completions w;
     written := written w |}.

Definition set_clock (t : nat) (n : nat) (w : World) : World :=
  {| integrations := integrations w; organizations := organizations w;
     projects := projects w; deployments := deployments w;
     repositories := repositories w; analyses := analyses w;
     clock := t; ticks := n; next_id := next_id w; timers := timers w;
     fetches := fetches w; calls := calls w; completions := completions w;
     written := written w |}.

Definition set_next_id (n : nat) (w : World) : World :=
  {| integrations := integrations w; organizations := organizations w;
     projects := projects w; deployments := deployments w;
     repositories := repositories w; analyses := analyses w;
     clock := clock w; ticks := ticks w; next_id := n; timers := timers w;
     fetches := fetches w; calls := calls w; completions := completions w;
     written := written w |}.

Definition set_timers (f : list Timer -> list Timer) (w : World) : World :=
  {| integrations := integrations w; organizations := organizations w;
     projects := projects w; deployments := deployments w;
     repositories := repositories w; analyses := analyses w;
     clock := clock w; ticks := ticks w; next_id := next_id w; timers := f (timers w);
     fetches := fetches w; calls := calls w; completions := completions w;
     written := written w |}.

Definition set_fetches (f : list Request -> list Request) (w : World) : World :=
  {| integrations := integrations w; organizations := organizations w;
     projects := projects w; deployments := deployments w;
     repositories := repositories w; analyses := analyses w;
     clock := clock w; ticks := ticks w; next_id := next_id w; timers := timers w;
     fetches := f (fetches w); calls := calls w; completions := completions w;
     written := written w |}.

Definition set_calls (f : list AdapterCall -> list AdapterCall) (w : World) : World :=
  {| integrations := integrations w; organizations := organizations w;
     projects := projects w; deployments := deployments w;
     repositories := repositories w; analyses := analyses w;
     clock := clock w; ticks := ticks w; next_id := next_id w; timers := timers w;
     fetches := fetches w; calls := f (calls w); completions := completions w;
     written := written w |}.

Definition set_completions (n : nat) (w : World) : World :=
  {| integrations := integrations w; organizations := organizations w;
     projects := projects w; deployments := deployments w;
     repositories := repositories w; analyses := analyses w;
     clock := clock w; ticks := ticks w; next_id := next_id w; timers := timers w;
     fetches := fetches w; calls := calls w; completions := n;
     written := written w |}.

(** What the process cannot decide: how much time passes before each
    clock read, what each HTTP request is answered (or [None] when
    [fetch] rejects), what the Vercel adapter returns (the members of its
    result object) or throws, the content of each chat completion
    ([None] when the API call fails), and the repository data that
    [fetchRepositoryData] gathers from GitHub ([None] when it fails). *)
Record Env := {
  env_elapsed : nat -> nat;
  env_fetch : nat -> Request -> option Response;
  env_vercel : nat -> VercelParams -> list (string * value) + Err;
  env_completion : nat -> value -> option value;
  env_repoData : nat -> string -> option value;
}.

(** ** Runtime and Prisma client *)

Section Runtime.

Context (env : Env).

(** [new Date()] and [Date.now()]: time never runs backwards. *)
Definition now : M nat :=
  fun w => let t := clock w + env_elapsed env (ticks w) in
           (Returned t, set_clock t (S (ticks w)) w).

(** A fresh primary key. *)
Definition cuid : M string :=
  fun w => (Returned ("c" +:+ pretty (next_id w)), set_next_id (S (next_id w)) w).

(** [await fetch(url, init)] *)
Definition fetch (r : Request) : M Response :=
  fun w => let w' := set_fetches (fun l => l ++ [r]) w in
           match env_fetch env (List.length (fetches w)) r with
           | Some resp => (Returned resp, w')
           | None => (Threw "fetch failed", w')
           end.

(** [await response.json()] *)
Definition json (r : Response) : M value :=
  match resp_json r with
  | Some v => ret v
  | None => throw "Unexpected end of JSON input"
  end.

(** [setTimeout(cb, delay)] *)
Definition setTimeout (cb : Callback) (delay : nat) : M unit :=
  fun w => (Returned tt,
            set_timers (fun l => l ++ [{| due := clock w + delay; callback := cb |}]) w).

Definition record_call (c : AdapterCall) : M unit :=
  fun w => (Returned tt, set_calls (fun l => l ++ [c]) w).

(** *** [prisma.providerIntegration] *)

Definition providerIntegration_findUnique (userId provider : string)
  : M (option ProviderIntegration) :=
  fun w => (Returned (integrations w !! (userId, provider)), w).

(** [upsert]: the [update] data when the row exists, the [create] data
    otherwise. *)
Definition providerIntegration_upsert (userId provider : string)
  (token : string) (external : value) (create_scopes : value)
  : M ProviderIntegration :=
  let! existing := providerIntegration_findUnique userId provider in
  let! t := now in
  match existing with
  | Some row =>
      let row' := {| pi_id := pi_id row; pi_userId := pi_userId row;
                     pi_provider := pi_provider row; externalId := external;
                     encryptedToken := token; scopes := scopes row;
                     pi_updatedAt := t |} in
      (fun w => (Returned row', set_integrations <[(userId, provider) := row']> w))
  | None =>
      let! i := cuid in
      let row' := {| pi_id := i; pi_userId := userId; pi_provider := provider;
                     externalId := external; encryptedToken := token;
                     scopes := create_scopes; pi_updatedAt := t |} in
      (fun w => (Returned row', set_integrations <[(userId, provider) := row']> w))
  end.

(** *** [prisma.organization] and [prisma.project] *)

Definition has_member (userId : string) (o : Organization) : bool :=
  existsb (fun m => String.eqb (om_userId m) userId) (members o).

Definition organization_findFirst_member (userId : string) : M (option Organization) :=
  fun w => (Returned (find (has_member userId) (organizations w)), w).

(** [organizations.slug] is unique. *)
Definition organization_create (name slug userId role : string) : M Organization :=
  let! w := get_world in
  if existsb (fun o => String.eqb (org_slug o) slug) (organizations w)
  then throw "Unique constraint failed on the fields: (`slug`)"
  else
    let! joined := now in
    let! i := cuid in
    let o := {| org_id := i; org_name := name; org_slug := slug;
                members := [{| om_userId := userId; om_role := role;
                               om_joinedAt := joined |}] |} in
    (fun w => (Returned o, set_organizations (fun l => l ++ [o]) w)).

Definition project_findFirst_name (name : string) : M (option Project) :=
  fun w => (Returned (find (fun p => String.eqb (proj_name p) name) (projects w)), w).

(** [(organization_id, slug)] is unique in [projects]. *)
Definition project_create (name slug descr orgId : string) : M Project :=
  let! w := get_world in
  if existsb (fun p => String.eqb (organizationId p) orgId && String.eqb (proj_slug p) slug)
       (projects w)
  then throw "Unique constraint failed on the fields: (`organization_id`,`slug`)"
  else
    let! i := cuid in
    let p := {| proj_id := i; proj_name := name; proj_slug := slug;
                description := descr; organizationId := orgId |} in
    (fun w => (Returned p, set_projects (fun l => l ++ [p]) w)).

(** *** [prisma.deployment] *)

Record DeploymentCreate := {
  c_projectId : string;
  c_branch : string;
  c_commitSha : string;
  c_status : string;
  c_provider : string;
  c_environment : string;
  c_configuration : value;
  c_createdBy : string;
  c_url : value;
  c_logs : list LogEntry;
}.

(** [create]: the row gets a fresh [id] and [started_at] defaults to the
    current time. *)
Definition deployment_create (d : DeploymentCreate) : M Deployment :=
  let! i := cuid in
  let! t := now in
  let row := {| id := i; projectId := c_projectId d; branch := c_branch d;
                commitSha := c_commitSha d; status := c_status d;
                provider := c_provider d; environment := c_environment d;
                url := c_url d; configuration := c_configuration d;
                metadata := VNull; logs := c_logs d; startedAt := t;
                completedAt := None; createdBy := c_createdBy d |} in
  (fun w => (Returned row, set_deployments (fun l => l ++ [row]) row w)).

(** The [data] of an [update]: the columns it names are overwritten, the
    others are kept. *)
Record DeploymentUpdate := {
  u_status : string;
  u_url : option value;
  u_completedAt : option nat;
  u_metadata : option value;
  u_logs : list LogEntry;
}.

Definition apply_update (u : DeploymentUpdate) (d : Deployment) : Deployment :=
  {| id := id d; projectId := projectId d; branch := branch d;
     commitSha := commitSha d; status := u_status u; provider := provider d;
     environment := environment d;
     url := default (url d) (u_url u);
     configuration := configuration d;
     metadata := default (metadata d) (u_metadata u);
     logs := u_logs u;
     startedAt := startedAt d;
     completedAt := match u_completedAt u with Some t => Some t | None => completedAt d end;
     createdBy := createdBy d |}.

Definition deployment_update (i : string) (u : DeploymentUpdate) : M Deployment :=
  fun w =>
    match find (fun d => String.eqb (id d) i) (deployments w) with
    | Some d =>
        let d' := apply_update u d in
        (Returned d',
         set_deployments (map (fun x => if String.eqb (id x) i then d' else x)) d' w)
    | None => (Threw "Record to update not found.", w)
    end.

Definition deployment_findFirst_owned (i userId : string) : M (option Deployment) :=
  fun w => (Returned (find (fun d => String.eqb (id d) i && String.eqb (createdBy d) userId)
                        (deployments w)), w).

(** The row with the greatest [startedAt] among those that satisfy [p]
    ([orderBy: { startedAt: 'desc' }], first row). *)
Fixpoint latest (p : Deployment -> bool) (l : list Deployment) : option Deployment :=
  match l with
  | [] => None
  | d :: r =>
      if p d then
        match latest p r with
        | Some d' => if (startedAt d <? startedAt d')%nat then Some d' else Some d
        | None => Some d
        end
      else latest p r
  end.

Definition deployment_findFirst_previous (d : Deployment) : M (option Deployment) :=
  fun w => (Returned (latest (fun x => String.eqb (projectId x) (projectId d)
                                       && String.eqb (status x) "deployed"
                                       && (startedAt x <? startedAt d)%nat)
                        (deployments w)), w).

End Runtime.

(** ** [NetlifyService] *)

Module NetlifyService.
Section WithEnv.

Context (env : Env).

Definition not_slash (c : ascii) : bool := negb (Ascii.eqb c "/").

(** The pattern [github\.com\/([^\/]+)\/([^\/]+)] tried at the start of
    [s]: the two groups. *)
Definition match_here (s : string) : option (string * string) :=
  if String.prefix "github.com/" s then
    let '(owner, r1) := span not_slash (drop_string 11 s) in
    if String.eqb owner "" then None
    else match r1 with
         | String _ r2 =>
             let '(repo, _) := span not_slash r2 in
             if String.eqb repo "" then None else Some (owner, repo)
         | EmptyString => None
         end
  else None.

(** [repositoryUrl.match(...)]: the leftmost match. *)
Fixpoint match_github (s : string) : option (string * string) :=
  match match_here s with
  | Some g => Some g
  | None => match s with
            | String _ r => match_github r
            | EmptyString => None
            end
  end.

Definition bearer (token : value) : string * string :=
  ("Authorization", "Bearer " +:+ to_str token).

Definition validateToken (token : value) : M value :=
  record_call (CallValidateToken "netlify" token);;
  try_catch
    (let! text := template token in
     let! response := fetch env {| req_method := "GET";
                                   req_url := "https://api.netlify.com/api/v1/user";
                                   req_headers := [("Authorization", "Bearer " +:+ text)];
                                   req_body := None |} in
     if negb (ok response) then
       ret (VObj [("valid", VBool false);
                  ("error", VStr "Invalid token or insufficient permissions")])
     else
       let! user := json response in
       let! uid := prop user "id" in
       let! email := prop user "email" in
       let! name := prop user "full_name" in
       let! slug := prop user "slug" in
       ret (VObj [("valid", VBool true);
                  ("user", VObj [("id", uid); ("email", email);
                                 ("name", name); ("slug", slug)])]))
    (fun _ => ret (VObj [("valid", VBool false);
                         ("error", VStr "Failed to validate token")])).

Definition getRepositoryDefaultBranch (owner repo : string) : M value :=
  try_catch
    (let! response :=
       fetch env {| req_method := "GET";
                    req_url := "https://api.github.com/repos/" +:+ owner +:+ "/" +:+ repo;
                    req_headers := [("Accept", "application/vnd.github.v3+json")];
                    req_body := None |} in
     if ok response then
       let! repoInfo := json response in
       let! defaultBranch := prop repoInfo "default_branch" in
       ret defaultBranch
     else ret (VStr "main"))
    (fun _ => ret (VStr "main")).

(** The workflow file [createGitHubActionsWorkflow] writes into a local
    constant; nothing reads it. *)
Definition workflowContent (branch deployHookUrl : value) : string :=
  join (String newline EmptyString)
    ["name: Deploy to Netlify"; "on:"; "  push:";
     "    branches: [ " +:+ to_str branch +:+ " ]";
     "  pull_request:";
     "    branches: [ " +:+ to_str branch +:+ " ]";
     ""; "jobs:"; "  deploy:"; "    runs-on: ubuntu-latest"; "    steps:";
     "    - uses: actions/checkout@v3"; "    ";
     "    - name: Setup Node.js"; "      uses: actions/setup-node@v3";
     "      with:"; "        node-version: '18'"; "        cache: 'npm'"; "    ";
     "    - name: Install dependencies"; "      run: npm ci"; "    ";
     "    - name: Build project"; "      run: npm run build"; "    ";
     "    - name: Deploy to Netlify"; "      run: |";
     "        curl -X POST " +:+ String dquote (to_str deployHookUrl)
       +:+ String dquote EmptyString;
     "      env:";
     "        NETLIFY_DEPLOY_HOOK: " +:+ to_str deployHookUrl; ""].

Definition createGitHubActionsWorkflow (owner repo : string) (branch deployHookUrl siteId : value)
  : M value :=
  try_catch
    (let _ := workflowContent branch deployHookUrl in
     let instructions :=
       [VStr "🤖 GitHub Actions workflow created!";
        VStr "To enable automated deployment:";
        VStr "1. Create file: .github/workflows/deploy.yml";
        VStr "2. Copy the workflow content provided";
        VStr "3. Commit and push to your repository";
        VStr "4. Future pushes will auto-deploy!"] in
     ret (VObj [("success", VBool true); ("logs", VArr instructions)]))
    (fun e => ret (VObj [("success", VBool false);
                         ("logs", VArr [VStr ("Workflow creation error: " +:+ e)])])).

Definition array_items (v : value) : list value :=
  match v with
  | VArr l => l
  | _ => []
  end.

Definition json_headers (token : value) : list (string * string) :=
  [bearer token; ("Content-Type", "application/json")].

Definition connectGitRepository (siteId token : value) (owner repo : string) (branch : value)
  : M value :=
  try_catch
    (let deployHookPayload :=
       VObj [("title", VStr "GitHub Actions Auto Deploy"); ("branch", branch)] in
     let! hookResponse :=
       fetch env {| req_method := "POST";
                    req_url := "https://api.netlify.com/api/v1/sites/" +:+ to_str siteId
                               +:+ "/build_hooks";
                    req_headers := json_headers token;
                    req_body := Some (JSON_stringify deployHookPayload) |} in
     if negb (ok hookResponse) then throw "Failed to create deploy hook"
     else
       let! hook := json hookResponse in
       let! deployHookUrl := prop hook "url" in
       let! workflowResult :=
         createGitHubActionsWorkflow owner repo branch deployHookUrl siteId in
       let! hookId := prop hook "id" in
       ret (VObj [("success", get_opt workflowResult "success");
                  ("deployId", hookId);
                  ("logs", VArr ([VStr "Deploy hook created for automated deployment";
                                  VStr ("Hook URL: " +:+ to_str deployHookUrl)]
                                 ++ array_items (get_opt workflowResult "logs")))]))
    (fun e => ret (VObj [("success", VBool false);
                         ("logs", VArr [VStr ("GitHub Actions setup error: " +:+ e)])])).

Definition deployFromGitHubZip (siteId token : value) (owner repo : string) (branch : value)
  : M value :=
  try_catch
    (let zipUrl := "https://api.github.com/repos/" +:+ owner +:+ "/" +:+ repo
                   +:+ "/zipball/" +:+ to_str branch in
     let! zipResponse :=
       fetch env {| req_method := "GET"; req_url := zipUrl;
                    req_headers := [("Accept", "application/vnd.github.v3+json");
                                    ("User-Agent", "AutoDeploy-App")];
                    req_body := None |} in
     if negb (ok zipResponse)
     then throw ("Failed to fetch repository zip: " +:+ statusText zipResponse)
     else
       let! deployResponse :=
         fetch env {| req_method := "POST";
                      req_url := "https://api.netlify.com/api/v1/sites/" +:+ to_str siteId
                                 +:+ "/deploys";
                      req_headers := [bearer token; ("Content-Type", "application/zip")];
                      req_body := Some (resp_text zipResponse) |} in
       if negb (ok deployResponse) then
         ret (VObj [("success", VBool false);
                    ("logs", VArr [VStr ("Deployment failed: " +:+ resp_text deployResponse)])])
       else
         let! deployment := json deployResponse in
         let! deployId := prop deployment "id" in
         ret (VObj [("success", VBool true);
                    ("deployId", deployId);
                    ("logs", VArr [VStr "Repository zip downloaded successfully";
                                   VStr "Deployment uploaded to Netlify";
                                   VStr ("Deployment ID: " +:+ to_str deployId);
                                   VStr "Build process started automatically"])]))
    (fun e => ret (VObj [("success", VBool false);
                         ("logs", VArr [VStr ("Error: " +:+ e)])])).

Definition site_payload (siteName : string) : value :=
  VObj [("name", VStr siteName);
        ("build_settings", VObj [("cmd", VStr "npm run build"); ("dir", VStr "build");
                                 ("base", VStr "");
                                 ("functions_dir", VStr "netlify/functions")])].

Definition create_site_request (token : value) (siteName : string) : Request :=
  {| req_method := "POST"; req_url := "https://api.netlify.com/api/v1/sites";
     req_headers := json_headers token;
     req_body := Some (JSON_stringify (site_payload siteName)) |}.

Definition default_site_url (siteName : string) : value :=
  VStr ("https://" +:+ siteName +:+ ".netlify.app").

(** The last resort of [createSiteFromRepo]. *)
Definition demo_result (siteName : string) (t : nat) : value :=
  VObj [("id", VStr ("demo-" +:+ pretty t));
        ("url", VStr ("https://" +:+ siteName +:+ "-demo.netlify.app"));
        ("adminUrl", VStr ("https://app.netlify.com/sites/" +:+ siteName +:+ "-demo"));
        ("status", VStr "github_access_error");
        ("isDemo", VBool true);
        ("error", VStr "GitHub access rights needed");
        ("demoMessage", VStr "GitHub access error. You need to authorize Netlify to access your GitHub repositories.");
        ("setupInstructions", VArr [VStr "1. Go to Netlify dashboard";
                                    VStr "2. Connect your GitHub account in Settings";
                                    VStr "3. Authorize repository access";
                                    VStr "4. Try deploying again"])].

(** The [try] block of [createSiteFromRepo]. *)
Definition create_and_connect (params : NetlifyParams) (owner repoName : string)
  (defaultBranch : value) (siteName : string) : M value :=
  let! response := fetch env (create_site_request (np_token params) siteName) in
  (if negb (ok response) then
     let! error := json response in
     let! msg := prop error "message" in
     throw ("Netlify site creation failed: "
            +:+ to_str (js_or msg (VStr (statusText response))))
   else ret tt);;
  let! site := json response in
  let! siteId := prop site "id" in
  let! gitResult :=
    connectGitRepository siteId (np_token params) owner repoName defaultBranch in
  if truthy (get_opt gitResult "success") then
    let! siteUrl := prop site "url" in
    let! adminUrl := prop site "admin_url" in
    ret (VObj [("id", siteId);
               ("url", js_or siteUrl (default_site_url siteName));
               ("adminUrl", adminUrl);
               ("status", VStr "deploying");
               ("deployId", get_opt gitResult "deployId");
               ("message", VStr "🚀 Git repository connected! Continuous deployment enabled!");
               ("automated", VBool true);
               ("gitConnected", VBool true);
               ("buildLogs", js_or (get_opt gitResult "logs") (VArr []))])
  else
    let! deployResult :=
      deployFromGitHubZip siteId (np_token params) owner repoName defaultBranch in
    let! siteUrl := prop site "url" in
    let! adminUrl := prop site "admin_url" in
    let succeeded := truthy (get_opt deployResult "success") in
    ret (VObj [("id", siteId);
               ("url", js_or siteUrl (default_site_url siteName));
               ("adminUrl", adminUrl);
               ("status", VStr (if succeeded then "deploying" else "deploy_failed"));
               ("deployId", get_opt deployResult "deployId");
               ("message", VStr (if succeeded
                                 then "⚠️ Manual deployment started (Git connection failed)"
                                 else "Site created but deployment failed. Check logs."));
               ("automated", VBool true);
               ("gitConnected", VBool false);
               ("buildLogs", js_or (get_opt deployResult "logs") (VArr []))]).

(** The inner [try] of the [catch] block: a site with a deploy hook.
    [None] when the block ends without a [return]. *)
Definition create_with_deploy_hook (params : NetlifyParams) : M (option value) :=
  let siteName := replace_non_slug (toLowerCase (np_siteName params)) in
  let! basicResponse := fetch env (create_site_request (np_token params) siteName) in
  if ok basicResponse then
    let! site := json basicResponse in
    let deployHookPayload :=
      VObj [("title", VStr "GitHub Deploy Hook"); ("branch", VStr "main")] in
    let! siteId := prop site "id" in
    let! hookResponse :=
      fetch env {| req_method := "POST";
                   req_url := "https://api.netlify.com/api/v1/sites/" +:+ to_str siteId
                              +:+ "/build_hooks";
                   req_headers := json_headers (np_token params);
                   req_body := Some (JSON_stringify deployHookPayload) |} in
    let! deployHookUrl :=
      (if ok hookResponse then
         let! hook := json hookResponse in
         prop hook "url"
       else ret VNull) in
    let! siteUrl := prop site "url" in
    let! adminUrl := prop site "admin_url" in
    ret (Some (VObj
      [("id", siteId);
       ("url", js_or siteUrl (default_site_url siteName));
       ("adminUrl", adminUrl);
       ("deployHook", deployHookUrl);
       ("status", VStr "deploy_hook_created");
       ("message", VStr "Site created! Use deploy hook or connect GitHub manually in Netlify dashboard.");
       ("setupInstructions",
        VArr [VStr "1. Site created successfully in Netlify";
              VStr "2. Go to Netlify dashboard to connect GitHub repo";
              VStr "3. Or use the deploy hook for manual deployments";
              VStr ("4. Deploy hook URL: "
                    +:+ to_str (js_or deployHookUrl (VStr "Check Netlify dashboard")))])]))
  else ret None.

Definition createSiteFromRepo (params : NetlifyParams) : M value :=
  record_call (CallNetlifyCreateSite params);;
  match match_github (np_repositoryUrl params) with
  | None => throw "Invalid GitHub repository URL"
  | Some (owner, repo) =>
      let repoName := replace_first repo ".git" "" in
      let! defaultBranch := getRepositoryDefaultBranch owner repoName in
      let siteName := replace_non_slug (toLowerCase (np_siteName params)) in
      try_catch
        (create_and_connect params owner repoName defaultBranch siteName)
        (fun _ =>
           let! fallback :=
             try_catch (create_with_deploy_hook params) (fun _ => ret None) in
           match fallback with
           | Some result => ret result
           | None =>
               let siteName := replace_non_slug (toLowerCase (np_siteName params)) in
               let! t := now env in
               ret (demo_result siteName t)
           end)
  end.

End WithEnv.
End NetlifyService.

(** ** [DeploymentsService] *)

(** The argument of [deployToVercel] and [deployToNetlify]. *)
Record DeployInput := {
  userId : string;
  in_projectId : string;
  repositoryUrl : string;
  in_branch : string;
  buildSettings : value;
  githubToken : string;
}.

Module DeploymentsService.
Section WithEnv.

Context (env : Env).

(** [v !== 'literal'] *)
Definition strict_neq_str (v : value) (s : string) : bool :=
  match v with
  | VStr t => negb (String.eqb t s)
  | _ => true
  end.

(** [v?.includes(s)]: string search, array membership, a [TypeError] on
    anything else that is not [undefined] or [null]. *)
Definition opt_includes (v : value) (s : string) : M bool :=
  match v with
  | VUndefined | VNull => ret false
  | VStr t => ret (includes t s)
  | VArr l => ret (existsb (fun x => negb (strict_neq_str x s)) l)
  | _ => throw "includes is not a function"
  end.

Definition toLowerCase_value (v : value) : M string :=
  match v with
  | VStr s => ret (toLowerCase s)
  | _ => throw "framework.toLowerCase is not a function"
  end.

Record DetectedSettings := {
  buildCommand : value;
  outputDirectory : value;
  installCommand : value;
}.

Definition with_outputDirectory (d : DetectedSettings) (o : string) : DetectedSettings :=
  {| buildCommand := buildCommand d; outputDirectory := VStr o;
     installCommand := installCommand d |}.

Definition with_buildCommand (d : DetectedSettings) (c : string) : DetectedSettings :=
  {| buildCommand := VStr c; outputDirectory := outputDirectory d;
     installCommand := installCommand d |}.

Definition one_of (s : string) (l : list string) : bool :=
  existsb (String.eqb s) l.

Definition detectBuildSettings (bs : value) : M DetectedSettings :=
  let detectedSettings :=
    {| buildCommand := js_or (get_opt bs "buildCommand") (VStr "npm run build");
       outputDirectory := js_or (get_opt bs "outputDirectory") (VStr "dist");
       installCommand := js_or (get_opt bs "installCommand") (VStr "npm install") |} in
  let! framework :=
    (if truthy (get_opt (get_opt bs "framework") "name")
     then ret (get_opt (get_opt bs "framework") "name")
     else if truthy (get_opt bs "name") then ret (get_opt bs "name")
     else
       let! isNext := opt_includes (get_opt bs "buildCommand") "next" in
       if isNext then ret (VStr "next.js")
       else
         let! isGatsby := opt_includes (get_opt bs "buildCommand") "gatsby" in
         ret (VStr (if isGatsby then "gatsby" else "react"))) in
  if truthy framework then
    let! frameworkLower := toLowerCase_value framework in
    if one_of frameworkLower ["react"; "create-react-app"] then
      ret (with_outputDirectory detectedSettings "build")
    else if one_of frameworkLower ["next.js"; "nextjs"] then
      ret (with_buildCommand (with_outputDirectory detectedSettings ".next") "npm run build")
    else if one_of frameworkLower ["vite"] then
      ret (with_outputDirectory detectedSettings "dist")
    else if one_of frameworkLower ["gatsby"] then
      ret (with_outputDirectory detectedSettings "public")
    else if one_of frameworkLower ["nuxt"] then
      ret (with_outputDirectory detectedSettings "dist")
    else
      let! hasNext := opt_includes (buildCommand detectedSettings) "next" in
      if hasNext then ret (with_outputDirectory detectedSettings ".next")
      else
        let! hasGatsby := opt_includes (buildCommand detectedSettings) "gatsby" in
        if hasGatsby then ret (with_outputDirectory detectedSettings "public")
        else ret (with_outputDirectory detectedSettings "build")
  else
    let hasPackageJson :=
      match get_opt bs "hasPackageJson" with
      | VBool false => false
      | _ => true
      end in
    if negb hasPackageJson then
      ret (with_outputDirectory (with_buildCommand detectedSettings "# No build required") "./")
    else ret (with_outputDirectory detectedSettings "build").

(** The block each deployment method opens with: the project named
    [projectId], created in the user's organization (itself created as
    "Personal" when the user has none) when there is none. *)
Definition find_or_create_project (deployment : DeployInput) : M Project :=
  let! project := project_findFirst_name (in_projectId deployment) in
  match project with
  | Some p => ret p
  | None =>
      let! organization := organization_findFirst_member (userId deployment) in
      let! organization :=
        match organization with
        | Some o => ret o
        | None => organization_create env "Personal" ("personal-" +:+ userId deployment)
                    (userId deployment) "owner"
        end in
      project_create (in_projectId deployment)
        (replace_non_slug (toLowerCase (in_projectId deployment)))
        ("Deployment for " +:+ repositoryUrl deployment)
        (org_id organization)
  end.

Definition entry (msg lvl : string) : M LogEntry :=
  let! t := now env in
  ret {| timestamp := t; message := msg; level := lvl |}.

Definition new_deployment (deployment : DeployInput) (project : Project)
  (st prov : string) (l : list LogEntry) : DeploymentCreate :=
  {| c_projectId := proj_id project; c_branch := in_branch deployment;
     c_commitSha := "latest"; c_status := st; c_provider := prov;
     c_environment := "production"; c_configuration := buildSettings deployment;
     c_createdBy := userId deployment; c_url := VNull; c_logs := l |}.

(** [!tokenData.demo && tokenData.access_token !== placeholder] *)
Definition is_real_token (tokenData : value) (placeholder : string) : M bool :=
  let! demo := prop tokenData "demo" in
  if truthy demo then ret false
  else
    let! access_token := prop tokenData "access_token" in
    ret (strict_neq_str access_token placeholder).

Definition parse_token (encrypted : string) : M value :=
  match JSON_parse encrypted with
  | Some v => ret v
  | None => throw "Unexpected token in JSON"
  end.

(** [VercelService.createDeployment], a black box. *)
Definition vercel_createDeployment (p : VercelParams) : M value :=
  fun w =>
    let w' := set_calls (fun l => l ++ [CallVercelCreateDeployment p]) w in
    match env_vercel env (List.length (calls w)) p with
    | inl ms => (Returned (VObj ms), w')
    | inr e => (Threw e, w')
    end.

Definition failed_update (msg : string) : M DeploymentUpdate :=
  let! e := entry msg "error" in
  ret {| u_status := "failed"; u_url := None; u_completedAt := None;
         u_metadata := None; u_logs := [e] |}.

Definition has_key (k : string) (v : value) : bool :=
  match v with
  | VObj ms => existsb (fun kv => String.eqb kv.1 k) ms
  | _ => false
  end.

Definition deployToVercel (deployment : DeployInput) : M value :=
  let! vercelIntegration := providerIntegration_findUnique (userId deployment) "vercel" in
  match vercelIntegration with
  | None =>
      let! project := find_or_create_project deployment in
      let! e := entry "Deployment requires Vercel account connection" "warning" in
      let! deploymentRecord :=
        deployment_create env (new_deployment deployment project "requires_setup" "vercel" [e]) in
      ret (VObj [("success", VBool false);
                 ("error", VStr "No Vercel integration found");
                 ("message", VStr "Please connect your Vercel account in Settings first");
                 ("deployment",
                  VObj [("id", VStr (id deploymentRecord));
                        ("status", VStr "requires_setup");
                        ("provider", VStr "vercel");
                        ("url", VNull);
                        ("setupUrl", VStr "https://vercel.com/integrations/github")])])
  | Some vercelIntegration =>
      let! project := find_or_create_project deployment in
      let! e := entry "Deployment started - connecting to Vercel..." "info" in
      let! deploymentRecord :=
        deployment_create env (new_deployment deployment project "deploying" "vercel" [e]) in
      let! vercelTokenData := parse_token (encryptedToken vercelIntegration) in
      let! isRealVercelDeployment := is_real_token vercelTokenData "demo-vercel-token" in
      let! smartBuildSettings := detectBuildSettings (buildSettings deployment) in
      (if isRealVercelDeployment then
         try_catch
           (let! vercelResult :=
              vercel_createDeployment
                {| vp_token := get_opt vercelTokenData "access_token";
                   vp_repositoryUrl := repositoryUrl deployment;
                   vp_projectName := in_projectId deployment;
                   vp_buildCommand := buildCommand smartBuildSettings;
                   vp_outputDirectory := outputDirectory smartBuildSettings;
                   vp_installCommand := installCommand smartBuildSettings |} in
            let! completed := now env in
            let! e1 := entry "🚀 Real Vercel project created successfully!" "success" in
            let! e2 := entry ("🎉 Live deployment: " +:+ to_str (get_opt vercelResult "url"))
                         "success" in
            let! e3 := entry ("📊 Dashboard: " +:+
                              (if has_key "dashboardUrl" vercelResult
                               then to_str (get_opt vercelResult "dashboardUrl")
                               else "https://vercel.com/dashboard")) "info" in
            deployment_update (id deploymentRecord)
              {| u_status := "deployed"; u_url := Some (get_opt vercelResult "url");
                 u_completedAt := Some completed; u_metadata := Some vercelResult;
                 u_logs := [e1; e2; e3] |};;
            ret tt)
           (fun vercelError =>
              let! u := failed_update ("❌ Vercel deployment failed: " +:+ vercelError) in
              deployment_update (id deploymentRecord) u;;
              ret tt)
       else
         setTimeout (VercelDemoComplete (id deploymentRecord) (in_projectId deployment)) 3000);;
      ret (VObj [("success", VBool true);
                 ("message", VStr (if isRealVercelDeployment
                                   then "Real Vercel deployment started successfully!"
                                   else "Demo Vercel deployment started!"));
                 ("deployment",
                  VObj [("id", VStr (id deploymentRecord));
                        ("status", VStr (if isRealVercelDeployment
                                         then "deploying" else "demo_deployment"));
                        ("provider", VStr "vercel");
                        ("isDemo", VBool (negb isRealVercelDeployment));
                        ("url", VStr ("https://" +:+ in_projectId deployment +:+
                                      (if isRealVercelDeployment then "" else "-demo")
                                      +:+ ".vercel.app"))])])
  end.

(** The third log entry of a real Netlify deployment. *)
Definition git_entry (netlifyResult : value) : M LogEntry :=
  entry (if truthy (get_opt netlifyResult "automated")
         then (if truthy (get_opt netlifyResult "gitConnected")
               then "🔗 Git repository connected - continuous deployment enabled!"
               else "⚠️ Manual deployment created (Git connection failed)")
         else "📋 Connect your GitHub repo in Netlify dashboard to enable auto-deployments")
        (if truthy (get_opt netlifyResult "gitConnected") then "success" else "warning").

Fixpoint build_log_entries (l : list value) : M (list LogEntry) :=
  match l with
  | [] => ret []
  | x :: r =>
      let! e := entry ("📋 " +:+ to_str x) "info" in
      let! es := build_log_entries r in
      ret (e :: es)
  end.

(** [buildLogs ? buildLogs.map(...) : []] *)
Definition build_logs (buildLogs : value) : M (list LogEntry) :=
  if truthy buildLogs then
    match buildLogs with
    | VArr l => build_log_entries l
    | _ => throw "netlifyResult.buildLogs.map is not a function"
    end
  else ret [].

Definition with_flag (netlifyResult : value) (flag : bool) : value :=
  VObj (spread (spread_source netlifyResult) [("isRealDeployment", VBool flag)]).

Definition deployToNetlify (deployment : DeployInput) : M value :=
  let! project := find_or_create_project deployment in
  let! e1 := entry "🎯 DEMO: This is a simulated deployment for demonstration purposes" "info" in
  let! e2 := entry "Real deployments require connecting your Netlify account" "warning" in
  let! deploymentRecord :=
    deployment_create env (new_deployment deployment project "demo_deployment" "netlify" [e1; e2]) in
  let! netlifyIntegration := providerIntegration_findUnique (userId deployment) "netlify" in
  let! (netlifyToken, isRealDeployment) :=
    match netlifyIntegration with
    | Some row =>
        let! tokenData := parse_token (encryptedToken row) in
        let! real := is_real_token tokenData "demo-netlify-token" in
        if real then ret (get_opt tokenData "access_token", true)
        else ret (VStr "demo-token", false)
    | None => ret (VStr "demo-token", false)
    end in
  try_catch
    (let! smartBuildSettings := detectBuildSettings (buildSettings deployment) in
     let! netlifyResult :=
       NetlifyService.createSiteFromRepo env
         {| np_token := netlifyToken; np_repositoryUrl := repositoryUrl deployment;
            np_siteName := in_projectId deployment; np_buildCommand := "npm run build";
            np_publishDirectory := "build" |} in
     if isRealDeployment then
       let! st := prop netlifyResult "status" in
       let! u := prop netlifyResult "url" in
       let! completed := now env in
       let! l1 := entry "🎉 Netlify site created successfully!" "success" in
       let! l2 := entry ("🔗 Site URL: " +:+ to_str u) "info" in
       let! l3 := git_entry netlifyResult in
       let! ls := build_logs (get_opt netlifyResult "buildLogs") in
       deployment_update (id deploymentRecord)
         {| u_status := if strict_neq_str st "ready_for_setup"
                        then "deployed" else "setup_required";
            u_url := Some u; u_completedAt := Some completed;
            u_metadata := Some (with_flag netlifyResult true);
            u_logs := [l1; l2; l3] ++ ls |};;
       ret tt
     else setTimeout (NetlifyDemoComplete (id deploymentRecord) netlifyResult) 2000)
    (fun error =>
       let! u := failed_update ("❌ Deployment failed: " +:+ error) in
       deployment_update (id deploymentRecord) u;;
       ret tt);;
  ret (VObj [("id", VStr (id deploymentRecord));
             ("status", VStr (if isRealDeployment then "deploying" else "demo_deployment"));
             ("message", VStr (if isRealDeployment
                               then "Real Netlify deployment in progress..."
                               else "Demo deployment in progress (not a real deployment)"));
             ("provider", VStr "netlify");
             ("isDemo", VBool (negb isRealDeployment))]).

(** The bodies of the two [setTimeout] callbacks. *)
Definition run_callback (cb : Callback) : M unit :=
  match cb with
  | VercelDemoComplete deploymentId projectName =>
      try_catch
        (let! completed := now env in
         let! e1 := entry "✅ Demo deployment completed" "info" in
         let! e2 := entry "🔗 Demo URL generated (connect Vercel for real deployments)" "info" in
         deployment_update deploymentId
           {| u_status := "demo_complete";
              u_url := Some (VStr ("https://" +:+ projectName +:+ "-demo.vercel.app"));
              u_completedAt := Some completed; u_metadata := None;
              u_logs := [e1; e2] |};;
         ret tt)
        (fun _ => ret tt)
  | NetlifyDemoComplete deploymentId netlifyResult =>
      try_catch
        (let! u := prop netlifyResult "url" in
         let! completed := now env in
         let! e1 := entry "✅ Demo deployment completed" "success" in
         let! e2 := entry "🔗 Demo URL generated (connect Netlify for real deployments)" "info" in
         deployment_update deploymentId
           {| u_status := "demo_complete"; u_url := Some u;
              u_completedAt := Some completed;
              u_metadata := Some (with_flag netlifyResult false);
              u_logs := [e1; e2] |};;
         ret tt)
        (fun _ => ret tt)
  end.

(** The event loop runs the [k]-th pending timer, no earlier than it is
    due. *)
Definition fire_timer (k : nat) : M unit :=
  let! w := get_world in
  match timers w !! k with
  | None => ret tt
  | Some t =>
      put_world (set_clock (Nat.max (clock w) (due t)) (ticks w)
                   (set_timers (fun l => take k l ++ drop (S k) l) w));;
      run_callback (callback t)
  end.

Definition rollbackDeployment (deploymentId user : string) : M Deployment :=
  let! deployment := deployment_findFirst_owned deploymentId user in
  match deployment with
  | None => throw "Deployment not found"
  | Some deployment =>
      let! previousDeployment := deployment_findFirst_previous deployment in
      match previousDeployment with
      | None => throw "No previous deployment found for rollback"
      | Some previousDeployment =>
          let! e := entry ("Rolled back to deployment " +:+ id previousDeployment) "info" in
          deployment_create env
            {| c_projectId := projectId deployment;
               c_branch := branch previousDeployment;
               c_commitSha := commitSha previousDeployment;
               c_status := "deployed";
               c_provider := provider deployment;
               c_environment := environment deployment;
               c_configuration := configuration previousDeployment;
               c_createdBy := user;
               c_url := url previousDeployment;
               c_logs := [e] |}
      end
  end.

End WithEnv.
End DeploymentsService.

(** ** [VercelService.validateToken] *)

Module VercelService.
Section WithEnv.

Context (env : Env).

Definition validateToken (token : value) : M value :=
  record_call (CallValidateToken "vercel" token);;
  try_catch
    (let! text := template token in
     let! response := fetch env {| req_method := "GET";
                                   req_url := "https://api.vercel.com/v2/user";
                                   req_headers := [("Authorization", "Bearer " +:+ text)];
                                   req_body := None |} in
     if negb (ok response) then
       ret (VObj [("valid", VBool false);
                  ("error", VStr "Invalid token or insufficient permissions")])
     else
       let! user := json response in
       let! uid := prop user "uid" in
       let! username := prop user "username" in
       let! email := prop user "email" in
       let! name := prop user "name" in
       ret (VObj [("valid", VBool true);
                  ("user", VObj [("id", uid); ("username", username);
                                 ("email", email); ("name", name)])]))
    (fun _ => ret (VObj [("valid", VBool false);
                         ("error", VStr "Failed to validate token")])).

End WithEnv.
End VercelService.

(** ** [IntegrationsController.connectProvider] *)

Module IntegrationsController.
Section WithEnv.

Context (env : Env).

(** The object whose [JSON.stringify] goes into the [encryptedToken]
    column. *)
Definition token_document (provider : string) (connectionData validationResult : value)
  : value :=
  VObj (spread
          [("access_token",
            js_or (get_opt connectionData "token") (VStr ("demo-" +:+ provider +:+ "-token")));
           ("demo",
            js_or (get_opt connectionData "demo")
              (VBool (negb (truthy (get_opt connectionData "token")))))]
          (spread_source
             (js_and (get_opt validationResult "user")
                (VObj [("userInfo", get_opt validationResult "user")])))).

(** The outcome of the [if (connectionData.token && !connectionData.demo)]
    block: [inl] is the early [return], [inr] the validation result and
    the external user id to store. *)
Definition validate (provider : string) (connectionData : value) (externalUserId : value)
  : M (value + value * value) :=
  if truthy (get_opt connectionData "token") && negb (truthy (get_opt connectionData "demo"))
  then
    let! validationResult :=
      (if String.eqb provider "vercel"
       then VercelService.validateToken env (get_opt connectionData "token")
       else NetlifyService.validateToken env (get_opt connectionData "token")) in
    let! valid := prop validationResult "valid" in
    if negb (truthy valid) then
      let! error := prop validationResult "error" in
      ret (inl (VObj [("success", VBool false); ("error", error);
                      ("message", VStr "Token validation failed")]))
    else
      let! user := prop validationResult "user" in
      let! uid := prop user "id" in
      ret (inr (validationResult, uid))
  else ret (inr (VNull, externalUserId)).

Definition connectProvider (provider : string) (connectionData : value) (user : string)
  : M value :=
  if String.eqb provider "netlify" || String.eqb provider "vercel" then
    try_catch
      (let! given := prop connectionData "externalId" in
       let! externalUserId :=
         (if truthy given then ret given
          else let! t := now env in ret (VStr ("demo-user-" +:+ pretty t))) in
       let! checked := validate provider connectionData externalUserId in
       match checked with
       | inl rejection => ret rejection
       | inr (validationResult, externalUserId) =>
           let! integration :=
             providerIntegration_upsert env user provider
               (JSON_stringify (token_document provider connectionData validationResult))
               externalUserId
               (js_or (get_opt connectionData "scopes") (VArr [VStr "read"; VStr "write"])) in
           let real := truthy (get_opt connectionData "token")
                       && negb (truthy (get_opt connectionData "demo")) in
           ret (VObj
                  ([("success", VBool true);
                   ("message", VStr (if real
                                     then "✅ " +:+ provider +:+ " connected successfully!"
                                     else "🎯 " +:+ provider +:+ " demo mode enabled"));
                   ("integration",
                    VObj (spread
                      [("id", VStr (pi_id integration));
                       ("provider", VStr (pi_provider integration));
                       ("isDemo", js_or (get_opt connectionData "demo")
                                    (VBool (negb (truthy (get_opt connectionData "token")))));
                       ("externalUserId", externalUserId)]
                      (spread_source
                         (js_and (get_opt validationResult "user")
                            (VObj [("connectedUser", get_opt validationResult "user")])))))]))
       end)
      (fun error => ret (VObj [("success", VBool false); ("error", VStr error);
                               ("message", VStr "Failed to save integration")]))
  else ret (VObj [("success", VBool false); ("error", VStr "Unsupported provider")]).

End WithEnv.
End IntegrationsController.

(** ** [DeploymentsController.createDeployment] *)

(** The body of [POST /deployments]. *)
Record DeploymentRequest := {
  r_projectId : string;
  r_repositoryUrl : string;
  r_branch : option string;
  r_provider : value;
  r_buildSettings : value;
}.

Module DeploymentsController.
Section WithEnv.

Context (env : Env).

Definition deploymentParams (user : string) (deploymentData : DeploymentRequest) : DeployInput :=
  let githubToken := "user-github-token" in
  let finalBuildSettings :=
    js_or (r_buildSettings deploymentData)
      (VObj [("buildCommand", VStr "npm run build");
             ("outputDirectory", VStr "build");
             ("installCommand", VStr "npm install")]) in
  {| userId := user;
     in_projectId := r_projectId deploymentData;
     repositoryUrl := r_repositoryUrl deploymentData;
     in_branch := match r_branch deploymentData with
                  | Some b => if String.eqb b "" then "main" else b
                  | None => "main"
                  end;
     buildSettings := finalBuildSettings;
     githubToken := githubToken |}.

Definition createDeployment (user : string) (deploymentData : DeploymentRequest) : M value :=
  let params := deploymentParams user deploymentData in
  match r_provider deploymentData with
  | VStr p =>
      if String.eqb p "vercel" then DeploymentsService.deployToVercel env params
      else if String.eqb p "netlify" then DeploymentsService.deployToNetlify env params
      else DeploymentsService.deployToNetlify env params
  | _ => DeploymentsService.deployToNetlify env params
  end.

Definition rollbackDeployment (i user : string) : M Deployment :=
  DeploymentsService.rollbackDeployment env i user.

End WithEnv.
End DeploymentsController.

(** ** [AnalysisService] *)

Module AnalysisService.
Section WithEnv.

Context (env : Env).

Definition is_array (v : value) : bool :=
  match v with
  | VArr _ => true
  | _ => false
  end.

Definition nullish (v : value) : bool :=
  match v with
  | VUndefined | VNull => true
  | _ => false
  end.

(** Whether the template literal of the prompt evaluates: [repoData] is
    not nullish, [topics?.join] and, when [sourceStructure] is truthy, the
    [join]s of its three lists are calls on arrays. *)
Definition prompt_evaluates (repoData : value) : bool :=
  negb (nullish repoData)
  && (nullish (get_opt repoData "topics") || is_array (get_opt repoData "topics"))
  && (negb (truthy (get_opt repoData "sourceStructure"))
      || (is_array (get_opt (get_opt repoData "sourceStructure") "directories")
          && is_array (get_opt (get_opt repoData "sourceStructure") "mainFiles")
          && is_array (get_opt (get_opt repoData "sourceStructure") "testFiles"))).

(** The rule-based analysis used when the model's answer is missing or
    unreadable. *)
Definition getFallbackAnalysis (repoData : value) : M value :=
  let! packageJson := prop repoData "packageJson" in
  let deps := get_opt packageJson "dependencies" in
  let '(framework, provider, startCommand) :=
    if truthy deps then
      if truthy (get_opt deps "next") then ("Next.js", "vercel", "npm start")
      else if truthy (get_opt deps "react") && negb (truthy (get_opt deps "next"))
      then ("React", "netlify", "npm start")
      else if truthy (get_opt deps "express") then ("Express.js", "render", "npm run start")
      else if truthy (get_opt deps "vue") then ("Vue.js", "netlify", "npm start")
      else if truthy (get_opt deps "svelte") then ("Svelte", "vercel", "npm start")
      else ("Unknown", "vercel", "npm start")
    else ("Unknown", "vercel", "npm start") in
  let buildCommand := "npm run build" in
  ret (VObj
    [("framework",
      VObj [("name", VStr framework);
            ("version", js_or (get_opt deps (toLowerCase framework)) (VStr "unknown"));
            ("confidence", VNum "0.7")]);
     ("buildSettings",
      VObj [("buildCommand", VStr buildCommand);
            ("startCommand", VStr startCommand);
            ("outputDirectory", VStr (if includes framework "Next" then ".next" else "dist"));
            ("installCommand", VStr "npm install")]);
     ("deployment",
      VObj [("recommendedProvider", VStr provider);
            ("reason", VStr (framework +:+ " works well with " +:+ provider));
            ("estimatedCost", VStr "Free tier available")]);
     ("infrastructure",
      VObj [("needsDatabase", VBool false);
            ("databaseType", VNull);
            ("environmentVariables", VArr []);
            ("specialRequirements", VArr [])]);
     ("optimization",
      VObj [("suggestions", VArr [VStr "Enable compression"; VStr "Use CDN for static assets"]);
            ("security", VArr [VStr "Use HTTPS"; VStr "Set security headers"]);
            ("bestPractices", VArr [VStr "Use environment variables for secrets"])])]).

(** [openai.chat.completions.create(...)] followed by
    [completion.choices[0].message.content]. *)
Definition complete (repoData : value) : M value :=
  fun w =>
    let w' := set_completions (S (completions w)) w in
    match env_completion env (completions w) repoData with
    | Some content => (Returned content, w')
    | None => (Threw "Connection error.", w')
    end.

Definition analyzeRepositoryWithAI (repoData : value) : M value :=
  try_catch
    (if prompt_evaluates repoData then
       let! analysisResult := complete repoData in
       match JSON_parse (to_str analysisResult) with
       | Some v => ret v
       | None => getFallbackAnalysis repoData
       end
     else throw "Cannot read properties of undefined")
    (fun _ => getFallbackAnalysis repoData).

End WithEnv.
End AnalysisService.

(** ** [RepositoriesService] *)

Module RepositoriesService.
Section WithEnv.

Context (env : Env).

(** [fetchRepositoryData], a black box: a series of reads of the GitHub
    API, of which the first request is recorded. *)
Definition fetchRepositoryData (repoFullName : string) (accessToken : value) : M value :=
  fun w =>
    let r := {| req_method := "GET";
                req_url := "https://api.github.com/repos/" +:+ repoFullName;
                req_headers := [NetlifyService.bearer accessToken;
                                ("Accept", "application/vnd.github.v3+json")];
                req_body := None |} in
    let w' := set_fetches (fun l => l ++ [r]) w in
    match env_repoData env (List.length (fetches w)) repoFullName with
    | Some repoData => (Returned repoData, w')
    | None => (Threw "fetch failed", w')
    end.

Definition repositoryAnalysis_create (row : RepositoryAnalysisRow) : M unit :=
  fun w => (Returned tt, set_analyses (fun l => l ++ [row]) w).

Definition analyzeRepositoryWithAI (user repoFullName : string) : M value :=
  try_catch
    (let! integration := providerIntegration_findUnique user "github" in
     match integration with
     | None => throw "GitHub integration not found"
     | Some integration =>
         let! tokenData := DeploymentsService.parse_token (encryptedToken integration) in
         let! accessToken := prop tokenData "access_token" in
         let! repoData := fetchRepositoryData repoFullName accessToken in
         let! aiAnalysis := AnalysisService.analyzeRepositoryWithAI env repoData in
         let! w := get_world in
         match find (fun r => String.eqb (fullName r) repoFullName) (repositories w) with
         | Some repository =>
             let! framework := prop aiAnalysis "framework" in
             let! name := prop framework "name" in
             let! version := prop framework "version" in
             let! confidence := prop framework "confidence" in
             let! settings := prop aiAnalysis "buildSettings" in
             repositoryAnalysis_create
               {| ra_repositoryId := repo_id repository; ra_branch := "main";
                  ra_commitSha := "latest"; frameworkName := name;
                  frameworkVersion := version; confidenceScore := confidence;
                  buildConfig := settings; recommendations := aiAnalysis |}
         | None => ret tt
         end;;
         ret aiAnalysis
     end)
    (fun _ => throw "Failed to analyze repository").

(** The rule-based detection on a manifest. *)
Definition detectFramework (packageJson : value) : M value :=
  let! deps := prop packageJson "dependencies" in
  let! devDeps := prop packageJson "devDependencies" in
  let dependencies := VObj (spread (spread_source deps) (spread_source devDeps)) in
  if truthy (get_opt dependencies "next") then
    ret (VObj [("name", VStr "Next.js"); ("version", get_opt dependencies "next");
               ("confidence", VNum "0.95"); ("provider", VStr "vercel");
               ("buildCommand", VStr "npm run build");
               ("startCommand", VStr "npm run start")])
  else if truthy (get_opt dependencies "react") && negb (truthy (get_opt dependencies "next"))
  then
    ret (VObj [("name", VStr "React"); ("version", get_opt dependencies "react");
               ("confidence", VNum "0.85"); ("provider", VStr "netlify");
               ("buildCommand", VStr "npm run build");
               ("startCommand", VStr "npm run start")])
  else if truthy (get_opt dependencies "express") then
    ret (VObj [("name", VStr "Express.js"); ("version", get_opt dependencies "express");
               ("confidence", VNum "0.9"); ("provider", VStr "render");
               ("buildCommand", VStr "npm install");
               ("startCommand", VStr "npm run start")])
  else
    ret (VObj [("name", VStr "Node.js");
               ("confidence", VNum "0.6"); ("provider", VStr "render");
               ("buildCommand", VStr "npm install");
               ("startCommand", VStr "npm run start")]).

End WithEnv.
End RepositoriesService.

(** ** [TokenVault] *)

Module TokenVault.

(** What the vault uses of Node's [crypto] module and of the process
    environment.  Buffers are byte strings. *)
Class NodeCrypto := {
  (** [process.env.MASTER_ENCRYPTION_KEY] *)
  MASTER_ENCRYPTION_KEY : string;
  (** [crypto.randomBytes(size)], for the [n]-th draw of the process *)
  randomBytes : nat -> nat -> string;
  (** [crypto.pbkdf2Sync(password, salt, iterations, keylen, digest)] *)
  pbkdf2Sync : string -> string -> N -> nat -> string -> string;
  (** [createCipher(algorithm, key)], [setAAD(aad)], [update(text)],
      [final()], [getAuthTag()]: the ciphertext and the tag *)
  cipher : string -> string -> string -> string -> string * string;
  (** [createDecipher(algorithm, key)], [setAAD(aad)], [setAuthTag(tag)],
      [update(data)], [final()]: [None] when [final] throws *)
  decipher : string -> string -> string -> string -> string -> option string;
}.

(** Authenticated encryption with associated data, as AES-256-GCM
    provides it: what was sealed under a key and associated data opens
    under the same, and under no other associated data. *)
Class Authenticated (C : NodeCrypto) := {
  decipher_cipher : forall alg key aad text,
    decipher alg key aad (cipher alg key aad text).2 (cipher alg key aad text).1 = Some text;
  decipher_other_aad : forall alg key aad aad' text,
    aad <> aad' ->
    decipher alg key aad' (cipher alg key aad text).2 (cipher alg key aad text).1 = None;
}.

(** [buffer.toString('hex')] *)
Fixpoint to_hex (b : string) : string :=
  match b with
  | EmptyString => EmptyString
  | String c r =>
      String (hex_digit (code c / 16)) (String (hex_digit (code c mod 16)) (to_hex r))
  end.

(** [Buffer.from(s, 'hex')]: decoding stops at the first pair that is not
    hexadecimal. *)
Fixpoint from_hex (s : string) : string :=
  match s with
  | String a (String b r) =>
      match hex_value a, hex_value b with
      | Some x, Some y => String (Ascii.ascii_of_nat (x * 16 + y)) (from_hex r)
      | _, _ => EmptyString
      end
  | _ => EmptyString
  end.

Record EncryptedToken := {
  encryptedData : string;
  salt : string;
  iv : string;
  authTag : string;
  algorithm : string;
  keyDerivationIterations : N;
}.

Section Vault.

Context {C : NodeCrypto}.

Definition vault_algorithm : string := "aes-256-gcm".
Definition vault_iterations : N := 100000%N.

(** [encryptToken(token, userId)] when [n] draws were made before: the
    envelope and the number of draws made after.  The [iv] is drawn and
    stored; [createCipher] takes none. *)
Definition encryptToken (token userId : string) (n : nat) : EncryptedToken * nat :=
  let salt := randomBytes n 32 in
  let key := pbkdf2Sync MASTER_ENCRYPTION_KEY salt vault_iterations 32 "sha256" in
  let iv := randomBytes (S n) 16 in
  let '(encrypted, tag) := cipher vault_algorithm key userId token in
  ({| encryptedData := to_hex encrypted;
      salt := to_hex salt;
      iv := to_hex iv;
      authTag := to_hex tag;
      algorithm := vault_algorithm;
      keyDerivationIterations := vault_iterations |}, S (S n)).

(** [decryptToken(encryptedToken, userId)]; [None] when it throws. *)
Definition decryptToken (encryptedToken : EncryptedToken) (userId : string) : option string :=
  let key := pbkdf2Sync MASTER_ENCRYPTION_KEY (from_hex (salt encryptedToken))
               (keyDerivationIterations encryptedToken) 32 "sha256" in
  decipher (algorithm encryptedToken) key userId
    (from_hex (authTag encryptedToken)) (from_hex (encryptedData encryptedToken)).

End Vault.

(** A toy instance, to run the vault: the key is the salt, the
    ciphertext is the text and the tag is the associated data. *)
Definition toy : NodeCrypto :=
  {| MASTER_ENCRYPTION_KEY := "master";
     randomBytes := fun n size => String.concat "" (repeat (pretty (n mod 10)) size);
     pbkdf2Sync := fun _ salt _ _ _ => salt;
     cipher := fun _ _ aad text => (text, aad);
     decipher := fun _ _ aad tag data => if String.eqb aad tag then Some data else None |}.

End TokenVault.

(** ** Sample data and statements of the specification *)

Definition empty_world : World :=
  {| integrations := ∅; organizations := []; projects := []; deployments := [];
     repositories := []; analyses := []; clock := 1000; ticks := 0; next_id := 0;
     timers := []; fetches := []; calls := []; completions := 0; written := [] |}.

(** Nothing outside answers: every request is rejected, the Vercel
    adapter throws, no completion and no repository data arrive. *)
Definition quiet_env : Env :=
  {| env_elapsed := fun _ => 1; env_fetch := fun _ _ => None;
     env_vercel := fun _ _ => inr "Vercel API error";
     env_completion := fun _ _ => None;
     env_repoData := fun _ _ => None |}.

Definition with_provider (p : value) (r : DeploymentRequest) : DeploymentRequest :=
  {| r_projectId := r_projectId r; r_repositoryUrl := r_repositoryUrl r;
     r_branch := r_branch r; r_provider := p; r_buildSettings := r_buildSettings r |}.

Definition unknown_provider_request : DeploymentRequest :=
  {| r_projectId := "shop"; r_repositoryUrl := "https://github.com/acme/shop";
     r_branch := None; r_provider := VStr "heroku"; r_buildSettings := VUndefined |}.

(** A repository in which only a Dockerfile was found. *)
Definition docker_only : value :=
  VObj [("name", VStr "svc");
        ("files", VObj [("Dockerfile", VStr "FROM node:18")]);
        ("fileStructure", VArr [VStr "Dockerfile"]);
        ("topics", VArr []);
        ("dockerFile", VStr "FROM node:18")].

Definition framework_name (analysis : value) : value :=
  get_opt (get_opt analysis "framework") "name".

Definition framework_confidence (analysis : value) : value :=
  get_opt (get_opt analysis "framework") "confidence".

Definition is_one (v : value) : Prop := v = VNum "1" \/ v = VNum "1.0".

(** Scenario B of the specification, for a detector that returns the
    analysis object. *)
Definition detects_docker (detect : value -> M value) : Prop :=
  forall w, exists r w',
    detect docker_only w = (Returned r, w')
    /\ framework_name r = VStr "Docker" /\ is_one (framework_confidence r).

(** The detection contract of the specification: the output depends on
    the repository data alone and nothing else is touched. *)
Definition analysis_is_pure : Prop :=
  forall (env1 env2 : Env) (repoData : value) (w1 w2 : World),
    (AnalysisService.analyzeRepositoryWithAI env1 repoData w1).1
    = (AnalysisService.analyzeRepositoryWithAI env2 repoData w2).1
    /\ (AnalysisService.analyzeRepositoryWithAI env1 repoData w1).2 = w1.

(** The model answers every request with the same analysis. *)
Definition answering_env : Env :=
  {| env_elapsed := fun _ => 1; env_fetch := fun _ _ => None;
     env_vercel := fun _ _ => inr "Vercel API error";
     env_completion := fun _ _ =>
       Some (VStr (JSON_stringify
                     (VObj [("framework", VObj [("name", VStr "Docker");
                                                ("confidence", VNum "1")])])));
     env_repoData := fun _ _ => None |}.

(** The provider accepts the token and names its owner; the Vercel
    adapter creates the project. *)
Definition accepting_env : Env :=
  {| env_elapsed := fun _ => 1;
     env_fetch := fun _ _ =>
       Some {| ok := true; resp_status := 200; statusText := "OK";
               resp_json := Some (VObj [("uid", VStr "vercel-user-7");
                                        ("username", VStr "ada");
                                        ("email", VStr "ada@example.org");
                                        ("name", VStr "Ada")]);
               resp_text := "" |};
     env_vercel := fun _ _ => inl [("projectId", VStr "prj_1");
                                  ("url", VStr "https://shop.vercel.app");
                                  ("status", VStr "building")];
     env_completion := fun _ _ => None;
     env_repoData := fun _ _ => None |}.

Definition live_token : string := "vcl_live_2f9c1e7a".

Definition connect_body : value := VObj [("token", VStr live_token)].

Definition shop_input : DeployInput :=
  {| userId := "u1"; in_projectId := "shop";
     repositoryUrl := "https://github.com/acme/shop"; in_branch := "main";
     buildSettings := VObj [("buildCommand", VStr "npm run build")];
     githubToken := "user-github-token" |}.

(** The tokens handed to the deployment adapters. *)
Definition adapter_tokens (l : list AdapterCall) : list value :=
  omap (fun c => match c with
                 | CallVercelCreateDeployment p => Some (vp_token p)
                 | CallNetlifyCreateSite p => Some (np_token p)
                 | CallValidateToken _ _ => None
                 end) l.

(** [x] is a deployment of the project of [d] that reached [deployed]
    and started strictly before [d]. *)
Definition prior_deployed (d x : Deployment) : Prop :=
  projectId x = projectId d /\ status x = "deployed" /\ startedAt x < startedAt d.

Definition is_prior_deployed (d x : Deployment) : bool :=
  String.eqb (projectId x) (projectId d)
  && String.eqb (status x) "deployed"
  && (startedAt x <? startedAt d)%nat.

Definition owned_by (i user : string) (d : Deployment) : bool :=
  String.eqb (id d) i && String.eqb (createdBy d) user.

Definition sample_deployment (i st : string) (t : nat) (u : string) : Deployment :=
  {| id := i; projectId := "p1"; branch := "release-" +:+ i; commitSha := "sha-" +:+ i;
     status := st; provider := "vercel"; environment := "production";
     url := VStr ("https://" +:+ u); configuration := VObj [("buildCommand", VStr "make")];
     metadata := VNull; logs := []; startedAt := t; completedAt := None;
     createdBy := "u1" |}.

(** The claim on rollback as it is stated, for every request on a
    stored deployment [d], whoever makes it: when the project has a
    record with status [deployed] that started before [d], rollback
    returns a new record with status [deployed]; when it has none,
    rollback fails for want of a previous deployment. *)
Definition rollback_for_every_request : Prop :=
  forall env user w d,
    In d (deployments w) ->
    ((exists x, In x (deployments w) /\ prior_deployed d x) ->
     exists r w',
       DeploymentsService.rollbackDeployment env (id d) user w = (Returned r, w')
       /\ deployments w' = deployments w ++ [r] /\ status r = "deployed")
    /\ ((forall x, In x (deployments w) -> ~ prior_deployed d x) ->
        exists w',
          DeploymentsService.rollbackDeployment env (id d) user w
          = (Threw "No previous deployment found for rollback", w')).

(** A project with two live deployments, a failed one, and the current
    one, all created by user u1. *)
Definition history_world : World :=
  {| integrations := ∅; organizations := []; projects := [];
     deployments := [sample_deployment "d1" "deployed" 100 "v1.example.org";
                     sample_deployment "d2" "deployed" 200 "v2.example.org";
                     sample_deployment "d3" "failed" 300 "v3.example.org";
                     sample_deployment "d4" "deployed" 400 "v4.example.org"];
     repositories := []; analyses := []; clock := 1000; ticks := 0; next_id := 10;
     timers := []; fetches := []; calls := []; completions := 0; written := [] |}.

(** [m] returns, whatever the world, and what it returns satisfies [Q]. *)
Definition always_returns {A} (m : M A) (Q : A -> Prop) : Prop :=
  forall w, exists a w', m w = (Returned a, w') /\ Q a.

(** What [m] returns, when it returns, satisfies [Q]. *)
Definition returns_only {A} (m : M A) (Q : A -> Prop) : Prop :=
  forall w a w', m w = (Returned a, w') -> Q a.

Definition is_object (v : value) : Prop := exists ms, v = VObj ms.

(** No request gets a successful answer: [fetch] rejects or the status
    is not in the 2xx range. *)
Definition no_request_succeeds (env : Env) : Prop :=
  forall n r, match env_fetch env n r with
              | Some resp => ok resp = false
              | None => True
              end.

Definition shop_site : NetlifyParams :=
  {| np_token := VStr "demo-token"; np_repositoryUrl := "https://github.com/acme/shop.git";
     np_siteName := "Acme Shop"; np_buildCommand := "npm run build";
     np_publishDirectory := "build" |}.

(** [m] changes the world only along the relation [R]. *)
Definition effect {A} (R : relation World) (m : M A) : Prop :=
  forall w, R w (m w).2.

(** The tables of deployments and integrations, the history of writes
    and the pending timers are untouched; identifiers and time only
    advance. *)
Record quiet (w w' : World) : Prop := {
  quiet_integrations : integrations w' = integrations w;
  quiet_deployments : deployments w' = deployments w;
  quiet_written : written w' = written w;
  quiet_timers : timers w' = timers w;
  quiet_next_id : next_id w <= next_id w';
  quiet_clock : clock w <= clock w';
}.

(** Nothing leaves the process: no adapter call, no HTTP request. *)
Record silent (w w' : World) : Prop := {
  silent_calls : calls w' = calls w;
  silent_fetches : fetches w' = fetches w;
}.

(** No adapter is entered, but requests may be sent. *)
Definition same_calls (w w' : World) : Prop := calls w' = calls w.

(** [m] neither reads nor writes the world. *)
Definition pure_computation {A} (m : M A) : Prop :=
  exists o, forall w, m w = (o, w).

(** The claim on missing credentials, for one deployment method and its
    provider: without an integration row the run creates one record,
    leaves it in [requires_setup], and makes no deployment attempt. *)
Definition setup_required_without_credential
  (deploy : Env -> DeployInput -> M value) (prov : string) : Prop :=
  forall env input w,
    integrations w !! (userId input, prov) = None ->
    let w' := (deploy env input w).2 in
    calls w' = calls w
    /\ exists d, deployments w' = deployments w ++ [d] /\ status d = "requires_setup".

(** The claim for every supported provider. *)
Definition missing_credential_needs_setup : Prop :=
  setup_required_without_credential DeploymentsService.deployToVercel "vercel"
  /\ setup_required_without_credential DeploymentsService.deployToNetlify "netlify".

Definition demo_site (input : DeployInput) : NetlifyParams :=
  {| np_token := VStr "demo-token"; np_repositoryUrl := repositoryUrl input;
     np_siteName := in_projectId input; np_buildCommand := "npm run build";
     np_publishDirectory := "build" |}.

(** *** The history of a deployment record *)

Definition cuid_of (n : nat) : string := "c" +:+ pretty n.

Definition timer_id (t : Timer) : string :=
  match callback t with
  | VercelDemoComplete i _ => i
  | NetlifyDemoComplete i _ => i
  end.

(** The successive versions of record [i] among the rows written. *)
Definition versions (i : string) (rows : list Deployment) : list Deployment :=
  List.filter (fun d => String.eqb (id d) i) rows.

(** Timestamps never decrease along the log, starting from [lo]. *)
Fixpoint ordered_after (lo : nat) (l : list LogEntry) : Prop :=
  match l with
  | [] => True
  | e :: r => lo <= timestamp e /\ ordered_after (timestamp e) r
  end.

Definition ordered (l : list LogEntry) : Prop := ordered_after 0 l.

(** The log of the later version begins with the log of the earlier. *)
Definition extends_log (earlier later : Deployment) : Prop :=
  exists more, logs later = logs earlier ++ more.

Definition terminal (s : string) : Prop :=
  s = "deployed" \/ s = "needs_setup" \/ s = "requires_setup" \/ s = "failed".

(** What the specification asks of two successive versions of a record. *)
Definition specified_update (earlier later : Deployment) : Prop :=
  extends_log earlier later
  /\ ~ terminal (status earlier)
  /\ ~ (status earlier = "queued" /\ status later = "deployed").

(** The statuses of the code. *)
Definition in_progress (s : string) : Prop := s = "deploying" \/ s = "demo_deployment".

Definition created_as (s : string) : Prop :=
  in_progress s \/ s = "requires_setup" \/ s = "deployed".

Definition final (s : string) : Prop :=
  s = "deployed" \/ s = "failed" \/ s = "demo_complete" \/ s = "setup_required".

(** A record that an update is to follow is created with a log that
    opens with one of these messages. *)
Definition opens (l : list LogEntry) : Prop :=
  exists e rest,
    l = e :: rest
    /\ (message e = "Deployment started - connecting to Vercel..."
        \/ message e = "🎯 DEMO: This is a simulated deployment for demonstration purposes").

Definition opening (v : Deployment) : Prop := opens (logs v).

(** The log of an update opens with one of these. *)
Definition closes (l : list LogEntry) : Prop :=
  exists e rest,
    l = e :: rest
    /\ (message e = "🚀 Real Vercel project created successfully!"
        \/ message e = "🎉 Netlify site created successfully!"
        \/ message e = "✅ Demo deployment completed"
        \/ exists reason, message e = "❌ " +:+ reason).

Definition closing (v : Deployment) : Prop := closes (logs v).

(** The life of one record: written once when created, and at most once
    more, by an update that ends the run and replaces the log. *)
Definition lifecycle (l : list Deployment) : Prop :=
  match l with
  | [] => True
  | [v0] => created_as (status v0)
  | [v0; v1] =>
      in_progress (status v0) /\ final (status v1)
      /\ opening v0 /\ closing v1
  | _ => False
  end.

(** What one operation adds to the history. *)
Inductive extension (w w' : World) : Prop :=
  | ext_calm :
      written w' = written w -> timers w' = timers w -> next_id w <= next_id w' ->
      extension w w'
  | ext_created (v0 : Deployment) (n : nat) :
      next_id w <= n -> n < next_id w' -> id v0 = cuid_of n ->
      created_as (status v0) -> ordered (logs v0) ->
      written w' = written w ++ [v0] -> timers w' = timers w ->
      extension w w'
  | ext_pending (v0 : Deployment) (n : nat) (t : Timer) :
      next_id w <= n -> n < next_id w' -> id v0 = cuid_of n ->
      in_progress (status v0) -> opening v0 -> ordered (logs v0) ->
      written w' = written w ++ [v0] -> timers w' = timers w ++ [t] ->
      timer_id t = id v0 ->
      extension w w'
  | ext_finished (v0 v1 : Deployment) (n : nat) :
      next_id w <= n -> n < next_id w' -> id v0 = cuid_of n -> id v1 = id v0 ->
      in_progress (status v0) -> final (status v1) -> opening v0 -> closing v1 ->
      ordered (logs v0) -> ordered (logs v1) ->
      written w' = written w ++ [v0; v1] -> timers w' = timers w ->
      extension w w'
  | ext_fired (l1 l2 : list Timer) (t : Timer) (v1 : Deployment) :
      timers w = l1 ++ t :: l2 -> timers w' = l1 ++ l2 -> next_id w <= next_id w' ->
      id v1 = timer_id t -> status v1 = "demo_complete" -> closing v1 ->
      ordered (logs v1) ->
      written w' = written w ++ [v1] ->
      extension w w'
  | ext_dropped (l1 l2 : list Timer) (t : Timer) :
      timers w = l1 ++ t :: l2 -> timers w' = l1 ++ l2 -> next_id w <= next_id w' ->
      written w' = written w ->
      extension w w'.

(** The invariant that the operations maintain. *)
Record consistent (w : World) : Prop := {
  written_ids : forall v, In v (written w) -> exists n, n < next_id w /\ id v = cuid_of n;
  timer_ids : forall t, In t (timers w) -> exists n, n < next_id w /\ timer_id t = cuid_of n;
  timers_distinct : NoDup (map timer_id (timers w));
  timers_pending : forall t, In t (timers w) ->
    exists v0, versions (timer_id t) (written w) = [v0]
               /\ in_progress (status v0) /\ opening v0;
  lifecycles : forall i, lifecycle (versions i (written w));
  logs_ordered : forall v, In v (written w) -> ordered (logs v);
}.

(** The operations of the backend that touch deployment records or
    credentials. *)
Inductive step (env : Env) (w : World) : World -> Prop :=
  | step_deployToVercel input :
      step env w (DeploymentsService.deployToVercel env input w).2
  | step_deployToNetlify input :
      step env w (DeploymentsService.deployToNetlify env input w).2
  | step_timer k :
      step env w (DeploymentsService.fire_timer env k w).2
  | step_rollback i user :
      step env w (DeploymentsService.rollbackDeployment env i user w).2
  | step_connect provider body user :
      step env w (IntegrationsController.connectProvider env provider body user w).2.

(** The worlds that the operations reach from a store without history. *)
Definition reachable (env : Env) (w : World) : Prop :=
  exists w0, written w0 = [] /\ timers w0 = [] /\ rtc (step env) w0 w.

(** The invariant of the specification on deployment records. *)
Definition specified_history : Prop :=
  forall env w, reachable env w ->
    forall i k earlier later,
      versions i (written w) !! k = Some earlier ->
      versions i (written w) !! S k = Some later ->
      specified_update earlier later.

(** The deployment id that the answer to a deployment request carries. *)
Definition response_id (v : value) : value :=
  js_or (get_opt v "id") (get_opt (get_opt v "deployment") "id").

(** The stored credential can be read and the build settings can be
    detected: the steps of [deployToVercel] that are not guarded by a
    [try]. *)
Definition vercel_ready (input : DeployInput) (o : option ProviderIntegration) : Prop :=
  match o with
  | None => True
  | Some row =>
      exists tokenData real settings,
        (forall w, DeploymentsService.parse_token (encryptedToken row) w
                   = (Returned tokenData, w))
        /\ (forall w, DeploymentsService.is_real_token tokenData "demo-vercel-token" w
                      = (Returned real, w))
        /\ (forall w, DeploymentsService.detectBuildSettings (buildSettings input) w
                      = (Returned settings, w))
  end.

Definition netlify_ready (o : option ProviderIntegration) : Prop :=
  match o with
  | None => True
  | Some row =>
      exists tokenData real,
        (forall w, DeploymentsService.parse_token (encryptedToken row) w
                   = (Returned tokenData, w))
        /\ (forall w, DeploymentsService.is_real_token tokenData "demo-netlify-token" w
                      = (Returned real, w))
  end.

(** The block that opens a deployment method succeeds. *)
Definition startable (env : Env) (input : DeployInput) (w : World) : Prop :=
  exists p w1, DeploymentsService.find_or_create_project env input w = (Returned p, w1).

(** What is known of a deployment request that was answered. *)
Record accepted (env : Env) (input : DeployInput) (w w' : World) (v : value) : Prop := {
  accepted_project : startable env input w;
  accepted_id :
    exists n, next_id w <= n /\ n < next_id w' /\ response_id v = VStr (cuid_of n);
  accepted_named :
    exists p, In p (projects w') /\ proj_name p = in_projectId input;
  accepted_recorded :
    exists d, In d (written w') /\ response_id v = VStr (id d);
}.

(** Only the clock and the traces of outgoing traffic move. *)
Record remote (w w' : World) : Prop := {
  remote_integrations : integrations w' = integrations w;
  remote_deployments : deployments w' = deployments w;
  remote_written : written w' = written w;
  remote_timers : timers w' = timers w;
  remote_next_id : next_id w' = next_id w;
  remote_projects : projects w' = projects w;
  remote_clock : clock w <= clock w';
}.

(** The history and the pending timers are untouched; identifiers only
    advance. *)
Record calm (w w' : World) : Prop := {
  calm_written : written w' = written w;
  calm_timers : timers w' = timers w;
  calm_next_id : next_id w <= next_id w';
}.

(** What a run of a deployment method does to the history; what is
    known when it returns; and that it only throws when its opening
    block throws or the stored credential or the build settings cannot
    be read. *)
Definition deploy_post (ready : Prop) (env : Env) (input : DeployInput) (w : World)
  (r : Outcome value * World) : Prop :=
  extension w r.2
  /\ integrations r.2 = integrations w
  /\ match r.1 with
     | Returned v => accepted env input w r.2 v /\ ready
     | Threw _ => ~ (startable env input w /\ ready)
     end.

(** The controller rejects a request for a deployment that is under
    way: the claim on concurrent requests, with the second request
    issued after the first was answered and before its timer ran. *)
Definition conflict_rejected : Prop :=
  forall env user request w v1 w1,
    DeploymentsController.createDeployment env user request w = (Returned v1, w1) ->
    (exists d, In d (deployments w1) /\ response_id v1 = VStr (id d)
               /\ in_progress (status d)) ->
    exists e w2,
      DeploymentsController.createDeployment env user request w1 = (Threw e, w2).

(** A demo deployment on Netlify from an empty store, and the world
    after its timer ran. *)
Definition demo_started : World :=
  (DeploymentsService.deployToNetlify quiet_env shop_input empty_world).2.

Definition demo_run : World :=
  (DeploymentsService.fire_timer quiet_env 0 demo_started).2.

(** A deployment request for Netlify. *)
Definition shop_request : DeploymentRequest :=
  with_provider (VStr "netlify") unknown_provider_request.

(** ** Further statements on the services *)

(** A property that is a string when it is there at all. *)
Definition text_or_absent (v : value) : Prop :=
  v = VUndefined \/ v = VNull \/ exists s, v = VStr s.

(** ** [DeploymentsService]: the read methods *)

Module DeploymentsReads.

(** A deployment with the relation that [include: { project: ... }]
    joins to it.  The nested [repository] of the project is [null] for
    every project of this store: no code sets [repositoryId]. *)
Record DeploymentWithProject := {
  deployment : Deployment;
  project : option Project;
}.

Definition with_project (w : World) (d : Deployment) : DeploymentWithProject :=
  {| deployment := d;
     project := find (fun p => String.eqb (proj_id p) (projectId d)) (projects w) |}.

Definition getDeploymentStatus (deploymentId userId : string) : M DeploymentWithProject :=
  let! found := deployment_findFirst_owned deploymentId userId in
  match found with
  | None => throw "Deployment not found"
  | Some d => fun w => (Returned (with_project w d), w)
  end.

(** [orderBy: { startedAt: 'desc' }]: rows in decreasing [startedAt];
    among rows that started together the database is free, and so is
    this insertion. *)
Fixpoint insert_desc (d : Deployment) (l : list Deployment) : list Deployment :=
  match l with
  | [] => [d]
  | x :: r => if (startedAt x <? startedAt d)%nat then d :: x :: r
              else x :: insert_desc d r
  end.

Definition orderBy_startedAt_desc (l : list Deployment) : list Deployment :=
  foldr insert_desc [] l.

Definition getUserDeployments (userId : string) (limit : nat)
  : M (list DeploymentWithProject) :=
  fun w =>
    (Returned
       (map (with_project w)
          (take limit
             (orderBy_startedAt_desc
                (List.filter (fun d => String.eqb (createdBy d) userId) (deployments w))))),
     w).

(** The default of [limit]. *)
Definition default_limit : nat := 10.

End DeploymentsReads.

(** Every row started no earlier than the rows after it. *)
Fixpoint newest_first (l : list Deployment) : Prop :=
  match l with
  | [] => True
  | x :: r => Forall (fun y => startedAt y <= startedAt x) r /\ newest_first r
  end.

(** The adapter calls made are calls that satisfy [P]. *)
Definition calls_only (P : AdapterCall -> Prop) (w w' : World) : Prop :=
  exists l, calls w' = calls w ++ l /\ Forall P l.

(** A call of [NetlifyService.createSiteFromRepo] for the repository and
    the project of [input], with the build command and the publish
    directory that [deployToNetlify] writes out. *)
Definition netlify_call_of (input : DeployInput) (c : AdapterCall) : Prop :=
  exists token,
    c = CallNetlifyCreateSite
          {| np_token := token; np_repositoryUrl := repositoryUrl input;
             np_siteName := in_projectId input; np_buildCommand := "npm run build";
             np_publishDirectory := "build" |}.

(** A call of [VercelService.createDeployment] for the repository and
    the project of [input], with the build settings that
    [detectBuildSettings] returns. *)
Definition vercel_call_of (input : DeployInput) (c : AdapterCall) : Prop :=
  exists token settings w,
    DeploymentsService.detectBuildSettings (buildSettings input) w = (Returned settings, w)
    /\ c = CallVercelCreateDeployment
             {| vp_token := token; vp_repositoryUrl := repositoryUrl input;
                vp_projectName := in_projectId input;
                vp_buildCommand := DeploymentsService.buildCommand settings;
                vp_outputDirectory := DeploymentsService.outputDirectory settings;
                vp_installCommand := DeploymentsService.installCommand settings |}.

(** The tables of projects and organizations are untouched, and the
    history of writes to [deployments] only grows. *)
Record appends (w w' : World) : Prop := {
  appends_projects : projects w' = projects w;
  appends_organizations : organizations w' = organizations w;
  appends_written : exists l, written w' = written w ++ l;
}.

(** Build settings whose [name] is not a string, and a request that
    carries them. *)
Definition untyped_settings : value := VObj [("name", VNum "5")].

Definition untyped_input : DeployInput :=
  {| userId := "u1"; in_projectId := "shop";
     repositoryUrl := "https://github.com/acme/shop"; in_branch := "main";
     buildSettings := untyped_settings; githubToken := "user-github-token" |}.

(** The store after user u1 connected a Vercel account. *)
Definition connected_world : World :=
  (IntegrationsController.connectProvider accepting_env "vercel" connect_body "u1"
     empty_world).2.

(** A request for a repository that is not on GitHub. *)
Definition gitlab_input : DeployInput :=
  {| userId := "u1"; in_projectId := "shop";
     repositoryUrl := "https://gitlab.com/acme/shop"; in_branch := "main";
     buildSettings := VUndefined; githubToken := "user-github-token" |}.

(** Requests of users u1 and u2 for projects by name. *)
Definition request_of (user name : string) : DeployInput :=
  {| userId := user; in_projectId := name;
     repositoryUrl := "https://github.com/acme/shop"; in_branch := "main";
     buildSettings := VUndefined; githubToken := "user-github-token" |}.

(** The store after user u2 deployed a project named My Shop. *)
Definition shop_world : World :=
  (DeploymentsService.deployToNetlify quiet_env (request_of "u2" "My Shop") empty_world).2.

(** ** [NetlifyService]: the site calls *)

Module NetlifySites.
Section WithEnv.

Context (env : Env).

Definition getSite (siteId token : value) : M value :=
  try_catch
    (let! response :=
       fetch env {| req_method := "GET";
                    req_url := "https://api.netlify.com/api/v1/sites/" +:+ to_str siteId;
                    req_headers := [NetlifyService.bearer token];
                    req_body := None |} in
     if negb (ok response) then throw ("Netlify API error: " +:+ statusText response)
     else json response)
    (fun error => throw error).

Definition triggerDeploy (siteId token : value) : M value :=
  try_catch
    (let! response :=
       fetch env {| req_method := "POST";
                    req_url := "https://api.netlify.com/api/v1/sites/" +:+ to_str siteId
                               +:+ "/deploys";
                    req_headers := NetlifyService.json_headers token;
                    req_body := Some (JSON_stringify (VObj [("branch", VStr "main")])) |} in
     if negb (ok response) then throw ("Netlify API error: " +:+ statusText response)
     else json response)
    (fun error => throw error).

End WithEnv.
End NetlifySites.

(** The requests sent from [w] to [w'] all satisfy [P]. *)
Definition requests_only (P : Request -> Prop) (w w' : World) : Prop :=
  exists l, fetches w' = fetches w ++ l /\ Forall P l.

(** A request to the Netlify API that carries [token] as bearer. *)
Definition netlify_request (token : value) (r : Request) : Prop :=
  String.prefix "https://api.netlify.com/api/v1/" (req_url r) = true
  /\ In (NetlifyService.bearer token) (req_headers r).

(** A request to the GitHub API without an [Authorization] header. *)
Definition github_anonymous (r : Request) : Prop :=
  String.prefix "https://api.github.com/repos/" (req_url r) = true
  /\ forall h, In h (req_headers r) -> h.1 <> "Authorization".

(** What is known of the answer [v] of a [validateToken] that sent
    [req] as the [n]-th request: [valid] is a boolean, and it is [true]
    only when the provider answered the request with a success status
    and a JSON body, the account whose member [key] is the user id of
    the answer. *)
Definition validated (env : Env) (n : nat) (req : Request) (key : string) (v : value)
  : Prop :=
  (get_opt v "valid" = VBool true \/ get_opt v "valid" = VBool false)
  /\ (get_opt v "valid" = VBool true ->
      exists resp account,
        env_fetch env n req = Some resp /\ ok resp = true
        /\ resp_json resp = Some account
        /\ get_opt (get_opt v "user") "id" = get_opt account key
        /\ get_opt (get_opt v "user") "email" = get_opt account "email").

(** ** [RepositoriesController.deployRepository] *)

(** The body of [POST /repositories/:owner/:repo/deploy]. *)
Record DeployOptions := {
  o_projectId : option string;
  o_branch : option string;
  o_provider : value;
}.

Module RepositoriesController.
Section WithEnv.

Context (env : Env).

(** [s || d] on an optional string. *)
Definition or_default (o : option string) (d : string) : string :=
  match o with
  | Some s => if String.eqb s "" then d else s
  | None => d
  end.

Definition deploymentData (owner repo user : string) (deploymentOptions : DeployOptions)
  (buildSettings : value) : DeployInput :=
  {| userId := user;
     in_projectId := or_default (o_projectId deploymentOptions) (owner +:+ "-" +:+ repo);
     repositoryUrl := "https://github.com/" +:+ owner +:+ "/" +:+ repo;
     in_branch := or_default (o_branch deploymentOptions) "main";
     buildSettings := buildSettings;
     githubToken := "github-token" |}.

Definition deployRepository (owner repo user : string) (deploymentOptions : DeployOptions)
  : M value :=
  let repoFullName := owner +:+ "/" +:+ repo in
  try_catch
    (let! analysis := RepositoriesService.analyzeRepositoryWithAI env user repoFullName in
     let! buildSettings := prop analysis "buildSettings" in
     let data := deploymentData owner repo user deploymentOptions buildSettings in
     let! provider :=
       (if truthy (o_provider deploymentOptions) then ret (o_provider deploymentOptions)
        else let! recommended := prop analysis "deployment" in
             prop recommended "recommendedProvider") in
     let! deploymentResult :=
       (if negb (DeploymentsService.strict_neq_str provider "vercel")
        then DeploymentsService.deployToVercel env data
        else DeploymentsService.deployToNetlify env data) in
     let! analysisDeployment := prop analysis "deployment" in
     let! deploymentId := prop deploymentResult "id" in
     ret (VObj [("success", VBool true);
                ("deployment", deploymentResult);
                ("analysis", analysisDeployment);
                ("message", VStr ("Deployment initiated to " +:+ to_str provider));
                ("deploymentId", deploymentId)]))
    (fun error =>
       ret (VObj [("success", VBool false);
                  ("error", VStr error);
                  ("message",
                   VStr "Deployment failed. Please check your provider connections.")])).

End WithEnv.
End RepositoriesController.

(** User u1 has a GitHub integration; the repository data arrive, the
    chat completion does not. *)
Definition github_world : World :=
  {| integrations :=
       {[ ("u1", "github") :=
            {| pi_id := "i1"; pi_userId := "u1"; pi_provider := "github";
               externalId := VStr "gh-1";
               encryptedToken := JSON_stringify (VObj [("access_token", VStr "gho_1")]);
               scopes := VArr []; pi_updatedAt := 900 |} ]};
     organizations := []; projects := []; deployments := [];
     repositories := []; analyses := []; clock := 1000; ticks := 0; next_id := 0;
     timers := []; fetches := []; calls := []; completions := 0; written := [] |}.

Definition repository_env : Env :=
  {| env_elapsed := fun _ => 1; env_fetch := fun _ _ => None;
     env_vercel := fun _ _ => inr "Vercel API error";
     env_completion := fun _ _ => None;
     env_repoData := fun _ _ => Some docker_only |}.

Definition options_for (p : string) : DeployOptions :=
  {| o_projectId := None; o_branch := None; o_provider := VStr p |}.

Definition is_netlify_call (c : AdapterCall) : Prop :=
  exists p, c = CallNetlifyCreateSite p.

(** The tables of repositories and of stored analyses are as they were. *)
Definition same_tables (w w' : World) : Prop :=
  repositories w' = repositories w /\ analyses w' = analyses w.

(** ** Access control, validation and environment variables of the
    security notes *)

Module Permission.

Inductive t : Set :=
  | PROJECT_READ | PROJECT_WRITE | PROJECT_DELETE | PROJECT_DEPLOY
  | ENV_READ | ENV_WRITE
  | ORG_READ | ORG_WRITE | ORG_MANAGE_MEMBERS | ORG_BILLING
  | SYSTEM_ADMIN.

Global Instance eq_dec : EqDecision t.
Proof. solve_decision. Defined.

End Permission.

Module Role.

Inductive t : Set :=
  | SYSTEM_ADMIN | ORG_OWNER | ORG_ADMIN | ORG_MEMBER
  | PROJECT_ADMIN | PROJECT_DEVELOPER | PROJECT_VIEWER.

End Role.

(** The table [rolePermissions]; [None] is the [undefined] that a role
    without an entry reads. *)
Definition rolePermissions (role : Role.t) : option (list Permission.t) :=
  match role with
  | Role.SYSTEM_ADMIN => Some [Permission.SYSTEM_ADMIN]
  | Role.ORG_OWNER =>
      Some [Permission.ORG_READ; Permission.ORG_WRITE; Permission.ORG_MANAGE_MEMBERS;
            Permission.ORG_BILLING; Permission.PROJECT_READ; Permission.PROJECT_WRITE;
            Permission.PROJECT_DELETE; Permission.PROJECT_DEPLOY; Permission.ENV_READ;
            Permission.ENV_WRITE]
  | Role.ORG_ADMIN =>
      Some [Permission.ORG_READ; Permission.ORG_MANAGE_MEMBERS;
            Permission.PROJECT_READ; Permission.PROJECT_WRITE; Permission.PROJECT_DEPLOY;
            Permission.ENV_READ; Permission.ENV_WRITE]
  | Role.PROJECT_DEVELOPER =>
      Some [Permission.PROJECT_READ; Permission.PROJECT_DEPLOY;
            Permission.ENV_READ; Permission.ENV_WRITE]
  | Role.PROJECT_VIEWER => Some [Permission.PROJECT_READ; Permission.ENV_READ]
  | Role.ORG_MEMBER | Role.PROJECT_ADMIN => None
  end.

Module RBACManager.
Section WithRoles.

(** [getUserRoles] is not part of the notes. *)
Context (getUserRoles : string -> option string -> list Role.t).

(** [permissions.add(perm)] on a [Set], in insertion order. *)
Definition add (permissions : list Permission.t) (perm : Permission.t)
  : list Permission.t :=
  if bool_decide (perm ∈ permissions) then permissions else permissions ++ [perm].

Definition getUserPermissions (userId : string) (resourceId : option string)
  : list Permission.t :=
  let roles := getUserRoles userId resourceId in
  foldl (fun permissions role => foldl add permissions (default [] (rolePermissions role)))
    [] roles.

Definition checkPermission (userId : string) (permission : Permission.t)
  (resourceId : option string) : bool :=
  let userPermissions := getUserPermissions userId resourceId in
  bool_decide (permission ∈ userPermissions)
  || bool_decide (Permission.SYSTEM_ADMIN ∈ userPermissions).

End WithRoles.
End RBACManager.

Module InputValidator.

(** The class [[;&|`$(){}[\]\\]]. *)
Definition dangerous (c : ascii) : bool :=
  existsb (Ascii.eqb c) (list_ascii_of_string ";&|`$(){}[]" ++ [backslash]).

Fixpoint remove_chars (p : ascii -> bool) (s : string) : string :=
  match s with
  | EmptyString => EmptyString
  | String c r => if p c then remove_chars p r else String c (remove_chars p r)
  end.

(** [command.replace(dangerous, '')] *)
Definition sanitizeShellCommand (command : string) : string :=
  remove_chars dangerous command.

End InputValidator.

(** ** The data services of the security notes *)

Module Notes.

Record User := {
  u_id : string;
  u_email : string;
  u_name : string;
}.

(** A row of [environment_variables]; [(projectId, environment, key)] is
    unique. *)
Record EnvironmentVariable := {
  ev_projectId : string;
  ev_environment : string;
  ev_key : string;
  encryptedValue : string;
  isSecret : bool;
  classification : string;
  ev_updatedAt : option nat;
}.

(** The database of the notes, and what was handed to the services
    around it: the log aggregator, the alert manager and the cache. *)
Record Store := {
  st_users : list User;
  st_projects : list Project;
  st_deployments : list Deployment;
  st_integrations : gmap (string * string) ProviderIntegration;
  environmentVariables : gmap (string * string * string) EnvironmentVariable;
  auditLogs : list value;
  aggregated : list value;
  alerts : list value;
  cache_deleted : list string;
  st_clock : nat;
  st_ticks : nat;
  st_uuids : nat;
}.

Definition set_environmentVariables
  (f : gmap (string * string * string) EnvironmentVariable
       -> gmap (string * string * string) EnvironmentVariable) (s : Store) : Store :=
  {| st_users := st_users s; st_projects := st_projects s;
     st_deployments := st_deployments s; st_integrations := st_integrations s;
     environmentVariables := f (environmentVariables s);
     auditLogs := auditLogs s; aggregated := aggregated s; alerts := alerts s;
     cache_deleted := cache_deleted s;
     st_clock := st_clock s; st_ticks := st_ticks s; st_uuids := st_uuids s |}.

Record VariableClassification := {
  cls_type : string;
  cls_isSecret : bool;
}.

(** [/.*pattern.*/i.test(key)] for a pattern of lower-case letters and
    underscores. *)
Definition test_i (key pattern : string) : bool := includes (toLowerCase key) pattern.

Definition secretPatterns : list string :=
  ["password"; "secret"; "key"; "token"; "auth"; "api_key"].

Definition databasePatterns : list string :=
  ["database_url"; "db_url"; "connection_string"; "mongo"; "redis"].

Definition classifyVariable (key value : string) : VariableClassification :=
  if existsb (test_i key) secretPatterns then {| cls_type := "secret"; cls_isSecret := true |}
  else if existsb (test_i key) databasePatterns
  then {| cls_type := "database"; cls_isSecret := true |}
  else if startsWith value "http://" || startsWith value "https://"
  then {| cls_type := "url"; cls_isSecret := false |}
  else {| cls_type := "general"; cls_isSecret := false |}.

Definition criticalActions : list string :=
  ["user_deleted"; "organization_deleted"; "project_deleted"; "mass_env_var_update";
   "admin_access_granted"; "security_settings_changed"].

(** [criticalActions.includes(action)] *)
Definition isCriticalEvent (action : value) : bool :=
  match action with
  | VStr a => existsb (String.eqb a) criticalActions
  | _ => false
  end.

Section Services.

(** What the notes use and do not define: the clock, [crypto.randomUUID],
    [encryptValue], [getCurrentUserId] and [getUserOrganizations]. *)
Context (elapsed : nat -> nat) (randomUUID : nat -> string)
        (encryptValue : string -> string -> string)
        (getCurrentUserId : value)
        (getUserOrganizations : Store -> string -> list string).

(** [new Date()], and the store after the clock was read. *)
Definition read_clock (s : Store) : nat * Store :=
  let t := st_clock s + elapsed (st_ticks s) in
  (t, {| st_users := st_users s; st_projects := st_projects s;
         st_deployments := st_deployments s; st_integrations := st_integrations s;
         environmentVariables := environmentVariables s;
         auditLogs := auditLogs s; aggregated := aggregated s; alerts := alerts s;
         cache_deleted := cache_deleted s;
         st_clock := t; st_ticks := S (st_ticks s); st_uuids := st_uuids s |}).

(** [AuditLogger.log(event)]: the event is stored, sent to the log
    aggregator, and raises an alert when its action is critical. *)
Definition log (event : list (string * value)) (s : Store) : Store :=
  let eventId := randomUUID (st_uuids s) in
  let '(t, s1) := read_clock s in
  let auditEvent :=
    VObj (spread [("eventId", VStr eventId); ("timestamp", VNum (pretty t))] event) in
  {| st_users := st_users s1; st_projects := st_projects s1;
     st_deployments := st_deployments s1; st_integrations := st_integrations s1;
     environmentVariables := environmentVariables s1;
     auditLogs := auditLogs s1 ++ [auditEvent];
     aggregated := aggregated s1 ++ [auditEvent];
     alerts :=
       if isCriticalEvent (assoc "action" event)
       then alerts s1 ++
            [VObj [("type", VStr "security"); ("severity", VStr "high");
                   ("message",
                    VStr ("Critical action performed: " +:+ to_str (assoc "action" event)));
                   ("details", auditEvent)]]
       else alerts s1;
     cache_deleted := cache_deleted s1;
     st_clock := st_clock s1; st_ticks := st_ticks s1; st_uuids := S (st_uuids s) |}.

Definition setEnvironmentVariable
  (projectId environment key value : string) (secret : bool) (s : Store) : Store :=
  let classification := classifyVariable key value in
  let storedValue :=
    if cls_isSecret classification || secret then encryptValue value projectId else value in
  let '(t, s0) := read_clock s in
  let s1 :=
    set_environmentVariables
      <[(projectId, environment, key) :=
          match environmentVariables s !! (projectId, environment, key) with
          | Some row =>
              {| ev_projectId := ev_projectId row; ev_environment := ev_environment row;
                 ev_key := ev_key row; encryptedValue := storedValue;
                 isSecret := isSecret row; classification := Notes.classification row;
                 ev_updatedAt := Some t |}
          | None =>
              {| ev_projectId := projectId; ev_environment := environment; ev_key := key;
                 encryptedValue := storedValue;
                 isSecret := cls_isSecret classification || secret;
                 classification := cls_type classification;
                 ev_updatedAt := None |}
          end]> s0 in
  log [("action", VStr "env_var_updated");
       ("projectId", VStr projectId);
       ("environment", VStr environment);
       ("key", VStr key);
       ("isSecret", VBool (cls_isSecret classification || secret));
       ("userId", getCurrentUserId)] s1.

(** One call of [setEnvironmentVariable]. *)
Record SetCall := {
  sc_projectId : string;
  sc_environment : string;
  sc_key : string;
  sc_value : string;
  sc_secret : bool;
}.

Definition run_call (s : Store) (c : SetCall) : Store :=
  setEnvironmentVariable (sc_projectId c) (sc_environment c) (sc_key c) (sc_value c)
    (sc_secret c) s.

(** The rows that [deleteUserData] selects. *)
Definition in_organizations (s : Store) (orgs : list string) (row : EnvironmentVariable)
  : bool :=
  match find (fun p => String.eqb (proj_id p) (ev_projectId row)) (st_projects s) with
  | Some p => existsb (String.eqb (organizationId p)) orgs
  | None => false
  end.

Definition logged_by (userId : string) (event : value) : bool :=
  match get_opt event "userId" with
  | VStr u => String.eqb u userId
  | _ => false
  end.

Definition anonymize (event : value) : value :=
  match event with
  | VObj ms =>
      VObj (obj_set "details" (VObj [("anonymized", VBool true)])
              (obj_set "userId" VNull ms))
  | _ => event
  end.

(** [GDPRCompliance.deleteUserData]: the transaction, which is undone
    when [users.delete] finds no row of the user, then the cache and the
    audit log.  Rows that refer to the user do not block the deletion. *)
Definition deleteUserData (userId : string) (retainAuditLogs : bool) (s : Store)
  : Outcome unit * Store :=
  let deployments' :=
    List.filter (fun d => negb (String.eqb (createdBy d) userId)) (st_deployments s) in
  let s1 :=
    {| st_users := st_users s; st_projects := st_projects s;
       st_deployments := deployments'; st_integrations := st_integrations s;
       environmentVariables := environmentVariables s;
       auditLogs := auditLogs s; aggregated := aggregated s; alerts := alerts s;
       cache_deleted := cache_deleted s;
       st_clock := st_clock s; st_ticks := st_ticks s; st_uuids := st_uuids s |} in
  let orgs := getUserOrganizations s1 userId in
  let variables' :=
    filter (fun kv => in_organizations s orgs kv.2 = false) (environmentVariables s) in
  let integrations' := filter (fun kv => pi_userId kv.2 <> userId) (st_integrations s) in
  let logs' :=
    if retainAuditLogs
    then map (fun e => if logged_by userId e then anonymize e else e) (auditLogs s)
    else List.filter (fun e => negb (logged_by userId e)) (auditLogs s) in
  if existsb (fun u => String.eqb (u_id u) userId) (st_users s) then
    let s2 :=
      {| st_users := List.filter (fun u => negb (String.eqb (u_id u) userId)) (st_users s);
         st_projects := st_projects s;
         st_deployments := deployments';
         st_integrations := integrations';
         environmentVariables := variables';
         auditLogs := logs';
         aggregated := aggregated s; alerts := alerts s;
         cache_deleted := cache_deleted s ++ ["user:" +:+ userId +:+ ":*"];
         st_clock := st_clock s; st_ticks := st_ticks s; st_uuids := st_uuids s |} in
    (Returned tt,
     log [("action", VStr "user_data_deleted");
          ("resource", VStr "user");
          ("resourceId", VStr userId);
          ("details", VObj [("retainAuditLogs", VBool retainAuditLogs)]);
          ("success", VBool true);
          ("ipAddress", VStr "");
          ("userAgent", VStr "system")] s2)
  else (Threw "Record to delete does not exist.", s).

End Services.
End Notes.

(** The keys that [classifyVariable] takes for secrets, whatever the
    value. *)
Definition secret_key (key : string) : bool :=
  existsb (Notes.test_i key) Notes.secretPatterns
  || existsb (Notes.test_i key) Notes.databasePatterns.

(** Every stored variable with such a key holds an encrypted value. *)
Definition sealed (encryptValue : string -> string -> string) (s : Notes.Store) : Prop :=
  forall p e k row,
    Notes.environmentVariables s !! (p, e, k) = Some row ->
    secret_key k = true ->
    exists v, Notes.encryptedValue row = encryptValue v p.

Definition empty_store : Notes.Store :=
  {| Notes.st_users := []; Notes.st_projects := []; Notes.st_deployments := [];
     Notes.st_integrations := ∅; Notes.environmentVariables := ∅;
     Notes.auditLogs := []; Notes.aggregated := []; Notes.alerts := [];
     Notes.cache_deleted := [];
     Notes.st_clock := 1000; Notes.st_ticks := 0; Notes.st_uuids := 0 |}.

(** Toy services, to run the notes. *)
Definition toy_encrypt (value projectId : string) : string :=
  "enc(" +:+ projectId +:+ ":" +:+ value +:+ ")".

Definition toy_uuid (n : nat) : string := "uuid-" +:+ pretty n.

Definition port_calls : list Notes.SetCall :=
  [ {| Notes.sc_projectId := "p1"; Notes.sc_environment := "production";
       Notes.sc_key := "PORT"; Notes.sc_value := "8080"; Notes.sc_secret := true |};
    {| Notes.sc_projectId := "p1"; Notes.sc_environment := "production";
       Notes.sc_key := "PORT"; Notes.sc_value := "8081"; Notes.sc_secret := false |};
    {| Notes.sc_projectId := "p1"; Notes.sc_environment := "production";
       Notes.sc_key := "API_TOKEN"; Notes.sc_value := "t0k"; Notes.sc_secret := false |} ].

(** ** [AdvancedRateLimiter]

    The commands of a call reach Redis at the time [Date.now()] read at
    its start. *)

Module AdvancedRateLimiter.

(** A sorted set as its members with their scores, and the time at which
    each key expires. *)
Record Redis := {
  zsets : gmap string (list (string * Z));
  expires : gmap string Z;
}.

(** The members of [key] at time [now]: none when the key has expired. *)
Definition members_at (now : Z) (key : string) (r : Redis) : list (string * Z) :=
  match expires r !! key with
  | Some t => if (t <=? now)%Z then [] else default [] (zsets r !! key)
  | None => default [] (zsets r !! key)
  end.

(** Writing the members of [key] at time [now]: an expired key is gone
    with its expiry time, and so is a key that is left empty. *)
Definition put_members (now : Z) (key : string) (ms : list (string * Z)) (r : Redis)
  : Redis :=
  let expired := match expires r !! key with
                 | Some t => (t <=? now)%Z
                 | None => false
                 end in
  match ms with
  | [] => {| zsets := delete key (zsets r); expires := delete key (expires r) |}
  | _ => {| zsets := <[key := ms]> (zsets r);
            expires := if expired then delete key (expires r) else expires r |}
  end.

(** [ZREMRANGEBYSCORE key lo hi] *)
Definition zremrangebyscore (now : Z) (key : string) (lo hi : Z) (r : Redis) : Redis :=
  put_members now key
    (List.filter (fun m => negb ((lo <=? m.2)%Z && (m.2 <=? hi)%Z)) (members_at now key r)) r.

(** [ZCARD key] *)
Definition zcard (now : Z) (key : string) (r : Redis) : Z :=
  Z.of_nat (List.length (members_at now key r)).

(** The score that [ZRANGE key 0 0 WITHSCORES] reports: the least. *)
Definition zrange_first_score (now : Z) (key : string) (r : Redis) : option Z :=
  match members_at now key r with
  | [] => None
  | m :: ms => Some (fold_right Z.min m.2 (map snd ms))
  end.

(** [ZADD key score member]: a member that is there gets the new
    score. *)
Definition zadd (now : Z) (key : string) (score : Z) (member : string) (r : Redis) : Redis :=
  put_members now key
    (List.filter (fun m => negb (String.eqb m.1 member)) (members_at now key r)
     ++ [(member, score)]) r.

(** [EXPIRE key seconds] *)
Definition expire (now : Z) (key : string) (seconds : Z) (r : Redis) : Redis :=
  match members_at now key r with
  | [] => r
  | _ => {| zsets := zsets r; expires := <[key := (now + seconds * 1000)%Z]> (expires r) |}
  end.

Record RateLimit := {
  max : Z;
  windowMs : Z;
}.

Record RateLimitResult := {
  allowed : bool;
  remaining : Z;
  resetTime : Z;
  retryAfter : option Z;
}.

Definition rateLimits : list (string * RateLimit) :=
  [("/api/v1/auth/login", {| max := 5; windowMs := 15 * 60 * 1000 |});
   ("/api/v1/deployments", {| max := 20; windowMs := 60 * 60 * 1000 |});
   ("/api/v1/repositories/*/analyze", {| max := 30; windowMs := 60 * 60 * 1000 |});
   ("default", {| max := 1000; windowMs := 60 * 60 * 1000 |})].

(** The names that every object literal inherits: for these
    [rateLimits[endpoint]] is not a limit. *)
Definition inherited_names : list string :=
  ["constructor"; "__proto__"; "hasOwnProperty"; "isPrototypeOf"; "propertyIsEnumerable";
   "toLocaleString"; "toString"; "valueOf"; "__defineGetter__"; "__defineSetter__";
   "__lookupGetter__"; "__lookupSetter__"].

(** [getEndpointLimits]; [None] on an inherited name. *)
Definition getEndpointLimits (endpoint : string) : option RateLimit :=
  if existsb (String.eqb endpoint) inherited_names then None
  else match find (fun kv => String.eqb kv.1 endpoint) rateLimits with
       | Some kv => Some kv.2
       | None => Some {| max := 1000; windowMs := 60 * 60 * 1000 |}
       end.

(** [Math.ceil(x / 1000)] *)
Definition ceil_seconds (x : Z) : Z := (- ((- x) / 1000))%Z.

Definition rate_key (identifier endpoint : string) : string :=
  "rate_limit:" +:+ identifier +:+ ":" +:+ endpoint.

(** [checkRateLimit(identifier, endpoint)] at time [now], with [random]
    the text of [Math.random()]; [None] when the limits cannot be
    read. *)
Definition checkRateLimit (now : Z) (random : string) (identifier endpoint : string)
  (r : Redis) : option (RateLimitResult * Redis) :=
  match getEndpointLimits endpoint with
  | None => None
  | Some limits =>
      let windowStart := (now - windowMs limits)%Z in
      let key := rate_key identifier endpoint in
      let r1 := zremrangebyscore now key 0 windowStart r in
      let currentRequests := zcard now key r1 in
      if (max limits <=? currentRequests)%Z then
        let resetTime :=
          match zrange_first_score now key r1 with
          | Some oldest => (oldest + windowMs limits)%Z
          | None => (now + windowMs limits)%Z
          end in
        Some ({| allowed := false; remaining := 0; resetTime := resetTime;
                 retryAfter := Some (ceil_seconds (resetTime - now)) |}, r1)
      else
        let r2 := zadd now key now (pretty now +:+ "-" +:+ random) r1 in
        let r3 := expire now key (ceil_seconds (windowMs limits)) r2 in
        Some ({| allowed := true;
                 remaining := (max limits - currentRequests - 1)%Z;
                 resetTime := (now + windowMs limits)%Z;
                 retryAfter := None |}, r3)
  end.

End AdvancedRateLimiter.

(** One call of [checkRateLimit]: the time, the text of [Math.random()]
    and the arguments. *)
Record RateCall := {
  c_now : Z;
  c_random : string;
  c_identifier : string;
  c_endpoint : string;
}.

Definition rate_member (c : RateCall) : string := pretty (c_now c) +:+ "-" +:+ c_random c.

Definition empty_redis : AdvancedRateLimiter.Redis :=
  {| AdvancedRateLimiter.zsets := ∅; AdvancedRateLimiter.expires := ∅ |}.

(** The calls of a sequence that were allowed, and the store after the
    sequence. *)
Fixpoint allowed_calls (r : AdvancedRateLimiter.Redis) (calls : list RateCall)
  : list RateCall * AdvancedRateLimiter.Redis :=
  match calls with
  | [] => ([], r)
  | c :: rest =>
      match AdvancedRateLimiter.checkRateLimit (c_now c) (c_random c) (c_identifier c)
              (c_endpoint c) r with
      | Some (res, r') =>
          let '(l, r'') := allowed_calls r' rest in
          (if AdvancedRateLimiter.allowed res then c :: l else l, r'')
      | None => allowed_calls r rest
      end
  end.

(** The calls of [l] for this identifier and endpoint in the window of
    length [w] that ends at [t]. *)
Definition in_window (identifier endpoint : string) (w t : Z) (c : RateCall) : bool :=
  String.eqb (c_identifier c) identifier && String.eqb (c_endpoint c) endpoint
  && (t - w <? c_now c)%Z && (c_now c <=? t)%Z.

Fixpoint chronological (times : list Z) : Prop :=
  match times with
  | [] => True
  | t :: rest => Forall (fun t' => (t <= t')%Z) rest /\ chronological rest
  end.

(** The calls come in the order of time, none before time 0, their
    members are distinct, and no other identifier and endpoint share the
    key of this one. *)
Record orderly (identifier endpoint : string) (calls : list RateCall) : Prop := {
  orderly_sorted : chronological (map c_now calls);
  orderly_nonneg : Forall (fun c => (0 <= c_now c)%Z) calls;
  orderly_members : NoDup (map rate_member calls);
  orderly_keys : Forall (fun c =>
    (c_identifier c = identifier /\ c_endpoint c = endpoint)
    \/ AdvancedRateLimiter.rate_key (c_identifier c) (c_endpoint c)
       <> AdvancedRateLimiter.rate_key identifier endpoint) calls;
}.

Definition login_calls : list RateCall :=
  map (fun n => {| c_now := Z.of_nat n * 1000; c_random := "0." +:+ pretty n;
                   c_identifier := "10.0.0.1"; c_endpoint := "/api/v1/auth/login" |})
      (seq 0 8).

(** What the store holds of the calls [l] that were allowed up to time
    [T], for the key of one identifier and endpoint with window [w]: at
    any later time, every such call that is less than [w] old is a member
    of the sorted set. *)
Definition tracked (identifier endpoint : string) (w T : Z) (l : list RateCall)
  (r : AdvancedRateLimiter.Redis) : Prop :=
  (forall c, In c l -> (c_now c <= T)%Z)
  /\ forall now c,
       (T <= now)%Z -> In c l ->
       c_identifier c = identifier -> c_endpoint c = endpoint ->
       (now - w < c_now c)%Z ->
       In (rate_member c, c_now c)
          (AdvancedRateLimiter.members_at now
             (AdvancedRateLimiter.rate_key identifier endpoint) r).

(** At most [max] of the calls [l] fall into any window of length [w]. *)
Definition bounded (identifier endpoint : string) (w max : Z) (l : list RateCall) : Prop :=
  forall t, (Z.of_nat (List.length (List.filter (in_window identifier endpoint w t) l))
             <= max)%Z.

(** ** Documents that are read back *)

(** A number literal of the JSON grammar. *)
Definition number_literal (lit : string) : bool :=
  match parse_number lit with
  | Some (t, rest) => String.eqb t lit && String.eqb rest ""
  | None => false
  end.

(** JSON data, the values that [response.json()] gives and that
    [JSON.parse] reads back from what [JSON.stringify] wrote: [null],
    booleans, numbers, strings, and arrays and objects of such values.
    An [undefined] member of an object is left out by [JSON.stringify],
    an [undefined] item of an array is written [null]. *)
Fixpoint json_data (v : value) : bool :=
  match v with
  | VUndefined => false
  | VNull | VBool _ | VStr _ => true
  | VNum lit => number_literal lit
  | VArr l =>
      forallb (fun x => match x with
                        | VUndefined => true
                        | _ => json_data x
                        end) l
  | VObj ms =>
      forallb (fun kv => match kv.2 with
                         | VUndefined => true
                         | _ => json_data kv.2
                         end) ms
  end.

(** What is read back: the members that were written, a repeated key
    keeping its first place and its last value; the items that were
    written. *)
Fixpoint reread (v : value) : value :=
  match v with
  | VObj ms =>
      VObj (spread [] (omap (fun kv => match kv.2 with
                                       | VUndefined => None
                                       | _ => Some (kv.1, reread kv.2)
                                       end) ms))
  | VArr l =>
      VArr (map (fun x => match x with
                          | VUndefined => VNull
                          | _ => reread x
                          end) l)
  | _ => v
  end.

(** The number of values of a document. *)
Fixpoint json_size (v : value) : nat :=
  match v with
  | VObj ms =>
      S (list_sum (map (fun kv => match kv.2 with
                                  | VUndefined => 0
                                  | _ => S (json_size kv.2)
                                  end) ms))
  | VArr l => S (list_sum (map (fun x => S (json_size x)) l))
  | _ => 1
  end.

(** The text of the members of an object, what is read of them, their
    number of values, and whether they are JSON data. *)
Definition texts (ms : list (string * value)) : list string :=
  omap (fun kv => match stringify kv.2 with
                  | Some t => Some (quote kv.1 +:+ ":" +:+ t)
                  | None => None
                  end) ms.

Definition reread_members (ms : list (string * value)) : list (string * value) :=
  omap (fun kv => match kv.2 with
                  | VUndefined => None
                  | _ => Some (kv.1, reread kv.2)
                  end) ms.

Definition cost (ms : list (string * value)) : nat :=
  list_sum (map (fun kv => match kv.2 with
                           | VUndefined => 0
                           | _ => S (json_size kv.2)
                           end) ms).

Definition data_members (ms : list (string * value)) : bool :=
  forallb (fun kv => match kv.2 with
                     | VUndefined => true
                     | _ => json_data kv.2
                     end) ms.

(** The same for the items of an array. *)
Definition item_texts (l : list value) : list string :=
  map (fun x => default "null" (stringify x)) l.

Definition reread_items (l : list value) : list value :=
  map (fun x => match x with
                | VUndefined => VNull
                | _ => reread x
                end) l.

Definition cost_items (l : list value) : nat := list_sum (map (fun x => S (json_size x)) l).

Definition data_items (l : list value) : bool :=
  forallb (fun x => match x with
                    | VUndefined => true
                    | _ => json_data x
                    end) l.

(** The text after a value ends it: it is empty or begins with a
    comma or a closing bracket. *)
Definition value_end (rest : string) : bool :=
  match rest with
  | EmptyString => true
  | String c _ => Ascii.eqb c "," || Ascii.eqb c "}" || Ascii.eqb c "]"
  end.

Definition data_or_absent (v : value) : Prop := v = VUndefined \/ json_data v = true.

(** The members that [VercelService.validateToken] copies out of the
    account the provider answers with are JSON data, or absent. *)
Definition json_accounts (env : Env) : Prop :=
  forall n r resp account k,
    env_fetch env n r = Some resp -> resp_json resp = Some account ->
    In k ["uid"; "username"; "email"; "name"] ->
    data_or_absent (get_opt account k).

(** The Vercel API accepts the token; the account it answers with has
    no name, and holds a number and an array besides. *)
Definition team_account_env : Env :=
  {| env_elapsed := fun _ => 1;
     env_fetch := fun _ _ =>
       Some {| ok := true; resp_status := 200; statusText := "OK";
               resp_json := Some (VObj [("uid", VStr "vercel-user-7");
                                        ("username", VStr "ada");
                                        ("email", VStr "ada@example.org");
                                        ("name", VNull);
                                        ("createdAt", VNum "1700000000000");
                                        ("teams", VArr [VStr "acme"; VNum "2.5"])]);
               resp_text := "" |};
     env_vercel := fun _ _ => inl [("projectId", VStr "prj_1");
                                  ("url", VStr "https://shop.vercel.app");
                                  ("status", VStr "building")];
     env_completion := fun _ _ => None;
     env_repoData := fun _ _ => None |}.

(** The store after user u1 connected that account. *)
Definition team_world : World :=
  (IntegrationsController.connectProvider team_account_env "vercel" connect_body "u1"
     empty_world).2.

(** ** [VercelService]: projects and deployments *)

Module VercelProjects.
Section WithEnv.

(** [toISOString] is the text of a [Date]. *)
Context (env : Env) (toISOString : nat -> string).

(** [v === 'literal'] *)
Definition is_str (v : value) (s : string) : bool :=
  negb (DeploymentsService.strict_neq_str v s).

Definition detectFramework (buildCommand outputDirectory : value) : M string :=
  let! hasNext := DeploymentsService.opt_includes buildCommand "next" in
  if hasNext || is_str outputDirectory ".next" then ret "nextjs"
  else
    let! hasGatsby := DeploymentsService.opt_includes buildCommand "gatsby" in
    if hasGatsby || is_str outputDirectory "public" then ret "gatsby"
    else if is_str outputDirectory "dist" then ret "vite"
    else ret "other".

(** [errorData.error?.message || 'Unknown error'] *)
Definition error_message (errorData : value) : M string :=
  let! error := prop errorData "error" in
  ret (to_str (js_or (get_opt error "message") (VStr "Unknown error"))).

Definition deploy_request (token : value) (owner repoName : string) : Request :=
  {| req_method := "POST"; req_url := "https://api.vercel.com/v13/deployments";
     req_headers := NetlifyService.json_headers token;
     req_body :=
       Some (JSON_stringify
               (VObj [("gitSource",
                       VObj [("type", VStr "github");
                             ("repo", VStr (owner +:+ "/" +:+ repoName));
                             ("ref", VStr "main")])])) |}.

Definition deployExistingProject (token projectId : value) (owner repoName : string)
  : M value :=
  let! response := fetch env (deploy_request token owner repoName) in
  (if negb (ok response) then
     let! errorData := json response in
     let! message := error_message errorData in
     throw ("Vercel deployment error: " +:+ pretty (resp_status response) +:+ " - "
            +:+ message)
   else ret tt);;
  let! deployment := json response in
  let! deploymentId := prop deployment "id" in
  let! url := prop deployment "url" in
  let! readyState := prop deployment "readyState" in
  let! createdAt := prop deployment "createdAt" in
  ret (VObj [("projectId", projectId); ("deploymentId", deploymentId); ("url", url);
             ("status", readyState); ("createdAt", createdAt)]).

(** [projects?.find(p => p.name === name)] *)
Fixpoint find_named (name : string) (items : list value) : M value :=
  match items with
  | [] => ret VUndefined
  | p :: rest =>
      let! n := prop p "name" in
      if is_str n name then ret p else find_named name rest
  end.

Definition opt_find (projects : value) (name : string) : M value :=
  match projects with
  | VUndefined | VNull => ret VUndefined
  | VArr items => find_named name items
  | _ => throw "existingProjects.projects?.find is not a function"
  end.

Definition list_projects_request (token : value) : Request :=
  {| req_method := "GET"; req_url := "https://api.vercel.com/v9/projects";
     req_headers := [NetlifyService.bearer token]; req_body := None |}.

Definition projectPayload (params : VercelParams) (owner repoName framework : string)
  : value :=
  VObj [("name", VStr (replace_non_slug (toLowerCase (vp_projectName params))));
        ("gitRepository", VObj [("type", VStr "github");
                                ("repo", VStr (owner +:+ "/" +:+ repoName))]);
        ("buildCommand", js_or (vp_buildCommand params) (VStr "npm run build"));
        ("outputDirectory", js_or (vp_outputDirectory params) (VStr "build"));
        ("installCommand", js_or (vp_installCommand params) (VStr "npm install"));
        ("framework", VStr framework)].

Definition create_project_request (token payload : value) : Request :=
  {| req_method := "POST"; req_url := "https://api.vercel.com/v10/projects";
     req_headers := NetlifyService.json_headers token;
     req_body := Some (JSON_stringify payload) |}.

(** The project is created: the rest of [createDeployment]. *)
Definition create_project (params : VercelParams) (owner repoName : string) : M value :=
  let! framework := detectFramework (vp_buildCommand params) (vp_outputDirectory params) in
  let! response :=
    fetch env (create_project_request (vp_token params)
                 (projectPayload params owner repoName framework)) in
  (if negb (ok response) then
     let! errorData := json response in
     let! message := error_message errorData in
     throw ("Vercel API error: " +:+ pretty (resp_status response) +:+ " - " +:+ message)
   else ret tt);;
  let! project := json response in
  let! projectId := prop project "id" in
  let! name := prop project "name" in
  let! t := now env in
  let! accountId := prop project "accountId" in
  ret (VObj [("projectId", projectId);
             ("url", VStr ("https://" +:+ to_str name +:+ ".vercel.app"));
             ("status", VStr "building");
             ("createdAt", VStr (toISOString t));
             ("dashboardUrl",
              VStr ("https://vercel.com/" +:+ to_str accountId +:+ "/" +:+ to_str name))]).

Definition createDeployment (params : VercelParams) : M value :=
  try_catch
    (match NetlifyService.match_github (vp_repositoryUrl params) with
     | None => throw "Invalid GitHub repository URL"
     | Some (owner, repo) =>
         let repoName := replace_first repo ".git" "" in
         let! existingProjectsResponse :=
           fetch env (list_projects_request (vp_token params)) in
         let! existingProject :=
           (if ok existingProjectsResponse then
              let! existingProjects := json existingProjectsResponse in
              let! projects := prop existingProjects "projects" in
              opt_find projects (replace_non_slug (toLowerCase (vp_projectName params)))
            else ret VUndefined) in
         if truthy existingProject then
           let! projectId := prop existingProject "id" in
           deployExistingProject (vp_token params) projectId owner repoName
         else create_project params owner repoName
     end)
    (fun error => throw error).

End WithEnv.
End VercelProjects.

(** A request to the Vercel API that carries [token] as bearer. *)
Definition vercel_request (token : value) (r : Request) : Prop :=
  String.prefix "https://api.vercel.com/" (req_url r) = true
  /\ In (NetlifyService.bearer token) (req_headers r).

(** From [w] to [w'] at most [n] requests were sent, all of them [P]. *)
Definition sends (n : nat) (P : Request -> Prop) (w w' : World) : Prop :=
  exists l, fetches w' = fetches w ++ l /\ List.length l <= n /\ Forall P l.

(** [VercelParams] with other build settings. *)
Definition with_settings (buildCommand outputDirectory installCommand : value)
  (p : VercelParams) : VercelParams :=
  {| vp_token := vp_token p; vp_repositoryUrl := vp_repositoryUrl p;
     vp_projectName := vp_projectName p; vp_buildCommand := buildCommand;
     vp_outputDirectory := outputDirectory; vp_installCommand := installCommand |}.

(** A Vercel account that lists one project, my-shop, and accepts a
    deployment of it. *)
Definition vercel_account : Env :=
  {| env_elapsed := fun _ => 1;
     env_fetch := fun n _ =>
       match n with
       | 0 => Some {| ok := true; resp_status := 200; statusText := "OK";
                      resp_json :=
                        Some (VObj [("projects",
                                     VArr [VObj [("id", VStr "prj_1");
                                                 ("name", VStr "my-shop")]])]);
                      resp_text := "" |}
       | 1 => Some {| ok := true; resp_status := 200; statusText := "OK";
                      resp_json :=
                        Some (VObj [("id", VStr "dpl_1");
                                    ("url", VStr "my-shop-1.vercel.app");
                                    ("readyState", VStr "QUEUED");
                                    ("createdAt", VNum "1700000000000")]);
                      resp_text := "" |}
       | _ => None
       end;
     env_vercel := fun _ _ => inr "Vercel API error";
     env_completion := fun _ _ => None;
     env_repoData := fun _ _ => None |}.

Definition shop_params : VercelParams :=
  {| vp_token := VStr "tok_1";
     vp_repositoryUrl := "https://github.com/acme/shop.git";
     vp_projectName := "My Shop";
     vp_buildCommand := VStr "npm run build";
     vp_outputDirectory := VStr "dist";
     vp_installCommand := VUndefined |}.

(** ** Slugs *)

(** The characters that [/[^a-z0-9-]/] leaves alone. *)
Definition slug_char (c : ascii) : bool := is_lower c || is_digit c || Ascii.eqb c "-".

(** [name.toLowerCase().replace(/[^a-z0-9-]/g, '-')]: the slug of a
    project, the name of a Netlify site and of a Vercel project. *)
Definition slug_of (name : string) : string := replace_non_slug (toLowerCase name).

(** * Properties *)

(** ** Reading computations *)

Lemma bind_returned {A B} (m : M A) (k : A -> M B) w a w' :
  m w = (Returned a, w') -> bind m k w = k a w'.
Proof. intros H. unfold bind. by rewrite H. Qed.

Lemma bind_threw {A B} (m : M A) (k : A -> M B) w e w' :
  m w = (Threw e, w') -> bind m k w = (Threw e, w').
Proof. intros H. unfold bind. by rewrite H. Qed.

Lemma try_returned {A} (m : M A) h w a w' :
  m w = (Returned a, w') -> try_catch m h w = (Returned a, w').
Proof. intros H. unfold try_catch. by rewrite H. Qed.

Lemma try_threw {A} (m : M A) h w e w' :
  m w = (Threw e, w') -> try_catch m h w = h e w'.
Proof. intros H. unfold try_catch. by rewrite H. Qed.

(** ** Dispatch on the provider (C10) *)

(** C10: a request whose provider is neither 'vercel' nor 'netlify'
    (absent, not a string, or any other string) is not rejected: it runs
    [deployToNetlify] on exactly the parameters that the same request
    with provider 'netlify' runs it on. *)
Theorem unknown_provider_falls_back_to_netlify
  (env : Env) (user : string) (deploymentData : DeploymentRequest) :
  r_provider deploymentData <> VStr "vercel" ->
  r_provider deploymentData <> VStr "netlify" ->
  DeploymentsController.createDeployment env user deploymentData
  = DeploymentsService.deployToNetlify env
      (DeploymentsController.deploymentParams user deploymentData)
  /\ DeploymentsController.deploymentParams user deploymentData
     = DeploymentsController.deploymentParams user
         (with_provider (VStr "netlify") deploymentData)
  /\ DeploymentsController.createDeployment env user deploymentData
     = DeploymentsController.createDeployment env user
         (with_provider (VStr "netlify") deploymentData).
Proof.
  intros Hv Hn.
  assert (Hrun : DeploymentsController.createDeployment env user deploymentData
                 = DeploymentsService.deployToNetlify env
                     (DeploymentsController.deploymentParams user deploymentData)).
  { unfold DeploymentsController.createDeployment.
    destruct (r_provider deploymentData) as [| |b|l|p|l|l] eqn:E; try reflexivity.
    destruct (String.eqb p "vercel") eqn:Ev.
    - apply String.eqb_eq in Ev. subst p. congruence.
    - destruct (String.eqb p "netlify"); reflexivity. }
  split; [exact Hrun|]. split; [reflexivity|].
  rewrite Hrun. reflexivity.
Qed.

Lemma unknown_provider_falls_back_to_netlify_witness :
  DeploymentsController.createDeployment quiet_env "u1" unknown_provider_request
  = DeploymentsController.createDeployment quiet_env "u1"
      (with_provider (VStr "netlify") unknown_provider_request).
Proof.
  apply (unknown_provider_falls_back_to_netlify quiet_env "u1" unknown_provider_request);
    discriminate.
Defined.

(** ** Analysis (C5, C8) *)

Lemma getFallbackAnalysis_reads_nothing (repoData : value) :
  exists o, forall w, AnalysisService.getFallbackAnalysis repoData w = (o, w).
Proof.
  unfold AnalysisService.getFallbackAnalysis, bind, prop.
  destruct (get repoData "packageJson") as [pj|]; [|by eexists].
  unfold ret at 1. cbn beta iota.
  match goal with
  | |- context [let '(_, _) := ?X in _] => destruct X as [[f p] s]
  end.
  by eexists.
Qed.

Lemma getFallbackAnalysis_shape (repoData : value) (w w' : World) (r : value) :
  AnalysisService.getFallbackAnalysis repoData w = (Returned r, w') ->
  framework_confidence r = VNum "0.7"
  /\ exists f, framework_name r = VStr f
       /\ In f ["Next.js"; "React"; "Express.js"; "Vue.js"; "Svelte"; "Unknown"].
Proof.
  unfold AnalysisService.getFallbackAnalysis, bind, prop.
  destruct (get repoData "packageJson") as [pj|]; [|discriminate].
  unfold ret at 1. cbn beta iota.
  repeat match goal with
         | |- context [if ?b then _ else _] => destruct b
         end;
    cbn; intros [= <- <-]; (split; [reflexivity|]); eexists; (split; [reflexivity|]);
    cbn; tauto.
Qed.

(** C8 (refuted as stated): on a repository with only a Dockerfile the
    rule-based analysis does not answer "Docker", neither called
    directly nor behind a chat completion that fails. *)
Lemma dockerfile_only_not_docker :
  ~ detects_docker AnalysisService.getFallbackAnalysis
  /\ ~ detects_docker (AnalysisService.analyzeRepositoryWithAI quiet_env).
Proof.
  split; intros H; destruct (H empty_world) as (r & w' & Hrun & Hname & _);
    vm_compute in Hrun; injection Hrun as <- _; vm_compute in Hname; discriminate.
Qed.

(** C8 (amended): without a manifest, so in particular with only a
    Dockerfile, the rule-based analysis returns framework "Unknown" with
    confidence 0.7 and recommends vercel; and whatever the repository,
    neither [getFallbackAnalysis] nor [detectFramework] returns "Docker"
    or a confidence of 1. *)
Theorem no_manifest_is_unknown (repoData packageJson : value) (w : World) :
  (get repoData "packageJson" = Some VUndefined ->
   exists r,
     AnalysisService.getFallbackAnalysis repoData w = (Returned r, w)
     /\ framework_name r = VStr "Unknown"
     /\ framework_confidence r = VNum "0.7"
     /\ get_opt (get_opt r "deployment") "recommendedProvider" = VStr "vercel")
  /\ (forall r w',
        AnalysisService.getFallbackAnalysis repoData w = (Returned r, w') ->
        framework_name r <> VStr "Docker" /\ ~ is_one (framework_confidence r))
  /\ (forall r w',
        RepositoriesService.detectFramework packageJson w = (Returned r, w') ->
        get_opt r "name" <> VStr "Docker" /\ ~ is_one (get_opt r "confidence")).
Proof.
  split; [|split].
  - intros Hpj. unfold AnalysisService.getFallbackAnalysis, bind, prop.
    rewrite Hpj. cbn. eexists. split; [reflexivity|]. cbn. auto.
  - intros r w' Hrun. apply getFallbackAnalysis_shape in Hrun as (Hc & f & Hf & Hin).
    split.
    + rewrite Hf. cbn in Hin. intros [= ->]. intuition discriminate.
    + rewrite Hc. intros [?|?]; discriminate.
  - intros r w'. unfold RepositoriesService.detectFramework, bind, prop.
    destruct (get packageJson "dependencies") as [deps|]; [|discriminate].
    unfold ret at 1. cbn beta iota.
    destruct (get packageJson "devDependencies") as [dev|]; [|discriminate].
    unfold ret at 1. cbn beta iota.
    repeat match goal with
           | |- context [if ?b then _ else _] => destruct b
           end;
      intros [= <- <-]; cbn; (split; [discriminate|]); intros [?|?]; discriminate.
Qed.

Lemma no_manifest_is_unknown_witness :
  exists r,
    AnalysisService.getFallbackAnalysis docker_only empty_world = (Returned r, empty_world)
    /\ framework_name r = VStr "Unknown"
    /\ framework_confidence r = VNum "0.7"
    /\ get_opt (get_opt r "deployment") "recommendedProvider" = VStr "vercel".
Proof.
  apply (no_manifest_is_unknown docker_only VNull empty_world). reflexivity.
Defined.

(** C5 (refuted as stated): two runs on the same repository data return
    different analyses when the chat completion differs, and a run
    leaves a trace in the world. *)
Lemma analysis_depends_on_completion : ~ analysis_is_pure.
Proof.
  intros H. destruct (H answering_env quiet_env docker_only empty_world empty_world) as [Hout _].
  vm_compute in Hout. discriminate.
Qed.

(** C5 (amended): the analysis is determined by the repository data
    together with the chat completion it receives: two runs that get the
    same completion return the same result; a run changes nothing but the
    count of completions requested; and when the completion fails the
    result is the rule-based fallback, which reads the repository data
    only. *)
Theorem analysis_determined_by_completion
  (env1 env2 : Env) (repoData : value) (w1 w2 : World) :
  (env_completion env1 (completions w1) repoData
   = env_completion env2 (completions w2) repoData ->
   (AnalysisService.analyzeRepositoryWithAI env1 repoData w1).1
   = (AnalysisService.analyzeRepositoryWithAI env2 repoData w2).1)
  /\ ((AnalysisService.analyzeRepositoryWithAI env1 repoData w1).2 = w1
      \/ (AnalysisService.analyzeRepositoryWithAI env1 repoData w1).2
         = set_completions (S (completions w1)) w1)
  /\ (env_completion env1 (completions w1) repoData = None ->
      (AnalysisService.analyzeRepositoryWithAI env1 repoData w1).1
      = (AnalysisService.getFallbackAnalysis repoData empty_world).1).
Proof.
  destruct (getFallbackAnalysis_reads_nothing repoData) as [o Ho].
  unfold AnalysisService.analyzeRepositoryWithAI, try_catch, bind,
    AnalysisService.complete, throw.
  destruct (AnalysisService.prompt_evaluates repoData).
  - split; [|split].
    + intros ->. destruct (env_completion env2 (completions w2) repoData) as [c|].
      * destruct (JSON_parse (to_str c)); [reflexivity|].
        rewrite !Ho. destruct o; rewrite ?Ho; reflexivity.
      * rewrite !Ho. reflexivity.
    + right. destruct (env_completion env1 (completions w1) repoData) as [c|].
      * destruct (JSON_parse (to_str c)); [reflexivity|].
        rewrite !Ho. destruct o; rewrite ?Ho; reflexivity.
      * rewrite !Ho. reflexivity.
    + intros ->. rewrite !Ho. reflexivity.
  - rewrite !Ho. split; [reflexivity|]. split; [left; reflexivity|]. reflexivity.
Qed.

Lemma analysis_determined_by_completion_witness :
  (AnalysisService.analyzeRepositoryWithAI quiet_env docker_only empty_world).1
  = (AnalysisService.analyzeRepositoryWithAI quiet_env docker_only
       (set_completions 0 empty_world)).1
  /\ (AnalysisService.analyzeRepositoryWithAI quiet_env docker_only empty_world).1
     = (AnalysisService.getFallbackAnalysis docker_only empty_world).1.
Proof.
  split.
  - apply (analysis_determined_by_completion quiet_env quiet_env docker_only
             empty_world (set_completions 0 empty_world)).
    reflexivity.
  - apply (analysis_determined_by_completion quiet_env quiet_env docker_only
             empty_world empty_world).
    reflexivity.
Defined.

(** ** Stored credentials (C2) *)

Lemma spread_userInfo (base : list (string * value)) (user : value) :
  spread base (spread_source (js_and user (VObj [("userInfo", user)])))
  = base \/
  spread base (spread_source (js_and user (VObj [("userInfo", user)])))
  = obj_set "userInfo" user base.
Proof.
  unfold js_and. destruct (truthy user) eqn:T.
  - right. reflexivity.
  - left. destruct user as [| |b|n|s|l|ms]; try reflexivity; try discriminate.
    destruct s; [reflexivity|discriminate].
Qed.

Lemma append_assoc (s t u : string) : (s +:+ t) +:+ u = s +:+ (t +:+ u).
Proof.
  induction s as [|c s IH]; [reflexivity|].
  change (String c ((s +:+ t) +:+ u) = String c (s +:+ (t +:+ u))).
  by rewrite IH.
Qed.

Lemma stringify_first_member (k : string) (v : value) (t : string)
  (rest : list (string * value)) :
  stringify v = Some t ->
  exists tail,
    JSON_stringify (VObj ((k, v) :: rest)) = "{" +:+ quote k +:+ ":" +:+ t +:+ tail.
Proof.
  intros Hv. unfold JSON_stringify. cbn [stringify]. cbn [omap list_omap fst snd].
  rewrite Hv. cbn [default].
  set (others := omap _ rest).
  destruct others as [|o os]; cbn [join default mbind option_bind mret option_ret app];
    eexists; rewrite ?append_assoc; reflexivity.
Qed.

(** Whatever token a client connects with, the text written to the
    [encryptedToken] column begins with that token, quoted and escaped as
    JSON and nothing more. *)
Lemma token_document_is_clear (provider token : string) (connectionData validationResult : value) :
  get_opt connectionData "token" = VStr token -> token <> "" ->
  exists rest,
    JSON_stringify (IntegrationsController.token_document provider connectionData validationResult)
    = "{" +:+ quote "access_token" +:+ ":" +:+ quote token +:+ rest.
Proof.
  intros Htok Hne.
  unfold IntegrationsController.token_document. rewrite Htok.
  assert (Ht : truthy (VStr token) = true).
  { cbn. destruct token; [congruence|reflexivity]. }
  unfold js_or at 1. rewrite Ht.
  set (demo := js_or _ _).
  destruct (spread_userInfo [("access_token", VStr token); ("demo", demo)]
              (get_opt validationResult "user")) as [-> | ->].
  - apply stringify_first_member. reflexivity.
  - cbn [obj_set]. replace (String.eqb "userInfo" "access_token") with false by reflexivity.
    apply stringify_first_member. reflexivity.
Qed.

(** C2 (violated by the code): connecting a Vercel account with a live
    token writes the token itself, as JSON text, into the
    [encryptedToken] column; [JSON.parse] alone gives it back, and the
    next deployment hands it to the Vercel adapter. *)
Theorem connect_stores_the_token_in_clear :
  let w1 := (IntegrationsController.connectProvider accepting_env "vercel"
               connect_body "u1" empty_world).2 in
  let w2 := (DeploymentsService.deployToVercel accepting_env shop_input w1).2 in
  exists row,
    integrations w1 !! ("u1", "vercel") = Some row
    /\ includes (encryptedToken row) live_token = true
    /\ (flip get_opt "access_token" <$> JSON_parse (encryptedToken row))
       = Some (VStr live_token)
    /\ adapter_tokens (calls w2) = [VStr live_token].
Proof.
  eexists. split; [vm_compute; reflexivity|].
  split; [vm_compute; reflexivity|].
  split; vm_compute; reflexivity.
Qed.

(** ** Rollback (C3) *)

Lemma latest_Some (p : Deployment -> bool) (l : list Deployment) (d : Deployment) :
  latest p l = Some d ->
  In d l /\ p d = true /\ forall x, In x l -> p x = true -> startedAt x <= startedAt d.
Proof.
  revert d. induction l as [|a l IH]; intros d; cbn [latest]; [discriminate|].
  destruct (p a) eqn:Ha.
  - destruct (latest p l) as [d'|] eqn:Hl.
    + destruct (IH d' eq_refl) as (Hin & Hp & Hmax).
      destruct (startedAt a <? startedAt d')%nat eqn:Hlt; intros [= <-].
      * apply Nat.ltb_lt in Hlt. split; [by right|]. split; [done|].
        intros x [<-|Hx] Hpx; [lia|by apply Hmax].
      * apply Nat.ltb_ge in Hlt. split; [by left|]. split; [done|].
        intros x [<-|Hx] Hpx; [lia|]. specialize (Hmax x Hx Hpx). lia.
    + intros [= <-]. split; [by left|]. split; [done|].
      intros x [<-|Hx] Hpx; [lia|].
      exfalso. clear IH. induction l as [|b l IHl]; [done|].
      cbn [latest] in Hl. destruct Hx as [<-|Hx].
      * rewrite Hpx in Hl. by destruct (latest p l) as [d'|]; [destruct (_ <? _)%nat|].
      * destruct (p b); [by destruct (latest p l) as [d'|]; [destruct (_ <? _)%nat|]|].
        by apply IHl.
  - intros Hl. destruct (IH d Hl) as (Hin & Hp & Hmax).
    split; [by right|]. split; [done|].
    intros x [<-|Hx] Hpx; [congruence|by apply Hmax].
Qed.

Lemma latest_None (p : Deployment -> bool) (l : list Deployment) :
  latest p l = None -> forall x, In x l -> p x = false.
Proof.
  induction l as [|a l IH]; cbn [latest]; [by intros _ x []|].
  destruct (p a) eqn:Ha.
  - by destruct (latest p l) as [d'|]; [destruct (_ <? _)%nat|].
  - intros Hl x [<-|Hx]; [done|by apply IH].
Qed.

Lemma is_prior_deployed_spec (d x : Deployment) :
  is_prior_deployed d x = true <-> prior_deployed d x.
Proof.
  unfold is_prior_deployed, prior_deployed.
  rewrite !andb_true_iff, !String.eqb_eq, Nat.ltb_lt. tauto.
Qed.

Lemma rollbackDeployment_unfold (env : Env) (deploymentId user : string) (w : World) :
  DeploymentsService.rollbackDeployment env deploymentId user w
  = match find (owned_by deploymentId user) (deployments w) with
    | None => (Threw "Deployment not found", w)
    | Some d =>
        match latest (is_prior_deployed d) (deployments w) with
        | None => (Threw "No previous deployment found for rollback", w)
        | Some p =>
            let t := clock w + env_elapsed env (ticks w) in
            let w1 := set_clock t (S (ticks w)) w in
            let t' := t + env_elapsed env (S (ticks w)) in
            let r := {| id := "c" +:+ pretty (next_id w); projectId := projectId d;
                        branch := branch p; commitSha := commitSha p;
                        status := "deployed"; provider := provider d;
                        environment := environment d; url := url p;
                        configuration := configuration p; metadata := VNull;
                        logs := [{| timestamp := t;
                                    message := "Rolled back to deployment " +:+ id p;
                                    level := "info" |}];
                        startedAt := t'; completedAt := None; createdBy := user |} in
            (Returned r,
             set_deployments (fun l => l ++ [r]) r
               (set_clock t' (S (S (ticks w))) (set_next_id (S (next_id w)) w1)))
        end
    end.
Proof.
  unfold DeploymentsService.rollbackDeployment, bind, deployment_findFirst_owned,
    deployment_findFirst_previous, owned_by, is_prior_deployed.
  destruct (find _ (deployments w)) as [d|]; [|reflexivity].
  destruct (latest _ (deployments w)) as [p|]; reflexivity.
Qed.

(** C3 (refuted as stated): a rollback request is not served for
    every caller.  Deployment d4 was created by user u1 and its project
    has earlier records with status [deployed]; the request of user u2
    to roll d4 back creates no record: the lookup of d4 is by id and
    creator together, and the request fails with "Deployment not
    found", which is neither of the two outcomes of the claim. *)
Lemma rollback_by_another_user_not_found : ~ rollback_for_every_request.
Proof.
  intros H.
  destruct (H quiet_env "u2" history_world
              (sample_deployment "d4" "deployed" 400 "v4.example.org")) as [Hsome _].
  { cbn. tauto. }
  destruct Hsome as (r & w' & Hrun & _).
  - exists (sample_deployment "d1" "deployed" 100 "v1.example.org").
    split; [cbn; tauto|]. repeat split; cbn; lia.
  - vm_compute in Hrun. discriminate.
Qed.

(** C3 (amended): for a rollback request on a deployment [d] that the
    user created:
    when the project has a record with status [deployed] that started
    strictly before [d], rollback returns a new record, appended to the
    table by a single write, that copies branch, commit, build
    configuration and URL of the most recent such record and has status
    [deployed]; no adapter is called, no HTTP request is sent and no
    timer is set.  When there is no such record, rollback throws "No
    previous deployment found for rollback" and the world is unchanged. *)
Theorem rollback_copies_latest_prior
  (env : Env) (deploymentId user : string) (w : World) (d : Deployment) :
  find (owned_by deploymentId user) (deployments w) = Some d ->
  ((exists x, In x (deployments w) /\ prior_deployed d x) ->
   exists p r w',
     DeploymentsService.rollbackDeployment env deploymentId user w = (Returned r, w')
     /\ In p (deployments w) /\ prior_deployed d p
     /\ (forall x, In x (deployments w) -> prior_deployed d x -> startedAt x <= startedAt p)
     /\ deployments w' = deployments w ++ [r]
     /\ written w' = written w ++ [r]
     /\ id r = "c" +:+ pretty (next_id w)
     /\ projectId r = projectId d
     /\ branch r = branch p /\ commitSha r = commitSha p
     /\ configuration r = configuration p /\ url r = url p
     /\ status r = "deployed"
     /\ calls w' = calls w /\ fetches w' = fetches w /\ timers w' = timers w)
  /\ ((forall x, In x (deployments w) -> ~ prior_deployed d x) ->
      DeploymentsService.rollbackDeployment env deploymentId user w
      = (Threw "No previous deployment found for rollback", w)).
Proof.
  intros Hfind. rewrite rollbackDeployment_unfold, Hfind.
  destruct (latest (is_prior_deployed d) (deployments w)) as [p|] eqn:Hl.
  - apply latest_Some in Hl as (Hin & Hp & Hmax). apply is_prior_deployed_spec in Hp.
    split.
    + intros _. exists p. eexists. eexists. split; [reflexivity|].
      split; [exact Hin|]. split; [exact Hp|]. split.
      { intros x Hx Hpx. apply Hmax; [done|]. by apply is_prior_deployed_spec. }
      repeat split; reflexivity.
    + intros Hnone. exfalso. by apply (Hnone p).
  - split.
    + intros (x & Hx & Hpx). apply is_prior_deployed_spec in Hpx.
      pose proof (latest_None _ _ Hl x Hx). congruence.
    + intros _. reflexivity.
Qed.

Lemma rollback_copies_latest_prior_witness :
  exists r w',
    DeploymentsService.rollbackDeployment quiet_env "d4" "u1" history_world = (Returned r, w')
    /\ url r = VStr "https://v2.example.org" /\ branch r = "release-d2"
    /\ status r = "deployed" /\ calls w' = [] /\ fetches w' = [].
Proof.
  destruct (rollback_copies_latest_prior quiet_env "d4" "u1" history_world
              (sample_deployment "d4" "deployed" 400 "v4.example.org") eq_refl)
    as [Hsome _].
  destruct Hsome as (p & r & w' & Hrun & _ & _ & _ & _ & _ & _ & _ & _ & _ & _ & _ & Hst & Hc & Hf & _).
  { exists (sample_deployment "d1" "deployed" 100 "v1.example.org").
    split; [cbn; tauto|]. repeat split; cbn; lia. }
  exists r, w'. vm_compute in Hrun. injection Hrun as <- <-.
  repeat split; reflexivity.
Defined.

(** ** [createSiteFromRepo] never throws (C9) *)

Lemma always_returns_ret {A} (a : A) (Q : A -> Prop) : Q a -> always_returns (ret a) Q.
Proof. intros H w. by exists a, w. Qed.

Lemma always_returns_bind {A B} (m : M A) (k : A -> M B) (P : A -> Prop) (Q : B -> Prop) :
  always_returns m P -> (forall a, P a -> always_returns (k a) Q) ->
  always_returns (bind m k) Q.
Proof.
  intros Hm Hk w. destruct (Hm w) as (a & w1 & E & Ha).
  unfold bind. rewrite E. by apply Hk.
Qed.

Lemma always_returns_try {A} (m : M A) (h : Err -> M A) (Q : A -> Prop) :
  returns_only m Q -> (forall e, always_returns (h e) Q) ->
  always_returns (try_catch m h) Q.
Proof.
  intros Hm Hh w. unfold try_catch.
  destruct (m w) as [[a|e] w1] eqn:E.
  - exists a, w1. split; [done|]. by eapply Hm.
  - apply Hh.
Qed.

Lemma returns_only_ret {A} (a : A) (Q : A -> Prop) : Q a -> returns_only (ret a) Q.
Proof. by intros H w a' w' [= <- <-]. Qed.

Lemma returns_only_throw {A} (e : Err) (Q : A -> Prop) : returns_only (throw e) Q.
Proof. by intros w a w' [=]. Qed.

Lemma returns_only_bind {A B} (m : M A) (k : A -> M B) (Q : B -> Prop) :
  (forall a, returns_only (k a) Q) -> returns_only (bind m k) Q.
Proof.
  intros Hk w b w'. unfold bind.
  destruct (m w) as [[a|e] w1]; [apply Hk|discriminate].
Qed.

Ltac returns_only_steps :=
  repeat first
    [ apply returns_only_ret
    | apply returns_only_throw
    | apply returns_only_bind; intros ?
    | match goal with
      | |- returns_only (if ?b then _ else _) _ => destruct b
      | |- returns_only (match ?x with _ => _ end) _ => destruct x
      end ].

Lemma create_and_connect_returns_object env params owner repoName defaultBranch siteName :
  returns_only
    (NetlifyService.create_and_connect env params owner repoName defaultBranch siteName)
    is_object.
Proof.
  unfold NetlifyService.create_and_connect. returns_only_steps; by eexists.
Qed.

Lemma create_with_deploy_hook_returns_object env params :
  returns_only (NetlifyService.create_with_deploy_hook env params)
    (fun o => match o with Some r => is_object r | None => True end).
Proof.
  unfold NetlifyService.create_with_deploy_hook. returns_only_steps; try done; by eexists.
Qed.

Lemma now_returns env (Q : nat -> Prop) : (forall t, Q t) -> always_returns (now env) Q.
Proof. intros H w. eexists _, _. split; [reflexivity|apply H]. Qed.

Lemma getRepositoryDefaultBranch_returns env owner repo :
  always_returns (NetlifyService.getRepositoryDefaultBranch env owner repo) (fun _ => True).
Proof.
  apply always_returns_try; [by intros ? ? ? ?|].
  intros e. by apply always_returns_ret.
Qed.

(** With no successful request the default branch is 'main', the site
    cannot be created, and neither can the site with a deploy hook. *)
Lemma getRepositoryDefaultBranch_main env owner repo w :
  no_request_succeeds env ->
  exists w', NetlifyService.getRepositoryDefaultBranch env owner repo w
             = (Returned (VStr "main"), w').
Proof.
  intros Hno. unfold NetlifyService.getRepositoryDefaultBranch, try_catch, bind, fetch.
  match goal with |- context [env_fetch env ?n ?r] =>
    pose proof (Hno n r) as H; destruct (env_fetch env n r) as [resp|] end.
  - rewrite H. by eexists.
  - by eexists.
Qed.

Lemma create_and_connect_throws env params owner repoName defaultBranch siteName w :
  no_request_succeeds env ->
  exists e w', NetlifyService.create_and_connect env params owner repoName defaultBranch
                 siteName w = (Threw e, w').
Proof.
  intros Hno. unfold NetlifyService.create_and_connect, bind at 1, fetch.
  match goal with |- context [env_fetch env ?n ?r] =>
    pose proof (Hno n r) as H; destruct (env_fetch env n r) as [resp|] end.
  - unfold bind at 1. rewrite H. cbn [negb]. unfold bind at 1, json.
    destruct (resp_json resp) as [err|]; [|by eexists _, _].
    unfold ret at 1. unfold bind at 1, prop.
    destruct (get err "message"); by eexists _, _.
  - by eexists _, _.
Qed.

Lemma create_with_deploy_hook_none env params w :
  no_request_succeeds env ->
  exists w', try_catch (NetlifyService.create_with_deploy_hook env params)
               (fun _ => ret None) w = (Returned None, w').
Proof.
  intros Hno. unfold NetlifyService.create_with_deploy_hook, try_catch, bind at 1, fetch.
  match goal with |- context [env_fetch env ?n ?r] =>
    pose proof (Hno n r) as H; destruct (env_fetch env n r) as [resp|] end.
  - rewrite H. by eexists.
  - by eexists.
Qed.

(** C9: when the repository URL matches the GitHub pattern,
    [createSiteFromRepo] returns a result object in every world and
    environment and never throws; and when no request to GitHub or
    Netlify succeeds, the result is the fabricated demo result: its id
    is "demo-" followed by the time, its URL is
    https://<site-name>-demo.netlify.app for the sanitized site name, and
    its [isDemo] flag is true. *)
Theorem createSiteFromRepo_never_throws (env : Env) (params : NetlifyParams) (w : World) :
  is_Some (NetlifyService.match_github (np_repositoryUrl params)) ->
  (exists r w',
     NetlifyService.createSiteFromRepo env params w = (Returned r, w') /\ is_object r)
  /\ (no_request_succeeds env ->
      exists r w' (t : nat),
        NetlifyService.createSiteFromRepo env params w = (Returned r, w')
        /\ get_opt r "id" = VStr ("demo-" +:+ pretty t)
        /\ get_opt r "url"
           = VStr ("https://" +:+ replace_non_slug (toLowerCase (np_siteName params))
                   +:+ "-demo.netlify.app")
        /\ get_opt r "isDemo" = VBool true).
Proof.
  intros [[owner repo] Hm]. split.
  - revert w. change (always_returns (NetlifyService.createSiteFromRepo env params) is_object).
    unfold NetlifyService.createSiteFromRepo. rewrite Hm.
    apply always_returns_bind with (P := fun _ => True).
    { intros w. by eexists _, _. }
    intros _ _. apply always_returns_bind with (P := fun _ => True).
    { apply getRepositoryDefaultBranch_returns. }
    intros defaultBranch _. apply always_returns_try.
    { apply create_and_connect_returns_object. }
    intros e.
    apply always_returns_bind
      with (P := fun o => match o with Some r => is_object r | None => True end).
    { apply always_returns_try; [apply create_with_deploy_hook_returns_object|].
      intros e'. by apply always_returns_ret. }
    intros [r|] Hr; [by apply always_returns_ret|].
    apply always_returns_bind with (P := fun _ => True); [by apply now_returns|].
    intros t _. apply always_returns_ret. by eexists.
  - intros Hno. unfold NetlifyService.createSiteFromRepo. rewrite Hm.
    unfold bind at 1, record_call. unfold bind at 1.
    destruct (getRepositoryDefaultBranch_main env owner (replace_first repo ".git" "")
                (set_calls (fun l => l ++ [CallNetlifyCreateSite params]) w) Hno)
      as [w1 ->].
    unfold try_catch at 1.
    destruct (create_and_connect_throws env params owner (replace_first repo ".git" "")
                (VStr "main") (replace_non_slug (toLowerCase (np_siteName params))) w1 Hno)
      as (e & w2 & ->).
    unfold bind at 1.
    destruct (create_with_deploy_hook_none env params w2 Hno) as [w3 ->].
    unfold bind, now, ret. eexists _, _, _. split; [reflexivity|].
    repeat split; reflexivity.
Qed.

Lemma createSiteFromRepo_never_throws_witness :
  exists r w',
    NetlifyService.createSiteFromRepo quiet_env shop_site empty_world = (Returned r, w')
    /\ get_opt r "url" = VStr "https://acme-shop-demo.netlify.app"
    /\ get_opt r "isDemo" = VBool true.
Proof.
  destruct (createSiteFromRepo_never_throws quiet_env shop_site empty_world) as [_ Hdemo].
  { vm_compute. eauto. }
  destruct Hdemo as (r & w' & t & Hrun & _ & Hurl & Hdemo).
  { intros n r. exact I. }
  exists r, w'. split; [exact Hrun|]. split; [|exact Hdemo].
  rewrite Hurl. vm_compute. reflexivity.
Defined.

(** ** The token vault (C7) *)

Lemma hex_value_digit (n : nat) : n < 16 -> hex_value (hex_digit n) = Some n.
Proof. intros H. do 16 (destruct n as [|n]; [reflexivity|]). lia. Qed.

Lemma code_bound (c : ascii) : code c < 256.
Proof. apply nat_ascii_bounded. Qed.

Lemma from_hex_to_hex (b : string) : TokenVault.from_hex (TokenVault.to_hex b) = b.
Proof.
  induction b as [|c b IH]; [reflexivity|].
  cbn [TokenVault.to_hex TokenVault.from_hex].
  pose proof (code_bound c) as Hc.
  rewrite !hex_value_digit.
  - rewrite IH. f_equal.
    rewrite Nat.mul_comm, <- Nat.div_mod_eq. apply ascii_nat_embedding.
  - apply Nat.mod_upper_bound. lia.
  - apply Nat.Div0.div_lt_upper_bound. lia.
Qed.

Lemma to_hex_inj (a b : string) : TokenVault.to_hex a = TokenVault.to_hex b -> a = b.
Proof. intros H. by rewrite <- (from_hex_to_hex a), H, from_hex_to_hex. Qed.



(** ** Frames *)

Global Instance quiet_preorder : PreOrder quiet.
Proof.
  split.
  - intros w. by split.
  - intros w1 w2 w3 [] []. split; try congruence; lia.
Qed.

Global Instance silent_preorder : PreOrder silent.
Proof.
  split.
  - intros w. by split.
  - intros w1 w2 w3 [] []. split; congruence.
Qed.

Global Instance same_calls_preorder : PreOrder same_calls.
Proof.
  split; [by intros w|]. intros w1 w2 w3 H1 H2. unfold same_calls in *. congruence.
Qed.

Lemma bind_run {A B} (m : M A) (k : A -> M B) (w : World) :
  bind m k w = match m w with
               | (Returned a, w1) => k a w1
               | (Threw e, w1) => (Threw e, w1)
               end.
Proof. reflexivity. Qed.

Lemma try_run {A} (m : M A) (h : Err -> M A) (w : World) :
  try_catch m h w = match m w with
                    | (Returned a, w1) => (Returned a, w1)
                    | (Threw e, w1) => h e w1
                    end.
Proof. reflexivity. Qed.

Section Effects.

Context (R : relation World) `{!PreOrder R}.

Lemma effect_ret {A} (a : A) : effect R (ret a).
Proof. intros w. reflexivity. Qed.

Lemma effect_throw {A} (e : Err) : effect R (@throw A e).
Proof. intros w. reflexivity. Qed.

Lemma effect_bind {A B} (m : M A) (k : A -> M B) :
  effect R m -> (forall a, effect R (k a)) -> effect R (bind m k).
Proof.
  intros Hm Hk w. rewrite bind_run. specialize (Hm w).
  destruct (m w) as [[a|e] w1]; [|exact Hm].
  etransitivity; [exact Hm|apply Hk].
Qed.

Lemma effect_try {A} (m : M A) (h : Err -> M A) :
  effect R m -> (forall e, effect R (h e)) -> effect R (try_catch m h).
Proof.
  intros Hm Hh w. rewrite try_run. specialize (Hm w).
  destruct (m w) as [[a|e] w1]; [exact Hm|].
  etransitivity; [exact Hm|apply Hh].
Qed.

Lemma effect_prop (v : value) (k : string) : effect R (prop v k).
Proof. unfold prop. destruct (get v k); [apply effect_ret|apply effect_throw]. Qed.

Lemma effect_json (r : Response) : effect R (json r).
Proof. unfold json. destruct (resp_json r); [apply effect_ret|apply effect_throw]. Qed.

Lemma effect_template (v : value) : effect R (template v).
Proof. unfold template. destruct (converts v); [apply effect_ret|apply effect_throw]. Qed.

Lemma effect_pure {A} (m : M A) : pure_computation m -> effect R m.
Proof. intros [o Ho] w. rewrite Ho. reflexivity. Qed.

End Effects.

Ltac effect_steps :=
  repeat first
    [ apply effect_ret; apply _
    | apply effect_throw; apply _
    | apply effect_prop; apply _
    | apply effect_json; apply _
    | apply effect_template; apply _
    | apply effect_bind; [apply _| |intros ?]
    | apply effect_try; [apply _| |intros ?]
    | match goal with
      | |- effect _ (if ?b then _ else _) => destruct b
      | |- effect _ (match ?x with _ => _ end) => destruct x
      | |- effect _ (let '(_, _) := ?x in _) => destruct x
      end ].

Lemma pure_ret {A} (a : A) : pure_computation (ret a).
Proof. by eexists. Qed.

Lemma pure_throw {A} (e : Err) : pure_computation (@throw A e).
Proof. by eexists. Qed.

Lemma pure_bind {A B} (m : M A) (k : A -> M B) :
  pure_computation m -> (forall a, pure_computation (k a)) -> pure_computation (bind m k).
Proof.
  intros [o Ho] Hk. destruct o as [a|e].
  - destruct (Hk a) as [o' Ho']. exists o'. intros w. by rewrite bind_run, Ho.
  - exists (Threw e). intros w. by rewrite bind_run, Ho.
Qed.

Ltac pure_steps :=
  repeat first
    [ apply pure_ret
    | apply pure_throw
    | apply pure_bind; [|intros ?]
    | match goal with
      | |- pure_computation (if ?b then _ else _) => destruct b
      | |- pure_computation (match ?x with _ => _ end) => destruct x
      end ].

Lemma detectBuildSettings_pure (bs : value) :
  pure_computation (DeploymentsService.detectBuildSettings bs).
Proof.
  unfold DeploymentsService.detectBuildSettings, DeploymentsService.opt_includes,
    DeploymentsService.toLowerCase_value.
  pure_steps.
Qed.

Lemma parse_token_pure (s : string) : pure_computation (DeploymentsService.parse_token s).
Proof. unfold DeploymentsService.parse_token. pure_steps. Qed.

Lemma is_real_token_pure (v : value) (s : string) :
  pure_computation (DeploymentsService.is_real_token v s).
Proof. unfold DeploymentsService.is_real_token, prop. pure_steps. Qed.

(** *** Primitive effects *)

Lemma now_quiet env : effect quiet (now env).
Proof. intros w. split; cbn; try reflexivity; lia. Qed.

Lemma now_silent env : effect silent (now env).
Proof. intros w. by split. Qed.

Lemma cuid_quiet : effect quiet cuid.
Proof. intros w. split; cbn; try reflexivity; lia. Qed.

Lemma cuid_silent : effect silent cuid.
Proof. intros w. by split. Qed.

Lemma fetch_quiet env r : effect quiet (fetch env r).
Proof. intros w. unfold fetch. destruct (env_fetch env _ r); by split. Qed.

Lemma fetch_same_calls env r : effect same_calls (fetch env r).
Proof. intros w. unfold fetch. by destruct (env_fetch env _ r). Qed.

Lemma now_same_calls env : effect same_calls (now env).
Proof. by intros w. Qed.

Lemma record_call_quiet c : effect quiet (record_call c).
Proof. intros w. by split. Qed.

Lemma entry_quiet env msg lvl : effect quiet (DeploymentsService.entry env msg lvl).
Proof. unfold DeploymentsService.entry. effect_steps. apply now_quiet. Qed.

Lemma entry_silent env msg lvl : effect silent (DeploymentsService.entry env msg lvl).
Proof. unfold DeploymentsService.entry. effect_steps. apply now_silent. Qed.

Lemma get_world_effect (R : relation World) `{!PreOrder R} : effect R get_world.
Proof. intros w. reflexivity. Qed.

Lemma organization_create_quiet env name slug user role :
  effect quiet (organization_create env name slug user role).
Proof.
  unfold organization_create, get_world. intros w. rewrite bind_run.
  destruct (existsb _ _); [reflexivity|].
  split; cbn; try reflexivity; lia.
Qed.

Lemma organization_create_silent env name slug user role :
  effect silent (organization_create env name slug user role).
Proof.
  unfold organization_create, get_world. intros w. rewrite bind_run.
  destruct (existsb _ _); [reflexivity|]. by split.
Qed.

Lemma project_create_quiet name slug descr org : effect quiet (project_create name slug descr org).
Proof.
  unfold project_create, get_world. intros w. rewrite bind_run.
  destruct (existsb _ _); [reflexivity|].
  split; cbn; try reflexivity; lia.
Qed.

Lemma project_create_silent name slug descr org :
  effect silent (project_create name slug descr org).
Proof.
  unfold project_create, get_world. intros w. rewrite bind_run.
  destruct (existsb _ _); [reflexivity|]. by split.
Qed.

Lemma find_or_create_project_quiet env input :
  effect quiet (DeploymentsService.find_or_create_project env input).
Proof.
  unfold DeploymentsService.find_or_create_project.
  apply effect_bind; [apply _|by intros w|]. intros [p|]; [apply effect_ret; apply _|].
  apply effect_bind; [apply _|by intros w|]. intros o.
  apply effect_bind; [apply _| |intros ?; apply project_create_quiet].
  destruct o; [apply effect_ret; apply _|apply organization_create_quiet].
Qed.

Lemma find_or_create_project_silent env input :
  effect silent (DeploymentsService.find_or_create_project env input).
Proof.
  unfold DeploymentsService.find_or_create_project.
  apply effect_bind; [apply _|by intros w|]. intros [p|]; [apply effect_ret; apply _|].
  apply effect_bind; [apply _|by intros w|]. intros o.
  apply effect_bind; [apply _| |intros ?; apply project_create_silent].
  destruct o; [apply effect_ret; apply _|apply organization_create_silent].
Qed.

(** *** Effects of the Netlify adapter *)

Ltac netlify_effects :=
  effect_steps;
  first [ apply fetch_quiet | apply now_quiet | apply record_call_quiet
        | apply fetch_same_calls | apply now_same_calls | idtac ].

Lemma createSiteFromRepo_quiet env params :
  effect quiet (NetlifyService.createSiteFromRepo env params).
Proof.
  unfold NetlifyService.createSiteFromRepo, NetlifyService.getRepositoryDefaultBranch,
    NetlifyService.create_and_connect, NetlifyService.create_with_deploy_hook,
    NetlifyService.connectGitRepository, NetlifyService.deployFromGitHubZip,
    NetlifyService.createGitHubActionsWorkflow.
  netlify_effects.
Qed.

Lemma createSiteFromRepo_body_same_calls env params owner repo :
  effect same_calls
    (let repoName := replace_first repo ".git" "" in
     let! defaultBranch := NetlifyService.getRepositoryDefaultBranch env owner repoName in
     let siteName := replace_non_slug (toLowerCase (np_siteName params)) in
     try_catch
       (NetlifyService.create_and_connect env params owner repoName defaultBranch siteName)
       (fun _ =>
          let! fallback :=
            try_catch (NetlifyService.create_with_deploy_hook env params) (fun _ => ret None) in
          match fallback with
          | Some result => ret result
          | None =>
              let siteName := replace_non_slug (toLowerCase (np_siteName params)) in
              let! t := now env in
              ret (NetlifyService.demo_result siteName t)
          end)).
Proof.
  unfold NetlifyService.getRepositoryDefaultBranch,
    NetlifyService.create_and_connect, NetlifyService.create_with_deploy_hook,
    NetlifyService.connectGitRepository, NetlifyService.deployFromGitHubZip,
    NetlifyService.createGitHubActionsWorkflow.
  cbv zeta. netlify_effects.
Qed.

(** [createSiteFromRepo] enters the adapter once. *)
Lemma createSiteFromRepo_calls env params w :
  calls (NetlifyService.createSiteFromRepo env params w).2
  = calls w ++ [CallNetlifyCreateSite params].
Proof.
  unfold NetlifyService.createSiteFromRepo. rewrite bind_run. cbn [record_call].
  destruct (NetlifyService.match_github (np_repositoryUrl params)) as [[owner repo]|];
    [|reflexivity].
  apply (createSiteFromRepo_body_same_calls env params owner repo).
Qed.

(** ** Missing credentials (C4) *)

Lemma find_app_last {A} (f : A -> bool) (l : list A) (x : A) :
  f x = true -> exists y, find f (l ++ [x]) = Some y /\ f y = true.
Proof.
  intros Hx. induction l as [|a l IH]; cbn.
  - rewrite Hx. eauto.
  - destruct (f a) eqn:Ha; eauto.
Qed.

(** An update of the row that was just appended goes through. *)
Lemma deployment_update_last (row : Deployment) (u : DeploymentUpdate) (w : World) (l : list Deployment) :
  deployments w = l ++ [row] ->
  exists d w',
    deployment_update (id row) u w = (Returned (apply_update u d), w')
    /\ id d = id row
    /\ written w' = written w ++ [apply_update u d]
    /\ timers w' = timers w /\ calls w' = calls w /\ fetches w' = fetches w
    /\ integrations w' = integrations w /\ next_id w' = next_id w
    /\ projects w' = projects w
    /\ (forall x, In x (deployments w) -> exists y, In y (deployments w') /\ id y = id x).
Proof.
  intros Hd. unfold deployment_update. rewrite Hd.
  destruct (find_app_last (fun d => String.eqb (id d) (id row)) l row) as (d & -> & Hid).
  { apply String.eqb_refl. }
  apply String.eqb_eq in Hid.
  eexists d, _. split; [reflexivity|]. cbn. rewrite Hd. repeat split; try done.
  intros x Hx. destruct (String.eqb (id x) (id row)) eqn:E.
  - exists (apply_update u d). split.
    + apply in_map_iff. exists x. by rewrite E.
    + cbn. apply String.eqb_eq in E. congruence.
  - exists x. split; [|done]. apply in_map_iff. exists x. by rewrite E.
Qed.

(** C4 (refuted as stated): without a Netlify integration,
    [deployToNetlify] enters the Netlify adapter and leaves the record in
    a status other than [requires_setup]. *)
Lemma netlify_without_credential_deploys : ~ missing_credential_needs_setup.
Proof.
  intros [_ H]. destruct (H quiet_env shop_input empty_world eq_refl) as [Hcalls _].
  vm_compute in Hcalls. discriminate.
Qed.
Ltac name_created_row row w2 :=
  match goal with
  | |- context [set_deployments ?f ?r ?w0] =>
      set (w2 := set_deployments f r w0); set (row := r) in *
  end.

(** C4 (amended): when the project of the request can be found or
    created and the user has no integration row for the provider,
    [deployToVercel] returns a refusal, writes one record with status
    [requires_setup] and calls no adapter, sends no request and sets no
    timer; [deployToNetlify] instead runs as a demo: it writes the record
    with status [demo_deployment], answers with that status and
    [isDemo], calls [createSiteFromRepo] with the placeholder token
    'demo-token' unless build-settings detection throws, and leaves the
    record either in [demo_deployment] with a completion timer pending or,
    when the attempt threw, in [failed]. *)
Theorem missing_credential_by_provider
  (env : Env) (input : DeployInput) (w : World) (p : Project) (w1 : World) :
  DeploymentsService.find_or_create_project env input w = (Returned p, w1) ->
  (integrations w !! (userId input, "vercel") = None ->
   exists d v w',
     DeploymentsService.deployToVercel env input w = (Returned v, w')
     /\ get_opt v "success" = VBool false
     /\ get_opt (get_opt v "deployment") "status" = VStr "requires_setup"
     /\ status d = "requires_setup"
     /\ deployments w' = deployments w ++ [d]
     /\ written w' = written w ++ [d]
     /\ calls w' = calls w /\ fetches w' = fetches w /\ timers w' = timers w)
  /\ (integrations w !! (userId input, "netlify") = None ->
      exists d v w',
        DeploymentsService.deployToNetlify env input w = (Returned v, w')
        /\ get_opt v "status" = VStr "demo_deployment"
        /\ get_opt v "isDemo" = VBool true
        /\ status d = "demo_deployment"
        /\ ((written w' = written w ++ [d]
             /\ exists t, timers w' = timers w ++ [t]
                  /\ exists r, callback t = NetlifyDemoComplete (id d) r)
            \/ (exists d', written w' = written w ++ [d; d']
                  /\ id d' = id d /\ status d' = "failed" /\ timers w' = timers w))
        /\ ((exists s, DeploymentsService.detectBuildSettings (buildSettings input) w
                       = (Returned s, w)) ->
            calls w' = calls w ++ [CallNetlifyCreateSite (demo_site input)])).
Proof.
  intros E.
  pose proof (find_or_create_project_quiet env input w) as Hq.
  pose proof (find_or_create_project_silent env input w) as Hs.
  rewrite E in Hq, Hs. cbn [snd] in Hq, Hs.
  destruct Hq as [Hqi Hqd Hqw Hqt _ _], Hs as [Hsc Hsf].
  split; intros Hnone.
  - unfold DeploymentsService.deployToVercel. rewrite bind_run.
    cbn [providerIntegration_findUnique]. rewrite Hnone, bind_run, E.
    cbn -[pretty String.append]. name_created_row row w2.
    exists row. eexists _, _. split; [reflexivity|].
    cbn -[pretty String.append]. rewrite Hqd, Hqw, Hsc, Hsf, Hqt. by repeat split.
  - unfold DeploymentsService.deployToNetlify. rewrite bind_run, E.
    cbn -[pretty String.append DeploymentsService.detectBuildSettings
          NetlifyService.createSiteFromRepo].
    name_created_row row w2.
    rewrite Hqi, Hnone, bind_run. cbn [ret]. rewrite bind_run, try_run, bind_run.
    destruct (detectBuildSettings_pure (buildSettings input)) as [o Ho]. rewrite !Ho.
    assert (Hd2 : deployments w2 = deployments w1 ++ [row]) by reflexivity.
    assert (Hw2 : written w2 = written w ++ [row]) by (cbn; by rewrite Hqw).
    assert (Ht2 : timers w2 = timers w) by (cbn; by rewrite Hqt).
    assert (Hc2 : calls w2 = calls w) by (cbn; by rewrite Hsc).
    clearbody w2. exists row.
    destruct o as [s|e].
    + cbv beta iota. rewrite bind_run.
      pose proof (createSiteFromRepo_quiet env (demo_site input) w2) as Hq3.
      pose proof (createSiteFromRepo_calls env (demo_site input) w2) as Hc3.
      change {| np_token := VStr "demo-token"; np_repositoryUrl := repositoryUrl input;
                np_siteName := in_projectId input; np_buildCommand := "npm run build";
                np_publishDirectory := "build" |} with (demo_site input).
      destruct (NetlifyService.createSiteFromRepo env (demo_site input) w2)
        as [[r|e] w3] eqn:E3; cbn [snd] in Hq3, Hc3;
        destruct Hq3 as [_ Hd3 Hw3 Ht3 _ _].
      * cbn -[pretty String.append]. eexists _, _. split; [reflexivity|].
        cbn -[pretty String.append]. rewrite Hw3, Hw2, Ht3, Ht2, Hc3, Hc2.
        split; [done|]. split; [done|]. split; [done|]. split; [|done].
        left. split; [done|]. eexists. split; [reflexivity|]. by eexists.
      * rewrite bind_run. cbn -[pretty String.append deployment_update].
        match goal with
        | |- context [bind (deployment_update ?i ?u) ?k ?w0] =>
            destruct (deployment_update_last row u w0 (deployments w1))
              as (d0 & w4 & Hrun & Hid & Hw4 & Ht4 & Hc4 & _)
        end.
        { cbn. by rewrite Hd3. }
        rewrite bind_run. change ("c" +:+ pretty (next_id w1)) with (id row).
        rewrite Hrun. cbn -[pretty String.append].
        eexists _, _. split; [reflexivity|].
        cbn -[pretty String.append] in Hw4, Ht4, Hc4.
        rewrite Hw4, Ht4, Hc4, Hw3, Hw2, Ht3, Ht2, Hc3, Hc2.
        split; [done|]. split; [done|]. split; [done|]. split; [|done].
        right. eexists. rewrite <- app_assoc. split; [reflexivity|]. by repeat split.
    + cbv beta iota. rewrite bind_run. cbn -[pretty String.append deployment_update].
      match goal with
      | |- context [bind (deployment_update ?i ?u) ?k ?w0] =>
          destruct (deployment_update_last row u w0 (deployments w1))
            as (d0 & w4 & Hrun & Hid & Hw4 & Ht4 & Hc4 & _)
      end.
      { cbn. by rewrite Hd2. }
      rewrite bind_run. change ("c" +:+ pretty (next_id w1)) with (id row).
      rewrite Hrun. cbn -[pretty String.append].
      eexists _, _. split; [reflexivity|].
      cbn -[pretty String.append] in Hw4, Ht4, Hc4.
      rewrite Hw4, Ht4, Hc4, Hw2, Ht2, Hc2.
      split; [done|]. split; [done|]. split; [done|]. split.
      * right. eexists. rewrite <- app_assoc. split; [reflexivity|]. by repeat split.
      * intros [s Hs]. discriminate.
Qed.

Lemma missing_credential_by_provider_witness :
  (exists d v w',
     DeploymentsService.deployToVercel quiet_env shop_input empty_world = (Returned v, w')
     /\ status d = "requires_setup" /\ deployments w' = [d] /\ calls w' = [])
  /\ (exists v w',
        DeploymentsService.deployToNetlify quiet_env shop_input empty_world = (Returned v, w')
        /\ get_opt v "status" = VStr "demo_deployment"
        /\ calls w' = [CallNetlifyCreateSite (demo_site shop_input)]).
Proof.
  destruct (DeploymentsService.find_or_create_project quiet_env shop_input empty_world)
    as [o w1] eqn:E.
  assert (exists p, o = Returned p) as [p ->].
  { vm_compute in E. injection E as <- _. by eexists. }
  destruct (missing_credential_by_provider quiet_env shop_input empty_world p w1 E)
    as [Hv Hn].
  split.
  - destruct (Hv eq_refl) as (d & v & w' & Hrun & _ & _ & Hst & Hd & _ & Hc & _).
    exists d, v, w'. by repeat split.
  - destruct (Hn eq_refl) as (d & v & w' & Hrun & Hst & _ & _ & _ & Hc).
    exists v, w'. split; [done|]. split; [done|]. apply Hc.
    eexists. vm_compute. reflexivity.
Defined.

(** ** The history of deployment records (C1) *)

Lemma cuid_of_inj (n m : nat) : cuid_of n = cuid_of m -> n = m.
Proof. unfold cuid_of. intros [= H]. by apply pretty_nat_inj in H. Qed.

Lemma versions_app (i : string) (l l' : list Deployment) :
  versions i (l ++ l') = versions i l ++ versions i l'.
Proof. apply List.filter_app. Qed.

Lemma versions_other (i : string) (v : Deployment) :
  id v <> i -> versions i [v] = [].
Proof. intros H. cbn. apply String.eqb_neq in H. by rewrite H. Qed.

Lemma versions_same (v : Deployment) : versions (id v) [v] = [v].
Proof. cbn. by rewrite String.eqb_refl. Qed.

Lemma versions_nil (i : string) (l : list Deployment) :
  (forall v, In v l -> id v <> i) -> versions i l = [].
Proof.
  induction l as [|v l IH]; [done|]. intros H. cbn.
  destruct (String.eqb (id v) i) eqn:E.
  - apply String.eqb_eq in E. exfalso. apply (H v); [by left|done].
  - apply IH. intros v' Hv'. apply H. by right.
Qed.

Lemma versions_fresh (w : World) (n : nat) :
  consistent w -> next_id w <= n -> versions (cuid_of n) (written w) = [].
Proof.
  intros Hc Hn. apply versions_nil. intros v Hv Heq.
  destruct (written_ids w Hc v Hv) as (m & Hm & Hid).
  rewrite Hid in Heq. apply cuid_of_inj in Heq. lia.
Qed.

Lemma ordered_after_weaken (lo lo' : nat) (l : list LogEntry) :
  lo' <= lo -> ordered_after lo l -> ordered_after lo' l.
Proof. destruct l as [|e r]; [done|]. cbn. intros H [H1 H2]. split; [lia|done]. Qed.

Lemma opening_not_closing (v0 v1 : Deployment) :
  opening v0 -> closing v1 -> ~ extends_log v0 v1.
Proof.
  intros (e & rest & He & Hm) (e' & rest' & He' & Hm') [more Hext].
  rewrite He, He' in Hext. injection Hext as -> _.
  destruct Hm as [Hm|Hm]; rewrite Hm in Hm';
    destruct Hm' as [Hm'|[Hm'|[Hm'|[reason Hm']]]]; discriminate.
Qed.

Lemma in_progress_created (s : string) : in_progress s -> created_as s.
Proof. by left. Qed.

Lemma timer_versions_kept (w : World) (t : Timer) (v : Deployment) (n : nat) :
  consistent w -> In t (timers w) -> next_id w <= n -> id v = cuid_of n ->
  versions (timer_id t) [v] = [].
Proof.
  intros Hc Ht Hn Hid. apply versions_other. rewrite Hid. intros Heq.
  destruct (timer_ids w Hc t Ht) as (m & Hm & Htid).
  rewrite Htid in Heq. apply cuid_of_inj in Heq. lia.
Qed.

(** Whatever an operation adds keeps the history consistent. *)
Lemma extension_consistent (w w' : World) :
  consistent w -> extension w w' -> consistent w'.
Proof.
  intros Hc Hext.
  destruct Hext as
    [ Hw Ht Hn
    | v0 n Hlo Hhi Hid Hst Hord Hw Ht
    | v0 n t Hlo Hhi Hid Hst Hop Hord Hw Ht Htid
    | v0 v1 n Hlo Hhi Hid Hid1 Hst Hfin Hop Hcl Hord0 Hord1 Hw Ht
    | l1 l2 t v1 Hl Hl' Hn Hid Hst Hcl Hord Hw
    | l1 l2 t Hl Hl' Hn Hw ].
  - (* nothing written *)
    split; rewrite ?Hw, ?Ht; try apply Hc.
    + intros v Hv. destruct (written_ids w Hc v Hv) as (m & Hm & E). exists m. split; [lia|done].
    + intros t Hin. destruct (timer_ids w Hc t Hin) as (m & Hm & E). exists m. split; [lia|done].
  - (* a record created *)
    split; rewrite ?Hw, ?Ht.
    + intros v [Hv|[<-|[]]]%in_app_or.
      * destruct (written_ids w Hc v Hv) as (m & Hm & E). exists m. split; [lia|done].
      * exists n. split; [lia|done].
    + intros t Hin. destruct (timer_ids w Hc t Hin) as (m & Hm & E). exists m. split; [lia|done].
    + apply Hc.
    + intros t Hin. rewrite versions_app, (timer_versions_kept w t v0 n), app_nil_r by done.
      by apply Hc.
    + intros i. rewrite versions_app. destruct (decide (id v0 = i)) as [<-|Hne].
      * rewrite Hid, versions_fresh, <- Hid, versions_same by done. exact Hst.
      * rewrite versions_other, app_nil_r by done. apply Hc.
    + intros v [Hv|[<-|[]]]%in_app_or; [by apply Hc|done].
  - (* a record created, a timer set *)
    split; rewrite ?Hw, ?Ht.
    + intros v [Hv|[<-|[]]]%in_app_or.
      * destruct (written_ids w Hc v Hv) as (m & Hm & E). exists m. split; [lia|done].
      * exists n. split; [lia|done].
    + intros t' [Hin|[<-|[]]]%in_app_or.
      * destruct (timer_ids w Hc t' Hin) as (m & Hm & E). exists m. split; [lia|done].
      * exists n. split; [lia|congruence].
    + rewrite map_app. apply NoDup_app. split; [apply Hc|]. split; [|apply NoDup_singleton].
      intros i Hi [Hi'|[]]%list_elem_of_In.
      apply list_elem_of_In, in_map_iff in Hi as (t' & E & Hin).
      destruct (timer_ids w Hc t' Hin) as (m & Hm & E').
      assert (Heq : cuid_of m = cuid_of n) by congruence.
      apply cuid_of_inj in Heq. lia.
    + intros t' [Hin|[<-|[]]]%in_app_or.
      * rewrite versions_app, (timer_versions_kept w t' v0 n), app_nil_r by done.
        by apply Hc.
      * rewrite Htid, versions_app, Hid, versions_fresh, <- Hid, versions_same by done.
        by exists v0.
    + intros i. rewrite versions_app. destruct (decide (id v0 = i)) as [<-|Hne].
      * rewrite Hid, versions_fresh, <- Hid, versions_same by done.
        by apply in_progress_created.
      * rewrite versions_other, app_nil_r by done. apply Hc.
    + intros v [Hv|[<-|[]]]%in_app_or; [by apply Hc|done].
  - (* a record created and updated *)
    assert (Hv01 : forall i, versions i [v0; v1] = versions i [v0] ++ versions i [v1]).
    { intros i. apply (versions_app i [v0] [v1]). }
    split; rewrite ?Hw, ?Ht.
    + intros v [Hv|[<-|[<-|[]]]]%in_app_or.
      * destruct (written_ids w Hc v Hv) as (m & Hm & E). exists m. split; [lia|done].
      * exists n. split; [lia|done].
      * exists n. split; [lia|congruence].
    + intros t Hin. destruct (timer_ids w Hc t Hin) as (m & Hm & E). exists m. split; [lia|done].
    + apply Hc.
    + intros t Hin.
      rewrite versions_app, Hv01, (timer_versions_kept w t v0 n),
        (timer_versions_kept w t v1 n), app_nil_r by (done || congruence).
      by apply Hc.
    + intros i. rewrite versions_app, Hv01. destruct (decide (id v0 = i)) as [<-|Hne].
      * rewrite Hid, versions_fresh, <- Hid, versions_same by done.
        rewrite <- Hid1, versions_same. cbn. done.
      * rewrite !versions_other, app_nil_r by congruence. apply Hc.
    + intros v [Hv|[<-|[<-|[]]]]%in_app_or; [by apply Hc|done|done].
  - (* a timer fired and wrote *)
    assert (Hin : In t (timers w)).
    { rewrite Hl. apply in_or_app. right. by left. }
    assert (Hnd : NoDup (map timer_id l1 ++ timer_id t :: map timer_id l2)).
    { pose proof (timers_distinct w Hc) as H. by rewrite Hl, map_app in H. }
    assert (Hother : forall t', In t' (l1 ++ l2) -> timer_id t' <> timer_id t).
    { apply NoDup_app in Hnd as (_ & H1 & [H2 _]%NoDup_cons).
      intros t' [Ht'|Ht']%in_app_or Heq.
      - apply (H1 (timer_id t)); [|by left].
        apply list_elem_of_In, in_map_iff. by exists t'.
      - apply H2. apply list_elem_of_In, in_map_iff. by exists t'. }
    assert (Hsub : forall t', In t' (l1 ++ l2) -> In t' (timers w)).
    { rewrite Hl. intros t' [?|?]%in_app_or; apply in_or_app; [by left|by right; right]. }
    destruct (timers_pending w Hc t Hin) as (v0 & Hv0 & Hprog & Hop).
    split; rewrite ?Hw, ?Hl'.
    + intros v [Hv|[<-|[]]]%in_app_or.
      * destruct (written_ids w Hc v Hv) as (m & Hm & E). exists m. split; [lia|done].
      * destruct (timer_ids w Hc t Hin) as (m & Hm & E). exists m. split; [lia|congruence].
    + intros t' Ht'. destruct (timer_ids w Hc t' (Hsub t' Ht')) as (m & Hm & E).
      exists m. split; [lia|done].
    + rewrite map_app. apply NoDup_app in Hnd as (H1 & H2 & [H3 H4]%NoDup_cons).
      apply NoDup_app. split; [done|]. split; [|done].
      intros i Hi Hi'. apply (H2 i Hi). by right.
    + intros t' Ht'. rewrite versions_app, versions_other, app_nil_r.
      * apply Hc. by apply Hsub.
      * rewrite Hid. intros Heq. by apply (Hother t' Ht').
    + intros i. rewrite versions_app. destruct (decide (id v1 = i)) as [<-|Hne].
      * rewrite versions_same, Hid, Hv0. cbn. rewrite Hst. split; [done|].
        split; [right; right; by left|done].
      * rewrite versions_other, app_nil_r by done. apply Hc.
    + intros v [Hv|[<-|[]]]%in_app_or; [by apply Hc|done].
  - (* a timer fired and wrote nothing *)
    assert (Hsub : forall t', In t' (l1 ++ l2) -> In t' (timers w)).
    { rewrite Hl. intros t' [?|?]%in_app_or; apply in_or_app; [by left|by right; right]. }
    split; rewrite ?Hw, ?Hl'; try apply Hc.
    + intros v Hv. destruct (written_ids w Hc v Hv) as (m & Hm & E). exists m. split; [lia|done].
    + intros t' Ht'. destruct (timer_ids w Hc t' (Hsub t' Ht')) as (m & Hm & E).
      exists m. split; [lia|done].
    + pose proof (timers_distinct w Hc) as H. rewrite Hl, !map_app in H. cbn in H.
      rewrite map_app.
      apply NoDup_app in H as (H1 & H2 & [H3 H4]%NoDup_cons).
      apply NoDup_app. split; [done|]. split; [|done].
      intros i Hi Hi'. apply (H2 i Hi). by right.
    + intros t' Ht'. apply Hc. by apply Hsub.
Qed.

(** *** What each operation adds *)

Lemma find_or_create_project_spec env input w p w1 :
  DeploymentsService.find_or_create_project env input w = (Returned p, w1) ->
  In p (projects w1) /\ proj_name p = in_projectId input.
Proof.
  unfold DeploymentsService.find_or_create_project. rewrite bind_run.
  cbn [project_findFirst_name].
  destruct (find _ (projects w)) as [p0|] eqn:Ef.
  - intros [= <- <-]. apply find_some in Ef as [Hin Hname].
    split; [done|]. by apply String.eqb_eq.
  - rewrite bind_run. cbn [organization_findFirst_member]. rewrite bind_run.
    set (org := match find _ (organizations w) with Some o => ret o | None => _ end).
    destruct (org w) as [[o|e] w0]; [|discriminate].
    unfold project_create. rewrite bind_run. cbn [get_world].
    destruct (existsb _ (projects w0)); [discriminate|].
    cbn -[pretty String.append]. intros [= <- <-]. cbn -[pretty String.append].
    split; [|done]. apply in_or_app. right. by left.
Qed.

Lemma find_or_create_project_existing env input w :
  (exists p, In p (projects w) /\ proj_name p = in_projectId input) ->
  exists p, DeploymentsService.find_or_create_project env input w = (Returned p, w).
Proof.
  intros (p & Hin & Hname).
  unfold DeploymentsService.find_or_create_project. rewrite bind_run.
  cbn [project_findFirst_name].
  destruct (find _ (projects w)) as [p0|] eqn:Ef; [by eexists|].
  exfalso. apply (find_none _ _ Ef) in Hin. rewrite Hname, String.eqb_refl in Hin. done.
Qed.

Lemma deployment_update_written (i : string) (u : DeploymentUpdate) (w : World) :
  (exists d w',
     deployment_update i u w = (Returned d, w')
     /\ id d = i /\ status d = u_status u /\ logs d = u_logs u
     /\ written w' = written w ++ [d]
     /\ timers w' = timers w /\ next_id w' = next_id w
     /\ integrations w' = integrations w /\ projects w' = projects w)
  \/ (exists e, deployment_update i u w = (Threw e, w)).
Proof.
  unfold deployment_update.
  destruct (find _ (deployments w)) as [d|] eqn:Ef; [left|right; by eexists].
  apply find_some in Ef as [_ Hid]. apply String.eqb_eq in Hid.
  eexists _, _. split; [reflexivity|]. by repeat split.
Qed.

(** *** Runs of the deployment methods *)

Ltac created_facts w1 w2 row Hd2 Hw2 Ht2 Hn2 Hi2 Hp2 :=
  assert (Hd2 : deployments w2 = deployments w1 ++ [row]) by reflexivity;
  assert (Hw2 : written w2 = written w1 ++ [row]) by reflexivity;
  assert (Ht2 : timers w2 = timers w1) by reflexivity;
  assert (Hn2 : next_id w2 = S (next_id w1)) by reflexivity;
  assert (Hi2 : integrations w2 = integrations w1) by reflexivity;
  assert (Hp2 : projects w2 = projects w1) by reflexivity;
  clearbody w2.

(** Runs the pending [deployment_update] on the row [v0] that was
    appended last, and names what it wrote. *)
Ltac run_update v0 l Hd :=
  match goal with
  | |- context [bind (deployment_update ?i ?u) ?k ?w0] =>
      let upd := fresh "upd" in
      set (upd := u);
      assert (Hfin : final (u_status upd))
        by (cbn; repeat case_match; unfold final; eauto);
      assert (Hcl : closes (u_logs upd))
        by (eexists _, _; split; [reflexivity|]; cbn; eauto 6);
      assert (Hor : ordered (u_logs upd));
      [|clearbody upd;
        destruct (deployment_update_last v0 upd w0 l)
          as (d0 & w4 & Hrun & Hid & Hw4 & Ht4 & Hc4 & Hf4 & Hi4 & Hn4 & Hp4 & _);
        [cbn; exact Hd|];
        rewrite bind_run;
        change i with (id v0);
        rewrite Hrun;
        cbn -[pretty String.append] in Hw4, Ht4, Hi4, Hn4, Hp4;
        cbn -[pretty String.append deploy_post]]
  end.

Ltac leaf := unfold deploy_post, ret; cbn [fst snd].

Ltac solve_in := rewrite ?in_app_iff; cbn; tauto.

(** The opening block threw: the run could not start. *)
Ltac not_startable E :=
  let Hb := fresh in
  intros [(? & ? & Hb) _]; rewrite E in Hb; discriminate Hb.

Lemma deployToVercel_run env input w :
  deploy_post (vercel_ready input (integrations w !! (userId input, "vercel")))
    env input w (DeploymentsService.deployToVercel env input w).
Proof.
  pose proof (find_or_create_project_quiet env input w) as Hq.
  pose proof (find_or_create_project_spec env input w) as Hp.
  unfold DeploymentsService.deployToVercel. rewrite bind_run.
  cbn [providerIntegration_findUnique].
  destruct (integrations w !! (userId input, "vercel")) as [row|] eqn:Hrow;
    rewrite bind_run;
    (destruct (DeploymentsService.find_or_create_project env input w) as [[p|e] w1] eqn:E;
     cbn [snd] in Hq; destruct Hq as [Hqi Hqd Hqw Hqt Hqn _];
     [specialize (Hp p w1 eq_refl)
     |leaf; split; [by apply ext_calm|]; split; [done|]; not_startable E]).
  - cbn -[pretty String.append DeploymentsService.parse_token
          DeploymentsService.is_real_token DeploymentsService.detectBuildSettings
          DeploymentsService.vercel_createDeployment deployment_update setTimeout
          deploy_post].
    name_created_row v0 w2. created_facts w1 w2 v0 Hd2 Hw2 Ht2 Hn2 Hi2 Hp2.
    assert (Hv0 : id v0 = cuid_of (next_id w1)) by reflexivity.
    assert (Hs0 : in_progress (status v0)) by (by left).
    assert (Hop : opening v0) by (eexists _, _; split; [reflexivity|by left]).
    assert (Ho0 : ordered (logs v0)) by (cbn; lia).
    assert (Hcreated : extension w w2).
    { eapply ext_created with (n := next_id w1) (v0 := v0);
        rewrite ?Hn2, ?Hw2, ?Ht2, ?Hqw, ?Hqt; try done; try lia. by left. }
    destruct (parse_token_pure (encryptedToken row)) as [o1 Ho1].
    rewrite bind_run, Ho1. destruct o1 as [tokenData|e1].
    2:{ leaf. rewrite Hi2. split; [done|]. split; [done|].
        intros [_ (td & rl & st & H1 & _)]. specialize (H1 w). rewrite Ho1 in H1.
        discriminate H1. }
    destruct (is_real_token_pure tokenData "demo-vercel-token") as [o2 Ho2].
    rewrite bind_run, Ho2. destruct o2 as [real|e2].
    2:{ leaf. rewrite Hi2. split; [done|]. split; [done|].
        intros [_ (td & rl & st & H1 & H2 & _)]. specialize (H1 w). rewrite Ho1 in H1.
        injection H1 as <-. specialize (H2 w). rewrite Ho2 in H2. discriminate H2. }
    destruct (detectBuildSettings_pure (buildSettings input)) as [o3 Ho3].
    rewrite bind_run, Ho3. destruct o3 as [settings|e3].
    2:{ leaf. rewrite Hi2. split; [done|]. split; [done|].
        intros [_ (td & rl & st & _ & _ & H3)]. specialize (H3 w). rewrite Ho3 in H3.
        discriminate H3. }
    assert (Hready : vercel_ready input (Some row)) by (by exists tokenData, real, settings).
    rewrite bind_run. destruct real.
    + (* a real deployment *)
      rewrite try_run, bind_run. unfold DeploymentsService.vercel_createDeployment at 1.
      destruct (env_vercel env _ _) as [ms|e4];
        cbn -[pretty String.append deployment_update deploy_post];
        run_update v0 (deployments w1) Hd2; [cbn; lia| |cbn; lia|].
      all: leaf; split;
        [ eapply ext_finished with (n := next_id w1) (v0 := v0) (v1 := apply_update upd d0);
          rewrite ?Hn4, ?Hn2, ?Hw4, ?Hw2, ?Ht4, ?Ht2, ?Hqw, ?Hqt, <- ?app_assoc;
          try done; try lia
        | split; [by rewrite Hi4, Hi2|];
          split; [|exact Hready];
          split;
          [ by eexists _, _
          | exists (next_id w1); rewrite Hn4, Hn2; repeat split; lia
          | exists p; by rewrite Hp4, Hp2
          | exists v0; split; [rewrite Hw4, Hw2; solve_in|reflexivity] ] ].
    + (* a demo deployment *)
      leaf. cbn -[pretty String.append]. split.
      * eapply ext_pending with (n := next_id w1) (v0 := v0);
          cbn -[pretty String.append];
          rewrite ?Hn2, ?Hw2, ?Ht2, ?Hqw, ?Hqt; try done; lia.
      * split; [by rewrite Hi2|].
        split; [|exact Hready].
        split;
          [ by eexists _, _
          | exists (next_id w1); cbn -[pretty String.append]; rewrite Hn2; repeat split; lia
          | exists p; cbn -[pretty String.append]; by rewrite Hp2
          | exists v0; split; [cbn -[pretty String.append]; rewrite Hw2; solve_in
                              |reflexivity] ].
  - cbn -[pretty String.append deploy_post]. leaf. name_created_row v0 w2. split.
    + eapply ext_created with (n := next_id w1) (v0 := v0);
        cbn -[pretty String.append]; rewrite ?Hqw, ?Hqt; try done; try lia.
      right. by left.
    + split; [done|]. split; [|done].
      split;
        [ by eexists _, _
        | exists (next_id w1); cbn -[pretty String.append]; repeat split; lia
        | exists p; by cbn -[pretty String.append]
        | exists v0; split; [cbn -[pretty String.append]; solve_in|reflexivity] ].
Qed.

Global Instance remote_preorder : PreOrder remote.
Proof.
  split.
  - intros w. by split.
  - intros w1 w2 w3 [] []. split; try congruence; lia.
Qed.

Lemma now_remote env : effect remote (now env).
Proof. intros w. split; cbn; try reflexivity; lia. Qed.

Lemma fetch_remote env r : effect remote (fetch env r).
Proof. intros w. unfold fetch. destruct (env_fetch env _ r); by split. Qed.

Lemma record_call_remote c : effect remote (record_call c).
Proof. intros w. by split. Qed.

Lemma createSiteFromRepo_remote env params :
  effect remote (NetlifyService.createSiteFromRepo env params).
Proof.
  unfold NetlifyService.createSiteFromRepo, NetlifyService.getRepositoryDefaultBranch,
    NetlifyService.create_and_connect, NetlifyService.create_with_deploy_hook,
    NetlifyService.connectGitRepository, NetlifyService.deployFromGitHubZip,
    NetlifyService.createGitHubActionsWorkflow.
  effect_steps;
    first [ apply fetch_remote | apply now_remote | apply record_call_remote ].
Qed.

Lemma build_log_entries_spec env (l : list value) (w : World) :
  exists ls w',
    DeploymentsService.build_log_entries env l w = (Returned ls, w')
    /\ ordered_after (clock w) ls /\ remote w w'.
Proof.
  revert w. induction l as [|x l IH]; intros w.
  - exists [], w. by repeat split.
  - cbn [DeploymentsService.build_log_entries]. rewrite bind_run.
    cbn -[pretty String.append DeploymentsService.build_log_entries].
    match goal with |- context [bind (DeploymentsService.build_log_entries env l) ?k ?w0] =>
      destruct (IH w0) as (ls & w' & E & Hls & Hr) end.
    rewrite bind_run, E.
    eexists _, _. split; [reflexivity|].
    cbn in Hls. destruct Hr as [? ? ? ? ? ? Hck]. cbn in *.
    split; [split; [lia|done]|]. split; try done. lia.
Qed.

Lemma build_logs_spec env (v : value) (w : World) :
  (exists ls w',
     DeploymentsService.build_logs env v w = (Returned ls, w')
     /\ ordered_after (clock w) ls /\ remote w w')
  \/ (exists e, DeploymentsService.build_logs env v w = (Threw e, w)).
Proof.
  unfold DeploymentsService.build_logs. destruct (truthy v).
  - destruct v; try (right; by eexists). left. apply build_log_entries_spec.
  - left. exists [], w. by repeat split.
Qed.

Lemma netlify_credentials_pure (o : option ProviderIntegration) :
  exists c,
    (forall w,
       match o with
       | Some row =>
           let! tokenData := DeploymentsService.parse_token (encryptedToken row) in
           let! real := DeploymentsService.is_real_token tokenData "demo-netlify-token" in
           if real then ret (get_opt tokenData "access_token", true)
           else ret (VStr "demo-token", false)
       | None => ret (VStr "demo-token", false)
       end w = (c, w))
    /\ (forall x, c = Returned x -> netlify_ready o)
    /\ (forall e, c = Threw e -> ~ netlify_ready o).
Proof.
  destruct o as [row|]; [|eexists; split; [done|]; split; [done|]; intros e [=]].
  destruct (parse_token_pure (encryptedToken row)) as [o1 Ho1].
  destruct o1 as [tokenData|e1].
  { destruct (is_real_token_pure tokenData "demo-netlify-token") as [o2 Ho2].
    destruct o2 as [real|e2].
    - exists (Returned (if real then (get_opt tokenData "access_token", true)
                        else (VStr "demo-token", false))).
      split.
      + intros w. rewrite bind_run, Ho1. cbv beta iota. rewrite bind_run, Ho2.
        by destruct real.
      + split; [intros x _; by exists tokenData, real|]. intros e H. by destruct real.
    - exists (Threw e2). split.
      + intros w. rewrite bind_run, Ho1. cbv beta iota. by rewrite bind_run, Ho2.
      + split; [intros x H; discriminate H|].
        intros e _ (td & rl & H1 & H2). specialize (H1 empty_world). rewrite Ho1 in H1.
        injection H1 as <-. specialize (H2 empty_world). rewrite Ho2 in H2.
        discriminate H2. }
  exists (Threw e1). split.
  - intros w. by rewrite bind_run, Ho1.
  - split; [intros x H; discriminate H|].
    intros e _ (td & rl & H1 & _). specialize (H1 empty_world). rewrite Ho1 in H1.
    discriminate H1.
Qed.

(** The [catch] block of a deployment method, run on the world [w0]
    that the [try] left: the record [v0], created last, is marked
    [failed]. *)
Lemma failed_run env (v0 : Deployment) (l : list Deployment) (msg : string)
  (w2 w0 : World) :
  (exists reason, msg = "❌ " +:+ reason) ->
  deployments w2 = l ++ [v0] -> remote w2 w0 ->
  exists d w4,
    (let! u := DeploymentsService.failed_update env msg in
     deployment_update (id v0) u;; ret tt) w0 = (Returned tt, w4)
    /\ id d = id v0 /\ final (status d) /\ closing d /\ ordered (logs d)
    /\ written w4 = written w2 ++ [d] /\ timers w4 = timers w2
    /\ next_id w4 = next_id w2 /\ integrations w4 = integrations w2
    /\ projects w4 = projects w2.
Proof.
  intros Hmsg Hd [Hi0 Hd0 Hw0 Ht0 Hn0 Hp0 _].
  rewrite bind_run. unfold DeploymentsService.failed_update at 1.
  rewrite bind_run. unfold DeploymentsService.entry at 1. rewrite bind_run.
  cbn -[pretty String.append deployment_update].
  match goal with
  | |- context [bind (deployment_update ?i ?u) ?k ?w5] =>
      destruct (deployment_update_last v0 u w5 l)
        as (d0 & w4 & Hrun & Hid & Hw4 & Ht4 & _ & _ & Hi4 & Hn4 & Hp4 & _);
      [cbn; by rewrite Hd0|];
      rewrite bind_run, Hrun;
      cbn -[pretty String.append] in Hw4, Ht4, Hi4, Hn4, Hp4;
      exists (apply_update u d0), w4
  end.
  split; [done|]. split; [done|]. split; [right; by left|].
  split; [eexists _, _; split; [reflexivity|]; cbn -[String.append]; eauto 6|].
  split; [cbn; lia|]. by rewrite Hw4, Ht4, Hn4, Hi4, Hp4, Hw0, Ht0, Hn0, Hi0, Hp0.
Qed.

(** The [try] block of [deployToNetlify] once the site was created with
    a real token: either the record is updated, or the block throws
    before the update. *)
Lemma netlify_real_update env (v0 : Deployment) (l : list Deployment) (r : value)
  (w2 w3 : World) :
  deployments w2 = l ++ [v0] -> remote w2 w3 ->
  let body :=
    (let! st := prop r "status" in
     let! u := prop r "url" in
     let! completed := now env in
     let! l1 := DeploymentsService.entry env "🎉 Netlify site created successfully!" "success" in
     let! l2 := DeploymentsService.entry env ("🔗 Site URL: " +:+ to_str u) "info" in
     let! l3 := DeploymentsService.git_entry env r in
     let! ls := DeploymentsService.build_logs env (get_opt r "buildLogs") in
     deployment_update (id v0)
       {| u_status := if DeploymentsService.strict_neq_str st "ready_for_setup"
                      then "deployed" else "setup_required";
          u_url := Some u; u_completedAt := Some completed;
          u_metadata := Some (DeploymentsService.with_flag r true);
          u_logs := l1 :: l2 :: l3 :: ls |};;
     ret tt) in
  (exists d w4,
     body w3 = (Returned tt, w4)
     /\ id d = id v0 /\ final (status d) /\ closing d /\ ordered (logs d)
     /\ written w4 = written w2 ++ [d] /\ timers w4 = timers w2
     /\ next_id w4 = next_id w2 /\ integrations w4 = integrations w2
     /\ projects w4 = projects w2)
  \/ (exists e w0, body w3 = (Threw e, w0) /\ remote w2 w0).
Proof.
  intros Hd Hr body. subst body.
  rewrite bind_run. unfold prop.
  destruct (get r "status") as [st|]; [|right; eexists _, _; split; [reflexivity|exact Hr]].
  cbv beta iota delta [ret]. rewrite bind_run.
  destruct (get r "url") as [u|]; [|right; eexists _, _; split; [reflexivity|exact Hr]].
  cbv beta iota delta [ret].
  cbn -[pretty String.append DeploymentsService.build_logs deployment_update to_str].
  destruct Hr as [Hi3 Hd3 Hw3 Ht3 Hn3 Hp3 Hc3].
  match goal with
  | |- context [bind (DeploymentsService.build_logs env ?v) ?k ?w5] =>
      assert (Hr5 : remote w2 w5) by (split; cbn; try done; lia);
      rewrite !(bind_run _ _ w5);
      destruct (build_logs_spec env v w5) as [(ls & w6 & -> & Hls & Hr6)|(e & ->)];
      [|right; eexists _, _; split; [reflexivity|exact Hr5]]
  end.
  left.
  assert (Hr26 : remote w2 w6) by (by etrans).
  destruct Hr26 as [Hi6 Hd6 Hw6 Ht6 Hn6 Hp6 _].
  match goal with
  | |- context [bind (deployment_update ?i ?u) ?k ?w5] =>
      destruct (deployment_update_last v0 u w5 l)
        as (d0 & w4 & Hrun & Hid & Hw4 & Ht4 & _ & _ & Hi4 & Hn4 & Hp4 & _);
      [by rewrite Hd6|];
      rewrite bind_run, Hrun;
      cbn -[pretty String.append] in Hw4, Ht4, Hi4, Hn4, Hp4;
      exists (apply_update u d0), w4
  end.
  split; [done|]. split; [done|].
  split; [cbn; case_match; unfold final; eauto|].
  split; [eexists _, _; split; [reflexivity|]; cbn -[String.append]; eauto 6|].
  split.
  - cbn -[String.append]. cbn [clock set_clock] in Hls. repeat (split; [lia|]). done.
  - by rewrite Hw4, Ht4, Hn4, Hi4, Hp4, Hw6, Ht6, Hn6, Hi6, Hp6.
Qed.


Lemma deployToNetlify_run env input w :
  deploy_post (netlify_ready (integrations w !! (userId input, "netlify")))
    env input w (DeploymentsService.deployToNetlify env input w).
Proof.
  pose proof (find_or_create_project_quiet env input w) as Hq.
  pose proof (find_or_create_project_spec env input w) as Hp.
  destruct (netlify_credentials_pure (integrations w !! (userId input, "netlify")))
    as (c & Hc & Hready & Hunready).
  unfold DeploymentsService.deployToNetlify. rewrite bind_run.
  destruct (DeploymentsService.find_or_create_project env input w) as [[p|e] w1] eqn:E;
     cbn [snd] in Hq; destruct Hq as [Hqi Hqd Hqw Hqt Hqn _];
     [specialize (Hp p w1 eq_refl)
     |leaf; split; [by apply ext_calm|]; split; [done|]; not_startable E].
  cbv beta iota.
  rewrite bind_run. unfold DeploymentsService.entry at 1. rewrite bind_run.
  cbn -[pretty String.append deploy_post bind try_catch].
  rewrite bind_run. unfold DeploymentsService.entry at 1. rewrite bind_run.
  cbn -[pretty String.append deploy_post bind try_catch].
  rewrite bind_run. unfold deployment_create at 1.
  rewrite bind_run. unfold cuid at 1. cbv beta iota. rewrite bind_run. unfold now at 1.
  cbv beta iota zeta.
  name_created_row v0 w2. created_facts w1 w2 v0 Hd2 Hw2 Ht2 Hn2 Hi2 Hp2.
  assert (Hv0 : id v0 = cuid_of (next_id w1)) by reflexivity.
  assert (Hs0 : in_progress (status v0)) by (by right).
  assert (Hop : opening v0) by (eexists _, _; split; [reflexivity|by right]).
  assert (Ho0 : ordered (logs v0)) by (cbn; lia).
  assert (Hcreated : extension w w2).
  { eapply ext_created with (n := next_id w1) (v0 := v0);
      rewrite ?Hn2, ?Hw2, ?Ht2, ?Hqw, ?Hqt; try done; try lia. by left. }
  rewrite bind_run. unfold providerIntegration_findUnique at 1. cbv beta iota.
  rewrite Hi2, Hqi, bind_run, Hc. destruct c as [[tok real]|e1].
  2:{ leaf. rewrite Hi2. split; [done|]. split; [done|].
      intros [_ Hn]. by apply (Hunready e1). }
  specialize (Hready _ eq_refl). cbv beta iota.
  rewrite bind_run, try_run, bind_run.
  destruct (detectBuildSettings_pure (buildSettings input)) as [o3 Ho3].
  rewrite Ho3. clearbody v0.
  set (ready := netlify_ready (integrations w !! (userId input, "netlify"))) in *.
  assert (Hfinish : forall d w4 v,
    id d = id v0 -> final (status d) -> closing d -> ordered (logs d) ->
    written w4 = written w2 ++ [d] -> timers w4 = timers w2 ->
    next_id w4 = next_id w2 -> integrations w4 = integrations w2 ->
    projects w4 = projects w2 ->
    response_id v = VStr (cuid_of (next_id w1)) ->
    deploy_post ready env input w (Returned v, w4)).
  { intros d w4 v Hid Hfin Hcl Hor Hw4 Ht4 Hn4 Hi4 Hp4 Hv. leaf. split.
    - eapply ext_finished with (n := next_id w1) (v0 := v0) (v1 := d);
        rewrite ?Hn4, ?Hn2, ?Hw4, ?Hw2, ?Ht4, ?Ht2, ?Hqw, ?Hqt, <- ?app_assoc;
        try done; try lia.
    - split; [by rewrite Hi4, Hi2|].
      split; [|exact Hready].
      split;
        [ by eexists _, _
        | exists (next_id w1); rewrite Hn4, Hn2, Hv; repeat split; lia
        | exists p; by rewrite Hp4, Hp2
        | exists v0; split; [rewrite Hw4, Hw2; solve_in|by rewrite Hv, Hv0] ]. }
  assert (Hfailed : forall msg w0 v,
    (exists reason, msg = "❌ " +:+ reason) -> remote w2 w0 ->
    response_id v = VStr (cuid_of (next_id w1)) ->
    deploy_post ready env input w
      (let (o, w5) :=
         (let! u := DeploymentsService.failed_update env msg in
          deployment_update (id v0) u;; ret tt) w0 in
       match o with
       | Returned _ => ret v w5
       | Threw e => (Threw e, w5)
       end)).
  { intros msg w0 v Hmsg Hr Hv.
    destruct (failed_run env v0 (deployments w1) msg w2 w0 Hmsg Hd2 Hr)
      as (d & w4 & -> & Hid & Hfin & Hcl & Hor & Hw4 & Ht4 & Hn4 & Hi4 & Hp4).
    by eapply Hfinish. }
  destruct o3 as [settings|e3]; cbv beta iota.
  2:{ apply Hfailed; [by eexists|reflexivity|rewrite Hv0; by destruct real]. }
  rewrite bind_run.
  pose proof (createSiteFromRepo_remote env {| np_token := tok; np_repositoryUrl := repositoryUrl input;
            np_siteName := in_projectId input; np_buildCommand := "npm run build";
            np_publishDirectory := "build" |} w2) as Hr.
  destruct (NetlifyService.createSiteFromRepo env _ w2) as [[r|e4] w3]; cbn [snd] in Hr;
    cbv beta iota.
  2:{ apply Hfailed; [by eexists|done|rewrite Hv0; by destruct real]. }
  destruct real.
  - (* a real deployment *)
    destruct (netlify_real_update env v0 (deployments w1) r w2 w3 Hd2 Hr)
      as [(d & w4 & Hrun & Hid & Hfin & Hcl & Hor & Hw4 & Ht4 & Hn4 & Hi4 & Hp4)
         |(e & w0 & Hrun & Hr0)];
      rewrite Hrun; cbv beta iota.
    + eapply Hfinish; try done. by rewrite Hv0.
    + apply Hfailed; [by eexists|done|by rewrite Hv0].
  - (* a demo deployment *)
    destruct Hr as [Hi3 Hd3 Hw3 Ht3 Hn3 Hp3 _].
    leaf. cbn -[pretty String.append]. split.
    + eapply ext_pending with (n := next_id w1) (v0 := v0);
        cbn -[pretty String.append];
        rewrite ?Hn3, ?Hw3, ?Ht3, ?Hn2, ?Hw2, ?Ht2, ?Hqw, ?Hqt; try done; lia.
    + split; [by rewrite Hi3, Hi2|].
      split; [|exact Hready].
      split;
        [ by eexists _, _
        | exists (next_id w1); cbn -[pretty String.append]; rewrite Hn3, Hn2, Hv0;
          repeat split; lia
        | exists p; cbn -[pretty String.append]; by rewrite Hp3, Hp2
        | exists v0; split; [cbn -[pretty String.append]; rewrite Hw3, Hw2; solve_in
                            |by rewrite Hv0] ].
Qed.

(** *** Timers, rollbacks and connections *)

Global Instance calm_preorder : PreOrder calm.
Proof.
  split.
  - intros w. by split.
  - intros w1 w2 w3 [] []. split; try congruence; lia.
Qed.

Lemma quiet_calm (w w' : World) : quiet w w' -> calm w w'.
Proof. intros []. by split. Qed.

Lemma now_calm env : effect calm (now env).
Proof. intros w. apply quiet_calm, now_quiet. Qed.

Lemma cuid_calm : effect calm cuid.
Proof. intros w. apply quiet_calm, cuid_quiet. Qed.

Lemma fetch_calm env r : effect calm (fetch env r).
Proof. intros w. apply quiet_calm, fetch_quiet. Qed.

Lemma record_call_calm c : effect calm (record_call c).
Proof. intros w. apply quiet_calm, record_call_quiet. Qed.

Lemma providerIntegration_upsert_calm env user prov token external create_scopes :
  effect calm (providerIntegration_upsert env user prov token external create_scopes).
Proof.
  unfold providerIntegration_upsert, providerIntegration_findUnique.
  effect_steps;
    first [ apply now_calm | apply cuid_calm | (intros w; by split) ].
Qed.

Lemma connectProvider_calm env prov body user :
  effect calm (IntegrationsController.connectProvider env prov body user).
Proof.
  unfold IntegrationsController.connectProvider, IntegrationsController.validate,
    VercelService.validateToken, NetlifyService.validateToken.
  effect_steps;
    first [ apply now_calm | apply fetch_calm | apply record_call_calm
          | apply cuid_calm | (intros w; by split) ].
Qed.

Lemma calm_extension (w w' : World) : calm w w' -> extension w w'.
Proof. intros []. by apply ext_calm. Qed.

Lemma connectProvider_extension env prov body user w :
  extension w (IntegrationsController.connectProvider env prov body user w).2.
Proof. apply calm_extension, connectProvider_calm. Qed.

Lemma rollbackDeployment_extension env i user w :
  extension w (DeploymentsService.rollbackDeployment env i user w).2.
Proof.
  rewrite rollbackDeployment_unfold.
  destruct (find _ (deployments w)) as [d|]; [|by apply ext_calm].
  destruct (latest _ (deployments w)) as [p|]; [|by apply ext_calm].
  cbv zeta. cbn [snd].
  match goal with
  | |- context [set_deployments _ ?r _] =>
      eapply ext_created with (n := next_id w) (v0 := r)
  end; cbn -[pretty String.append]; try done; try lia.
  right. by right.
Qed.

Lemma fire_timer_extension env k w :
  extension w (DeploymentsService.fire_timer env k w).2.
Proof.
  unfold DeploymentsService.fire_timer. rewrite bind_run. cbn [get_world].
  destruct (timers w !! k) as [t|] eqn:Hk; [|by apply ext_calm].
  rewrite bind_run. cbn [put_world].
  apply take_drop_middle in Hk.
  set (w1 := set_clock _ _ _).
  assert (Ht1 : timers w1 = take k (timers w) ++ drop (S k) (timers w)) by reflexivity.
  assert (Hw1 : written w1 = written w) by reflexivity.
  assert (Hn1 : next_id w1 = next_id w) by reflexivity.
  clearbody w1.
  assert (Hdrop : forall w2, written w2 = written w1 -> timers w2 = timers w1 ->
                             next_id w2 = next_id w1 -> extension w w2).
  { intros w2 Hw2 Ht2 Hn2. eapply ext_dropped; [symmetry; exact Hk| | |]; try congruence.
    lia. }
  unfold DeploymentsService.run_callback. destruct (callback t) as [i pn|i r] eqn:Hcb.
  - rewrite try_run, bind_run. unfold now at 1. cbv beta iota zeta.
    rewrite bind_run. unfold DeploymentsService.entry at 1. rewrite bind_run.
    unfold now at 1. cbv beta iota zeta delta [ret].
    rewrite bind_run. unfold DeploymentsService.entry at 1. rewrite bind_run.
    unfold now at 1. cbv beta iota zeta delta [ret].
    rewrite bind_run.
    match goal with
    | |- context [deployment_update ?i ?u ?w5] =>
        destruct (deployment_update_written i u w5)
          as [(d & w4 & -> & Hid & Hst & Hlg & Hw4 & Ht4 & Hn4 & _)|(e & ->)]
    end; cbn [snd].
    + eapply ext_fired with (v1 := d); [symmetry; exact Hk|..].
      * by rewrite Ht4.
      * rewrite Hn4. cbn. lia.
      * unfold timer_id. by rewrite Hcb.
      * done.
      * unfold closing. rewrite Hlg. eexists _, _. split; [reflexivity|]. cbn. eauto 6.
      * unfold ordered. rewrite Hlg. cbn. lia.
      * rewrite Hw4. cbn. by rewrite Hw1.
    + by apply Hdrop.
  - rewrite try_run, bind_run. unfold prop.
    destruct (get r "url") as [u|]; cbv beta iota delta [ret throw]; [|by apply Hdrop].
    rewrite bind_run. unfold now at 1. cbv beta iota zeta.
    rewrite bind_run. unfold DeploymentsService.entry at 1. rewrite bind_run.
    unfold now at 1. cbv beta iota zeta delta [ret].
    rewrite bind_run. unfold DeploymentsService.entry at 1. rewrite bind_run.
    unfold now at 1. cbv beta iota zeta delta [ret].
    rewrite bind_run.
    match goal with
    | |- context [deployment_update ?i ?u ?w5] =>
        destruct (deployment_update_written i u w5)
          as [(d & w4 & -> & Hid & Hst & Hlg & Hw4 & Ht4 & Hn4 & _)|(e & ->)]
    end; cbn [snd].
    + eapply ext_fired with (v1 := d); [symmetry; exact Hk|..].
      * by rewrite Ht4.
      * rewrite Hn4. cbn. lia.
      * unfold timer_id. by rewrite Hcb.
      * done.
      * unfold closing. rewrite Hlg. eexists _, _. split; [reflexivity|]. cbn. eauto 6.
      * unfold ordered. rewrite Hlg. cbn. lia.
      * rewrite Hw4. cbn. by rewrite Hw1.
    + by apply Hdrop.
Qed.

(** *** The invariant along every run *)

Lemma step_extension env (w w' : World) : step env w w' -> extension w w'.
Proof.
  intros [input|input|k|i user|prov body user].
  - by destruct (deployToVercel_run env input w) as [H _].
  - by destruct (deployToNetlify_run env input w) as [H _].
  - apply fire_timer_extension.
  - apply rollbackDeployment_extension.
  - apply connectProvider_extension.
Qed.

Lemma consistent_initial (w : World) :
  written w = [] -> timers w = [] -> consistent w.
Proof.
  intros Hw Ht. split; rewrite ?Hw, ?Ht; cbn; try done.
  constructor.
Qed.

Lemma steps_consistent env (w w' : World) :
  rtc (step env) w w' -> consistent w -> consistent w'.
Proof.
  induction 1 as [|w1 w2 w3 Hs _ IH]; [done|].
  intros Hc. apply IH. eapply extension_consistent; [exact Hc|].
  by eapply step_extension.
Qed.

Lemma reachable_consistent env (w : World) : reachable env w -> consistent w.
Proof.
  intros (w0 & Hw & Ht & Hs). eapply steps_consistent; [exact Hs|].
  by apply consistent_initial.
Qed.

Lemma demo_run_reachable : reachable quiet_env demo_run.
Proof.
  exists empty_world. split; [reflexivity|]. split; [reflexivity|].
  unfold demo_run, demo_started.
  eapply rtc_l; [exact (step_deployToNetlify quiet_env empty_world shop_input)|].
  eapply rtc_l; [exact (step_timer quiet_env _ 0)|]. apply rtc_refl.
Defined.

Lemma versions_In (v : Deployment) (rows : list Deployment) :
  In v rows -> In v (versions (id v) rows).
Proof.
  intros H. apply filter_In. split; [done|]. apply String.eqb_refl.
Qed.

Lemma in_progress_not_terminal (s : string) : in_progress s -> ~ terminal s.
Proof. intros [-> | ->] [H|[H|[H|H]]]; discriminate H. Qed.

Lemma not_queued (s : string) : created_as s \/ final s -> s <> "queued".
Proof.
  intros [[[-> | ->]|[-> | ->]]|[->|[->|[-> | ->]]]]; discriminate.
Qed.

(** C1 (refuted as stated): the update that ends a demo deployment
    writes a log that does not begin with the log the record was created
    with. *)
Lemma update_replaces_the_log : ~ specified_history.
Proof.
  intros H.
  pose proof (H quiet_env demo_run demo_run_reachable (cuid_of 2) 0) as H'.
  remember (versions (cuid_of 2) (written demo_run)) as l eqn:El.
  vm_compute in El. subst l.
  destruct (H' _ _ eq_refl eq_refl) as [[more Hm] _].
  cbn in Hm. discriminate Hm.
Qed.

(** C1 (amended): in every world that the operations reach from a store
    without history, the log of every row version written is
    non-decreasing in timestamp and no version has status [queued]; a
    record is written at most twice; and when a record has two
    successive versions, they are its only versions, the earlier has an
    in-progress status ([deploying] or [demo_deployment]), which is not
    terminal, the later has a final status ([deployed], [failed],
    [demo_complete] or [setup_required]), so that no transition leaves a
    terminal status and none goes from [queued] to [deployed], and the
    log of the later version replaces the log of the earlier: it does
    not begin with it. *)
Theorem record_history (env : Env) (w : World) :
  reachable env w ->
  (forall v, In v (written w) -> ordered (logs v) /\ status v <> "queued")
  /\ (forall i, List.length (versions i (written w)) <= 2)
  /\ (forall i k earlier later,
        versions i (written w) !! k = Some earlier ->
        versions i (written w) !! S k = Some later ->
        versions i (written w) = [earlier; later]
        /\ in_progress (status earlier) /\ final (status later)
        /\ ~ terminal (status earlier)
        /\ ~ (status earlier = "queued" /\ status later = "deployed")
        /\ ~ extends_log earlier later).
Proof.
  intros Hr. apply reachable_consistent in Hr.
  destruct Hr as [_ _ _ _ Hlife Hord].
  split; [|split].
  - intros v Hv. split; [by apply Hord|].
    apply versions_In in Hv. specialize (Hlife (id v)).
    destruct (versions (id v) (written w)) as [|v0 [|v1 [|v2 l]]]; cbn in Hlife;
      try done.
    + destruct Hv as [<-|[]]. apply not_queued. by left.
    + destruct Hlife as (H0 & H1 & _).
      destruct Hv as [<-|[<-|[]]]; apply not_queued; [left; by left|by right].
  - intros i. specialize (Hlife i).
    destruct (versions i (written w)) as [|v0 [|v1 [|v2 l]]]; cbn in *; try lia; done.
  - intros i k earlier later H0 H1. specialize (Hlife i).
    destruct (versions i (written w)) as [|v0 [|v1 [|v2 l]]]; cbn in Hlife;
      [destruct k; discriminate H0
      |destruct k as [|[|k]]; discriminate H1
      |
      |done].
    destruct k as [|[|k]]; try discriminate H1.
    injection H0 as <-. injection H1 as <-.
    destruct Hlife as (Hp & Hf & Hop & Hcl).
    split; [done|]. split; [done|]. split; [done|].
    split; [by apply in_progress_not_terminal|].
    split; [|by apply opening_not_closing].
    intros [Hq _]. destruct Hp as [Hp|Hp]; rewrite Hp in Hq; discriminate Hq.
Qed.

Lemma record_history_witness :
  reachable quiet_env demo_run
  /\ (forall v, In v (written demo_run) -> ordered (logs v) /\ status v <> "queued")
  /\ (forall i, List.length (versions i (written demo_run)) <= 2)
  /\ (forall i k earlier later,
        versions i (written demo_run) !! k = Some earlier ->
        versions i (written demo_run) !! S k = Some later ->
        versions i (written demo_run) = [earlier; later]
        /\ in_progress (status earlier) /\ final (status later)
        /\ ~ terminal (status earlier)
        /\ ~ (status earlier = "queued" /\ status later = "deployed")
        /\ ~ extends_log earlier later).
Proof.
  split; [exact demo_run_reachable|].
  exact (record_history quiet_env demo_run demo_run_reachable).
Defined.

(** ** Repeated requests (C6) *)

Lemma extension_written (w w' : World) (d : Deployment) :
  extension w w' -> In d (written w) -> In d (written w').
Proof.
  intros [Hw _ _|v0 n _ _ _ _ _ Hw _|v0 n t _ _ _ _ _ _ Hw _ _
         |v0 v1 n _ _ _ _ _ _ _ _ _ _ Hw _|l1 l2 t v1 _ _ _ _ _ _ _ Hw
         |l1 l2 t _ _ _ Hw] Hd;
    rewrite Hw, ?in_app_iff; tauto.
Qed.

(** A deployment method that returned once returns again on the world it
    left, and answers with the id of another record. *)
Lemma repeated_run (ready : gmap (string * string) ProviderIntegration -> Prop)
  (env : Env) (input : DeployInput) (m : M value) :
  (forall w, deploy_post (ready (integrations w)) env input w (m w)) ->
  forall w v1 w1,
    m w = (Returned v1, w1) ->
    exists v2 w2,
      m w1 = (Returned v2, w2)
      /\ exists d1 d2,
           In d1 (written w2) /\ In d2 (written w2)
           /\ response_id v1 = VStr (id d1) /\ response_id v2 = VStr (id d2)
           /\ id d1 <> id d2.
Proof.
  intros Hm w v1 w1 E1.
  pose proof (Hm w) as (Hext1 & Hi1 & Hacc1). rewrite E1 in Hext1, Hi1, Hacc1.
  cbn [fst snd] in *. destruct Hacc1 as [[_ (n1 & _ & Hn1 & Hid1) Hnamed (d1 & Hd1 & Hr1)] Hready].
  pose proof (Hm w1) as (Hext2 & Hi2 & Hacc2).
  destruct (m w1) as [[v2|e] w2]; cbn [fst snd] in *.
  - exists v2, w2. split; [done|].
    destruct Hacc2 as [[_ (n2 & Hn2 & _ & Hid2) _ (d2 & Hd2 & Hr2)] _].
    exists d1, d2. split; [by eapply extension_written|]. split; [done|].
    split; [done|]. split; [done|].
    rewrite Hr1 in Hid1. rewrite Hr2 in Hid2.
    injection Hid1 as ->. injection Hid2 as ->.
    intros Heq. apply cuid_of_inj in Heq. lia.
  - exfalso. apply Hacc2. split.
    + destruct (find_or_create_project_existing env input w1 Hnamed) as [p Hp].
      by exists p, w1.
    + by rewrite Hi1.
Qed.

Lemma createDeployment_run env user request :
  exists ready : gmap (string * string) ProviderIntegration -> Prop,
    forall w,
      deploy_post (ready (integrations w)) env
        (DeploymentsController.deploymentParams user request) w
        (DeploymentsController.createDeployment env user request w).
Proof.
  unfold DeploymentsController.createDeployment.
  set (params := DeploymentsController.deploymentParams user request).
  assert (Hn : exists ready : gmap (string * string) ProviderIntegration -> Prop,
             forall w, deploy_post (ready (integrations w)) env params w
                         (DeploymentsService.deployToNetlify env params w)).
  { exists (fun m => netlify_ready (m !! (userId params, "netlify"))).
    intros w. apply deployToNetlify_run. }
  destruct (r_provider request) as [| |b|l|p|l|l]; try exact Hn.
  destruct (String.eqb p "vercel"); [|by destruct (String.eqb p "netlify")].
  exists (fun m => vercel_ready params (m !! (userId params, "vercel"))).
  intros w. apply deployToVercel_run.
Qed.

(** C6 (refuted as stated): a second identical request, issued while the
    record of the first is still [demo_deployment], is answered like the
    first; nothing is rejected. *)
Lemma second_request_is_accepted : ~ conflict_rejected.
Proof.
  intros H. pose proof (H quiet_env "u1" shop_request empty_world) as H'.
  destruct (DeploymentsController.createDeployment quiet_env "u1" shop_request empty_world)
    as [[v1|e] w1] eqn:E; vm_compute in E; [|discriminate E].
  injection E as <- <-.
  destruct (H' _ _ eq_refl) as (e & w2 & Hthrew).
  - eexists. split; [left; reflexivity|]. split; [reflexivity|]. right. reflexivity.
  - vm_compute in Hthrew. discriminate Hthrew.
Qed.

(** C6 (amended): the controller keeps no track of runs under way and
    rejects nothing.  A request that was answered is answered again when
    it is repeated, whatever the state of the first run: each of the two
    runs creates a record of its own, and the two answers carry the ids
    of two different records. *)
Theorem repeated_request_starts_another_run
  (env : Env) (user : string) (request : DeploymentRequest) (w : World)
  (v1 : value) (w1 : World) :
  DeploymentsController.createDeployment env user request w = (Returned v1, w1) ->
  exists v2 w2,
    DeploymentsController.createDeployment env user request w1 = (Returned v2, w2)
    /\ exists d1 d2,
         In d1 (written w2) /\ In d2 (written w2)
         /\ response_id v1 = VStr (id d1) /\ response_id v2 = VStr (id d2)
         /\ id d1 <> id d2.
Proof.
  destruct (createDeployment_run env user request) as [ready Hrun].
  by apply (repeated_run ready env (DeploymentsController.deploymentParams user request)).
Qed.

Lemma repeated_request_starts_another_run_witness :
  exists v1 w1 v2 w2,
    DeploymentsController.createDeployment quiet_env "u1" shop_request empty_world
    = (Returned v1, w1)
    /\ DeploymentsController.createDeployment quiet_env "u1" shop_request w1
       = (Returned v2, w2)
    /\ response_id v1 <> response_id v2.
Proof.
  destruct (DeploymentsController.createDeployment quiet_env "u1" shop_request empty_world)
    as [[v1|e] w1] eqn:E; vm_compute in E; [|discriminate E].
  exists v1, w1.
  destruct (repeated_request_starts_another_run quiet_env "u1" shop_request empty_world
              v1 w1)
    as (v2 & w2 & E2 & d1 & d2 & _ & _ & H1 & H2 & Hne).
  - rewrite <- E. vm_compute. reflexivity.
  - exists v2, w2. split; [reflexivity|]. split; [exact E2|].
    rewrite H1, H2. congruence.
Defined.

(** * Further properties of the code *)

(** ** Stepping through computations *)

(** As [effect_steps], with a tactic that is tried first, for the calls
    that are not to be entered. *)
Ltac effect_walk leaf :=
  repeat first
    [ progress leaf
    | apply effect_ret; apply _
    | apply effect_throw; apply _
    | apply effect_prop; apply _
    | apply effect_json; apply _
    | apply effect_template; apply _
    | apply effect_bind; [apply _| |intros ?]
    | apply effect_try; [apply _| |intros ?]
    | match goal with
      | |- effect _ (if ?b then _ else _) => destruct b
      | |- effect _ (match ?x with _ => _ end) => destruct x
      | |- effect _ (let '(_, _) := ?x in _) => destruct x
      end ].

Ltac pure_leaf :=
  apply effect_pure;
  [apply _
  |first [apply detectBuildSettings_pure|apply parse_token_pure|apply is_real_token_pure]].

(** [bind], keeping what is known of the value that is passed on. *)
Lemma effect_bind_value (R : relation World) `{!PreOrder R} {A B} (m : M A) (k : A -> M B) :
  effect R m ->
  (forall a, (exists w w', m w = (Returned a, w')) -> effect R (k a)) ->
  effect R (bind m k).
Proof.
  intros Hm Hk w. rewrite bind_run. specialize (Hm w).
  destruct (m w) as [[a|e] w1] eqn:E; [|exact Hm].
  etransitivity; [exact Hm|]. apply Hk. by eexists _, _.
Qed.

Ltac effect_walk_value leaf :=
  repeat first
    [ progress leaf
    | apply effect_ret; apply _
    | apply effect_throw; apply _
    | apply effect_prop; apply _
    | apply effect_json; apply _
    | apply effect_template; apply _
    | apply effect_bind_value; [apply _| |intros ? ?]
    | apply effect_try; [apply _| |intros ?]
    | match goal with
      | |- effect _ (if ?b then _ else _) => destruct b
      | |- effect _ (match ?x with _ => _ end) => destruct x
      | |- effect _ (let '(_, _) := ?x in _) => destruct x
      end ].

Lemma bind_inv {A B} (m : M A) (k : A -> M B) (w w' : World) (b : B) :
  bind m k w = (Returned b, w') ->
  exists a w1, m w = (Returned a, w1) /\ k a w1 = (Returned b, w').
Proof.
  rewrite bind_run. destruct (m w) as [[a|e] w1]; [|discriminate]. by exists a, w1.
Qed.

Lemma template_inv (v : value) (w w' : World) (t : string) :
  template v w = (Returned t, w') -> t = to_str v /\ w' = w /\ converts v = true.
Proof. unfold template. destruct (converts v); [|discriminate]. by intros [= <- <-]. Qed.

Lemma get_Some (v : value) (k : string) (x : value) : get v k = Some x -> x = get_opt v k.
Proof. unfold get. destruct v; try discriminate; by intros [= <-]. Qed.

Lemma prefix_append (p q s : string) :
  String.prefix p q = true -> String.prefix p (q +:+ s) = true.
Proof.
  revert q. induction p as [|a p IH]; intros q; [by destruct (q +:+ s)|].
  destruct q as [|b q]; [done|].
  change (String b q +:+ s) with (String b (q +:+ s)). cbn [String.prefix].
  destruct (ascii_dec a b); [apply IH|done].
Qed.

(** ** Build settings *)

Lemma detectBuildSettings_run (bs : value) (w : World) :
  exists o, DeploymentsService.detectBuildSettings bs w = (o, w)
    /\ forall s, o = Returned s ->
         In (DeploymentsService.outputDirectory s)
            [VStr "build"; VStr ".next"; VStr "dist"; VStr "public"]
         /\ (DeploymentsService.buildCommand s
             = js_or (get_opt bs "buildCommand") (VStr "npm run build")
             \/ DeploymentsService.buildCommand s = VStr "npm run build")
         /\ DeploymentsService.installCommand s
            = js_or (get_opt bs "installCommand") (VStr "npm install").
Proof.
  unfold DeploymentsService.detectBuildSettings, DeploymentsService.opt_includes,
    DeploymentsService.toLowerCase_value, bind, ret, throw.
  repeat (case_match; simplify_eq/=; try discriminate);
    eexists; (split; [reflexivity|]); intros ? [= <-]; cbn; intuition.
Qed.

Lemma opt_includes_text (v : value) (s : string) :
  text_or_absent v -> exists b, DeploymentsService.opt_includes v s = ret b.
Proof. intros [->|[->|[t ->]]]; by eexists. Qed.

Lemma js_or_text (v : value) (d : string) :
  text_or_absent v -> exists s, js_or v (VStr d) = VStr s.
Proof.
  intros [->|[->|[t ->]]]; try by eexists.
  unfold js_or. destruct (truthy (VStr t)); by eexists.
Qed.

Lemma truthy_text (v : value) :
  text_or_absent v -> truthy v = true -> exists s, v = VStr s.
Proof. intros [->|[->|[t ->]]] H; try discriminate H. by eexists. Qed.

(** X2: when the framework name, the name and the build command of
    the settings are each a string or absent, detection returns. *)
Theorem detectBuildSettings_returns (bs : value) (w : World) :
  text_or_absent (get_opt (get_opt bs "framework") "name") ->
  text_or_absent (get_opt bs "name") ->
  text_or_absent (get_opt bs "buildCommand") ->
  exists s, DeploymentsService.detectBuildSettings bs w = (Returned s, w).
Proof.
  intros H1 H2 H3.
  assert (Hf : exists f,
    (if truthy (get_opt (get_opt bs "framework") "name")
     then ret (get_opt (get_opt bs "framework") "name")
     else if truthy (get_opt bs "name") then ret (get_opt bs "name")
     else
       let! isNext := DeploymentsService.opt_includes (get_opt bs "buildCommand") "next" in
       if isNext then ret (VStr "next.js")
       else
         let! isGatsby :=
           DeploymentsService.opt_includes (get_opt bs "buildCommand") "gatsby" in
         ret (VStr (if isGatsby then "gatsby" else "react"))) w
    = (Returned (VStr f), w) /\ truthy (VStr f) = true).
  { destruct (truthy (get_opt (get_opt bs "framework") "name")) eqn:E1.
    { destruct (truthy_text _ H1 E1) as [f Hf]. exists f. by rewrite <- Hf. }
    destruct (truthy (get_opt bs "name")) eqn:E2.
    { destruct (truthy_text _ H2 E2) as [f Hf]. exists f. by rewrite <- Hf. }
    destruct (opt_includes_text _ "next" H3) as [b1 Hb1].
    destruct (opt_includes_text _ "gatsby" H3) as [b2 Hb2].
    rewrite bind_run, Hb1. cbn. destruct b1; [by eexists|].
    rewrite bind_run, Hb2. cbn. destruct b2; by eexists. }
  destruct Hf as (f & Hf & Ht).
  destruct (js_or_text _ "npm run build" H3) as [c Hc].
  destruct (opt_includes_text (VStr c) "next") as [b1 Hb1]; [right; right; by eexists|].
  destruct (opt_includes_text (VStr c) "gatsby") as [b2 Hb2]; [right; right; by eexists|].
  unfold DeploymentsService.detectBuildSettings. rewrite bind_run, Hf. cbv beta iota.
  rewrite Ht. cbn [DeploymentsService.toLowerCase_value]. rewrite bind_run. cbn [ret].
  cbv beta iota.
  repeat (match goal with |- context [if ?b then _ else _] => destruct b end;
          try by eexists).
  cbn [DeploymentsService.buildCommand]. rewrite Hc, bind_run, Hb1. cbn [ret]. cbv beta iota.
  destruct b1; [by eexists|]. rewrite bind_run, Hb2. cbn [ret]. cbv beta iota.
  destruct b2; by eexists.
Qed.

(** X1: whatever build settings a request carries, when detection
    returns it leaves the store alone and the output directory is one of
    build, .next, dist and public: a directory supplied by the caller is
    never kept, and the static-site defaults are never reached.  The
    install command is the caller's, or npm install; the build command is
    the caller's, or npm run build. *)
Theorem detectBuildSettings_output_directory
    (bs : value) (w w' : World) (s : DeploymentsService.DetectedSettings) :
  DeploymentsService.detectBuildSettings bs w = (Returned s, w') ->
  w' = w
  /\ In (DeploymentsService.outputDirectory s)
        [VStr "build"; VStr ".next"; VStr "dist"; VStr "public"]
  /\ (DeploymentsService.buildCommand s
      = js_or (get_opt bs "buildCommand") (VStr "npm run build")
      \/ DeploymentsService.buildCommand s = VStr "npm run build")
  /\ DeploymentsService.installCommand s
     = js_or (get_opt bs "installCommand") (VStr "npm install").
Proof.
  intros Hrun. destruct (detectBuildSettings_run bs w) as (o & Ho & Hs).
  rewrite Ho in Hrun. injection Hrun as -> <-. split; [reflexivity|]. by apply Hs.
Qed.

Lemma detectBuildSettings_output_directory_witness :
  exists s,
    DeploymentsService.detectBuildSettings
      (VObj [("outputDirectory", VStr "out"); ("hasPackageJson", VBool false)])
      empty_world = (Returned s, empty_world)
    /\ In (DeploymentsService.outputDirectory s)
          [VStr "build"; VStr ".next"; VStr "dist"; VStr "public"].
Proof.
  eexists. split; [reflexivity|].
  eapply (detectBuildSettings_output_directory
            (VObj [("outputDirectory", VStr "out"); ("hasPackageJson", VBool false)])
            empty_world empty_world).
  reflexivity.
Defined.

Lemma detectBuildSettings_returns_witness :
  exists s,
    DeploymentsService.detectBuildSettings (VObj [("buildCommand", VStr "next build")])
      empty_world = (Returned s, empty_world).
Proof.
  apply (detectBuildSettings_returns (VObj [("buildCommand", VStr "next build")]) empty_world).
  - left. reflexivity.
  - left. reflexivity.
  - right. right. by eexists.
Defined.

Lemma pure_outcome {A} (m : M A) (w : World) (o : Outcome A) :
  pure_computation m -> m w = (o, w) -> forall w0, m w0 = (o, w0).
Proof. intros [o' Ho'] H w0. rewrite Ho' in H. injection H as ->. apply Ho'. Qed.

(** X3: when the user has a Vercel integration and the project can be
    found or created, but the build settings cannot be detected,
    [deployToVercel] throws after it has written the deployment record:
    the record stays in status [deploying], no timer is set and no
    adapter is called, so nothing will ever complete it. *)
Theorem deployToVercel_strands_record
  (env : Env) (input : DeployInput) (w : World) (row : ProviderIntegration) (e : Err) :
  integrations w !! (userId input, "vercel") = Some row ->
  DeploymentsService.detectBuildSettings (buildSettings input) w = (Threw e, w) ->
  startable env input w ->
  exists e' d w',
    DeploymentsService.deployToVercel env input w = (Threw e', w')
    /\ written w' = written w ++ [d]
    /\ (exists l, deployments w' = l ++ [d])
    /\ status d = "deploying" /\ createdBy d = userId input
    /\ timers w' = timers w /\ calls w' = calls w.
Proof.
  intros Hrow Hd (p & w1 & E).
  pose proof (pure_outcome _ _ _ (detectBuildSettings_pure _) Hd) as Hd'.
  pose proof (find_or_create_project_quiet env input w) as Hq.
  pose proof (find_or_create_project_silent env input w) as Hs.
  rewrite E in Hq, Hs. cbn [snd] in Hq, Hs.
  destruct Hq as [_ _ Hqw Hqt _ _], Hs as [Hsc _].
  unfold DeploymentsService.deployToVercel. rewrite bind_run.
  cbn [providerIntegration_findUnique]. rewrite Hrow, bind_run, E.
  cbn -[pretty String.append DeploymentsService.parse_token
        DeploymentsService.is_real_token DeploymentsService.detectBuildSettings
        DeploymentsService.vercel_createDeployment deployment_update setTimeout].
  name_created_row v0 w2.
  assert (Hw2 : written w2 = written w ++ [v0]) by (cbn; by rewrite Hqw).
  assert (Ht2 : timers w2 = timers w) by (cbn; by rewrite Hqt).
  assert (Hc2 : calls w2 = calls w) by (cbn; by rewrite Hsc).
  assert (Hd2 : deployments w2 = deployments w1 ++ [v0]) by reflexivity.
  clearbody w2.
  destruct (parse_token_pure (encryptedToken row)) as [o1 Ho1].
  rewrite bind_run, Ho1. destruct o1 as [tokenData|e1]; [|by eexists _, v0, w2; eauto 10].
  destruct (is_real_token_pure tokenData "demo-vercel-token") as [o2 Ho2].
  rewrite bind_run, Ho2. destruct o2 as [real|e2]; [|by eexists _, v0, w2; eauto 10].
  rewrite bind_run, Hd'. by eexists _, v0, w2; eauto 10.
Qed.

(** The [catch] block again, with what it writes. *)
Lemma failed_run_log env (v0 : Deployment) (l : list Deployment) (msg : string)
  (w2 w0 : World) :
  deployments w2 = l ++ [v0] -> remote w2 w0 ->
  exists d w4 t,
    (let! u := DeploymentsService.failed_update env msg in
     deployment_update (id v0) u;; ret tt) w0 = (Returned tt, w4)
    /\ id d = id v0 /\ status d = "failed"
    /\ logs d = [{| timestamp := t; message := msg; level := "error" |}]
    /\ written w4 = written w2 ++ [d] /\ timers w4 = timers w2
    /\ calls w4 = calls w0 /\ fetches w4 = fetches w0.
Proof.
  intros Hd [Hi0 Hd0 Hw0 Ht0 Hn0 Hp0 _].
  rewrite bind_run. unfold DeploymentsService.failed_update at 1.
  rewrite bind_run. unfold DeploymentsService.entry at 1. rewrite bind_run.
  cbn -[pretty String.append deployment_update].
  match goal with
  | |- context [bind (deployment_update ?i ?u) ?k ?w5] =>
      destruct (deployment_update_last v0 u w5 l)
        as (d0 & w4 & Hrun & Hid & Hw4 & Ht4 & Hc4 & Hf4 & _);
      [cbn; by rewrite Hd0|];
      rewrite bind_run, Hrun;
      cbn -[pretty String.append] in Hw4, Ht4, Hc4, Hf4;
      exists (apply_update u d0), w4
  end.
  eexists. split; [done|]. split; [done|]. split; [done|]. split; [reflexivity|].
  by rewrite Hw4, Ht4, Hc4, Hf4, Hw0, Ht0.
Qed.

(** X4: for a repository URL that is not a GitHub URL,
    [deployToNetlify] still returns its usual answer (status [deploying]
    or [demo_deployment], with the id of the record), although by then
    the record has been overwritten with status [failed] and the single
    log entry "Deployment failed: Invalid GitHub repository URL"; no
    request is sent and no timer is set. *)
Theorem deployToNetlify_hides_failure
  (env : Env) (input : DeployInput) (w : World) :
  startable env input w ->
  netlify_ready (integrations w !! (userId input, "netlify")) ->
  NetlifyService.match_github (repositoryUrl input) = None ->
  (exists s, DeploymentsService.detectBuildSettings (buildSettings input) w = (Returned s, w)) ->
  exists v d d' t w',
    DeploymentsService.deployToNetlify env input w = (Returned v, w')
    /\ (get_opt v "status" = VStr "demo_deployment" \/ get_opt v "status" = VStr "deploying")
    /\ written w' = written w ++ [d; d']
    /\ id d' = id d /\ get_opt v "id" = VStr (id d)
    /\ status d' = "failed"
    /\ logs d' = [{| timestamp := t;
                     message := "❌ Deployment failed: Invalid GitHub repository URL";
                     level := "error" |}]
    /\ timers w' = timers w /\ fetches w' = fetches w.
Proof.
  intros (p & w1 & E) Hready Hurl [s Hs].
  pose proof (pure_outcome _ _ _ (detectBuildSettings_pure _) Hs) as Hs'.
  pose proof (find_or_create_project_quiet env input w) as Hq.
  pose proof (find_or_create_project_silent env input w) as Hsil.
  rewrite E in Hq, Hsil. cbn [snd] in Hq, Hsil.
  destruct Hq as [Hqi _ Hqw Hqt _ _], Hsil as [_ Hsf].
  destruct (netlify_credentials_pure (integrations w !! (userId input, "netlify")))
    as (c & Hc & _ & Hunready).
  unfold DeploymentsService.deployToNetlify. rewrite bind_run, E.
  cbv beta iota.
  rewrite bind_run. unfold DeploymentsService.entry at 1. rewrite bind_run.
  cbn -[pretty String.append bind try_catch].
  rewrite bind_run. unfold DeploymentsService.entry at 1. rewrite bind_run.
  cbn -[pretty String.append bind try_catch].
  rewrite bind_run. unfold deployment_create at 1.
  rewrite bind_run. unfold cuid at 1. cbv beta iota. rewrite bind_run. unfold now at 1.
  cbv beta iota zeta.
  name_created_row v0 w2.
  assert (Hd2 : deployments w2 = deployments w1 ++ [v0]) by reflexivity.
  assert (Hw2 : written w2 = written w ++ [v0]) by (cbn; by rewrite Hqw).
  assert (Ht2 : timers w2 = timers w) by (cbn; by rewrite Hqt).
  assert (Hf2 : fetches w2 = fetches w) by (cbn; by rewrite Hsf).
  assert (Hi2 : integrations w2 = integrations w) by (cbn; by rewrite Hqi).
  clearbody w2.
  rewrite bind_run. unfold providerIntegration_findUnique at 1. cbv beta iota.
  rewrite Hi2, bind_run, Hc. destruct c as [[tok real]|e1];
    [|by destruct (Hunready e1 eq_refl)].
  cbv beta iota. rewrite bind_run, try_run, bind_run, Hs'. cbv beta iota.
  rewrite bind_run. unfold NetlifyService.createSiteFromRepo.
  rewrite bind_run. cbn [record_call np_repositoryUrl]. rewrite Hurl.
  cbv beta iota delta [throw].
  match goal with
  | |- context [bind (DeploymentsService.failed_update env ?msg) ?k ?w0] =>
      destruct (failed_run_log env v0 (deployments w1) msg w2 w0 Hd2)
        as (d' & w4 & t & Hrun & Hid & Hst & Hlog & Hw4 & Ht4 & Hc4 & Hf4);
      [by split|rewrite Hrun]
  end.
  cbv beta iota. unfold ret.
  eexists _, v0, d', t, w4. split; [reflexivity|].
  split; [destruct real; cbn; auto|].
  split; [by rewrite Hw4, Hw2, <- app_assoc|].
  split; [done|]. split; [by destruct real|]. split; [done|]. split; [done|].
  split; [by rewrite Ht4|]. by rewrite Hf4.
Qed.

Lemma deployToVercel_strands_record_witness :
  exists e d w',
    DeploymentsService.deployToVercel quiet_env untyped_input connected_world = (Threw e, w')
    /\ status d = "deploying" /\ written w' = [d] /\ timers w' = [].
Proof.
  destruct (integrations connected_world !! ("u1", "vercel")) as [row|] eqn:Hrow;
    [|vm_compute in Hrow; discriminate Hrow].
  destruct (deployToVercel_strands_record quiet_env untyped_input connected_world row
              "framework.toLowerCase is not a function" Hrow)
    as (e & d & w' & Hrun & Hw & _ & Hs & _ & Ht & _).
  - reflexivity.
  - eexists _, _. vm_compute. reflexivity.
  - by exists e, d, w'.
Defined.

Lemma deployToNetlify_hides_failure_witness :
  exists v d d' w',
    DeploymentsService.deployToNetlify quiet_env gitlab_input empty_world = (Returned v, w')
    /\ get_opt v "status" = VStr "demo_deployment"
    /\ written w' = [d; d'] /\ status d' = "failed".
Proof.
  destruct (deployToNetlify_hides_failure quiet_env gitlab_input empty_world)
    as (v & d & d' & t & w' & Hrun & Hst & Hw & _ & _ & Hf & _).
  - eexists _, _. vm_compute. reflexivity.
  - exact I.
  - reflexivity.
  - eexists. reflexivity.
  - exists v, d, d', w'. split; [done|]. split; [|done].
    vm_compute in Hrun. injection Hrun as <- _. reflexivity.
Defined.

(** ** Reading deployments *)

(** X5: [getDeploymentStatus] answers only for a deployment that the
    caller created: what it returns is a row of the table with the
    requested id and the caller as creator, and the world is unchanged;
    when no such row exists it throws "Deployment not found", also when
    the id belongs to another user's deployment; when one exists it
    returns. *)
Theorem getDeploymentStatus_checks_owner (deploymentId userId : string) (w : World) :
  (forall r w',
     DeploymentsReads.getDeploymentStatus deploymentId userId w = (Returned r, w') ->
     w' = w
     /\ In (DeploymentsReads.deployment r) (deployments w)
     /\ id (DeploymentsReads.deployment r) = deploymentId
     /\ createdBy (DeploymentsReads.deployment r) = userId)
  /\ ((forall d, In d (deployments w) -> id d = deploymentId -> createdBy d <> userId) ->
      DeploymentsReads.getDeploymentStatus deploymentId userId w
      = (Threw "Deployment not found", w))
  /\ ((exists d, In d (deployments w) /\ id d = deploymentId /\ createdBy d = userId) ->
      exists r, DeploymentsReads.getDeploymentStatus deploymentId userId w = (Returned r, w)).
Proof.
  unfold DeploymentsReads.getDeploymentStatus. rewrite bind_run.
  cbn [deployment_findFirst_owned].
  destruct (find _ (deployments w)) as [d|] eqn:Ef.
  - apply find_some in Ef as [Hin Hd]. apply andb_true_iff in Hd as [Hi Hu].
    apply String.eqb_eq in Hi, Hu.
    split; [|split].
    + intros r w' [= <- <-]. by repeat split.
    + intros Hnone. by destruct (Hnone d Hin Hi).
    + intros _. by eexists.
  - split; [|split].
    + intros r w' [=].
    + done.
    + intros (d & Hin & Hi & Hu). apply (find_none _ _ Ef) in Hin.
      rewrite Hi, Hu, !String.eqb_refl in Hin. discriminate Hin.
Qed.

Lemma insert_desc_In (d x : Deployment) (l : list Deployment) :
  In x (DeploymentsReads.insert_desc d l) <-> x = d \/ In x l.
Proof.
  assert (Hsym : d = x <-> x = d) by (split; intros; by symmetry).
  induction l as [|y l IH]; cbn [DeploymentsReads.insert_desc]; [cbn; tauto|].
  destruct (startedAt y <? startedAt d)%nat; cbn [In]; rewrite ?IH; tauto.
Qed.

Lemma insert_desc_perm (d : Deployment) (l : list Deployment) :
  DeploymentsReads.insert_desc d l ≡ₚ d :: l.
Proof.
  induction l as [|y l IH]; cbn [DeploymentsReads.insert_desc]; [done|].
  destruct (startedAt y <? startedAt d)%nat; [done|].
  rewrite IH. apply Permutation_swap.
Qed.

Lemma orderBy_perm (l : list Deployment) :
  DeploymentsReads.orderBy_startedAt_desc l ≡ₚ l.
Proof.
  induction l as [|d l IH]; cbn; [done|].
  by rewrite insert_desc_perm, IH.
Qed.

Lemma insert_desc_newest_first (d : Deployment) (l : list Deployment) :
  newest_first l -> newest_first (DeploymentsReads.insert_desc d l).
Proof.
  induction l as [|y l IH]; cbn [DeploymentsReads.insert_desc]; [by cbn|].
  intros [Hy Hl].
  destruct (startedAt y <? startedAt d)%nat eqn:E.
  - apply Nat.ltb_lt in E. cbn. repeat split; try done.
    constructor; [lia|]. eapply Forall_impl; [exact Hy|]. cbn. intros; lia.
  - apply Nat.ltb_ge in E. cbn. split; [|by apply IH].
    apply List.Forall_forall. intros x Hx. apply insert_desc_In in Hx as [->|Hx]; [done|].
    by apply (proj1 (List.Forall_forall _ _) Hy).
Qed.

Lemma orderBy_newest_first (l : list Deployment) :
  newest_first (DeploymentsReads.orderBy_startedAt_desc l).
Proof.
  induction l as [|d l IH]; cbn; [done|]. by apply insert_desc_newest_first.
Qed.

(** X6: [getUserDeployments] returns the [limit] most recent
    deployments that the user created, the most recent first: with the
    rows it leaves out, the rows returned make up the user's rows of the
    table, ordered by decreasing [startedAt]; it changes nothing. *)
Theorem getUserDeployments_newest_first (userId : string) (limit : nat) (w : World) :
  exists rows rest,
    DeploymentsReads.getUserDeployments userId limit w
    = (Returned (map (DeploymentsReads.with_project w) rows), w)
    /\ rows ++ rest
       ≡ₚ List.filter (fun d => String.eqb (createdBy d) userId) (deployments w)
    /\ List.length rows = Nat.min limit (List.length (rows ++ rest))
    /\ newest_first (rows ++ rest).
Proof.
  set (l := DeploymentsReads.orderBy_startedAt_desc
              (List.filter (fun d => String.eqb (createdBy d) userId) (deployments w))).
  exists (take limit l), (drop limit l). split; [reflexivity|].
  rewrite take_drop. split; [apply orderBy_perm|]. split; [apply length_take|].
  apply orderBy_newest_first.
Qed.

(** X7: rollback is refused unless the caller created the deployment
    with that id: then it throws "Deployment not found" and changes
    nothing.  When it returns a record, the caller created a deployment
    with the requested id, and the new record is attributed to the caller
    and keeps that deployment's project, provider and environment. *)
Theorem rollback_requires_owner (env : Env) (i user : string) (w : World) :
  ((forall d, In d (deployments w) -> id d = i -> createdBy d <> user) ->
   DeploymentsService.rollbackDeployment env i user w = (Threw "Deployment not found", w))
  /\ forall r w',
       DeploymentsService.rollbackDeployment env i user w = (Returned r, w') ->
       createdBy r = user
       /\ deployments w' = deployments w ++ [r]
       /\ exists d, In d (deployments w) /\ id d = i /\ createdBy d = user
            /\ projectId r = projectId d /\ provider r = provider d
            /\ environment r = environment d.
Proof.
  rewrite rollbackDeployment_unfold. split.
  - intros Hno. destruct (find _ _) as [d|] eqn:Hd; [|reflexivity].
    apply find_some in Hd as [Hin Hd]. unfold owned_by in Hd.
    apply andb_true_iff in Hd as [Hi Hu].
    apply String.eqb_eq in Hi, Hu. by destruct (Hno d Hin Hi).
  - intros r w'. destruct (find _ _) as [d|] eqn:Hd; [|discriminate].
    destruct (latest _ _) as [p|]; [|discriminate].
    intros [= <- <-]. apply find_some in Hd as [Hin Hd]. unfold owned_by in Hd.
    apply andb_true_iff in Hd as [Hi Hu]. apply String.eqb_eq in Hi, Hu.
    split; [reflexivity|]. split; [reflexivity|]. by exists d.
Qed.

(** ** Adapter calls *)

Global Instance calls_only_preorder (P : AdapterCall -> Prop) : PreOrder (calls_only P).
Proof.
  split.
  - intros w. exists []. by rewrite app_nil_r.
  - intros w1 w2 w3 (l1 & H1 & P1) (l2 & H2 & P2). exists (l1 ++ l2).
    split; [by rewrite H2, H1, app_assoc|]. by apply Forall_app.
Qed.

Lemma same_calls_only (P : AdapterCall -> Prop) (w w' : World) :
  same_calls w w' -> calls_only P w w'.
Proof. intros H. exists []. by rewrite app_nil_r. Qed.

Lemma deployment_update_same_calls i u : effect same_calls (deployment_update i u).
Proof. intros w. unfold deployment_update. by destruct (find _ (deployments w)). Qed.

Lemma build_log_entries_same_calls env l :
  effect same_calls (DeploymentsService.build_log_entries env l).
Proof.
  induction l as [|x l IH]; cbn [DeploymentsService.build_log_entries].
  - by intros w.
  - unfold DeploymentsService.entry. effect_steps; first [apply now_same_calls|apply IH].
Qed.

Lemma find_or_create_project_same_calls env input :
  effect same_calls (DeploymentsService.find_or_create_project env input).
Proof. intros w. apply find_or_create_project_silent. Qed.

Lemma createSiteFromRepo_calls_only env params (P : AdapterCall -> Prop) :
  P (CallNetlifyCreateSite params) ->
  effect (calls_only P) (NetlifyService.createSiteFromRepo env params).
Proof.
  intros HP w. exists [CallNetlifyCreateSite params].
  split; [apply createSiteFromRepo_calls|]. by constructor.
Qed.

Ltac same_calls_leaf :=
  intros ?; apply same_calls_only;
  match goal with w : World |- _ => revert w end;
  first [ apply now_same_calls | apply fetch_same_calls
        | apply deployment_update_same_calls | apply build_log_entries_same_calls
        | apply find_or_create_project_same_calls
        | (intros ?; reflexivity) ].

Lemma deployToNetlify_calls_only env input :
  effect (calls_only (netlify_call_of input)) (DeploymentsService.deployToNetlify env input).
Proof.
  unfold DeploymentsService.deployToNetlify, DeploymentsService.failed_update,
    DeploymentsService.git_entry, DeploymentsService.entry, DeploymentsService.build_logs,
    deployment_create.
  effect_walk ltac:(first [ pure_leaf
                          | apply createSiteFromRepo_calls_only; by eexists
                          | same_calls_leaf ]).
Qed.

(** X8: whatever build settings and credentials a request has, every
    adapter call of [deployToNetlify] is a [createSiteFromRepo] for the
    repository and project name of the request with build command npm
    run build and publish directory build: the detected settings are not
    passed on, and no other adapter is entered. *)
Theorem deployToNetlify_adapter_calls (env : Env) (input : DeployInput) (w : World) :
  exists l,
    calls (DeploymentsService.deployToNetlify env input w).2 = calls w ++ l
    /\ Forall (netlify_call_of input) l.
Proof. apply deployToNetlify_calls_only. Qed.

Lemma vercel_createDeployment_calls_only env input token settings w1 w1' :
  DeploymentsService.detectBuildSettings (buildSettings input) w1 = (Returned settings, w1') ->
  effect (calls_only (vercel_call_of input))
    (DeploymentsService.vercel_createDeployment env
       {| vp_token := token; vp_repositoryUrl := repositoryUrl input;
          vp_projectName := in_projectId input;
          vp_buildCommand := DeploymentsService.buildCommand settings;
          vp_outputDirectory := DeploymentsService.outputDirectory settings;
          vp_installCommand := DeploymentsService.installCommand settings |}).
Proof.
  intros Hs w. unfold DeploymentsService.vercel_createDeployment.
  eexists [_]. split; [by destruct (env_vercel env _ _)|].
  constructor; [|constructor].
  destruct (detectBuildSettings_run (buildSettings input) w1) as (o & Ho & _).
  rewrite Ho in Hs. injection Hs as -> <-. by exists token, settings, w1.
Qed.

(** X9: every adapter call of [deployToVercel] is a
    [createDeployment] for the repository and project name of the
    request that carries the build command, output directory and install
    command which [detectBuildSettings] returns on the build settings of
    the request; no other adapter is entered. *)
Theorem deployToVercel_adapter_calls (env : Env) (input : DeployInput) (w : World) :
  exists l,
    calls (DeploymentsService.deployToVercel env input w).2 = calls w ++ l
    /\ Forall (vercel_call_of input) l.
Proof.
  revert w. change (effect (calls_only (vercel_call_of input))
                      (DeploymentsService.deployToVercel env input)).
  unfold DeploymentsService.deployToVercel, DeploymentsService.failed_update,
    DeploymentsService.entry, deployment_create.
  effect_walk_value
    ltac:(first [ pure_leaf
                | match goal with
                  | H : exists w w', DeploymentsService.detectBuildSettings _ w = _ |- _ =>
                      destruct H as (? & ? & H);
                      apply (vercel_createDeployment_calls_only _ _ _ _ _ _ H)
                  end
                | same_calls_leaf ]).
Qed.

(** ** Projects *)

Global Instance appends_preorder : PreOrder appends.
Proof.
  split.
  - intros w. split; try done. exists []. by rewrite app_nil_r.
  - intros w1 w2 w3 [P1 O1 [l1 W1]] [P2 O2 [l2 W2]].
    split; try congruence. exists (l1 ++ l2). by rewrite W2, W1, app_assoc.
Qed.

Lemma appends_same (w w' : World) :
  projects w' = projects w -> organizations w' = organizations w ->
  written w' = written w -> appends w w'.
Proof. intros ? ? H. split; try done. exists []. by rewrite app_nil_r. Qed.

Lemma now_appends env : effect appends (now env).
Proof. intros w. by apply appends_same. Qed.

Lemma fetch_appends env r : effect appends (fetch env r).
Proof. intros w. unfold fetch. destruct (env_fetch env _ r); by apply appends_same. Qed.

Lemma deployment_update_appends i u : effect appends (deployment_update i u).
Proof.
  intros w. unfold deployment_update. destruct (find _ (deployments w)).
  - split; try done. by eexists.
  - by apply appends_same.
Qed.

Lemma build_log_entries_appends env l :
  effect appends (DeploymentsService.build_log_entries env l).
Proof.
  induction l as [|x l IH]; cbn [DeploymentsService.build_log_entries].
  - by intros w.
  - unfold DeploymentsService.entry.
    effect_walk ltac:(first [apply now_appends|apply IH]).
Qed.

Lemma vercel_createDeployment_appends env p :
  effect appends (DeploymentsService.vercel_createDeployment env p).
Proof.
  intros w. unfold DeploymentsService.vercel_createDeployment.
  destruct (env_vercel env _ _); by apply appends_same.
Qed.

Ltac appends_leaf :=
  first [ apply now_appends | apply fetch_appends | apply deployment_update_appends
        | apply build_log_entries_appends | apply vercel_createDeployment_appends
        | (intros ?; by apply appends_same) ].

Lemma createSiteFromRepo_appends env params :
  effect appends (NetlifyService.createSiteFromRepo env params).
Proof.
  unfold NetlifyService.createSiteFromRepo, NetlifyService.getRepositoryDefaultBranch,
    NetlifyService.create_and_connect, NetlifyService.create_with_deploy_hook,
    NetlifyService.connectGitRepository, NetlifyService.deployFromGitHubZip,
    NetlifyService.createGitHubActionsWorkflow.
  effect_walk appends_leaf.
Qed.

Ltac deploy_tail_appends :=
  unfold DeploymentsService.failed_update, DeploymentsService.git_entry,
    DeploymentsService.entry, DeploymentsService.build_logs;
  effect_walk ltac:(first [ pure_leaf | apply createSiteFromRepo_appends | appends_leaf ]).

(** X11: a project is looked up by name alone: when some project, of
    whatever organization, has the requested name, both deployment
    methods create no project and no organization, and the first record
    they write belongs to that project and is attributed to the
    caller. *)
Theorem deployment_joins_project_by_name
  (env : Env) (input : DeployInput) (w : World) (p : Project) :
  find (fun q => String.eqb (proj_name q) (in_projectId input)) (projects w) = Some p ->
  (let w' := (DeploymentsService.deployToNetlify env input w).2 in
   projects w' = projects w /\ organizations w' = organizations w
   /\ exists d l, written w' = written w ++ d :: l
        /\ projectId d = proj_id p /\ createdBy d = userId input)
  /\ (let w' := (DeploymentsService.deployToVercel env input w).2 in
      projects w' = projects w /\ organizations w' = organizations w
      /\ exists d l, written w' = written w ++ d :: l
           /\ projectId d = proj_id p /\ createdBy d = userId input).
Proof.
  intros Hp.
  assert (E : DeploymentsService.find_or_create_project env input w = (Returned p, w)).
  { unfold DeploymentsService.find_or_create_project. rewrite bind_run.
    cbn [project_findFirst_name]. by rewrite Hp. }
  split; cbv zeta.
  - pattern (DeploymentsService.deployToNetlify env input w).2.
    match goal with |- ?Q _ => set (post := Q) end.
    unfold DeploymentsService.deployToNetlify. rewrite bind_run, E. cbv beta iota.
    rewrite bind_run. unfold DeploymentsService.entry at 1. rewrite bind_run.
    cbn -[pretty String.append bind try_catch post].
    rewrite bind_run. unfold DeploymentsService.entry at 1. rewrite bind_run.
    cbn -[pretty String.append bind try_catch post].
    rewrite bind_run. unfold deployment_create at 1.
    rewrite bind_run. unfold cuid at 1. cbv beta iota. rewrite bind_run. unfold now at 1.
    cbv beta iota zeta.
    name_created_row v0 w2.
    match goal with
    | |- context [bind ?m ?k w2] =>
        assert (Htail : effect appends (bind m k)) by deploy_tail_appends;
        destruct (Htail w2) as [HP HO [l HW]]
    end.
    subst post. cbv beta.
    rewrite HP, HO, HW. split; [done|]. split; [done|]. exists v0, l.
    split; [|done]. change (written w2) with (written w ++ [v0]). by rewrite <- app_assoc.
  - pattern (DeploymentsService.deployToVercel env input w).2.
    match goal with |- ?Q _ => set (post := Q) end.
    unfold DeploymentsService.deployToVercel. rewrite bind_run.
    cbn [providerIntegration_findUnique].
    destruct (integrations w !! (userId input, "vercel")) as [row|];
      rewrite bind_run, E; cbv beta iota;
      rewrite bind_run; unfold DeploymentsService.entry at 1; rewrite bind_run;
      cbn -[pretty String.append bind try_catch post];
      rewrite bind_run; unfold deployment_create at 1;
      rewrite bind_run; unfold cuid at 1; cbv beta iota; rewrite bind_run; unfold now at 1;
      cbv beta iota zeta;
      name_created_row v0 w2.
    + match goal with
      | |- context [bind ?m ?k w2] =>
          assert (Htail : effect appends (bind m k)) by deploy_tail_appends;
          destruct (Htail w2) as [HP HO [l HW]]
      end.
      subst post. cbv beta.
      rewrite HP, HO, HW. split; [done|]. split; [done|]. exists v0, l.
      split; [|done]. change (written w2) with (written w ++ [v0]). by rewrite <- app_assoc.
    + subst post. cbn. split; [done|]. split; [done|]. by exists v0, [].
Qed.

(** X10: when no project has the requested name but a project of the
    user's organization already has the slug that the name is turned
    into (My Shop and my shop both give my-shop), both deployment
    methods throw the unique-constraint error of the projects table and
    leave the world as it was: no deployment record is written. *)
Theorem slug_collision_rejects_deployment
  (env : Env) (input : DeployInput) (w : World) (o : Organization) (q : Project) :
  find (fun p => String.eqb (proj_name p) (in_projectId input)) (projects w) = None ->
  find (has_member (userId input)) (organizations w) = Some o ->
  In q (projects w) -> organizationId q = org_id o ->
  proj_slug q = replace_non_slug (toLowerCase (in_projectId input)) ->
  let e := "Unique constraint failed on the fields: (`organization_id`,`slug`)" in
  DeploymentsService.deployToNetlify env input w = (Threw e, w)
  /\ DeploymentsService.deployToVercel env input w = (Threw e, w).
Proof.
  intros Hname Horg Hq Hqo Hslug e.
  assert (E : DeploymentsService.find_or_create_project env input w = (Threw e, w)).
  { unfold DeploymentsService.find_or_create_project. rewrite bind_run.
    cbn [project_findFirst_name]. rewrite Hname, bind_run.
    cbn [organization_findFirst_member]. rewrite Horg, bind_run. cbn [ret].
    unfold project_create. rewrite bind_run. cbn [get_world].
    destruct (existsb _ (projects w)) eqn:Ex; [done|].
    exfalso. apply not_true_iff_false in Ex. apply Ex, existsb_exists.
    exists q. split; [done|]. by rewrite Hqo, Hslug, !String.eqb_refl. }
  split.
  - unfold DeploymentsService.deployToNetlify. by rewrite bind_run, E.
  - unfold DeploymentsService.deployToVercel. rewrite bind_run.
    cbn [providerIntegration_findUnique].
    destruct (integrations w !! _); by rewrite bind_run, E.
Qed.

Lemma slug_collision_rejects_deployment_witness :
  DeploymentsService.deployToNetlify quiet_env (request_of "u2" "my shop") shop_world
  = (Threw "Unique constraint failed on the fields: (`organization_id`,`slug`)", shop_world).
Proof.
  eapply (slug_collision_rejects_deployment quiet_env (request_of "u2" "my shop") shop_world).
  - vm_compute. reflexivity.
  - vm_compute. reflexivity.
  - left. reflexivity.
  - vm_compute. reflexivity.
  - vm_compute. reflexivity.
Defined.

Lemma deployment_joins_project_by_name_witness :
  exists p d l,
    find (fun q => String.eqb (proj_name q) "My Shop") (projects shop_world) = Some p
    /\ written (DeploymentsService.deployToNetlify quiet_env (request_of "u1" "My Shop")
                  shop_world).2 = written shop_world ++ d :: l
    /\ projectId d = proj_id p /\ createdBy d = "u1".
Proof.
  destruct (find (fun q => String.eqb (proj_name q) "My Shop") (projects shop_world))
    as [p|] eqn:Hp; [|vm_compute in Hp; discriminate Hp].
  destruct (deployment_joins_project_by_name quiet_env (request_of "u1" "My Shop")
              shop_world p Hp) as [(_ & _ & d & l & Hw & Hd & Hu) _].
  exists p, d, l. split; [reflexivity|]. split; [exact Hw|]. split; [exact Hd|exact Hu].
Defined.

(** ** Where the Netlify token goes *)

Global Instance requests_only_preorder (P : Request -> Prop) : PreOrder (requests_only P).
Proof.
  split.
  - intros w. exists []. by rewrite app_nil_r.
  - intros w1 w2 w3 (l1 & H1 & P1) (l2 & H2 & P2). exists (l1 ++ l2).
    split; [by rewrite H2, H1, app_assoc|]. by apply Forall_app.
Qed.

Lemma fetch_requests_only env (P : Request -> Prop) (r : Request) :
  P r -> effect (requests_only P) (fetch env r).
Proof.
  intros HP w. exists [r]. split; [|by constructor].
  unfold fetch. by destruct (env_fetch env _ r).
Qed.

Lemma now_requests_only env (P : Request -> Prop) : effect (requests_only P) (now env).
Proof. intros w. exists []. by rewrite app_nil_r. Qed.

Lemma record_call_requests_only (P : Request -> Prop) c :
  effect (requests_only P) (record_call c).
Proof. intros w. exists []. by rewrite app_nil_r. Qed.

Ltac url_prefix :=
  cbn [req_url];
  first [ by vm_compute | apply prefix_append; by vm_compute ].

Ltac github_request :=
  right; split; [url_prefix|];
  cbn [req_headers In]; intros ? Hh; intuition (subst; cbn; discriminate).

Ltac netlify_request :=
  split; [url_prefix
         |cbn [req_headers NetlifyService.json_headers In]; unfold NetlifyService.bearer; tauto].

Ltac request_leaf :=
  first [ apply now_requests_only
        | apply record_call_requests_only
        | apply fetch_requests_only;
          first [ netlify_request | left; netlify_request | github_request ] ].

(** X12: every request that [createSiteFromRepo] sends is either a
    Netlify API request carrying the token of the call as bearer, or a
    GitHub API request without an [Authorization] header; every request
    of [validateToken], [getSite] and [triggerDeploy] is a Netlify API
    request carrying the token.  The token is sent nowhere else. *)
Theorem netlify_token_confined (env : Env) (w : World) :
  (forall params,
     requests_only (fun r => netlify_request (np_token params) r \/ github_anonymous r)
       w (NetlifyService.createSiteFromRepo env params w).2)
  /\ (forall token,
        requests_only (netlify_request token) w (NetlifyService.validateToken env token w).2)
  /\ (forall siteId token,
        requests_only (netlify_request token) w (NetlifySites.getSite env siteId token w).2)
  /\ (forall siteId token,
        requests_only (netlify_request token) w
          (NetlifySites.triggerDeploy env siteId token w).2).
Proof.
  repeat split; intros; revert w;
    match goal with |- forall w, requests_only ?P w (?m w).2 => change (effect (requests_only P) m) end.
  - unfold NetlifyService.createSiteFromRepo, NetlifyService.getRepositoryDefaultBranch,
      NetlifyService.create_and_connect, NetlifyService.create_with_deploy_hook,
      NetlifyService.connectGitRepository, NetlifyService.deployFromGitHubZip,
      NetlifyService.createGitHubActionsWorkflow, NetlifyService.create_site_request.
    effect_walk request_leaf.
  - unfold NetlifyService.validateToken.
    apply effect_bind; [apply _|request_leaf|intros _].
    apply effect_try; [apply _| |intros ?; apply effect_ret; apply _].
    apply effect_bind_value; [apply _|apply effect_template; apply _|].
    intros text (w0 & w1 & (-> & _ & _)%template_inv).
    effect_walk request_leaf.
  - unfold NetlifySites.getSite. effect_walk request_leaf.
  - unfold NetlifySites.triggerDeploy. effect_walk request_leaf.
Qed.

(** ** Connecting a provider *)

Lemma validate_quiet env provider body ext :
  effect quiet (IntegrationsController.validate env provider body ext).
Proof.
  unfold IntegrationsController.validate, VercelService.validateToken,
    NetlifyService.validateToken.
  effect_steps; first [apply fetch_quiet|apply record_call_quiet].
Qed.

Lemma validate_rejection env provider body ext :
  returns_only (IntegrationsController.validate env provider body ext)
    (fun r => match r with
              | inl v => get_opt v "success" = VBool false
              | inr _ => True
              end).
Proof.
  unfold IntegrationsController.validate. returns_only_steps; done.
Qed.

Lemma providerIntegration_upsert_run env user prov token external create_scopes w :
  exists row w',
    providerIntegration_upsert env user prov token external create_scopes w
    = (Returned row, w')
    /\ integrations w' = <[(user, prov) := row]> (integrations w)
    /\ encryptedToken row = token /\ externalId row = external
    /\ match integrations w !! (user, prov) with
       | Some old => scopes row = scopes old /\ pi_id row = pi_id old
       | None => scopes row = create_scopes
       end.
Proof.
  unfold providerIntegration_upsert. rewrite bind_run. cbn [providerIntegration_findUnique].
  rewrite bind_run. cbn [now].
  destruct (integrations w !! (user, prov)) as [old|]; [by eexists _, _|].
  rewrite bind_run. cbn [cuid]. by eexists _, _.
Qed.

Lemma spread_guarded (k : string) (base : list (string * value)) (user : value) :
  spread base (spread_source (js_and user (VObj [(k, user)]))) = base
  \/ spread base (spread_source (js_and user (VObj [(k, user)]))) = obj_set k user base.
Proof.
  unfold js_and. destruct (truthy user) eqn:T.
  - right. reflexivity.
  - left. destruct user as [| |b|n|s|l|ms]; try reflexivity; try discriminate.
    destruct s; [reflexivity|discriminate].
Qed.

(** X13: [connectProvider] never throws.  It answers [success: false]
    and leaves the integrations as they were, or it answers [success:
    true] for netlify or vercel and has written the row of this user and
    provider, and no other: a new row takes the scopes of the request
    (read and write when it names none), a row that was there keeps its
    id and its scopes. *)
Theorem connectProvider_answers
    (env : Env) (provider : string) (body : value) (user : string) (w : World) :
  exists v w',
    IntegrationsController.connectProvider env provider body user w = (Returned v, w')
    /\ ((get_opt v "success" = VBool false /\ integrations w' = integrations w)
        \/ (get_opt v "success" = VBool true
            /\ (provider = "netlify" \/ provider = "vercel")
            /\ exists row,
                 integrations w' = <[(user, provider) := row]> (integrations w)
                 /\ get_opt (get_opt v "integration") "id" = VStr (pi_id row)
                 /\ match integrations w !! (user, provider) with
                    | Some old => scopes row = scopes old /\ pi_id row = pi_id old
                    | None => scopes row
                              = js_or (get_opt body "scopes") (VArr [VStr "read"; VStr "write"])
                    end)).
Proof.
  unfold IntegrationsController.connectProvider.
  destruct (String.eqb provider "netlify" || String.eqb provider "vercel") eqn:Hsup;
    [|eexists _, _; split; [reflexivity|]; by left].
  assert (Hprov : provider = "netlify" \/ provider = "vercel").
  { apply orb_true_iff in Hsup as [H|H]; apply String.eqb_eq in H; auto. }
  rewrite try_run, bind_run. unfold prop at 1.
  destruct (get body "externalId") as [given|];
    [|eexists _, _; split; [reflexivity|]; by left].
  cbn [ret]. rewrite bind_run.
  set (ext := if truthy given then _ else _).
  assert (Hext : exists e w1, ext w = (Returned e, w1) /\ integrations w1 = integrations w).
  { subst ext. destruct (truthy given); by eexists _, _. }
  destruct Hext as (e & w1 & -> & Hi1). rewrite bind_run.
  pose proof (validate_quiet env provider body e w1) as Hq.
  pose proof (validate_rejection env provider body e w1) as Hr.
  destruct (IntegrationsController.validate env provider body e w1)
    as [[[rej|[vr e']]|err] w2]; cbn [snd] in Hq; destruct Hq as [Hi2 _ _ _ _ _].
  - specialize (Hr _ _ eq_refl). eexists _, _. split; [reflexivity|].
    left. split; [exact Hr|]. by rewrite Hi2.
  - rewrite bind_run.
    destruct (providerIntegration_upsert_run env user provider
                (JSON_stringify (IntegrationsController.token_document provider body vr)) e'
                (js_or (get_opt body "scopes") (VArr [VStr "read"; VStr "write"])) w2)
      as (row & w3 & -> & Hi3 & _ & _ & Hold).
    eexists _, _. split; [reflexivity|]. right. split; [reflexivity|].
    split; [exact Hprov|]. exists row. rewrite Hi3, Hi2, Hi1. split; [reflexivity|].
    split; [|by rewrite Hi2, Hi1 in Hold].
    cbn [get_opt assoc String.eqb Ascii.eqb Bool.eqb].
    destruct (spread_guarded "connectedUser"
                [("id", VStr (pi_id row)); ("provider", VStr (pi_provider row));
                 ("isDemo", js_or (get_opt body "demo")
                              (VBool (negb (truthy (get_opt body "token")))));
                 ("externalUserId", e')] (get_opt vr "user")) as [-> | ->]; reflexivity.
  - eexists _, _. split; [reflexivity|]. left. split; [reflexivity|]. by rewrite Hi2.
Qed.



(** ** Deploying a repository *)

Lemma deployToVercel_no_id env input :
  returns_only (DeploymentsService.deployToVercel env input)
    (fun v => get_opt v "id" = VUndefined).
Proof.
  unfold DeploymentsService.deployToVercel. returns_only_steps; reflexivity.
Qed.

Lemma deployToNetlify_shape env input :
  returns_only (DeploymentsService.deployToNetlify env input)
    (fun v => (exists i, get_opt v "id" = VStr i) /\ get_opt v "deployment" = VUndefined).
Proof.
  unfold DeploymentsService.deployToNetlify. returns_only_steps; split; by eexists.
Qed.

(** X15: [deployRepository] never throws: it answers [success: true],
    or [success: false] with the message to check the provider
    connections.  In particular, for a user without a GitHub integration
    it answers [success: false] with the error "Failed to analyze
    repository" and leaves the world as it was: no request is sent and
    no record is written. *)
Theorem deployRepository_answers
    (env : Env) (owner repo user : string) (options : DeployOptions) (w : World) :
  (exists v w',
     RepositoriesController.deployRepository env owner repo user options w = (Returned v, w')
     /\ (get_opt v "success" = VBool true
         \/ (get_opt v "success" = VBool false
             /\ get_opt v "message"
                = VStr "Deployment failed. Please check your provider connections.")))
  /\ (integrations w !! (user, "github") = None ->
      RepositoriesController.deployRepository env owner repo user options w
      = (Returned (VObj [("success", VBool false);
                         ("error", VStr "Failed to analyze repository");
                         ("message",
                          VStr "Deployment failed. Please check your provider connections.")]),
         w)).
Proof.
  split.
  - revert w. apply always_returns_try.
    + returns_only_steps; by left.
    + intros e. apply always_returns_ret. by right.
  - intros Hno. unfold RepositoriesController.deployRepository.
    rewrite try_run, bind_run. unfold RepositoriesService.analyzeRepositoryWithAI.
    rewrite try_run, bind_run. cbn [providerIntegration_findUnique]. by rewrite Hno.
Qed.

(** X16: a deployment that the repository route starts on Vercel never
    reports its id: when the request names the provider vercel and the
    answer is [success: true], the [deploymentId] of the answer is
    [undefined]. *)
Theorem deployRepository_vercel_has_no_id
    (env : Env) (owner repo user : string) (options : DeployOptions) (w w' : World)
    (v : value) :
  o_provider options = VStr "vercel" ->
  RepositoriesController.deployRepository env owner repo user options w = (Returned v, w') ->
  get_opt v "success" = VBool true ->
  get_opt v "deploymentId" = VUndefined
  /\ get_opt v "message" = VStr "Deployment initiated to vercel".
Proof.
  intros Hp Hrun Hs. unfold RepositoriesController.deployRepository in Hrun.
  rewrite try_run in Hrun.
  match type of Hrun with
  | match ?body with _ => _ end = _ => destruct body as [[v0|e] w1] eqn:Hb
  end; [|injection Hrun as <- _; discriminate Hs].
  injection Hrun as -> ->.
  apply bind_inv in Hb as (analysis & w2 & _ & Hb).
  apply bind_inv in Hb as (settings & w3 & _ & Hb).
  rewrite Hp in Hb. cbn [truthy String.eqb negb] in Hb.
  apply bind_inv in Hb as (provider & w4 & [= <- <-] & Hb).
  cbn [DeploymentsService.strict_neq_str negb] in Hb.
  replace (String.eqb "vercel" "vercel") with true in Hb by reflexivity.
  cbn [negb] in Hb.
  apply bind_inv in Hb as (result & w5 & Hres & Hb).
  apply deployToVercel_no_id in Hres.
  apply bind_inv in Hb as (ad & w6 & _ & Hb).
  apply bind_inv in Hb as (i & w7 & Hi & Hb).
  injection Hb as <- <-. cbn. split; [|reflexivity].
  revert Hi. unfold prop, get. destruct result; try discriminate; intros [= <-]; try done.
Qed.

Lemma deployRepository_vercel_has_no_id_witness :
  exists v w',
    RepositoriesController.deployRepository repository_env "acme" "svc" "u1"
      (options_for "vercel") github_world = (Returned v, w')
    /\ get_opt v "deploymentId" = VUndefined.
Proof.
  destruct (RepositoriesController.deployRepository repository_env "acme" "svc" "u1"
              (options_for "vercel") github_world) as [[v|e] w'] eqn:Hrun;
    [|vm_compute in Hrun; discriminate Hrun].
  exists v, w'. split; [reflexivity|].
  eapply (deployRepository_vercel_has_no_id repository_env "acme" "svc" "u1"
            (options_for "vercel") github_world w' v).
  - reflexivity.
  - exact Hrun.
  - vm_compute in Hrun. injection Hrun as <- _. reflexivity.
Defined.

Lemma analyzeRepositoryWithAI_same_calls env user full :
  effect same_calls (RepositoriesService.analyzeRepositoryWithAI env user full).
Proof.
  unfold RepositoriesService.analyzeRepositoryWithAI.
  effect_walk ltac:(first
    [ apply effect_pure; [apply _|apply parse_token_pure]
    | match goal with
      | |- effect _ (AnalysisService.analyzeRepositoryWithAI _ _) =>
          unfold AnalysisService.analyzeRepositoryWithAI, AnalysisService.getFallbackAnalysis
      end
    | match goal with
      | |- effect same_calls ?m =>
          lazymatch m with
          | bind _ _ => fail
          | try_catch _ _ => fail
          | _ =>
              intros ?;
              unfold same_calls, RepositoriesService.fetchRepositoryData,
                AnalysisService.complete;
              repeat case_match; reflexivity
          end
      end ]).
Qed.



(** ** Stored analyses *)

Global Instance same_tables_preorder : PreOrder same_tables.
Proof.
  split.
  - by intros w.
  - intros w1 w2 w3 [H1 H2] [H3 H4]. split; congruence.
Qed.

Lemma analysis_same_tables env repoData :
  effect same_tables (AnalysisService.analyzeRepositoryWithAI env repoData).
Proof.
  unfold AnalysisService.analyzeRepositoryWithAI, AnalysisService.getFallbackAnalysis.
  effect_walk ltac:(idtac; match goal with
                    | |- effect _ (AnalysisService.complete _ _) =>
                        intros ?; unfold AnalysisService.complete; by case_match
                    end).
Qed.

(** X18: [RepositoriesService.analyzeRepositoryWithAI] stores what it
    returns only for a repository that is in the table: then one row is
    appended, for that repository, with branch main and commit latest,
    holding the analysis that is returned; for an unknown repository the
    analysis is returned and nothing is stored.  When the method throws,
    the error is "Failed to analyze repository" whatever went wrong, and
    nothing was stored. *)
Theorem analysis_is_recorded (env : Env) (user full : string) (w : World) :
  match RepositoriesService.analyzeRepositoryWithAI env user full w with
  | (Returned a, w') =>
      match find (fun r => String.eqb (fullName r) full) (repositories w) with
      | Some r =>
          exists row, analyses w' = analyses w ++ [row]
            /\ ra_repositoryId row = repo_id r /\ recommendations row = a
            /\ ra_branch row = "main" /\ ra_commitSha row = "latest"
            /\ frameworkName row = get_opt (get_opt a "framework") "name"
      | None => analyses w' = analyses w
      end
  | (Threw e, w') => e = "Failed to analyze repository" /\ analyses w' = analyses w
  end.
Proof.
  unfold RepositoriesService.analyzeRepositoryWithAI.
  rewrite try_run, bind_run. cbn [providerIntegration_findUnique].
  destruct (integrations w !! (user, "github")) as [row|]; [|done].
  rewrite bind_run. destruct (parse_token_pure (encryptedToken row)) as [o Ho].
  rewrite Ho. destruct o as [td|e]; [|done]. cbv beta iota.
  rewrite bind_run. unfold prop at 1. destruct (get td "access_token") as [tok|]; [|done].
  cbn [ret]. rewrite bind_run.
  assert (Hf : same_tables w (RepositoriesService.fetchRepositoryData env full tok w).2).
  { unfold RepositoriesService.fetchRepositoryData. by case_match. }
  destruct (RepositoriesService.fetchRepositoryData env full tok w) as [[rd|e] w1];
    cbn [snd] in Hf; destruct Hf as [Hr1 Ha1]; [|done].
  rewrite bind_run. pose proof (analysis_same_tables env rd w1) as [Hr2 Ha2].
  destruct (AnalysisService.analyzeRepositoryWithAI env rd w1) as [[a|e] w2];
    cbn [snd] in Hr2, Ha2; [|cbn; split; [done|congruence]].
  rewrite bind_run. cbn [get_world]. rewrite Hr2, Hr1.
  destruct (find _ (repositories w)) as [r|]; [|cbn; congruence].
  rewrite bind_run, bind_run. unfold prop.
  destruct (get a "framework") as [fw|] eqn:Hfw; [|cbn; split; [done|congruence]].
  cbn [ret]. rewrite bind_run.
  destruct (get fw "name") as [nm|] eqn:Hnm; [|cbn; split; [done|congruence]].
  cbn [ret]. rewrite bind_run.
  destruct (get fw "version") as [vs|]; [|cbn; split; [done|congruence]].
  cbn [ret]. rewrite bind_run.
  destruct (get fw "confidence") as [cf|]; [|cbn; split; [done|congruence]].
  cbn [ret]. rewrite bind_run.
  destruct (get a "buildSettings") as [bs|]; [|cbn; split; [done|congruence]].
  cbn. eexists. split; [by rewrite Ha2, Ha1|]. repeat split.
  cbn. apply get_Some in Hfw as ->. by apply get_Some in Hnm as ->.
Qed.

(** X19: [validateToken] of either provider never throws.  A token
    that cannot be converted to a string (an object with a member
    [toString] of its own, or an array that holds one) is refused before
    anything is sent: the answer is [valid: false] with the error "Failed
    to validate token".  For any other token exactly one request is
    sent, a GET of the provider's user endpoint with the token as
    bearer, and the answer is [valid: true] only when that request was
    answered with a success status and a JSON body, and then the user id
    of the answer is the [id] (Netlify) or [uid] (Vercel) of that
    body. *)
Theorem validateToken_answers (env : Env) (token : value) (w : World) :
  (exists v w',
     NetlifyService.validateToken env token w = (Returned v, w')
     /\ let req := {| req_method := "GET"; req_url := "https://api.netlify.com/api/v1/user";
                      req_headers := [NetlifyService.bearer token]; req_body := None |} in
        if converts token
        then fetches w' = fetches w ++ [req]
             /\ validated env (List.length (fetches w)) req "id" v
        else fetches w' = fetches w
             /\ v = VObj [("valid", VBool false); ("error", VStr "Failed to validate token")])
  /\ (exists v w',
        VercelService.validateToken env token w = (Returned v, w')
        /\ let req := {| req_method := "GET"; req_url := "https://api.vercel.com/v2/user";
                         req_headers := [NetlifyService.bearer token]; req_body := None |} in
           if converts token
           then fetches w' = fetches w ++ [req]
                /\ validated env (List.length (fetches w)) req "uid" v
           else fetches w' = fetches w
                /\ v = VObj [("valid", VBool false); ("error", VStr "Failed to validate token")]).
Proof.
  split.
  - unfold NetlifyService.validateToken. rewrite bind_run. cbn [record_call].
    rewrite try_run, bind_run. unfold template at 1.
    destruct (converts token); [|cbn; eexists _, _; by repeat split].
    cbn [ret]. rewrite bind_run. unfold fetch at 1. cbn [fetches set_calls].
    change ("Authorization", "Bearer " +:+ to_str token) with (NetlifyService.bearer token).
    destruct (env_fetch env _ _) as [resp|] eqn:Hresp.
    + destruct (ok resp) eqn:Hok; cbn [negb].
      * rewrite bind_run. unfold json at 1.
        destruct (resp_json resp) as [account|] eqn:Hj.
        -- cbn [ret]. unfold prop. destruct (get account "id") as [x|] eqn:Hx.
           ++ assert (Hg : forall k, get account k = Some (get_opt account k)).
              { intros k. revert Hx. clear. unfold get. by destruct account. }
              apply get_Some in Hx as ->.
              cbv beta iota. cbn [ret].
              repeat (rewrite bind_run; cbv beta iota; rewrite ?Hg; cbn [ret]).
              cbv beta iota.
              eexists _, _. split; [reflexivity|]. split; [reflexivity|].
              split; [by left|]. intros _.
              by exists resp, account.
           ++ cbn. eexists _, _. split; [reflexivity|]. split; [reflexivity|].
              split; [by right|]. discriminate.
        -- cbn. eexists _, _. split; [reflexivity|]. split; [reflexivity|].
           split; [by right|]. discriminate.
      * cbn. eexists _, _. split; [reflexivity|]. split; [reflexivity|].
        split; [by right|]. discriminate.
    + cbn. eexists _, _. split; [reflexivity|]. split; [reflexivity|].
      split; [by right|]. discriminate.
  - unfold VercelService.validateToken. rewrite bind_run. cbn [record_call].
    rewrite try_run, bind_run. unfold template at 1.
    destruct (converts token); [|cbn; eexists _, _; by repeat split].
    cbn [ret]. rewrite bind_run. unfold fetch at 1. cbn [fetches set_calls].
    change ("Authorization", "Bearer " +:+ to_str token) with (NetlifyService.bearer token).
    destruct (env_fetch env _ _) as [resp|] eqn:Hresp.
    + destruct (ok resp) eqn:Hok; cbn [negb].
      * rewrite bind_run. unfold json at 1.
        destruct (resp_json resp) as [account|] eqn:Hj.
        -- cbn [ret]. unfold prop. destruct (get account "uid") as [x|] eqn:Hx.
           ++ assert (Hg : forall k, get account k = Some (get_opt account k)).
              { intros k. revert Hx. clear. unfold get. by destruct account. }
              apply get_Some in Hx as ->.
              cbv beta iota. cbn [ret].
              repeat (rewrite bind_run; cbv beta iota; rewrite ?Hg; cbn [ret]).
              cbv beta iota.
              eexists _, _. split; [reflexivity|]. split; [reflexivity|].
              split; [by left|]. intros _.
              by exists resp, account.
           ++ cbn. eexists _, _. split; [reflexivity|]. split; [reflexivity|].
              split; [by right|]. discriminate.
        -- cbn. eexists _, _. split; [reflexivity|]. split; [reflexivity|].
           split; [by right|]. discriminate.
      * cbn. eexists _, _. split; [reflexivity|]. split; [reflexivity|].
        split; [by right|]. discriminate.
    + cbn. eexists _, _. split; [reflexivity|]. split; [reflexivity|].
      split; [by right|]. discriminate.
Qed.

(** ** Access control *)

Lemma elem_of_foldl_add (acc ps : list Permission.t) (p : Permission.t) :
  p ∈ foldl RBACManager.add acc ps <-> p ∈ acc \/ p ∈ ps.
Proof.
  revert acc. induction ps as [|q ps IH]; intros acc; cbn [foldl].
  - rewrite elem_of_nil. tauto.
  - rewrite IH, elem_of_cons. unfold RBACManager.add. case_bool_decide as Hq.
    + split; [tauto|]. intros [?|[->|?]]; tauto.
    + rewrite elem_of_app, list_elem_of_singleton. tauto.
Qed.

Lemma NoDup_foldl_add (acc ps : list Permission.t) :
  NoDup acc -> NoDup (foldl RBACManager.add acc ps).
Proof.
  revert acc. induction ps as [|q ps IH]; intros acc Hacc; cbn [foldl]; [done|].
  apply IH. unfold RBACManager.add. case_bool_decide as Hq; [done|].
  apply NoDup_app. split; [done|]. split; [|apply NoDup_singleton].
  intros x Hx Hx'. apply list_elem_of_singleton in Hx'. by subst x.
Qed.

Lemma elem_of_role_fold (roles : list Role.t) (acc : list Permission.t) (p : Permission.t) :
  p ∈ foldl (fun permissions role =>
               foldl RBACManager.add permissions (default [] (rolePermissions role)))
        acc roles
  <-> p ∈ acc \/ exists r ps, r ∈ roles /\ rolePermissions r = Some ps /\ p ∈ ps.
Proof.
  revert acc. induction roles as [|r roles IH]; intros acc; cbn [foldl].
  - split; [tauto|]. intros [?|(r & ps & Hr & _)]; [done|]. by apply elem_of_nil in Hr.
  - rewrite IH, elem_of_foldl_add. split.
    + intros [[?|Hp]|(r' & ps & Hr & Hps & Hp)]; [tauto| |].
      * right. destruct (rolePermissions r) as [ps|] eqn:E; [|by apply elem_of_nil in Hp].
        exists r, ps. split; [left|]. done.
      * right. exists r', ps. split; [by right|done].
    + intros [?|(r' & ps & Hr & Hps & Hp)]; [tauto|].
      apply elem_of_cons in Hr as [->|Hr].
      * left. right. by rewrite Hps.
      * right. by exists r', ps.
Qed.

Lemma NoDup_role_fold (roles : list Role.t) (acc : list Permission.t) :
  NoDup acc ->
  NoDup (foldl (fun permissions role =>
                  foldl RBACManager.add permissions (default [] (rolePermissions role)))
           acc roles).
Proof.
  revert acc. induction roles as [|r roles IH]; intros acc Hacc; cbn [foldl]; [done|].
  by apply IH, NoDup_foldl_add.
Qed.

(** X20: whatever roles [getUserRoles] gives a user: a permission
    check passes exactly when one of the roles has an entry in the table
    that lists the permission or lists system:admin; the permissions of a
    user hold no duplicates; and a user whose roles are all org_member
    or project_admin, which have no entry, passes no check at all. *)
Theorem checkPermission_by_roles
    (getUserRoles : string -> option string -> list Role.t)
    (userId : string) (permission : Permission.t) (resourceId : option string) :
  (RBACManager.checkPermission getUserRoles userId permission resourceId = true
   <-> exists role granted,
         role ∈ getUserRoles userId resourceId
         /\ rolePermissions role = Some granted
         /\ (permission ∈ granted \/ Permission.SYSTEM_ADMIN ∈ granted))
  /\ NoDup (RBACManager.getUserPermissions getUserRoles userId resourceId)
  /\ ((forall role, role ∈ getUserRoles userId resourceId ->
         role = Role.ORG_MEMBER \/ role = Role.PROJECT_ADMIN) ->
      RBACManager.checkPermission getUserRoles userId permission resourceId = false).
Proof.
  assert (Hiff :
    RBACManager.checkPermission getUserRoles userId permission resourceId = true
    <-> exists role granted,
          role ∈ getUserRoles userId resourceId
          /\ rolePermissions role = Some granted
          /\ (permission ∈ granted \/ Permission.SYSTEM_ADMIN ∈ granted)).
  { unfold RBACManager.checkPermission, RBACManager.getUserPermissions.
    rewrite orb_true_iff, !bool_decide_eq_true, !elem_of_role_fold. split.
    - intros [[H|(r & ps & Hr & Hps & Hp)]|[H|(r & ps & Hr & Hps & Hp)]];
        try (by apply elem_of_nil in H); exists r, ps; tauto.
    - intros (r & ps & Hr & Hps & [Hp|Hp]); [left|right]; right; by exists r, ps. }
  split; [exact Hiff|]. split.
  - apply NoDup_role_fold, NoDup_nil_2.
  - intros Hroles. apply not_true_iff_false. rewrite Hiff.
    intros (r & ps & Hr & Hps & _). by destruct (Hroles r Hr) as [-> | ->].
Qed.

(** ** Shell commands *)

Lemma remove_chars_In (p : ascii -> bool) (s : string) (c : ascii) :
  In c (list_ascii_of_string (InputValidator.remove_chars p s))
  <-> In c (list_ascii_of_string s) /\ p c = false.
Proof.
  induction s as [|a s IH]; cbn [InputValidator.remove_chars list_ascii_of_string In];
    [tauto|].
  destruct (p a) eqn:Ha; cbn [list_ascii_of_string In]; rewrite IH.
  - split; [tauto|]. intros [[->|?] ?]; [congruence|tauto].
  - split; [|tauto]. intros [->|?]; tauto.
Qed.

Lemma remove_chars_clean (p : ascii -> bool) (s : string) :
  (forall c, In c (list_ascii_of_string s) -> p c = false) ->
  InputValidator.remove_chars p s = s.
Proof.
  induction s as [|a s IH]; intros H; cbn [InputValidator.remove_chars]; [done|].
  rewrite (H a) by (by left). f_equal. apply IH. intros c Hc. apply H. by right.
Qed.

(** X21: [sanitizeShellCommand] keeps the characters of the command
    that are not in the dangerous class and no others; so none of those
    twelve characters is left in the result.  It returns a command
    unchanged exactly when the command has none of them, sanitizing
    twice is sanitizing once, and the result of a concatenation is the
    concatenation of the results. *)
Theorem sanitizeShellCommand_removes (s t : string) :
  (forall c, In c (list_ascii_of_string (InputValidator.sanitizeShellCommand s))
             <-> In c (list_ascii_of_string s) /\ InputValidator.dangerous c = false)
  /\ (InputValidator.sanitizeShellCommand s = s
      <-> forall c, In c (list_ascii_of_string s) -> InputValidator.dangerous c = false)
  /\ InputValidator.sanitizeShellCommand (InputValidator.sanitizeShellCommand s)
     = InputValidator.sanitizeShellCommand s
  /\ InputValidator.sanitizeShellCommand (s +:+ t)
     = InputValidator.sanitizeShellCommand s +:+ InputValidator.sanitizeShellCommand t.
Proof.
  unfold InputValidator.sanitizeShellCommand. split; [apply remove_chars_In|].
  split; [|split].
  - split; [|apply remove_chars_clean].
    intros Heq c Hc. rewrite <- Heq in Hc. by apply remove_chars_In in Hc as [_ ?].
  - apply remove_chars_clean. intros c Hc. by apply remove_chars_In in Hc as [_ ?].
  - induction s as [|a s IH]; [reflexivity|].
    change (String a s +:+ t) with (String a (s +:+ t)).
    cbn [InputValidator.remove_chars]. destruct (InputValidator.dangerous a); [exact IH|].
    change (String a ?x +:+ ?y) with (String a (x +:+ y)). by rewrite IH.
Qed.

(** ** Environment variables *)

Lemma classifyVariable_secret (key value : string) :
  Notes.cls_isSecret (Notes.classifyVariable key value) = secret_key key.
Proof.
  unfold Notes.classifyVariable, secret_key.
  destruct (existsb _ Notes.secretPatterns); [reflexivity|].
  destruct (existsb _ Notes.databasePatterns); [reflexivity|].
  by destruct (_ || _).
Qed.

Lemma log_frame elapsed randomUUID event s :
  Notes.environmentVariables (Notes.log elapsed randomUUID event s)
  = Notes.environmentVariables s.
Proof. reflexivity. Qed.

Lemma setEnvironmentVariable_lookup
    elapsed randomUUID encryptValue user p e k v secret s key :
  Notes.environmentVariables
    (Notes.setEnvironmentVariable elapsed randomUUID encryptValue user p e k v secret s)
  !! key
  = if decide (key = (p, e, k)) then
      Some (let stored := if secret_key k || secret then encryptValue v p else v in
            match Notes.environmentVariables s !! (p, e, k) with
            | Some row =>
                {| Notes.ev_projectId := Notes.ev_projectId row;
                   Notes.ev_environment := Notes.ev_environment row;
                   Notes.ev_key := Notes.ev_key row; Notes.encryptedValue := stored;
                   Notes.isSecret := Notes.isSecret row;
                   Notes.classification := Notes.classification row;
                   Notes.ev_updatedAt := Some (Notes.st_clock s + elapsed (Notes.st_ticks s)) |}
            | None =>
                {| Notes.ev_projectId := p; Notes.ev_environment := e; Notes.ev_key := k;
                   Notes.encryptedValue := stored;
                   Notes.isSecret := secret_key k || secret;
                   Notes.classification := Notes.cls_type (Notes.classifyVariable k v);
                   Notes.ev_updatedAt := None |}
            end)
    else Notes.environmentVariables s !! key.
Proof.
  unfold Notes.setEnvironmentVariable. cbn [Notes.read_clock]. rewrite log_frame.
  cbn [Notes.set_environmentVariables Notes.environmentVariables].
  rewrite classifyVariable_secret.
  destruct (decide (key = (p, e, k))) as [->|Hne].
  - rewrite lookup_insert_eq. by destruct (Notes.environmentVariables s !! (p, e, k)).
  - by rewrite lookup_insert_ne.
Qed.

(** X22: a variable whose key matches one of the secret or database
    patterns is never stored in clear: if every such row of the store
    holds an encrypted value, so does every such row after any sequence
    of calls of [setEnvironmentVariable], whatever values and flags the
    calls pass. *)
Theorem secret_keys_stay_encrypted
    (elapsed : nat -> nat) (randomUUID : nat -> string)
    (encryptValue : string -> string -> string) (user : value)
    (calls : list Notes.SetCall) (s : Notes.Store) :
  sealed encryptValue s ->
  sealed encryptValue (foldl (Notes.run_call elapsed randomUUID encryptValue user) s calls).
Proof.
  revert s. induction calls as [|c calls IH]; intros s Hs; cbn [foldl]; [exact Hs|].
  apply IH. intros p e k row. unfold Notes.run_call.
  rewrite setEnvironmentVariable_lookup. case_decide as Hk.
  - injection Hk as -> -> ->. intros [= <-] Hsec. rewrite Hsec. cbn [orb].
    destruct (Notes.environmentVariables s !! _); by eexists.
  - apply Hs.
Qed.

Lemma secret_keys_stay_encrypted_witness :
  sealed toy_encrypt
    (foldl (Notes.run_call (fun _ => 1) toy_uuid toy_encrypt (VStr "u1")) empty_store
       port_calls).
Proof.
  apply (secret_keys_stay_encrypted (fun _ => 1) toy_uuid toy_encrypt (VStr "u1")
           port_calls empty_store).
  intros p e k row Hrow. cbn in Hrow. by rewrite lookup_empty in Hrow.
Defined.

(** X23: when the variable exists already, [setEnvironmentVariable]
    replaces its value and nothing else: the row keeps the [isSecret]
    flag and the classification it was created with, while the value is
    stored encrypted or in clear by the key and the flag of this call
    alone, and the audit event reports the flag of this call.  So a row
    marked secret can hold a clear value, and a row not marked secret an
    encrypted one.  The other variables are untouched and no alert is
    raised. *)
Theorem setEnvironmentVariable_keeps_flags
    (elapsed : nat -> nat) (randomUUID : nat -> string)
    (encryptValue : string -> string -> string) (user : value)
    (p e k v : string) (secret : bool) (s : Notes.Store) (row : Notes.EnvironmentVariable) :
  Notes.environmentVariables s !! (p, e, k) = Some row ->
  let s' := Notes.setEnvironmentVariable elapsed randomUUID encryptValue user
              p e k v secret s in
  (exists row',
     Notes.environmentVariables s' !! (p, e, k) = Some row'
     /\ Notes.isSecret row' = Notes.isSecret row
     /\ Notes.classification row' = Notes.classification row
     /\ Notes.encryptedValue row'
        = if secret_key k || secret then encryptValue v p else v)
  /\ (forall key, key <> (p, e, k) ->
        Notes.environmentVariables s' !! key = Notes.environmentVariables s !! key)
  /\ (exists event,
        Notes.auditLogs s' = Notes.auditLogs s ++ [event]
        /\ get_opt event "action" = VStr "env_var_updated"
        /\ get_opt event "key" = VStr k
        /\ get_opt event "isSecret" = VBool (secret_key k || secret))
  /\ Notes.alerts s' = Notes.alerts s.
Proof.
  intros Hrow s'. split; [|split; [|split]].
  - eexists. subst s'. rewrite setEnvironmentVariable_lookup, decide_True by done.
    rewrite Hrow. by split.
  - intros key Hne. subst s'. by rewrite setEnvironmentVariable_lookup, decide_False.
  - subst s'. unfold Notes.setEnvironmentVariable. rewrite classifyVariable_secret.
    cbn. eexists. split; [reflexivity|]. by cbn.
  - reflexivity.
Qed.

Lemma setEnvironmentVariable_keeps_flags_witness :
  exists row',
    Notes.environmentVariables
      (foldl (Notes.run_call (fun _ => 1) toy_uuid toy_encrypt (VStr "u1")) empty_store
         (take 2 port_calls))
    !! ("p1", "production", "PORT") = Some row'
    /\ Notes.isSecret row' = true /\ Notes.encryptedValue row' = "8081".
Proof.
  set (s1 := Notes.run_call (fun _ => 1) toy_uuid toy_encrypt (VStr "u1") empty_store
               {| Notes.sc_projectId := "p1"; Notes.sc_environment := "production";
                  Notes.sc_key := "PORT"; Notes.sc_value := "8080";
                  Notes.sc_secret := true |}).
  destruct (Notes.environmentVariables s1 !! ("p1", "production", "PORT")) as [row|] eqn:Hrow;
    [|vm_compute in Hrow; discriminate Hrow].
  destruct (setEnvironmentVariable_keeps_flags (fun _ => 1) toy_uuid toy_encrypt (VStr "u1")
              "p1" "production" "PORT" "8081" false s1 row Hrow)
    as [(row' & Hrow' & Hflag & _ & Hval) _].
  exists row'. split; [exact Hrow'|]. split; [|exact Hval].
  rewrite Hflag. vm_compute in Hrow. by injection Hrow as <-.
Defined.

(** ** Erasing a user *)

Lemma assoc_obj_set (k k' : string) (v : value) (ms : list (string * value)) :
  assoc k' (obj_set k v ms) = if String.eqb k' k then v else assoc k' ms.
Proof.
  induction ms as [|[k0 v0] ms IH]; cbn [obj_set assoc].
  - destruct (String.eqb k' k); reflexivity.
  - destruct (String.eqb k k0) eqn:E; cbn [assoc].
    + apply String.eqb_eq in E as <-. by destruct (String.eqb k' k).
    + rewrite IH. destruct (String.eqb k' k0) eqn:E'; [|reflexivity].
      apply String.eqb_eq in E' as ->. by rewrite String.eqb_sym, E.
Qed.

Lemma anonymize_not_logged (userId : string) (event : value) :
  Notes.logged_by userId event = true ->
  Notes.logged_by userId (Notes.anonymize event) = false.
Proof.
  unfold Notes.logged_by, Notes.anonymize. destruct event as [| |b|n|s|l|ms]; try done.
  intros _. cbn [get_opt]. by rewrite !assoc_obj_set.
Qed.

(** X24: [deleteUserData] for a user that is not in the table throws
    and leaves the store as it was, with no audit event.  When it
    returns, the deployments created by the user, the integrations of the
    user and the user's row are gone and every other row of these tables
    is kept; no audit event that was logged by the user is left as such
    (it was anonymized or deleted); one audit event was appended, which
    carries the user's id as [resourceId]; and no alert was raised, since
    "user_data_deleted" is not a critical action. *)
Theorem deleteUserData_erases
    (elapsed : nat -> nat) (randomUUID : nat -> string)
    (getUserOrganizations : Notes.Store -> string -> list string)
    (userId : string) (retainAuditLogs : bool) (s : Notes.Store) :
  let run := Notes.deleteUserData elapsed randomUUID getUserOrganizations
               userId retainAuditLogs s in
  ((forall u, In u (Notes.st_users s) -> Notes.u_id u <> userId) ->
   exists e, run = (Threw e, s))
  /\ forall s', run = (Returned tt, s') ->
       (forall d, In d (Notes.st_deployments s')
                  <-> In d (Notes.st_deployments s) /\ createdBy d <> userId)
       /\ (forall k row, Notes.st_integrations s' !! k = Some row
                         <-> Notes.st_integrations s !! k = Some row
                             /\ pi_userId row <> userId)
       /\ (forall u, In u (Notes.st_users s')
                     <-> In u (Notes.st_users s) /\ Notes.u_id u <> userId)
       /\ (exists kept event,
             Notes.auditLogs s' = kept ++ [event]
             /\ Forall (fun e => Notes.logged_by userId e = false) kept
             /\ get_opt event "action" = VStr "user_data_deleted"
             /\ get_opt event "resourceId" = VStr userId)
       /\ Notes.alerts s' = Notes.alerts s.
Proof.
  intros run. subst run. unfold Notes.deleteUserData.
  destruct (existsb _ (Notes.st_users s)) eqn:Hex.
  - split.
    + intros Hno. apply existsb_exists in Hex as (u & Hu & Heq).
      apply String.eqb_eq in Heq. by destruct (Hno u Hu).
    + intros s' [= <-]. split; [|split; [|split; [|split]]].
      * intros d. cbn. rewrite filter_In, negb_true_iff, String.eqb_neq. tauto.
      * intros k row. cbn. rewrite map_lookup_filter_Some. cbn. tauto.
      * intros u. cbn. rewrite filter_In, negb_true_iff, String.eqb_neq. tauto.
      * cbn. eexists _, _. split; [reflexivity|]. split; [|by cbn].
        destruct retainAuditLogs.
        -- apply List.Forall_forall. intros e He. apply in_map_iff in He as (e0 & <- & _).
           destruct (Notes.logged_by userId e0) eqn:E; [|exact E].
           by apply anonymize_not_logged.
        -- apply List.Forall_forall. intros e He. apply filter_In in He as [_ He].
           by apply negb_true_iff in He.
      * reflexivity.
  - split; [by eexists|]. discriminate.
Qed.

(** ** Rate limiting *)

Section RateLimiter.

Import AdvancedRateLimiter.
Local Open Scope Z_scope.

Lemma members_at_put (now : Z) (key : string) (ms : list (string * Z)) (r : Redis) :
  members_at now key (put_members now key ms r) = ms.
Proof.
  unfold members_at, put_members. destruct ms as [|m ms]; cbn [zsets expires].
  - by rewrite !lookup_delete_eq.
  - rewrite lookup_insert_eq. cbn [default].
    destruct (expires r !! key) as [t|] eqn:E.
    + destruct (t <=? now) eqn:Ht.
      * by rewrite lookup_delete_eq.
      * by rewrite E, Ht.
    + by rewrite E.
Qed.

Lemma members_at_put_other (now now' : Z) (key key' : string) (ms : list (string * Z))
    (r : Redis) :
  key <> key' -> members_at now' key (put_members now key' ms r) = members_at now' key r.
Proof.
  intros Hne. unfold members_at, put_members.
  destruct ms as [|m ms]; cbn [zsets expires].
  - by rewrite !lookup_delete_ne.
  - rewrite lookup_insert_ne by done.
    destruct (match expires r !! key' with Some t => t <=? now | None => false end);
      by rewrite ?lookup_delete_ne.
Qed.

Lemma members_at_expire_other (now now' : Z) (key key' : string) (secs : Z) (r : Redis) :
  key <> key' -> members_at now' key (expire now key' secs r) = members_at now' key r.
Proof.
  intros Hne. unfold expire. destruct (members_at now key' r); [reflexivity|].
  unfold members_at. cbn [zsets expires]. by rewrite lookup_insert_ne.
Qed.

(** What is visible at a later time was visible before. *)
Lemma visible_earlier (now now' : Z) (key : string) (r : Redis) (x : string * Z) :
  now <= now' -> In x (members_at now' key r) ->
  members_at now key r = members_at now' key r
  /\ (expires r !! key = None \/ exists t, expires r !! key = Some t /\ now' < t).
Proof.
  intros Hle. unfold members_at. destruct (expires r !! key) as [t|]; [|by auto].
  destruct (t <=? now') eqn:Ht; [done|]. apply Z.leb_gt in Ht.
  intros _. replace (t <=? now) with false by (symmetry; apply Z.leb_gt; lia).
  split; [reflexivity|]. right. by exists t.
Qed.

Lemma put_visible (now now' : Z) (key : string) (ms : list (string * Z)) (r : Redis) :
  now <= now' -> ms <> [] ->
  (expires r !! key = None \/ exists t, expires r !! key = Some t /\ now' < t) ->
  members_at now' key (put_members now key ms r) = ms.
Proof.
  intros Hle Hms Hexp. unfold members_at, put_members.
  destruct ms as [|m ms]; [done|]. cbn [zsets expires]. rewrite lookup_insert_eq.
  destruct Hexp as [E|(t & E & Ht)]; rewrite E.
  - by rewrite E.
  - replace (t <=? now) with false by (symmetry; apply Z.leb_gt; lia).
    rewrite E. by replace (t <=? now') with false by (symmetry; apply Z.leb_gt; lia).
Qed.

Lemma expire_visible (now now' : Z) (key : string) (secs : Z) (ms : list (string * Z))
    (r : Redis) :
  ms <> [] -> members_at now key r = ms -> now' < now + secs * 1000 ->
  members_at now' key (expire now key secs r) = ms.
Proof.
  intros Hms Hr Hlt. unfold expire. rewrite Hr. destruct ms as [|m ms]; [done|].
  assert (Hz : default [] (zsets r !! key) = m :: ms).
  { revert Hr. unfold members_at. destruct (expires r !! key) as [t|]; [|done].
    by destruct (t <=? now). }
  unfold members_at. cbn [zsets expires]. rewrite lookup_insert_eq, Hz.
  by replace (now + secs * 1000 <=? now') with false by (symmetry; apply Z.leb_gt; lia).
Qed.

Lemma ceil_seconds_covers (w : Z) : w <= ceil_seconds w * 1000.
Proof.
  unfold ceil_seconds. pose proof (Z.mod_pos_bound (- w) 1000 ltac:(lia)).
  pose proof (Z.div_mod (- w) 1000 ltac:(lia)). lia.
Qed.

Lemma limits_positive (endpoint : string) (limits : RateLimit) :
  getEndpointLimits endpoint = Some limits -> 0 < max limits /\ 0 < windowMs limits.
Proof.
  unfold getEndpointLimits. destruct (existsb _ inherited_names); [discriminate|].
  unfold rateLimits. cbn [find fst snd].
  repeat match goal with
         | |- context [String.eqb ?a endpoint] => destruct (String.eqb a endpoint)
         end; intros [= <-]; cbn; lia.
Qed.

Context (identifier endpoint : string) (limits : RateLimit).
Context (Hlimits : getEndpointLimits endpoint = Some limits).

Let key := rate_key identifier endpoint.
Let w := windowMs limits.

Lemma tracked_later (T T' : Z) (l : list RateCall) (r : Redis) :
  T <= T' -> tracked identifier endpoint w T l r -> tracked identifier endpoint w T' l r.
Proof.
  intros Hle [H1 H2]. split.
  - intros c Hc. specialize (H1 c Hc). lia.
  - intros now c Hnow. apply H2. lia.
Qed.

Lemma bounded_other (l : list RateCall) (c : RateCall) :
  ~ (c_identifier c = identifier /\ c_endpoint c = endpoint) ->
  bounded identifier endpoint w (max limits) l ->
  bounded identifier endpoint w (max limits) (l ++ [c]).
Proof.
  intros Hc Hb t. rewrite List.filter_app. cbn [List.filter].
  replace (in_window identifier endpoint w t c) with false; [by rewrite app_nil_r|].
  symmetry. unfold in_window. apply not_true_iff_false. intros H.
  apply andb_true_iff in H as [H _]. apply andb_true_iff in H as [H _].
  apply andb_true_iff in H as [H1 H2]. apply String.eqb_eq in H1, H2. tauto.
Qed.

(** The client's calls of [l] that are less than a window old at [now]
    are among the members that a call at [now] counts. *)
Lemma recent_counted (now T : Z) (l : list RateCall) (r : Redis) :
  T <= now -> List.NoDup (map rate_member l) ->
  tracked identifier endpoint w T l r ->
  Z.of_nat (List.length (List.filter (in_window identifier endpoint w now) l))
  <= zcard now key (zremrangebyscore now key 0 (now - w) r).
Proof.
  intros Hle Hnd [H1 H2]. unfold zcard, zremrangebyscore. rewrite members_at_put.
  apply inj_le.
  set (recent := List.filter (in_window identifier endpoint w now) l).
  set (counted := List.filter _ (members_at now key r)).
  rewrite <- (List.length_map (fun c => (rate_member c, c_now c)) recent).
  apply List.NoDup_incl_length.
  - apply (List.NoDup_map_inv fst). rewrite map_map. cbn [fst].
    subst recent. clear -Hnd. induction l as [|c l IH]; [constructor|].
    cbn [List.filter map] in *. inversion Hnd as [|? ? Hc Hl]; subst.
    destruct (in_window identifier endpoint w now c); [|by apply IH].
    cbn [map]. constructor; [|by apply IH].
    intros Hin. apply Hc. apply in_map_iff in Hin as (c' & Hm & Hc').
    apply filter_In in Hc' as [Hc' _]. apply in_map_iff. by exists c'.
  - intros x Hx. apply in_map_iff in Hx as (c & <- & Hc).
    apply filter_In in Hc as [Hc Hwin]. unfold in_window in Hwin.
    apply andb_true_iff in Hwin as [Hwin _]. apply andb_true_iff in Hwin as [Hwin Hlo].
    apply andb_true_iff in Hwin as [Hi He]. apply String.eqb_eq in Hi, He.
    apply Z.ltb_lt in Hlo. subst counted. apply filter_In. split.
    + by apply (H2 now c).
    + cbn [snd]. apply negb_true_iff, andb_false_iff. right. apply Z.leb_gt. lia.
Qed.

Lemma bounded_client (now T : Z) (l : list RateCall) (c : RateCall) :
  T <= now -> (forall c', In c' l -> c_now c' <= T) -> c_now c = now ->
  Z.of_nat (List.length (List.filter (in_window identifier endpoint w now) l))
  < max limits ->
  bounded identifier endpoint w (max limits) l ->
  bounded identifier endpoint w (max limits) (l ++ [c]).
Proof.
  intros Hle Htimes Hc Hcount Hb t. rewrite List.filter_app, List.length_app. cbn [List.filter].
  destruct (in_window identifier endpoint w t c) eqn:Hwin;
    [|cbn [List.length]; rewrite Nat.add_0_r; apply Hb].
  cbn [List.length]. unfold in_window in Hwin.
  apply andb_true_iff in Hwin as [Hwin Hhi]. apply andb_true_iff in Hwin as [_ Hlo].
  apply Z.ltb_lt in Hlo. apply Z.leb_le in Hhi.
  assert (Hsub : (List.length (List.filter (in_window identifier endpoint w t) l)
                  <= List.length (List.filter (in_window identifier endpoint w now) l))%nat).
  { clear -Htimes Hle Hlo Hhi Hc. induction l as [|c' l IH]; [done|].
    cbn [List.filter]. assert (Hc' : c_now c' <= T) by (apply Htimes; by left).
    assert (IH' := IH (fun x Hx => Htimes x (or_intror Hx))).
    destruct (in_window identifier endpoint w t c') eqn:E.
    - replace (in_window identifier endpoint w now c') with true; [cbn; lia|].
      symmetry. unfold in_window in *.
      apply andb_true_iff in E as [E _]. apply andb_true_iff in E as [E El].
      rewrite E. cbn [andb]. apply Z.ltb_lt in El.
      replace (now - w <? c_now c') with true by (symmetry; apply Z.ltb_lt; lia).
      cbn [andb]. apply Z.leb_le. lia.
    - destruct (in_window identifier endpoint w now c'); cbn; lia. }
  lia.
Qed.

(** One call keeps track and bound. *)
Lemma checkRateLimit_step (T : Z) (l : list RateCall) (c : RateCall) (r : Redis) :
  T <= c_now c -> 0 <= c_now c ->
  List.NoDup (map rate_member (l ++ [c])) ->
  ((c_identifier c = identifier /\ c_endpoint c = endpoint)
   \/ rate_key (c_identifier c) (c_endpoint c) <> key) ->
  tracked identifier endpoint w T l r ->
  bounded identifier endpoint w (max limits) l ->
  match checkRateLimit (c_now c) (c_random c) (c_identifier c) (c_endpoint c) r with
  | Some (res, r') =>
      let l' := if allowed res then l ++ [c] else l in
      tracked identifier endpoint w (c_now c) l' r'
      /\ bounded identifier endpoint w (max limits) l'
  | None => True
  end.
Proof.
  intros Hle Hnn Hnd Hkey Htr Hb. pose proof (limits_positive _ _ Hlimits) as [Hmax Hw].
  assert (Hndl : List.NoDup (map rate_member l)).
  { rewrite map_app in Hnd. by apply List.NoDup_app_remove_r in Hnd. }
  assert (Hfresh : forall c', In c' l -> rate_member c' <> rate_member c).
  { intros c' Hc' Heq. rewrite map_app in Hnd. cbn [map] in Hnd.
    apply List.NoDup_remove_2 in Hnd. rewrite app_nil_r in Hnd. apply Hnd.
    apply in_map_iff. by exists c'. }
  unfold checkRateLimit. set (now := c_now c) in *.
  destruct Hkey as [[Hi He]|Hother].
  - (* a call of this client *)
    rewrite Hi, He, Hlimits. fold key w.
    set (r1 := zremrangebyscore now key 0 (now - w) r).
    pose proof (recent_counted now T l r Hle Hndl Htr) as Hcount. fold r1 in Hcount.
    destruct Htr as [Ht1 Ht2].
    assert (Hr1 : forall now' c', now <= now' -> In c' l ->
                    c_identifier c' = identifier -> c_endpoint c' = endpoint ->
                    now' - w < c_now c' ->
                    In (rate_member c', c_now c') (members_at now' key r1)
                    /\ members_at now' key r1 = members_at now key r1
                    /\ (expires r !! key = None
                        \/ exists t, expires r !! key = Some t /\ now' < t)).
    { intros now' c' Hnow' Hc' Hi' He' Hrecent.
      assert (Hin : In (rate_member c', c_now c') (members_at now' key r))
        by (apply Ht2; [lia|done..]).
      destruct (visible_earlier now now' key r _ Hnow' Hin) as [Hsame Hexp].
      assert (Hkept : In (rate_member c', c_now c')
                        (List.filter (fun m => negb ((0 <=? m.2) && (m.2 <=? now - w)))
                           (members_at now key r))).
      { apply filter_In. split; [by rewrite Hsame|]. cbn [snd].
        apply negb_true_iff, andb_false_iff. right. apply Z.leb_gt. lia. }
      subst r1. unfold zremrangebyscore. rewrite members_at_put.
      rewrite put_visible; [done|done| |done].
      intros Hnil. by rewrite Hnil in Hkept. }
    destruct (max limits <=? zcard now key r1) eqn:Hfull; cbn [allowed].
    + (* denied *)
      split; [|exact Hb]. split.
      * intros c' Hc'. specialize (Ht1 c' Hc'). lia.
      * intros now' c' Hnow' Hc' Hi' He' Hrecent.
        by destruct (Hr1 now' c' Hnow' Hc' Hi' He' Hrecent) as [? _].
    + (* allowed *)
      apply Z.leb_gt in Hfull.
      set (ms := List.filter (fun m => negb (String.eqb m.1 (pretty now +:+ "-" +:+ c_random c)))
                   (members_at now key r1) ++ [(pretty now +:+ "-" +:+ c_random c, now)]).
      assert (Hms : ms <> []).
      { subst ms. intros Hnil. by apply app_eq_nil in Hnil as [_ ?]. }
      assert (Hvis : forall now', now <= now' -> now' - w < now ->
                members_at now' key
                  (expire now key (ceil_seconds w) (zadd now key now
                     (pretty now +:+ "-" +:+ c_random c) r1)) = ms).
      { intros now' Hnow' Hrecent. apply expire_visible; [done| |].
        - unfold zadd. by rewrite members_at_put.
        - pose proof (ceil_seconds_covers w). lia. }
      split.
      * split.
        -- intros c' Hc'. apply in_app_iff in Hc' as [Hc'|[<-|[]]]; [|lia].
           specialize (Ht1 c' Hc'). lia.
        -- intros now' c' Hnow' Hc' Hi' He' Hrecent.
           apply in_app_iff in Hc' as [Hc'|[<-|[]]].
           ++ assert (c_now c' <= T) by by apply Ht1.
              rewrite Hvis by lia. subst ms. apply in_app_iff. left.
              apply filter_In. split.
              ** destruct (Hr1 now' c' Hnow' Hc' Hi' He' Hrecent) as (Hin & Hsame & _).
                 by rewrite <- Hsame.
              ** cbn [fst]. apply negb_true_iff, String.eqb_neq. apply (Hfresh c' Hc').
           ++ rewrite Hvis by (fold now; lia). subst ms. apply in_app_iff. right. by left.
      * apply (bounded_client now T); [done|by apply Ht1|done| |done]. lia.
  - (* a call under another key *)
    destruct (getEndpointLimits (c_endpoint c)) as [limits_c|] eqn:Hlc; [|done].
    set (key_c := rate_key (c_identifier c) (c_endpoint c)) in *.
    set (r1 := zremrangebyscore now key_c 0 (now - windowMs limits_c) r).
    assert (Hr1 : forall now', members_at now' key r1 = members_at now' key r).
    { intros now'. subst r1. unfold zremrangebyscore. by apply members_at_put_other. }
    assert (Hnot : ~ (c_identifier c = identifier /\ c_endpoint c = endpoint)).
    { intros [Hi He]. apply Hother. subst key_c key. by rewrite Hi, He. }
    destruct (max limits_c <=? zcard now key_c r1); cbn [allowed].
    + split; [|exact Hb]. destruct Htr as [Ht1 Ht2]. split.
      * intros c' Hc'. specialize (Ht1 c' Hc'). lia.
      * intros now' c' Hnow' Hc' Hi' He' Hrecent. rewrite Hr1. apply Ht2; [lia|done..].
    + split; [|by apply bounded_other]. destruct Htr as [Ht1 Ht2]. split.
      * intros c' Hc'. apply in_app_iff in Hc' as [Hc'|[<-|[]]]; [|lia].
        specialize (Ht1 c' Hc'). lia.
      * intros now' c' Hnow' Hc' Hi' He' Hrecent.
        apply in_app_iff in Hc' as [Hc'|[<-|[]]]; [|tauto].
        rewrite members_at_expire_other by done. unfold zadd.
        rewrite members_at_put_other by done. rewrite Hr1. apply Ht2; [lia|done..].
Qed.

Lemma allowed_calls_bounded (calls : list RateCall) :
  forall (T : Z) (l : list RateCall) (r : Redis),
    chronological (T :: map c_now calls) ->
    Forall (fun c => 0 <= c_now c) calls ->
    List.NoDup (map rate_member (l ++ calls)) ->
    Forall (fun c => (c_identifier c = identifier /\ c_endpoint c = endpoint)
                     \/ rate_key (c_identifier c) (c_endpoint c) <> key) calls ->
    tracked identifier endpoint w T l r ->
    bounded identifier endpoint w (max limits) l ->
    bounded identifier endpoint w (max limits) (l ++ (allowed_calls r calls).1).
Proof.
  induction calls as [|c calls IH]; intros T l r Hchron Hnn Hnd Hkeys Htr Hb.
  - cbn. by rewrite app_nil_r.
  - cbn [map chronological] in Hchron. destruct Hchron as [HT [Hc Hrest]].
    inversion HT as [|? ? HTc HTrest]; subst.
    inversion Hnn as [|? ? Hnnc Hnnrest]; subst.
    inversion Hkeys as [|? ? Hkc Hkrest]; subst.
    assert (Hnd1 : List.NoDup (map rate_member (l ++ [c]))).
    { replace (l ++ c :: calls) with ((l ++ [c]) ++ calls) in Hnd by by rewrite <- app_assoc.
      rewrite map_app in Hnd. by apply List.NoDup_app_remove_r in Hnd. }
    assert (Hnd2 : List.NoDup (map rate_member (l ++ calls))).
    { rewrite map_app in Hnd |- *. cbn [map] in Hnd. by apply List.NoDup_remove_1 in Hnd. }
    assert (Hnd3 : List.NoDup (map rate_member ((l ++ [c]) ++ calls))).
    { by rewrite <- app_assoc. }
    assert (Hchron' : chronological (c_now c :: map c_now calls)) by by split.
    assert (HchronT : chronological (T :: map c_now calls)) by by split.
    pose proof (checkRateLimit_step T l c r HTc Hnnc Hnd1 Hkc Htr Hb) as Hstep.
    cbn [allowed_calls].
    destruct (checkRateLimit (c_now c) (c_random c) (c_identifier c) (c_endpoint c) r)
      as [[res r']|].
    + pose proof (IH (c_now c) (l ++ [c]) r' Hchron' Hnnrest Hnd3 Hkrest) as IHa.
      pose proof (IH (c_now c) l r' Hchron' Hnnrest Hnd2 Hkrest) as IHd.
      destruct (allowed_calls r' calls) as [l' r'']. cbn [fst] in *.
      destruct Hstep as [Htr' Hb']. destruct (allowed res).
      * replace (l ++ c :: l') with ((l ++ [c]) ++ l') by by rewrite <- app_assoc.
        by apply IHa.
      * by apply IHd.
    + by apply (IH T).
Qed.

End RateLimiter.

(** X25: for one identifier and endpoint, in any run of calls from an
    empty store that come in the order of time with distinct members, at
    most [max] of the calls that were allowed fall into any window of
    [windowMs] milliseconds, whatever calls for other keys come in
    between. *)
Theorem at_most_max_per_window
    (identifier endpoint : string) (limits : AdvancedRateLimiter.RateLimit)
    (calls : list RateCall) (t : Z) :
  AdvancedRateLimiter.getEndpointLimits endpoint = Some limits ->
  orderly identifier endpoint calls ->
  (Z.of_nat (List.length
     (List.filter (in_window identifier endpoint (AdvancedRateLimiter.windowMs limits) t)
        (allowed_calls empty_redis calls).1))
   <= AdvancedRateLimiter.max limits)%Z.
Proof.
  intros Hlimits [Hsorted Hnonneg Hmembers Hkeys].
  pose proof (limits_positive _ _ Hlimits) as [Hmax _].
  apply (allowed_calls_bounded identifier endpoint limits Hlimits calls 0%Z [] empty_redis).
  - cbn [chronological]. split; [|exact Hsorted].
    apply List.Forall_forall. intros x Hx. apply in_map_iff in Hx as (c & <- & Hc).
    revert c Hc. by apply List.Forall_forall.
  - exact Hnonneg.
  - by apply NoDup_ListNoDup.
  - exact Hkeys.
  - split; [by intros c []|]. by intros now c _ [].
  - intros t'. cbn. lia.
Qed.

Lemma at_most_max_per_window_witness :
  List.length (allowed_calls empty_redis login_calls).1 = 5
  /\ (Z.of_nat (List.length
        (List.filter (in_window "10.0.0.1" "/api/v1/auth/login" (15 * 60 * 1000) 7000)
           (allowed_calls empty_redis login_calls).1)) <= 5)%Z.
Proof.
  split; [by vm_compute|].
  apply (at_most_max_per_window "10.0.0.1" "/api/v1/auth/login"
           {| AdvancedRateLimiter.max := 5; AdvancedRateLimiter.windowMs := 15 * 60 * 1000 |}
           login_calls 7000).
  - reflexivity.
  - split.
    + cbn. repeat split; repeat constructor; lia.
    + repeat constructor; cbn; lia.
    + apply (bool_decide_unpack _). by vm_compute.
    + repeat constructor; by left.
Defined.

Lemma least_score_In (m : string * Z) (ms : list (string * Z)) :
  In (fold_right Z.min m.2 (map snd ms)) (map snd (m :: ms)).
Proof.
  induction ms as [|x ms IH]; cbn [map fold_right]; [by left|].
  destruct (Z.min_spec x.2 (fold_right Z.min m.2 (map snd ms))) as [[_ ->]|[_ ->]].
  - right. by left.
  - cbn [map] in IH. destruct IH as [IH|IH]; [by left|]. right. by right.
Qed.

(** X26: what [checkRateLimit] answers, when no member of the key has
    a score below 0 or after the time of the call.  An allowed call is
    told how many calls remain, fewer than [max], and that the window
    ends [windowMs] from now, and it is recorded.  A denied call is told
    that none remain, a reset time that lies after now and at most
    [windowMs] ahead, and to retry after at least one second; the store
    is only cleaned, nothing is added. *)
Theorem checkRateLimit_answer
    (now : Z) (random identifier endpoint : string)
    (limits : AdvancedRateLimiter.RateLimit) (r : AdvancedRateLimiter.Redis) :
  AdvancedRateLimiter.getEndpointLimits endpoint = Some limits ->
  (forall m, In m (AdvancedRateLimiter.members_at now
                     (AdvancedRateLimiter.rate_key identifier endpoint) r) ->
             (0 <= m.2 <= now)%Z) ->
  exists res r',
    AdvancedRateLimiter.checkRateLimit now random identifier endpoint r = Some (res, r')
    /\ if AdvancedRateLimiter.allowed res then
         (0 <= AdvancedRateLimiter.remaining res < AdvancedRateLimiter.max limits)%Z
         /\ AdvancedRateLimiter.resetTime res = (now + AdvancedRateLimiter.windowMs limits)%Z
         /\ AdvancedRateLimiter.retryAfter res = None
         /\ In (pretty now +:+ "-" +:+ random, now)
               (AdvancedRateLimiter.members_at now
                  (AdvancedRateLimiter.rate_key identifier endpoint) r')
       else
         AdvancedRateLimiter.remaining res = 0%Z
         /\ (now < AdvancedRateLimiter.resetTime res
             <= now + AdvancedRateLimiter.windowMs limits)%Z
         /\ (exists s, AdvancedRateLimiter.retryAfter res = Some s /\ (1 <= s)%Z)
         /\ forall m, In m (AdvancedRateLimiter.members_at now
                              (AdvancedRateLimiter.rate_key identifier endpoint) r')
                      -> In m (AdvancedRateLimiter.members_at now
                                 (AdvancedRateLimiter.rate_key identifier endpoint) r).
Proof.
  intros Hlimits Hscores. pose proof (limits_positive _ _ Hlimits) as [Hmax Hw].
  unfold AdvancedRateLimiter.checkRateLimit. rewrite Hlimits.
  set (key := AdvancedRateLimiter.rate_key identifier endpoint) in *.
  set (w := AdvancedRateLimiter.windowMs limits) in *.
  set (r1 := AdvancedRateLimiter.zremrangebyscore now key 0 (now - w) r).
  assert (Hr1 : AdvancedRateLimiter.members_at now key r1
                = List.filter (fun m => negb ((0 <=? m.2)%Z && (m.2 <=? now - w)%Z))
                    (AdvancedRateLimiter.members_at now key r)).
  { subst r1. unfold AdvancedRateLimiter.zremrangebyscore. apply members_at_put. }
  unfold AdvancedRateLimiter.zcard.
  destruct (AdvancedRateLimiter.max limits <=? _)%Z eqn:Hfull.
  - eexists _, _. split; [reflexivity|]. cbn. split; [reflexivity|].
    apply Z.leb_le in Hfull. unfold AdvancedRateLimiter.zrange_first_score.
    destruct (AdvancedRateLimiter.members_at now key r1) as [|m ms] eqn:Hms;
      [cbn in Hfull; lia|].
    assert (Hleast : In (fold_right Z.min m.2 (map snd ms))
                        (map snd (AdvancedRateLimiter.members_at now key r1))).
    { rewrite Hms. apply least_score_In. }
    apply in_map_iff in Hleast as (x & Hx & Hin). rewrite Hms, Hr1 in Hin.
    apply filter_In in Hin as [Hin Hkeep]. specialize (Hscores x Hin).
    apply negb_true_iff, andb_false_iff in Hkeep.
    assert (now - w < x.2)%Z.
    { destruct Hkeep as [Hk|Hk]; [apply Z.leb_gt in Hk|apply Z.leb_gt in Hk]; lia. }
    rewrite <- Hx. split; [lia|]. split.
    + eexists. split; [reflexivity|]. unfold AdvancedRateLimiter.ceil_seconds.
      pose proof (Z.mod_pos_bound (- (x.2 + w - now)) 1000 ltac:(lia)).
      pose proof (Z.div_mod (- (x.2 + w - now)) 1000 ltac:(lia)). lia.
    + intros m0 Hm0. rewrite Hr1 in Hm0. by apply filter_In in Hm0 as [? _].
  - eexists _, _. split; [reflexivity|]. cbn. apply Z.leb_gt in Hfull.
    split; [lia|]. split; [reflexivity|]. split; [reflexivity|].
    rewrite (expire_visible now now key _
               (List.filter (fun m => negb (String.eqb m.1 (pretty now +:+ "-" +:+ random)))
                  (AdvancedRateLimiter.members_at now key r1)
                ++ [(pretty now +:+ "-" +:+ random, now)])).
    + apply in_app_iff. right. by left.
    + intros Hnil. by apply app_eq_nil in Hnil as [_ ?].
    + unfold AdvancedRateLimiter.zadd. apply members_at_put.
    + pose proof (ceil_seconds_covers w). lia.
Qed.

Lemma checkRateLimit_answer_witness :
  exists res r',
    AdvancedRateLimiter.checkRateLimit 5000 "0.25" "10.0.0.1" "/api/v1/deployments"
      empty_redis = Some (res, r')
    /\ AdvancedRateLimiter.allowed res = true
    /\ AdvancedRateLimiter.remaining res = 19%Z.
Proof.
  destruct (checkRateLimit_answer 5000 "0.25" "10.0.0.1" "/api/v1/deployments"
              {| AdvancedRateLimiter.max := 20;
                 AdvancedRateLimiter.windowMs := 60 * 60 * 1000 |} empty_redis)
    as (res & r' & Hrun & _).
  - reflexivity.
  - intros m Hm. vm_compute in Hm. destruct Hm.
  - exists res, r'. split; [exact Hrun|]. vm_compute in Hrun. by injection Hrun as <- _.
Defined.

(** ** Stored documents are read back *)

Lemma append_cons (c : ascii) (s t : string) : String c s +:+ t = String c (s +:+ t).
Proof. reflexivity. Qed.

Lemma append_empty (t : string) : "" +:+ t = t.
Proof. reflexivity. Qed.

Ltac decide_chars :=
  repeat match goal with
         | |- context [Ascii.eqb ?a ?b] =>
             let v := eval vm_compute in (Ascii.eqb a b) in
             change (Ascii.eqb a b) with v; cbn iota
         | |- context [(code ?a <? 32)%nat] =>
             let v := eval vm_compute in (code a <? 32)%nat in
             change (code a <? 32)%nat with v; cbn iota
         | |- context [hex_value ?a] =>
             let v := eval vm_compute in (hex_value a) in
             change (hex_value a) with v; cbn iota
         | |- context [unescape ?a] =>
             let v := eval vm_compute in (unescape a) in
             change (unescape a) with v; cbn iota
         end.

Lemma parse_chars_escape (s rest : string) :
  parse_chars (escape s +:+ String dquote rest) = Some (s, rest).
Proof.
  induction s as [|c s IH]; [by vm_compute|].
  cbn [escape]. rewrite append_assoc.
  destruct c as [[] [] [] [] [] [] [] []];
    vm_compute escape_char; rewrite !append_cons, append_empty;
    cbn [parse_chars]; decide_chars; rewrite IH; try reflexivity.
  all: cbn iota; vm_compute utf8; reflexivity.
Qed.

(** *** Number literals *)

Lemma skip_ws_char (c : ascii) (s : string) : is_ws c = false -> skip_ws (String c s) = String c s.
Proof. intros H. cbn [skip_ws]. by rewrite H. Qed.

Lemma span_append (p : ascii -> bool) (s rest : string) :
  match rest with
  | String c _ => p c = false
  | EmptyString => True
  end ->
  span p (s +:+ rest) = ((span p s).1, (span p s).2 +:+ rest).
Proof.
  intros Hrest. induction s as [|c s IH].
  - rewrite append_empty. destruct rest as [|c r]; [reflexivity|].
    cbn [span]. by rewrite Hrest.
  - rewrite append_cons. cbn [span]. destruct (p c); [|reflexivity].
    rewrite IH. by destruct (span p s).
Qed.

Lemma value_end_head (c : ascii) (r : string) :
  value_end (String c r) = true ->
  is_digit c = false /\ Ascii.eqb c "." = false /\ Ascii.eqb c "e" = false
  /\ Ascii.eqb c "E" = false /\ is_ws c = false.
Proof.
  cbn [value_end]. destruct c as [[] [] [] [] [] [] [] []]; vm_compute; intuition discriminate.
Qed.

Lemma value_end_digit (rest : string) :
  value_end rest = true ->
  match rest with
  | String c _ => is_digit c = false
  | EmptyString => True
  end.
Proof. destruct rest as [|c r]; [done|]. intros H. by apply value_end_head in H as [? _]. Qed.

Lemma exponent_append (sign int f s3 rest t r : string) :
  value_end rest = true ->
  match s3 with
  | String c r =>
      if Ascii.eqb c "e" || Ascii.eqb c "E" then
        let '(sg, r1) :=
          match r with
          | String d r' =>
              if Ascii.eqb d "+" || Ascii.eqb d "-"
              then (String d EmptyString, r') else ("", r)
          | EmptyString => ("", r)
          end in
        let '(ex, r2) := span is_digit r1 in
        if String.eqb ex "" then None
        else Some (sign +:+ int +:+ f +:+ String c EmptyString +:+ sg +:+ ex, r2)
      else Some (sign +:+ int +:+ f, s3)
  | EmptyString => Some (sign +:+ int +:+ f, s3)
  end = Some (t, r) ->
  match s3 +:+ rest with
  | String c r =>
      if Ascii.eqb c "e" || Ascii.eqb c "E" then
        let '(sg, r1) :=
          match r with
          | String d r' =>
              if Ascii.eqb d "+" || Ascii.eqb d "-"
              then (String d EmptyString, r') else ("", r)
          | EmptyString => ("", r)
          end in
        let '(ex, r2) := span is_digit r1 in
        if String.eqb ex "" then None
        else Some (sign +:+ int +:+ f +:+ String c EmptyString +:+ sg +:+ ex, r2)
      else Some (sign +:+ int +:+ f, s3 +:+ rest)
  | EmptyString => Some (sign +:+ int +:+ f, s3 +:+ rest)
  end = Some (t, r +:+ rest).
Proof.
  intros Hrest. pose proof (value_end_digit rest Hrest) as Hd.
  destruct s3 as [|c r3].
  - intros [= <- <-]. rewrite !append_empty. destruct rest as [|c0 r0]; [reflexivity|].
    apply value_end_head in Hrest as (_ & _ & -> & -> & _). reflexivity.
  - rewrite append_cons. destruct (Ascii.eqb c "e" || Ascii.eqb c "E").
    + destruct r3 as [|d r'].
      * cbn. discriminate.
      * rewrite append_cons. destruct (Ascii.eqb d "+" || Ascii.eqb d "-").
        -- rewrite (span_append _ r' rest Hd).
           destruct (span is_digit r') as [ex r2]. cbn [fst snd].
           destruct (String.eqb ex ""); [discriminate|]. by intros [= <- <-].
        -- change (String d (r' +:+ rest)) with (String d r' +:+ rest).
           rewrite (span_append _ (String d r') rest Hd).
           destruct (span is_digit (String d r')) as [ex r2]. cbn [fst snd].
           destruct (String.eqb ex ""); [discriminate|]. by intros [= <- <-].
    + by intros [= <- <-].
Qed.

Lemma parse_number_append (s rest t r : string) :
  value_end rest = true ->
  parse_number s = Some (t, r) -> parse_number (s +:+ rest) = Some (t, r +:+ rest).
Proof.
  intros Hrest. pose proof (value_end_digit rest Hrest) as Hd.
  unfold parse_number.
  assert (Hmain : forall sign s1,
    (let '(int, s2) := span is_digit s1 in
     if String.eqb int "" then None
     else if String.prefix "0" int && negb (String.eqb int "0") then None
     else
       let frac :=
         match s2 with
         | String c r =>
             if Ascii.eqb c "." then
               let '(f, r') := span is_digit r in
               if String.eqb f "" then None else Some ("." +:+ f, r')
             else Some ("", s2)
         | EmptyString => Some ("", s2)
         end in
       match frac with
       | None => None
       | Some (f, s3) =>
           match s3 with
           | String c r =>
               if Ascii.eqb c "e" || Ascii.eqb c "E" then
                 let '(sg, r1) :=
                   match r with
                   | String d r' =>
                       if Ascii.eqb d "+" || Ascii.eqb d "-"
                       then (String d EmptyString, r') else ("", r)
                   | EmptyString => ("", r)
                   end in
                 let '(ex, r2) := span is_digit r1 in
                 if String.eqb ex "" then None
                 else Some (sign +:+ int +:+ f +:+ String c EmptyString +:+ sg +:+ ex, r2)
               else Some (sign +:+ int +:+ f, s3)
           | EmptyString => Some (sign +:+ int +:+ f, s3)
           end
       end) = Some (t, r) ->
    (let '(int, s2) := span is_digit (s1 +:+ rest) in
     if String.eqb int "" then None
     else if String.prefix "0" int && negb (String.eqb int "0") then None
     else
       let frac :=
         match s2 with
         | String c r =>
             if Ascii.eqb c "." then
               let '(f, r') := span is_digit r in
               if String.eqb f "" then None else Some ("." +:+ f, r')
             else Some ("", s2)
         | EmptyString => Some ("", s2)
         end in
       match frac with
       | None => None
       | Some (f, s3) =>
           match s3 with
           | String c r =>
               if Ascii.eqb c "e" || Ascii.eqb c "E" then
                 let '(sg, r1) :=
                   match r with
                   | String d r' =>
                       if Ascii.eqb d "+" || Ascii.eqb d "-"
                       then (String d EmptyString, r') else ("", r)
                   | EmptyString => ("", r)
                   end in
                 let '(ex, r2) := span is_digit r1 in
                 if String.eqb ex "" then None
                 else Some (sign +:+ int +:+ f +:+ String c EmptyString +:+ sg +:+ ex, r2)
               else Some (sign +:+ int +:+ f, s3)
           | EmptyString => Some (sign +:+ int +:+ f, s3)
           end
       end) = Some (t, r +:+ rest)).
  { intros sign s1. rewrite (span_append _ s1 rest Hd).
    destruct (span is_digit s1) as [int s2]. cbn [fst snd].
    destruct (String.eqb int ""); [discriminate|].
    destruct (String.prefix "0" int && negb (String.eqb int "0")); [discriminate|].
    cbv zeta. destruct s2 as [|c2 r2].
    - rewrite append_empty. intros H.
      pose proof (exponent_append sign int "" "" rest t r Hrest H) as H'.
      rewrite append_empty in H'.
      destruct rest as [|c0 r0]; [exact H'|].
      pose proof Hrest as Hh. apply value_end_head in Hh as (_ & -> & _). exact H'.
    - rewrite append_cons. destruct (Ascii.eqb c2 ".").
      + rewrite (span_append _ r2 rest Hd).
        destruct (span is_digit r2) as [f r']. cbn [fst snd].
        destruct (String.eqb f ""); [discriminate|].
        apply exponent_append, Hrest.
      + change (String c2 (r2 +:+ rest)) with (String c2 r2 +:+ rest).
        apply (exponent_append sign int "" (String c2 r2)), Hrest. }
  destruct s as [|c s'].
  - cbn. discriminate.
  - rewrite append_cons. destruct (Ascii.eqb c "-").
    + apply Hmain.
    + change (String c (s' +:+ rest)) with (String c s' +:+ rest). apply Hmain.
Qed.

Lemma number_literal_head (lit : string) :
  number_literal lit = true ->
  exists c r, lit = String c r /\ (is_digit c = true \/ c = "-"%char).
Proof.
  unfold number_literal, parse_number. destruct lit as [|c r]; [by cbn|].
  destruct (Ascii.eqb c "-") eqn:E.
  { intros _. exists c, r. split; [done|]. right. by apply Ascii.eqb_eq. }
  cbn [span]. destruct (is_digit c) eqn:D; [intros _; exists c, r; by auto|].
  cbn. discriminate.
Qed.

Lemma number_literal_parse (lit : string) :
  number_literal lit = true -> parse_number lit = Some (lit, "").
Proof.
  unfold number_literal. destruct (parse_number lit) as [[t r]|]; [|discriminate].
  intros [Ht Hr]%andb_prop. apply String.eqb_eq in Ht, Hr. by subst.
Qed.

(** A text that begins as a number is read by [parse_number]. *)
Lemma parse_value_number (f : nat) (c : ascii) (r : string) :
  is_digit c = true \/ c = "-"%char ->
  parse_value (S f) (String c r)
  = match parse_number (String c r) with
    | Some (lit, rest) => Some (VNum lit, rest)
    | None => None
    end.
Proof.
  intros Hc.
  assert (Hchars : is_ws c = false /\ Ascii.eqb c "{" = false /\ Ascii.eqb c "[" = false
                   /\ Ascii.eqb c dquote = false /\ Ascii.eqb c "t" = false
                   /\ Ascii.eqb c "f" = false /\ Ascii.eqb c "n" = false).
  { clear -Hc. destruct c as [[] [] [] [] [] [] [] []];
      vm_compute in Hc |- *; intuition discriminate. }
  destruct Hchars as (Hw & H1 & H2 & H3 & H4 & H5 & H6).
  cbn [parse_value]. rewrite skip_ws_char by exact Hw.
  by rewrite H1, H2, H3, H4, H5, H6.
Qed.

(** Reading a number literal that is followed by the end of a value. *)
Lemma parse_number_literal (f : nat) (lit rest : string) :
  number_literal lit = true -> value_end rest = true ->
  parse_value (S f) (lit +:+ rest) = Some (VNum lit, rest).
Proof.
  intros Hlit Hrest. destruct (number_literal_head lit Hlit) as (c & r & -> & Hc).
  rewrite append_cons, parse_value_number by exact Hc.
  change (String c (r +:+ rest)) with (String c r +:+ rest).
  rewrite (parse_number_append _ rest _ _ Hrest (number_literal_parse _ Hlit)).
  by rewrite append_empty.
Qed.

(** *** Values *)

Lemma stringify_data (v : value) : json_data v = true -> exists t, stringify v = Some t.
Proof. destruct v as [| |[]|n|s|l|ms]; try discriminate; intros _; by eexists. Qed.

Lemma texts_nil_read (ms : list (string * value)) :
  data_members ms = true -> texts ms = [] -> reread_members ms = [].
Proof.
  induction ms as [|[k v] ms IH]; [done|].
  cbn [data_members forallb texts reread_members omap list_omap snd fst]. intros Hp.
  apply andb_true_iff in Hp as [Hv Hms].
  destruct v as [| |b|n|s|l|ms']; cbn [stringify]; try done.
  - intros H. by apply IH.
  - by destruct b.
Qed.

Lemma join_cons (sep x y : string) (l : list string) :
  join sep (x :: y :: l) = x +:+ sep +:+ join sep (y :: l).
Proof. reflexivity. Qed.

(** Reading one of the words [null], [true] and [false]. *)
Lemma parse_word (f : nat) (word rest : string) (v : value) :
  In (word, v) [("null", VNull); ("true", VBool true); ("false", VBool false)] ->
  parse_value (S f) (word +:+ rest) = Some (v, rest).
Proof.
  intros [[= <- <-]|[[= <- <-]|[[= <- <-]|[]]]];
    rewrite !append_cons, append_empty; cbn [parse_value];
    rewrite skip_ws_char by reflexivity; decide_chars; unfold expect;
    match goal with
    | |- context [String.prefix ?p ?s] =>
        replace (String.prefix p s) with true
          by (symmetry; apply (prefix_append p p); by vm_compute)
    end; reflexivity.
Qed.

(** The text of an item begins with a character that is neither white
    space nor a closing bracket. *)
Lemma item_text_head (x : value) :
  match x with
  | VUndefined => true
  | _ => json_data x
  end = true ->
  exists c r, default "null" (stringify x) = String c r
              /\ is_ws c = false /\ Ascii.eqb c "]" = false.
Proof.
  destruct x as [| |b|lit|s|l|ms]; intros Hx;
    try (by (eexists _, _; split; [reflexivity|by vm_compute])).
  - destruct b; eexists _, _; (split; [reflexivity|by vm_compute]).
  - destruct (number_literal_head lit Hx) as (c & r & -> & Hc). exists c, r.
    split; [reflexivity|]. clear -Hc.
    destruct c as [[] [] [] [] [] [] [] []]; vm_compute in Hc |- *; intuition discriminate.
Qed.

Lemma join_head (c : ascii) (r : string) (ts : list string) (tail : string) :
  exists r', join "," (String c r :: ts) +:+ tail = String c r'.
Proof. destruct ts; cbn [join]; rewrite !append_cons; by eexists. Qed.

(** Reading the text of a value that is followed by the end of a value,
    of the members of an object after its opening brace, and of the
    items of an array after its opening bracket, with enough fuel. *)
Lemma parse_data (n : nat) :
  (forall v rest,
     json_data v = true -> json_size v <= n -> value_end rest = true ->
     exists t, stringify v = Some t
               /\ parse_value n (t +:+ rest) = Some (reread v, rest))
  /\ (forall ms acc rest,
        data_members ms = true -> cost ms <= n -> texts ms <> [] ->
        parse_members n acc (join "," (texts ms) +:+ String "}" rest)
        = Some (VObj (spread acc (reread_members ms)), rest))
  /\ (forall l acc rest,
        data_items l = true -> cost_items l <= n -> l <> [] ->
        parse_items n acc (join "," (item_texts l) +:+ String "]" rest)
        = Some (VArr (acc ++ reread_items l), rest)).
Proof.
  induction n as [|f (IHv & IHm & IHi)].
  - split; [|split].
    + intros v rest _ Hs. destruct v; cbn in Hs; lia.
    + intros ms acc rest Hp Hc Ht. exfalso. apply Ht. clear Ht.
      induction ms as [|[k v] ms IH]; [done|].
      cbn [data_members forallb snd] in Hp. apply andb_true_iff in Hp as [Hv Hms].
      destruct v; try (exfalso; cbn in Hc; lia).
      cbn [texts omap list_omap snd stringify]. apply IH; [done|exact Hc].
    + intros l acc rest _ Hc Hl. destruct l; [done|]. cbn in Hc. lia.
  - split; [|split].
    + intros v rest Hp Hs Hrest. destruct v as [| |b|lit|s|l|ms]; try discriminate.
      * exists "null". split; [reflexivity|]. apply parse_word. cbn. tauto.
      * destruct b; eexists; (split; [reflexivity|]); apply parse_word; cbn; tauto.
      * exists lit. split; [reflexivity|]. by apply parse_number_literal.
      * eexists. split; [reflexivity|]. unfold quote.
        rewrite !append_cons, append_assoc, append_cons, append_empty.
        cbn [parse_value]. rewrite skip_ws_char by reflexivity.
        decide_chars. rewrite parse_chars_escape. reflexivity.
      * exists ("[" +:+ join "," (item_texts l) +:+ "]"). split; [reflexivity|].
        cbn [json_data] in Hp. fold (data_items l) in Hp.
        cbn [json_size] in Hs. fold (cost_items l) in Hs.
        rewrite append_cons, append_empty, append_cons, append_assoc.
        change ("]" +:+ rest) with (String "]" rest).
        cbn [parse_value]. rewrite skip_ws_char by reflexivity. decide_chars.
        cbn [reread]. fold (reread_items l).
        destruct l as [|x l'].
        -- cbn [item_texts map join]. rewrite append_empty.
           rewrite skip_ws_char by reflexivity. decide_chars. reflexivity.
        -- assert (Hx : match x with VUndefined => true | _ => json_data x end = true).
           { cbn [data_items forallb] in Hp. by apply andb_true_iff in Hp as [? _]. }
           destruct (item_text_head x Hx) as (c & r & Hcr & Hw & Hb).
           assert (Hfirst : exists r',
                     join "," (item_texts (x :: l')) +:+ String "]" rest = String c r').
           { cbn [item_texts map]. rewrite Hcr. apply join_head. }
           destruct Hfirst as [r' Hr']. rewrite Hr', skip_ws_char by exact Hw.
           rewrite Hb. rewrite <- Hr'.
           rewrite (IHi (x :: l') [] rest Hp); [reflexivity|lia|done].
      * exists ("{" +:+ join "," (texts ms) +:+ "}"). split; [reflexivity|].
        cbn [json_data] in Hp. fold (data_members ms) in Hp.
        cbn [json_size] in Hs. fold (cost ms) in Hs.
        rewrite append_cons, append_empty, append_cons, append_assoc.
        change ("}" +:+ rest) with (String "}" rest).
        cbn [parse_value]. rewrite skip_ws_char by reflexivity. decide_chars.
        cbn [reread]. fold (reread_members ms).
        destruct (texts ms) as [|t ts] eqn:Ht.
        -- rewrite texts_nil_read by done. cbn [join]. rewrite ?append_empty.
           rewrite skip_ws_char by reflexivity. decide_chars. reflexivity.
        -- assert (Hfirst : exists r, join "," (t :: ts) +:+ String "}" rest
                                      = String dquote r).
           { assert (exists r0, t = String dquote r0) as [r0 ->].
             { revert Ht. clear. induction ms as [|[k v] ms IH]; [done|].
               cbn [texts omap list_omap snd fst].
               destruct (stringify v); [|exact IH]. intros [= <- _].
               unfold quote. by eexists. }
             apply join_head. }
           destruct Hfirst as [r Hr]. rewrite Hr, skip_ws_char by reflexivity.
           decide_chars. rewrite <- Hr, <- Ht. apply IHm; [done|lia|by rewrite Ht].
    + intros ms. induction ms as [|[k v] ms IH]; intros acc rest Hp Hc Ht; [done|].
      cbn [data_members forallb snd] in Hp. apply andb_true_iff in Hp as [Hv Hms].
      fold (data_members ms) in Hms.
      assert (Hcases : v = VUndefined \/ v <> VUndefined)
        by (destruct v; (by left) || (by right)).
      destruct Hcases as [->|Hdef].
      { cbn [texts omap list_omap snd stringify] in Ht |- *.
        cbn [reread_members omap list_omap snd]. apply IH; [done| |done].
        exact Hc. }
      assert (Hpv : json_data v = true) by (by destruct v).
      assert (Hcv : json_size v <= f /\ cost ms <= f).
      { change (cost ((k, v) :: ms))
          with (match v with VUndefined => 0 | _ => S (json_size v) end + cost ms) in Hc.
        destruct v; try (by destruct Hdef); lia. }
      destruct Hcv as [Hcv Hcm].
      destruct (stringify_data v Hpv) as [t Ht0].
      assert (Htexts : texts ((k, v) :: ms) = (quote k +:+ ":" +:+ t) :: texts ms).
      { cbn [texts omap list_omap snd fst]. by rewrite Ht0. }
      assert (Hread : reread_members ((k, v) :: ms) = (k, reread v) :: reread_members ms).
      { cbn [reread_members omap list_omap snd fst]. by destruct v. }
      rewrite Htexts, Hread. cbn [spread fold_left fst snd].
      assert (Hjoin : forall tail,
                (quote k +:+ ":" +:+ t) +:+ tail
                = String dquote (escape k +:+ String dquote (String ":" (t +:+ tail)))).
      { intros tail. unfold quote. rewrite !append_cons, !append_assoc.
        by rewrite !append_cons, !append_empty. }
      destruct (texts ms) as [|t' ts] eqn:Hts.
      * cbn [join]. rewrite Hjoin. cbn [parse_members].
        rewrite skip_ws_char by reflexivity. decide_chars.
        rewrite parse_chars_escape, skip_ws_char by reflexivity. decide_chars.
        destruct (IHv v (String "}" rest) Hpv Hcv eq_refl) as (t1 & Ht1 & Hparse).
        rewrite Ht0 in Ht1. injection Ht1 as <-.
        rewrite Hparse, skip_ws_char by reflexivity. decide_chars.
        rewrite (texts_nil_read ms Hms Hts). reflexivity.
      * rewrite join_cons. rewrite (append_assoc (quote k +:+ ":" +:+ t)), Hjoin.
        rewrite (append_assoc ","). cbn [parse_members].
        rewrite skip_ws_char by reflexivity. decide_chars.
        rewrite parse_chars_escape, skip_ws_char by reflexivity. decide_chars.
        destruct (IHv v ("," +:+ join "," (t' :: ts) +:+ String "}" rest) Hpv Hcv eq_refl)
          as (t1 & Ht1 & Hparse).
        rewrite Ht0 in Ht1. injection Ht1 as <-.
        rewrite Hparse, append_cons, append_empty, skip_ws_char by reflexivity.
        decide_chars. rewrite <- Hts. apply IHm; [done|done|by rewrite Hts].
    + intros l acc rest Hp Hc Hl. destruct l as [|x l']; [done|]. clear Hl.
      cbn [data_items forallb] in Hp. apply andb_true_iff in Hp as [Hx Hl'].
      fold (data_items l') in Hl'.
      change (cost_items (x :: l')) with (S (json_size x) + cost_items l') in Hc.
      set (x' := match x with VUndefined => VNull | _ => reread x end).
      assert (Hitem : forall tail, value_end tail = true ->
                parse_value f (default "null" (stringify x) +:+ tail) = Some (x', tail)).
      { intros tail Htail.
        assert (Hcases : x = VUndefined \/ x <> VUndefined)
          by (destruct x; (by left) || (by right)).
        destruct Hcases as [->|Hdef].
        - destruct f as [|f']; [cbn in Hc; lia|]. apply parse_word. cbn. tauto.
        - assert (Hpx : json_data x = true) by (by destruct x).
          destruct (IHv x tail Hpx ltac:(lia) Htail) as (t & Ht & Hparse).
          rewrite Ht. cbn [default]. unfold x'. by destruct x. }
      change (item_texts (x :: l')) with (default "null" (stringify x) :: item_texts l').
      change (reread_items (x :: l')) with (x' :: reread_items l').
      destruct l' as [|y l''].
      * cbn [item_texts map join reread_items]. cbn [parse_items].
        rewrite Hitem by reflexivity. rewrite skip_ws_char by reflexivity.
        decide_chars. reflexivity.
      * assert (Hj : join "," (default "null" (stringify x) :: item_texts (y :: l''))
                     = default "null" (stringify x) +:+ ","
                       +:+ join "," (item_texts (y :: l''))) by reflexivity.
        rewrite Hj, append_assoc, (append_assoc ","). cbn [parse_items].
        rewrite Hitem by reflexivity.
        rewrite append_cons, append_empty, skip_ws_char by reflexivity. decide_chars.
        rewrite (IHi (y :: l'') (acc ++ [x']) rest Hl'); [|lia|done].
        by rewrite <- app_assoc.
Qed.

Lemma length_append (s t : string) :
  String.length (s +:+ t) = String.length s + String.length t.
Proof.
  induction s as [|c s IH]; [reflexivity|].
  rewrite append_cons. cbn [String.length]. by rewrite IH.
Qed.

Lemma append_empty_r (s : string) : s +:+ "" = s.
Proof. induction s as [|c s IH]; [reflexivity|]. by rewrite append_cons, IH. Qed.

Lemma length_join (sep x : string) (l : list string) :
  String.length x + String.length (join sep l) <= String.length (join sep (x :: l)).
Proof.
  destruct l as [|y l]; [cbn; lia|]. rewrite join_cons, !length_append. lia.
Qed.

(** The text of a value is at least as long as the value is large. *)
Lemma json_size_length (n : nat) :
  forall v t, json_size v <= n -> json_data v = true -> stringify v = Some t ->
              json_size v <= String.length t.
Proof.
  induction n as [|n IH]; intros v t Hn Hp Ht.
  { destruct v; cbn in Hn; lia. }
  destruct v as [| |b|lit|s|l|ms]; try discriminate.
  - injection Ht as <-. cbn. lia.
  - destruct b; injection Ht as <-; cbn; lia.
  - injection Ht as <-. destruct (number_literal_head lit Hp) as (c & r & -> & _).
    cbn. lia.
  - injection Ht as <-. unfold quote. rewrite append_cons. cbn. lia.
  - cbn [stringify] in Ht. fold (item_texts l) in Ht. injection Ht as <-.
    cbn [json_data] in Hp. fold (data_items l) in Hp.
    cbn [json_size] in Hn |- *. fold (cost_items l) in Hn |- *.
    rewrite append_cons. cbn [String.length]. rewrite append_empty, length_append.
    cbn [String.length].
    assert (cost_items l <= S (String.length (join "," (item_texts l)))); [|lia].
    assert (Hn' : cost_items l <= n) by lia. clear Hn.
    induction l as [|x l IHl]; [cbn; lia|].
    cbn [data_items forallb] in Hp. apply andb_true_iff in Hp as [Hx Hl].
    fold (data_items l) in Hl.
    change (cost_items (x :: l)) with (S (json_size x) + cost_items l) in Hn' |- *.
    change (item_texts (x :: l)) with (default "null" (stringify x) :: item_texts l).
    assert (Hsx : json_size x <= String.length (default "null" (stringify x))).
    { assert (Hcases : x = VUndefined \/ x <> VUndefined)
        by (destruct x; (by left) || (by right)).
      destruct Hcases as [->|Hdef]; [cbn; lia|].
      assert (Hpx : json_data x = true) by (by destruct x).
      destruct (stringify_data x Hpx) as [tx Htx]. rewrite Htx. cbn [default].
      apply IH; [lia|done|done]. }
    destruct l as [|y l'].
    + cbn [item_texts map join]. cbn. lia.
    + assert (Hj : join "," (default "null" (stringify x) :: item_texts (y :: l'))
                   = default "null" (stringify x) +:+ ","
                     +:+ join "," (item_texts (y :: l'))) by reflexivity.
      rewrite Hj, !length_append. cbn [String.length].
      assert (cost_items (y :: l') <= S (String.length (join "," (item_texts (y :: l')))))
        by (apply IHl; [done|lia]).
      lia.
  - cbn [stringify] in Ht. fold (texts ms) in Ht. injection Ht as <-.
    cbn [json_data] in Hp. fold (data_members ms) in Hp.
    cbn [json_size] in Hn |- *. fold (cost ms) in Hn |- *.
    rewrite append_cons. cbn [String.length]. rewrite append_empty, length_append.
    assert (cost ms <= String.length (join "," (texts ms))); [|lia].
    assert (Hn' : cost ms <= n) by lia. clear Hn.
    induction ms as [|[k v] ms IHms]; [cbn; lia|].
    cbn [data_members forallb snd] in Hp. apply andb_true_iff in Hp as [Hv Hms].
    change (cost ((k, v) :: ms))
      with (match v with VUndefined => 0 | _ => S (json_size v) end + cost ms) in Hn' |- *.
    assert (Hcases : v = VUndefined \/ v <> VUndefined)
      by (destruct v; (by left) || (by right)).
    destruct Hcases as [->|Hdef].
    { cbn [texts omap list_omap snd stringify]. apply IHms; [done|exact Hn']. }
    assert (Hpv : json_data v = true) by (by destruct v).
    assert (Hsv : json_size v <= n) by (destruct v; try (by destruct Hdef); lia).
    destruct (stringify_data v Hpv) as [tv Htv].
    specialize (IH v tv Hsv Hpv Htv).
    assert (Htexts : texts ((k, v) :: ms) = (quote k +:+ ":" +:+ tv) :: texts ms).
    { cbn [texts omap list_omap snd fst]. by rewrite Htv. }
    rewrite Htexts.
    pose proof (length_join "," (quote k +:+ ":" +:+ tv) (texts ms)) as Hj.
    rewrite !length_append in Hj. cbn [String.length] in Hj.
    assert (cost ms <= String.length (join "," (texts ms))) by (apply IHms; [done|lia]).
    destruct v; try (by destruct Hdef); lia.
Qed.

(** [JSON.parse(JSON.stringify(v))] for JSON data. *)
Lemma JSON_parse_stringify (v : value) :
  json_data v = true -> JSON_parse (JSON_stringify v) = Some (reread v).
Proof.
  intros Hp. destruct (stringify_data v Hp) as [t Ht].
  pose proof (json_size_length (json_size v) v t (le_n _) Hp Ht) as Hlen.
  destruct (parse_data (S (String.length t))) as [Hv _].
  destruct (Hv v "" Hp ltac:(lia) eq_refl) as (t' & Ht' & Hparse).
  rewrite Ht in Ht'. injection Ht' as <-. rewrite append_empty_r in Hparse.
  unfold JSON_parse, JSON_stringify. rewrite Ht.
  change (default "undefined" (Some t)) with t. by rewrite Hparse.
Qed.

(** ** From connecting to deploying *)

Lemma connect_real_inv env provider body user w v w1 :
  truthy (get_opt body "token") && negb (truthy (get_opt body "demo")) = true ->
  IntegrationsController.connectProvider env provider body user w = (Returned v, w1) ->
  get_opt v "success" = VBool true ->
  exists vr wa wb row,
    (if String.eqb provider "vercel"
     then VercelService.validateToken env (get_opt body "token")
     else NetlifyService.validateToken env (get_opt body "token")) wa = (Returned vr, wb)
    /\ truthy (get_opt vr "valid") = true
    /\ integrations w1 !! (user, provider) = Some row
    /\ encryptedToken row
       = JSON_stringify (IntegrationsController.token_document provider body vr).
Proof.
  intros Hreal Hrun Hs. unfold IntegrationsController.connectProvider in Hrun.
  destruct (String.eqb provider "netlify" || String.eqb provider "vercel");
    [|injection Hrun as <- _; discriminate Hs].
  rewrite try_run in Hrun.
  match type of Hrun with
  | match ?body with _ => _ end = _ => destruct body as [[v0|e] w0] eqn:Hb
  end; [|injection Hrun as <- _; discriminate Hs].
  injection Hrun as -> ->.
  apply bind_inv in Hb as (given & wa0 & _ & Hb).
  apply bind_inv in Hb as (ext & wa & _ & Hb).
  apply bind_inv in Hb as (checked & wc & Hval & Hb).
  unfold IntegrationsController.validate in Hval. rewrite Hreal in Hval.
  apply bind_inv in Hval as (vr & wb & Hvr & Hval).
  apply bind_inv in Hval as (valid & wb' & Hvalid & Hval).
  assert (valid = get_opt vr "valid") as ->.
  { revert Hvalid. unfold prop. destruct (get vr "valid") eqn:G; [|discriminate].
    intros [= <- _]. by apply get_Some in G. }
  destruct (truthy (get_opt vr "valid")) eqn:Htv; cbn [negb] in Hval.
  - apply bind_inv in Hval as (usr & wu & _ & Hval).
    apply bind_inv in Hval as (uid & wi & _ & Hval).
    injection Hval as <- <-.
    destruct (providerIntegration_upsert_run env user provider
                (JSON_stringify (IntegrationsController.token_document provider body vr)) uid
                (js_or (get_opt body "scopes") (VArr [VStr "read"; VStr "write"])) wi)
      as (row & w3 & Hup & Hi3 & Htok & _).
    rewrite bind_run, Hup in Hb. injection Hb as _ <-.
    exists vr, wa, wb, row. split; [exact Hvr|]. split; [exact Htv|].
    split; [|exact Htok]. by rewrite Hi3, lookup_insert_eq.
  - apply bind_inv in Hval as (err & we & _ & Hval). injection Hval as <- <-.
    injection Hb as <- _. discriminate Hs.
Qed.

Lemma vercel_validation_user env token wa vr wb :
  json_accounts env ->
  VercelService.validateToken env token wa = (Returned vr, wb) ->
  truthy (get_opt vr "valid") = true ->
  exists uid username email name,
    get_opt vr "user" = VObj [("id", uid); ("username", username);
                              ("email", email); ("name", name)]
    /\ data_or_absent uid /\ data_or_absent username
    /\ data_or_absent email /\ data_or_absent name.
Proof.
  intros Hplain Hrun Hvalid. unfold VercelService.validateToken in Hrun.
  apply bind_inv in Hrun as ([] & w0 & _ & Hrun). rewrite try_run in Hrun.
  match type of Hrun with
  | match ?body with _ => _ end = _ => destruct body as [[v0|e] w1] eqn:Hb
  end; [|injection Hrun as <- _; discriminate Hvalid].
  injection Hrun as -> ->.
  apply bind_inv in Hb as (text & wt & _ & Hb).
  apply bind_inv in Hb as (resp & w2 & Hfetch & Hb).
  destruct (ok resp); cbn [negb] in Hb; [|injection Hb as <- _; discriminate Hvalid].
  apply bind_inv in Hb as (account & w3 & Hjson & Hb).
  assert (Hacc : exists n r, env_fetch env n r = Some resp).
  { revert Hfetch. unfold fetch. destruct (env_fetch env _ _) eqn:E; [|discriminate].
    intros [= <- _]. by eexists _, _. }
  destruct Hacc as (n & r & Hacc).
  assert (Hj : resp_json resp = Some account).
  { revert Hjson. unfold json. destruct (resp_json resp); [|discriminate]. by intros [= <- _]. }
  apply bind_inv in Hb as (uid & w4 & Hu & Hb).
  apply bind_inv in Hb as (un & w5 & Hn & Hb).
  apply bind_inv in Hb as (em & w6 & He & Hb).
  apply bind_inv in Hb as (nm & w7 & Hm & Hb). injection Hb as <- _.
  assert (Hprop : forall k x w w',
            In k ["uid"; "username"; "email"; "name"] ->
            prop account k w = (Returned x, w') -> data_or_absent x).
  { intros k x w w' Hk. unfold prop. destruct (get account k) eqn:G; [|discriminate].
    intros [= <- _]. apply get_Some in G as ->. by eapply Hplain. }
  exists uid, un, em, nm. split; [reflexivity|].
  repeat split; (eapply Hprop; [|eassumption]); cbn; tauto.
Qed.

Lemma data_of (v : value) : data_or_absent v -> match v with
                                                 | VUndefined => true
                                                 | _ => json_data v
                                                 end = true.
Proof. intros [->|H]; [done|]. by destruct v. Qed.

(** The document that a connection with a live Vercel token stores is
    read back with that token. *)
Lemma vercel_document_reread body token vr uid username email name :
  get_opt body "token" = VStr token -> token <> "" ->
  truthy (get_opt body "demo") = false ->
  get_opt vr "user" = VObj [("id", uid); ("username", username);
                            ("email", email); ("name", name)] ->
  data_or_absent uid -> data_or_absent username ->
  data_or_absent email -> data_or_absent name ->
  exists doc,
    JSON_parse (JSON_stringify (IntegrationsController.token_document "vercel" body vr))
    = Some doc
    /\ get_opt doc "access_token" = VStr token /\ get_opt doc "demo" = VBool false.
Proof.
  intros Htok Hne Hdemo Huser Hu Hn He Hm.
  assert (Ht : truthy (VStr token) = true) by (cbn; by destruct token).
  assert (Hdoc : IntegrationsController.token_document "vercel" body vr
                 = VObj [("access_token", VStr token); ("demo", VBool false);
                         ("userInfo", VObj [("id", uid); ("username", username);
                                            ("email", email); ("name", name)])]).
  { unfold IntegrationsController.token_document. rewrite Htok, Huser.
    unfold js_or, js_and. rewrite Ht, Hdemo. reflexivity. }
  rewrite Hdoc, JSON_parse_stringify.
  - eexists. split; [reflexivity|]. cbn [reread omap list_omap fst snd].
    split; reflexivity.
  - cbn [json_data forallb fst snd]. by rewrite !data_of.
Qed.

Lemma deployment_create_same_calls env d : effect same_calls (deployment_create env d).
Proof. by intros w. Qed.

Lemma entry_same_calls env msg lvl : effect same_calls (DeploymentsService.entry env msg lvl).
Proof. by intros w. Qed.

Lemma vercel_call_then_same_calls env p {A B} (K : value -> M A) (H : Err -> M A)
    (R : A -> M B) (w : World) :
  (forall a, effect same_calls (K a)) -> (forall e, effect same_calls (H e)) ->
  (forall u, effect same_calls (R u)) ->
  calls (bind (try_catch (bind (DeploymentsService.vercel_createDeployment env p) K) H) R
           w).2
  = calls w ++ [CallVercelCreateDeployment p].
Proof.
  intros HK HH HR. rewrite bind_run, try_run, bind_run.
  unfold DeploymentsService.vercel_createDeployment.
  set (w' := set_calls _ w). assert (Hw' : calls w' = calls w ++ [CallVercelCreateDeployment p])
    by reflexivity.
  clearbody w'. destruct (env_vercel env _ p) as [ms|err].
  - pose proof (HK (VObj ms) w') as H1. destruct (K (VObj ms) w') as [[a|e] w1]; cbn [snd] in H1.
    + pose proof (HR a w1) as H2. unfold same_calls in *. congruence.
    + pose proof (HH e w1) as H2. destruct (H e w1) as [[a|e'] w2]; cbn [snd] in H2.
      * pose proof (HR a w2) as H3. unfold same_calls in *. congruence.
      * unfold same_calls in *. cbn. congruence.
  - pose proof (HH err w') as H2. destruct (H err w') as [[a|e'] w2]; cbn [snd] in H2.
    + pose proof (HR a w2) as H3. unfold same_calls in *. congruence.
    + unfold same_calls in *. cbn. congruence.
Qed.

(** X27: a live token that was connected is the token that the next
    deployment hands to the adapter.  Let the uid, username, email and
    name of the accounts the provider answers with be JSON data of any
    kind (null, booleans, numbers, strings, arrays, objects) or absent.
    After [connectProvider] accepted a Vercel token, in any world that
    holds the row it wrote, a [deployToVercel] of that user whose
    project can be found or created and whose build settings can be
    detected calls [createDeployment] exactly once, with that token. *)
Theorem connected_token_reaches_vercel
    (env env' : Env) (body : value) (token user : string) (input : DeployInput)
    (w w1 w2 : World) (v : value) :
  get_opt body "token" = VStr token -> token <> "" -> token <> "demo-vercel-token" ->
  truthy (get_opt body "demo") = false ->
  json_accounts env ->
  IntegrationsController.connectProvider env "vercel" body user w = (Returned v, w1) ->
  get_opt v "success" = VBool true ->
  userId input = user ->
  integrations w2 !! (user, "vercel") = integrations w1 !! (user, "vercel") ->
  startable env' input w2 ->
  (exists s, DeploymentsService.detectBuildSettings (buildSettings input) w2
             = (Returned s, w2)) ->
  exists p,
    calls (DeploymentsService.deployToVercel env' input w2).2
    = calls w2 ++ [CallVercelCreateDeployment p]
    /\ vp_token p = VStr token.
Proof.
  intros Htok Hne Hph Hdemo Hplain Hconn Hs Huser Hrow (p & wp & Hproj) [s Hdet].
  assert (Ht : truthy (VStr token) = true) by (cbn; by destruct token).
  destruct (connect_real_inv env "vercel" body user w v w1) as (vr & wa & wb & row & Hvr & Hvalid & Hr & Henc);
    [by rewrite Htok, Ht, Hdemo|done|done|].
  replace (String.eqb "vercel" "vercel") with true in Hvr by reflexivity.
  destruct (vercel_validation_user env _ wa vr wb Hplain Hvr Hvalid)
    as (uid & un & em & nm & Hu & Hp1 & Hp2 & Hp3 & Hp4).
  destruct (vercel_document_reread body token vr uid un em nm Htok Hne Hdemo Hu Hp1 Hp2 Hp3 Hp4)
    as (doc & Hdoc & Hacc & Hdm).
  rewrite Hr in Hrow. rewrite <- Huser in Hrow.
  pose proof (pure_outcome _ _ _ (detectBuildSettings_pure _) Hdet) as Hdet'.
  pose proof (find_or_create_project_silent env' input w2) as [Hpc _].
  rewrite Hproj in Hpc. cbn [snd] in Hpc.
  unfold DeploymentsService.deployToVercel. rewrite bind_run.
  cbn [providerIntegration_findUnique]. rewrite Hrow. rewrite bind_run, Hproj.
  cbv beta iota. rewrite bind_run.
  pose proof (entry_same_calls env' "Deployment started - connecting to Vercel..." "info" wp)
    as Hce.
  destruct (DeploymentsService.entry env' _ _ wp) as [[e1|err] we] eqn:He;
    [|by (unfold DeploymentsService.entry, now, bind, ret in He; discriminate He)].
  cbn [snd] in Hce. cbv beta iota. rewrite bind_run.
  match goal with
  | |- context [deployment_create env' ?d we] =>
      pose proof (deployment_create_same_calls env' d we) as Hcd;
      destruct (deployment_create env' d we) as [[rec|err] wd] eqn:Hd;
        [|by (unfold deployment_create, cuid, now, bind in Hd; discriminate Hd)]
  end.
  cbn [snd] in Hcd. cbv beta iota. rewrite bind_run.
  unfold DeploymentsService.parse_token at 1. rewrite Henc, Hdoc. cbn [ret].
  rewrite bind_run. unfold DeploymentsService.is_real_token at 1.
  rewrite bind_run. unfold prop at 1.
  assert (Hgd : get doc "demo" = Some (VBool false)).
  { revert Hdm. unfold get. destruct doc; try discriminate; by intros ->. }
  assert (Hga : get doc "access_token" = Some (VStr token)).
  { revert Hacc. unfold get. destruct doc; try discriminate; by intros ->. }
  rewrite Hgd. cbn [ret truthy]. cbv beta iota. rewrite bind_run. unfold prop at 1.
  rewrite Hga. cbn [ret DeploymentsService.strict_neq_str].
  replace (String.eqb token "demo-vercel-token") with false
    by (symmetry; by apply String.eqb_neq).
  cbn [negb]. cbv beta iota. rewrite bind_run, Hdet'. cbv beta iota.
  assert (Hcalls : calls wd = calls w2) by congruence.
  eexists. rewrite <- Hcalls. split.
  - apply vercel_call_then_same_calls.
    + intros a. unfold DeploymentsService.entry.
      effect_walk ltac:(first [apply now_same_calls|apply deployment_update_same_calls]).
    + intros e. unfold DeploymentsService.failed_update, DeploymentsService.entry.
      effect_walk ltac:(first [apply now_same_calls|apply deployment_update_same_calls]).
    + intros u. apply effect_ret. apply _.
  - exact Hacc.
Qed.

Lemma connected_token_reaches_vercel_witness :
  exists p,
    calls (DeploymentsService.deployToVercel team_account_env shop_input team_world).2
    = calls team_world ++ [CallVercelCreateDeployment p]
    /\ vp_token p = VStr live_token.
Proof.
  assert (Hconn : exists v,
            IntegrationsController.connectProvider team_account_env "vercel" connect_body "u1"
              empty_world = (Returned v, team_world)
            /\ get_opt v "success" = VBool true).
  { eexists. split; [vm_compute; reflexivity|reflexivity]. }
  destruct Hconn as (v & Hconn & Hs).
  apply (connected_token_reaches_vercel team_account_env team_account_env connect_body live_token
           "u1" shop_input empty_world team_world team_world v).
  - reflexivity.
  - discriminate.
  - discriminate.
  - reflexivity.
  - intros n r resp account k [= <-] [= <-] Hk. cbn [In] in Hk.
    destruct Hk as [<-|[<-|[<-|[<-|[]]]]]; by right.
  - exact Hconn.
  - exact Hs.
  - reflexivity.
  - reflexivity.
  - eexists _, _. vm_compute. reflexivity.
  - eexists. reflexivity.
Defined.

(** ** The requests of [VercelService.createDeployment] *)

Section Sends.

Context (P : Request -> Prop).

Lemma sends_weaken (n k : nat) (w w' : World) : n <= k -> sends n P w w' -> sends k P w w'.
Proof. intros Hn (l & Hl & Hlen & HP). exists l. repeat split; [done|lia|done]. Qed.

Lemma sends_silent {A} (m : M A) : effect silent m -> effect (sends 0 P) m.
Proof.
  intros Hm w. destruct (Hm w) as [_ Hf]. exists []. rewrite app_nil_r.
  repeat split; [done|cbn; lia|constructor].
Qed.

Lemma sends_fetch env (r : Request) : P r -> effect (sends 1 P) (fetch env r).
Proof.
  intros HP w. exists [r]. repeat split; [|cbn; lia|by constructor].
  unfold fetch. by destruct (env_fetch env _ r).
Qed.

Lemma sends_bind (n k : nat) {A B} (m : M A) (f : A -> M B) :
  effect (sends n P) m -> (forall a, effect (sends k P) (f a)) ->
  effect (sends (n + k) P) (bind m f).
Proof.
  intros Hm Hf w. rewrite bind_run. specialize (Hm w).
  destruct (m w) as [[a|e] w1]; cbn [snd] in *.
  - destruct Hm as (l1 & H1 & L1 & P1). destruct (Hf a w1) as (l2 & H2 & L2 & P2).
    exists (l1 ++ l2). repeat split.
    + by rewrite H2, H1, app_assoc.
    + rewrite List.length_app. lia.
    + by apply Forall_app.
  - eapply sends_weaken; [|exact Hm]. lia.
Qed.

Lemma sends_try (n : nat) {A} (m : M A) :
  effect (sends n P) m -> effect (sends n P) (try_catch m (fun error => throw error)).
Proof.
  intros Hm w. rewrite try_run. specialize (Hm w). by destruct (m w) as [[a|e] w1].
Qed.

End Sends.

Lemma is_str_eq (v : value) (s : string) :
  VercelProjects.is_str v s = true <-> v = VStr s.
Proof.
  unfold VercelProjects.is_str, DeploymentsService.strict_neq_str.
  destruct v; cbn; try (split; [discriminate|discriminate]).
  rewrite negb_involutive, String.eqb_eq. split; [by intros ->|by intros [= ->]].
Qed.

Lemma opt_includes_silent v s : effect silent (DeploymentsService.opt_includes v s).
Proof. unfold DeploymentsService.opt_includes. destruct v; effect_steps. Qed.

Lemma detectFramework_silent b o : effect silent (VercelProjects.detectFramework b o).
Proof.
  unfold VercelProjects.detectFramework.
  effect_walk ltac:(idtac; apply opt_includes_silent).
Qed.

Lemma error_message_silent d : effect silent (VercelProjects.error_message d).
Proof. unfold VercelProjects.error_message. effect_steps. Qed.

Lemma find_named_silent name items : effect silent (VercelProjects.find_named name items).
Proof.
  induction items as [|p rest IH]; cbn [VercelProjects.find_named]; [effect_steps|].
  effect_walk ltac:(idtac; apply IH).
Qed.

Lemma opt_find_silent projects name : effect silent (VercelProjects.opt_find projects name).
Proof.
  unfold VercelProjects.opt_find.
  destruct projects; first [apply find_named_silent|effect_steps].
Qed.

Ltac vercel_request :=
  split; [by vm_compute|cbn -[NetlifyService.bearer]; tauto].

Lemma deployExistingProject_sends env token projectId owner repoName :
  effect (sends 1 (vercel_request token))
    (VercelProjects.deployExistingProject env token projectId owner repoName).
Proof.
  unfold VercelProjects.deployExistingProject.
  apply (sends_bind _ 1 0); [apply sends_fetch; vercel_request|].
  intros response. apply sends_silent.
  effect_walk ltac:(idtac; apply error_message_silent).
Qed.

Lemma create_project_sends env iso params owner repoName :
  effect (sends 1 (vercel_request (vp_token params)))
    (VercelProjects.create_project env iso params owner repoName).
Proof.
  unfold VercelProjects.create_project.
  apply (sends_bind _ 0 1); [apply sends_silent, detectFramework_silent|].
  intros framework.
  apply (sends_bind _ 1 0); [apply sends_fetch; vercel_request|].
  intros response. apply sends_silent.
  effect_walk ltac:(idtac; first [apply error_message_silent|apply now_silent]).
Qed.

Lemma createDeployment_remote env iso params :
  effect remote (VercelProjects.createDeployment env iso params).
Proof.
  unfold VercelProjects.createDeployment, VercelProjects.create_project,
    VercelProjects.deployExistingProject, VercelProjects.opt_find,
    VercelProjects.detectFramework, VercelProjects.error_message,
    DeploymentsService.opt_includes.
  assert (Hfind : forall name items, effect remote (VercelProjects.find_named name items)).
  { intros name items. induction items as [|p rest IH]; cbn [VercelProjects.find_named];
      [effect_steps|]. effect_walk ltac:(idtac; apply IH). }
  effect_walk ltac:(idtac; first [apply now_remote|apply fetch_remote|apply Hfind]).
Qed.

Lemma createDeployment_same_calls env iso params :
  effect same_calls (VercelProjects.createDeployment env iso params).
Proof.
  unfold VercelProjects.createDeployment, VercelProjects.create_project,
    VercelProjects.deployExistingProject, VercelProjects.opt_find,
    VercelProjects.detectFramework, VercelProjects.error_message,
    DeploymentsService.opt_includes.
  assert (Hfind : forall name items, effect same_calls (VercelProjects.find_named name items)).
  { intros name items. induction items as [|p rest IH]; cbn [VercelProjects.find_named];
      [effect_steps|]. effect_walk ltac:(idtac; apply IH). }
  effect_walk ltac:(idtac; first [apply now_same_calls|apply fetch_same_calls|apply Hfind]).
Qed.

(** X28: [createDeployment] talks to the Vercel API only, and little:
    a run sends at most two requests, each to https://api.vercel.com/
    with the token of the call as bearer; it enters no adapter and leaves
    every table, the history and the timers as they were.  A repository
    URL that is not a GitHub URL is refused before anything is sent. *)
Theorem vercel_createDeployment_requests
    (env : Env) (toISOString : nat -> string) (params : VercelParams) (w : World) :
  let r := VercelProjects.createDeployment env toISOString params w in
  sends 2 (vercel_request (vp_token params)) w r.2
  /\ remote w r.2
  /\ calls r.2 = calls w
  /\ (NetlifyService.match_github (vp_repositoryUrl params) = None ->
      r = (Threw "Invalid GitHub repository URL", w)).
Proof.
  cbv zeta. split; [|split; [apply createDeployment_remote|split;
                              [apply createDeployment_same_calls|]]].
  - revert w.
    change (effect (sends 2 (vercel_request (vp_token params)))
              (VercelProjects.createDeployment env toISOString params)).
    unfold VercelProjects.createDeployment. apply sends_try.
    destruct (NetlifyService.match_github _) as [[owner repo]|].
    + apply (sends_bind _ 1 1); [apply sends_fetch; vercel_request|].
      intros response.
      apply (sends_bind _ 0 1).
      * apply sends_silent. destruct (ok response); [|effect_steps].
        effect_walk ltac:(idtac; apply opt_find_silent).
      * intros existing. destruct (truthy existing).
        -- apply (sends_bind _ 0 1); [apply sends_silent; effect_steps|].
           intros projectId. apply deployExistingProject_sends.
        -- apply create_project_sends.
    + intros w. exists []. rewrite app_nil_r. repeat split; [cbn; lia|constructor].
  - intros Hno. unfold VercelProjects.createDeployment. by rewrite Hno.
Qed.

Lemma find_named_found (name : string) (items : list value) (w : World) :
  Forall (fun p => exists ms, p = VObj ms) items ->
  Exists (fun p => get_opt p "name" = VStr name) items ->
  exists ms, VercelProjects.find_named name items w = (Returned (VObj ms), w).
Proof.
  induction 1 as [|p rest [ms ->] _ IH]; intros Hex; [by apply Exists_nil in Hex|].
  cbn [VercelProjects.find_named]. rewrite bind_run. cbn [prop get ret].
  destruct (VercelProjects.is_str (get_opt (VObj ms) "name") name) eqn:Hn; [by exists ms|].
  apply IH. apply Exists_cons in Hex as [Hp|Hr]; [|done].
  apply is_str_eq in Hp. congruence.
Qed.

Lemma fetch_then_silent env (r : Request) {B} (k : Response -> M B) (w : World) :
  (forall response, effect silent (k response)) ->
  fetches (bind (fetch env r) k w).2 = fetches w ++ [r].
Proof.
  intros Hk. rewrite bind_run. unfold fetch.
  destruct (env_fetch env _ r) as [response|]; [|done].
  by destruct (Hk response (set_fetches (fun l => l ++ [r]) w)) as [_ ->].
Qed.

Lemma deployExistingProject_fetches env token projectId owner repoName (w : World) :
  fetches (VercelProjects.deployExistingProject env token projectId owner repoName w).2
  = fetches w ++ [VercelProjects.deploy_request token owner repoName].
Proof.
  unfold VercelProjects.deployExistingProject. apply fetch_then_silent.
  intros response. effect_walk ltac:(idtac; apply error_message_silent).
Qed.

(** X29: a project of the account that already carries the slug of
    the project name is deployed as it is: when the listing answers with
    objects of which one has that name, [createDeployment] sends the
    listing request and then one deployment request that names only the
    repository and the ref main, and the build command, the output
    directory and the install command of the call change nothing, in
    what is sent or in what comes back. *)
Theorem existing_project_ignores_settings
    (env : Env) (toISOString : nat -> string) (params : VercelParams)
    (buildCommand outputDirectory installCommand : value) (w : World)
    (owner repo : string) (response : Response) (body : value) (items : list value) :
  NetlifyService.match_github (vp_repositoryUrl params) = Some (owner, repo) ->
  env_fetch env (List.length (fetches w))
    (VercelProjects.list_projects_request (vp_token params)) = Some response ->
  ok response = true ->
  resp_json response = Some body ->
  get body "projects" = Some (VArr items) ->
  Forall (fun p => exists ms, p = VObj ms) items ->
  Exists (fun p => get_opt p "name"
                   = VStr (replace_non_slug (toLowerCase (vp_projectName params)))) items ->
  let r := VercelProjects.createDeployment env toISOString params w in
  VercelProjects.createDeployment env toISOString
    (with_settings buildCommand outputDirectory installCommand params) w = r
  /\ fetches r.2
     = fetches w ++ [VercelProjects.list_projects_request (vp_token params);
                     VercelProjects.deploy_request (vp_token params) owner
                       (replace_first repo ".git" "")].
Proof.
  intros Hm Hf Hok Hj Hp Hobj Hex. cbv zeta.
  unfold VercelProjects.createDeployment. cbn [with_settings vp_token vp_repositoryUrl vp_projectName].
  rewrite Hm, !try_run, !bind_run. unfold fetch. rewrite Hf. cbv beta iota zeta.
  rewrite Hok, !bind_run. unfold json. rewrite Hj. cbn [ret]. rewrite !bind_run.
  unfold prop at 1 3 5. rewrite Hp. cbn [ret VercelProjects.opt_find].
  set (w1 := set_fetches _ w).
  destruct (find_named_found _ items w1 Hobj Hex) as [ms ->].
  cbv beta iota. cbn [truthy]. split; [reflexivity|].
  rewrite bind_run. cbn [prop get ret]. cbv beta iota.
  pose proof (deployExistingProject_fetches env (vp_token params) (assoc "id" ms) owner
                (replace_first repo ".git" "") w1) as Hd.
  destruct (VercelProjects.deployExistingProject _ _ _ _ _ w1) as [[v|e] w2];
    cbn [snd throw] in *; rewrite Hd; unfold w1; cbn; by rewrite <- app_assoc.
Qed.

Lemma existing_project_ignores_settings_witness :
  VercelProjects.createDeployment vercel_account pretty
    (with_settings VUndefined (VStr ".next") (VStr "yarn") shop_params) empty_world
  = VercelProjects.createDeployment vercel_account pretty shop_params empty_world
  /\ fetches (VercelProjects.createDeployment vercel_account pretty shop_params empty_world).2
     = fetches empty_world
       ++ [VercelProjects.list_projects_request (vp_token shop_params);
           VercelProjects.deploy_request (vp_token shop_params) "acme"
             (replace_first "shop.git" ".git" "")].
Proof.
  apply (existing_project_ignores_settings vercel_account pretty shop_params
           VUndefined (VStr ".next") (VStr "yarn") empty_world "acme" "shop.git"
           {| ok := true; resp_status := 200; statusText := "OK";
              resp_json :=
                Some (VObj [("projects",
                             VArr [VObj [("id", VStr "prj_1"); ("name", VStr "my-shop")]])]);
              resp_text := "" |}
           (VObj [("projects", VArr [VObj [("id", VStr "prj_1"); ("name", VStr "my-shop")]])])
           [VObj [("id", VStr "prj_1"); ("name", VStr "my-shop")]]).
  - vm_compute. reflexivity.
  - reflexivity.
  - reflexivity.
  - reflexivity.
  - reflexivity.
  - constructor; [by eexists|constructor].
  - constructor. vm_compute. reflexivity.
Defined.

(** ** Slugs *)

Lemma slug_char_of (c : ascii) :
  slug_char (dash_unless_slug (lower_char c)) = true
  /\ dash_unless_slug (lower_char (dash_unless_slug (lower_char c)))
     = dash_unless_slug (lower_char c).
Proof. destruct c as [[] [] [] [] [] [] [] []]; by vm_compute. Qed.

Lemma slug_keeps (c : ascii) : slug_char c = true -> dash_unless_slug (lower_char c) = c.
Proof. destruct c as [[] [] [] [] [] [] [] []]; by vm_compute. Qed.

(** X30: the slug made of a name holds lower-case letters, digits and
    hyphens only and is its own slug; a name that holds only such
    characters is kept as it is. *)
Theorem slug_of_is_stable (name : string) :
  forallb slug_char (list_ascii_of_string (slug_of name)) = true
  /\ slug_of (slug_of name) = slug_of name
  /\ (forallb slug_char (list_ascii_of_string name) = true -> slug_of name = name).
Proof.
  unfold slug_of, replace_non_slug, toLowerCase.
  induction name as [|c name (IH1 & IH2 & IH3)]; [done|].
  cbn [map_string list_ascii_of_string forallb].
  destruct (slug_char_of c) as [Hc1 Hc2]. repeat split.
  - by rewrite Hc1, IH1.
  - by rewrite Hc2, IH2.
  - intros [Hc Hn]%andb_prop. by rewrite (slug_keeps c Hc), (IH3 Hn).
Qed.
